(** * Club-Soccer-Web: the spreadsheet-backed record store

    A shallow embedding of [src/data/models.py], [src/data/member_crud.py],
    [src/data/event_crud.py] and [src/data/attendance_crud.py], followed by
    the properties of the model.

    Conventions of the embedding.
    - A Python [str] is a [string]; its characters are read as the code
      points 0..255.
    - An [Optional[str]] field is an [option string]; Python truthiness of
      such a field ([x or ""], [if not x]) is written out.
    - A call that may raise returns a [res]: [Ok v] or [Raise e].
    - A finite [float] is the rational number it stands for; the binary64
      operations round that number to the nearest one a float can hold.
    - [datetime.now().isoformat()] is the parameter [now] of whatever reads
      the clock.
    - The remote sheet is the list of rows that [values().get] returns;
      every remote request consumes one entry of a fault script that says
      whether the request raises after its retries. *)

From stdpp Require Import base list strings.
From Stdlib Require Import Ascii String ZArith QArith Qround Qpower Qabs Lia Lqa Bool.
From Stdlib Require Import DecimalString DecimalZ DecimalPos.

Close Scope Q_scope.
Close Scope Z_scope.
Local Open Scope string_scope.
Local Open Scope list_scope.

(* ===================================================================== *)
(** * Part I: definitions *)
(* ===================================================================== *)

(** ** Exceptions and results *)

Inductive exn : Type :=
| ValueError (msg : string)
| IndexError
| HttpError (status : Z) (body : string)
| OtherError (msg : string).

Inductive res (A : Type) : Type :=
| Ok (a : A)
| Raise (e : exn).
Arguments Ok {A} a.
Arguments Raise {A} e.

Definition res_bind {A B} (r : res A) (k : A -> res B) : res B :=
  match r with
  | Ok a => k a
  | Raise e => Raise e
  end.

Notation "'try' x <-- r ;; k" := (res_bind r (fun x => k))
  (at level 10, x name, r at level 99, k at level 200, only parsing).
Notation "'require' b 'orelse' msg ;; k" :=
  (if (b : bool) then k else Raise (ValueError msg))
  (at level 10, b at level 99, msg at level 0, k at level 200, only parsing).

Definition is_ok {A} (r : res A) : bool :=
  match r with Ok _ => true | Raise _ => false end.

(** ** Python string primitives *)

Module Py.

Definition code (c : ascii) : nat := nat_of_ascii c.

Definition in_range (lo hi : nat) (c : ascii) : bool :=
  (lo <=? code c)%nat && (code c <=? hi)%nat.

(** [\d] of [re] on code points below 256. *)
Definition is_digit (c : ascii) : bool := in_range 48 57 c.

Definition is_upper (c : ascii) : bool := in_range 65 90 c.
Definition is_lower (c : ascii) : bool := in_range 97 122 c.
Definition is_alpha (c : ascii) : bool := is_upper c || is_lower c.
Definition is_alnum (c : ascii) : bool := is_alpha c || is_digit c.

Definition one_of (cs : string) (c : ascii) : bool :=
  existsb (Ascii.eqb c) (list_ascii_of_string cs).

Fixpoint str_forall (p : ascii -> bool) (s : string) : bool :=
  match s with
  | EmptyString => true
  | String c s' => p c && str_forall p s'
  end.

Fixpoint str_filter (p : ascii -> bool) (s : string) : string :=
  match s with
  | EmptyString => EmptyString
  | String c s' => if p c then String c (str_filter p s') else str_filter p s'
  end.

(** Truthiness of a [str]: the empty string is falsy. *)
Definition truthy (s : string) : bool := negb (String.eqb s "").

(** Truthiness of an [Optional[str]]: [None] and [""] are falsy. *)
Definition truthy_opt (o : option string) : bool :=
  match o with Some s => truthy s | None => false end.

(** [x or ""] for an [Optional[str]]. *)
Definition or_empty (o : option string) : string :=
  match o with Some s => if truthy s then s else "" | None => "" end.

(** [s or d] for a [str]. *)
Definition or_default (s d : string) : string := if truthy s then s else d.

(** [s if s else None]. *)
Definition none_if_empty (s : string) : option string :=
  if truthy s then Some s else None.

(** [x in [a, b, ...]] for strings. *)
Definition str_in (s : string) (l : list string) : bool :=
  existsb (String.eqb s) l.

(** [str.lower] on code points below 256: A-Z and the accented capitals
    192..222 (but not the multiplication sign 215) move up by 32. *)
Definition lower_char (c : ascii) : ascii :=
  if is_upper c || (in_range 192 222 c && negb (code c =? 215)%nat)
  then ascii_of_nat (code c + 32) else c.

Fixpoint lower (s : string) : string :=
  match s with
  | EmptyString => EmptyString
  | String c s' => String (lower_char c) (lower s')
  end.

(** [str.isdigit]: non-empty and every character is a digit; below 256
    the digits are 0-9 and the superscripts two, three and one. *)
Definition isdigit_char (c : ascii) : bool :=
  is_digit c || (code c =? 178)%nat || (code c =? 179)%nat || (code c =? 185)%nat.

Definition isdigit (s : string) : bool :=
  truthy s && str_forall isdigit_char s.

(** [sys.int_info.default_max_str_digits]: [int] and [str] refuse to
    convert between an [int] and a decimal numeral of more digits.  The
    messages of the exceptions are shortened to their first words; the
    program does no more than log them. *)
Definition MAX_STR_DIGITS : nat := 4300.

Definition too_many_digits : exn :=
  ValueError "Exceeds the limit (4300 digits) for integer string conversion".

(** The digits 0-9 a string starts with. *)
Fixpoint leading_digits (s : string) : nat :=
  match s with
  | String c s' => if is_digit c then S (leading_digits s') else 0
  | EmptyString => 0
  end.

(** [int(s)] on a string that passed [isdigit]: the decimal value when all
    characters are 0-9 (leading zeros allowed) and there are no more than
    4300 of them, [ValueError] for the superscript digits. *)
Definition int (s : string) : res Z :=
  if (MAX_STR_DIGITS <? leading_digits s)%nat then Raise too_many_digits
  else if truthy s then
    match NilEmpty.uint_of_string s with
    | Some d => Ok (Z.of_uint d)
    | None => Raise (ValueError "invalid literal for int() with base 10")
    end
  else Raise (ValueError "invalid literal for int() with base 10").

(** The decimal numeral of an [int], with its sign. *)
Definition numeral (n : Z) : string := NilZero.string_of_int (Z.to_int n).

(** How many digits the numeral has. *)
Definition digits (n : Z) : nat :=
  (String.length (numeral n) - (if (n <? 0)%Z then 1 else 0))%nat.

(** [str(n)] for an [int]: [ValueError] beyond 4300 digits. *)
Definition str_of_int (n : Z) : res string :=
  if (MAX_STR_DIGITS <? digits n)%nat then Raise too_many_digits
  else Ok (numeral n).

(** [str(b).lower()] for a [bool]. *)
Definition str_of_bool_lower (b : bool) : string :=
  lower (if b then "True" else "False").

(** ** Regular expressions, matched by derivatives *)

Inductive regex : Type :=
| Void
| Eps
| Cls (p : ascii -> bool)
| Cat (r s : regex)
| Alt (r s : regex)
| Star (r : regex).

Definition Plus (r : regex) : regex := Cat r (Star r).
Definition AtLeast2 (r : regex) : regex := Cat r (Cat r (Star r)).
Definition Chr (c : ascii) : regex := Cls (Ascii.eqb c).

Fixpoint nullable (r : regex) : bool :=
  match r with
  | Void => false
  | Eps => true
  | Cls _ => false
  | Cat r s => nullable r && nullable s
  | Alt r s => nullable r || nullable s
  | Star _ => true
  end.

Fixpoint deriv (c : ascii) (r : regex) : regex :=
  match r with
  | Void => Void
  | Eps => Void
  | Cls p => if p c then Eps else Void
  | Cat r s =>
      if nullable r then Alt (Cat (deriv c r) s) (deriv c s)
      else Cat (deriv c r) s
  | Alt r s => Alt (deriv c r) (deriv c s)
  | Star r => Cat (deriv c r) (Star r)
  end.

Fixpoint fullmatch (r : regex) (s : string) : bool :=
  match s with
  | EmptyString => nullable r
  | String c s' => fullmatch (deriv c r) s'
  end.

(** Does [s] end with a newline, and what precedes it? *)
Fixpoint strip_final_newline (s : string) : option string :=
  match s with
  | EmptyString => None
  | String c EmptyString =>
      if Ascii.eqb c "010"%char then Some EmptyString else None
  | String c s' => option_map (String c) (strip_final_newline s')
  end.

(** [bool(re.match('^' r '$', s))]: the dollar matches at the end of the
    string and also just before a newline that ends the string. *)
Definition match_anchored (r : regex) (s : string) : bool :=
  fullmatch r s ||
  match strip_final_newline s with
  | Some s' => fullmatch r s'
  | None => false
  end.

End Py.

(** ** Binary floating point *)

(** The arithmetic of [float] on finite values that are not negative zero:
    a float is the rational it stands for, and an operation returns the
    binary64 number nearest to the exact result, a tie going to the even
    mantissa (IEEE 754, round to nearest even). *)
Module Float.

(** The integer nearest to [x], a tie going to the even one. *)
Definition round_half_even (x : Q) : Z :=
  let f := Qfloor x in
  match Qcompare (x - inject_Z f) (1 # 2) with
  | Lt => f
  | Gt => (f + 1)%Z
  | Eq => if Z.even f then f else (f + 1)%Z
  end.

(** For [0 < x]: the [e] with [2 ^ e <= x < 2 ^ (e + 1)]. *)
Definition ilog2 (x : Q) : Z :=
  let e := (Z.log2 (Qnum x) - Z.log2 (Z.pos (Qden x)))%Z in
  if Qle_bool (2 ^ e) x then e else (e - 1)%Z.

(** The weight of the last of the 53 bits of the mantissa; below
    [2 ^ -1022] the numbers are subnormal and the weight stays
    [2 ^ -1074]. *)
Definition exponent (x : Q) : Z := Z.max (ilog2 x - 52) (-1074).

Definition nearest_pos (x : Q) : Q :=
  (inject_Z (round_half_even (x / 2 ^ exponent x)) * 2 ^ exponent x)%Q.

(** The binary64 number nearest to [x], were the exponent unbounded
    above. *)
Definition nearest (x : Q) : Q :=
  match Qcompare x 0 with
  | Gt => nearest_pos x
  | Lt => (- nearest_pos (- x))%Q
  | Eq => 0%Q
  end.

(** A rounded result from [2 ** 1024] on is an overflow. *)
Definition finite (x : Q) : bool := negb (Qle_bool (2 ^ 1024) (Qabs x)).

(** [a / b] for two [int]s: the quotient is rounded once. *)
Definition true_div (a b : Z) : res Q :=
  if (b =? 0)%Z then Raise (OtherError "ZeroDivisionError: division by zero")
  else
    let q := nearest (inject_Z a / inject_Z b) in
    if finite q then Ok q
    else Raise (OtherError
                  "OverflowError: integer division result too large for a float").

(** [x * y] for two floats whose product does not overflow. *)
Definition mul (x y : Q) : Q := nearest (x * y).

(** [round(x, 1)] for a float: the exact value of [x] is written with one
    decimal place, a tie going to the even digit, and that decimal is read
    back as a float. *)
Definition round1 (x : Q) : Q :=
  nearest (inject_Z (round_half_even (x * 10)) / 10).

End Float.

(** ** [datetime.strptime] for the two formats the code uses *)

Module Strptime.

Import Py.

Definition digit_val (c : ascii) : nat := code c - 48.

(** A directive's alternatives, in the order the regular expression tries
    them: each candidate is the matched value with the unread rest. *)
Definition cands := list (nat * list ascii).

Definition two (p1 p2 : ascii -> bool) (s : list ascii) : cands :=
  match s with
  | c1 :: c2 :: rest =>
      if p1 c1 && p2 c2 then [(10 * digit_val c1 + digit_val c2, rest)] else []
  | _ => []
  end.

Definition one (p : ascii -> bool) (s : list ascii) : cands :=
  match s with
  | c :: rest => if p c then [(digit_val c, rest)] else []
  | _ => []
  end.

(** [%H]: [2[0-3]|[0-1]\d|\d]. *)
Definition dir_H (s : list ascii) : cands :=
  two (in_range 50 50) (in_range 48 51) s ++ two (in_range 48 49) is_digit s
  ++ one is_digit s.

(** [%M]: [[0-5]\d|\d]. *)
Definition dir_M (s : list ascii) : cands :=
  two (in_range 48 53) is_digit s ++ one is_digit s.

(** [%m]: [1[0-2]|0[1-9]|[1-9]]. *)
Definition dir_m (s : list ascii) : cands :=
  two (in_range 49 49) (in_range 48 50) s ++ two (in_range 48 48) (in_range 49 57) s
  ++ one (in_range 49 57) s.

(** [%d]: [3[01]|[12]\d|0[1-9]|[1-9]| [1-9]]. *)
Definition dir_d (s : list ascii) : cands :=
  two (in_range 51 51) (in_range 48 49) s ++ two (in_range 49 50) is_digit s
  ++ two (in_range 48 48) (in_range 49 57) s ++ one (in_range 49 57) s
  ++ match s with
     | sp :: c :: rest =>
         if Ascii.eqb sp " "%char && in_range 49 57 c
         then [(digit_val c, rest)] else []
     | _ => []
     end.

(** [%Y]: [\d\d\d\d]. *)
Definition dir_Y (s : list ascii) : cands :=
  match s with
  | a :: b :: c :: d :: rest =>
      if is_digit a && is_digit b && is_digit c && is_digit d
      then [(1000 * digit_val a + 100 * digit_val b + 10 * digit_val c
             + digit_val d, rest)]
      else []
  | _ => []
  end.

(** A literal character of the format. *)
Definition lit (ch : ascii) (s : list ascii) : option (list ascii) :=
  match s with
  | c :: rest => if Ascii.eqb c ch then Some rest else None
  | [] => None
  end.

(** Backtracking: the first candidate whose continuation matches. *)
Fixpoint first_match {B} (cs : cands) (k : nat -> list ascii -> option B)
  : option B :=
  match cs with
  | [] => None
  | (v, rest) :: cs' =>
      match k v rest with
      | Some b => Some b
      | None => first_match cs' k
      end
  end.

(** The match of the whole expression, then the check that the match
    consumed the whole string ("unconverted data remains" otherwise). *)
Definition at_end {B} (b : B) (rest : list ascii) : option (B * list ascii) :=
  Some (b, rest).

Definition whole {B} (m : option (B * list ascii)) : option B :=
  match m with
  | Some (b, []) => Some b
  | _ => None
  end.

(** [datetime.strptime(s, "%H:%M")]: hour and minute, [None] for
    [ValueError]. *)
Definition parse_HM (s : string) : option (nat * nat) :=
  whole
    (first_match (dir_H (list_ascii_of_string s)) (fun h s1 =>
       match lit ":"%char s1 with
       | Some s2 => first_match (dir_M s2) (fun mi s3 => at_end (h, mi) s3)
       | None => None
       end)).

Definition is_leap (y : nat) : bool :=
  ((y mod 4 =? 0) && negb (y mod 100 =? 0) || (y mod 400 =? 0))%nat.

Definition days_in_month (y m : nat) : nat :=
  match m with
  | 2 => if is_leap y then 29 else 28
  | 4 | 6 | 9 | 11 => 30
  | _ => 31
  end.

(** [datetime.strptime(s, "%Y-%m-%d")]: year, month and day; the date must
    exist (years start at 1). *)
Definition parse_Ymd (s : string) : option (nat * nat * nat) :=
  match
    whole
      (first_match (dir_Y (list_ascii_of_string s)) (fun y s1 =>
         match lit "-"%char s1 with
         | Some s2 =>
             first_match (dir_m s2) (fun m s3 =>
               match lit "-"%char s3 with
               | Some s4 => first_match (dir_d s4) (fun d s5 => at_end (y, m, d) s5)
               | None => None
               end)
         | None => None
         end))
  with
  | Some (y, m, d) =>
      if ((1 <=? y) && (d <=? days_in_month y m))%nat then Some (y, m, d) else None
  | None => None
  end.

(** Minutes since midnight: two parsed times of day compare as their
    [datetime] values on 1900-01-01 do. *)
Definition minutes_of (hm : nat * nat) : Z :=
  (Z.of_nat (fst hm) * 60 + Z.of_nat (snd hm))%Z.

End Strptime.

(** A sheet row is a list of cells.  [row[i]] after the padding loop of
    [from_sheet_row] is [cell i row]. *)
Definition Row := list string.

Definition cell (i : nat) (row : Row) : string := nth i row "".

(** [while len(row) < n: row.append("")]. *)
Definition pad (n : nat) (row : Row) : Row :=
  row ++ repeat "" (n - List.length row).

(** ** models.py: Member *)

Module Member.

Import Py.

Record t : Type := mk {
  member_id : string;
  first_name : string;
  last_name : string;
  email : string;
  phone : string;
  wix_user_id : option string;
  role : string;
  membership_status : string;
  payment_status : string;
  join_date : option string;
  graduation_year : option string;
  major : option string;
  emergency_contact : option string;
  emergency_phone : option string;
  notes : option string;
  created_at : option string;
  updated_at : option string
}.

(** [^[a-zA-Z0-9._%+-]+@[a-zA-Z0-9.-]+\.[a-zA-Z]{2,}$] *)
Definition email_pattern : regex :=
  Cat (Plus (Cls (fun c => is_alnum c || one_of "._%+-" c)))
 (Cat (Chr "@"%char)
 (Cat (Plus (Cls (fun c => is_alnum c || one_of ".-" c)))
 (Cat (Chr "."%char)
      (AtLeast2 (Cls is_alpha))))).

Definition _is_valid_email (email : string) : bool :=
  match_anchored email_pattern email.

(** [re.sub(r'\D', '', phone)] keeps the decimal digits, which below code
    point 256 are 0-9; the length of what is left must be 10 or 11. *)
Definition _is_valid_phone (phone : string) : bool :=
  let digits_only := str_filter is_digit phone in
  let n := String.length digits_only in
  (n =? 10)%nat || (n =? 11)%nat.

Definition _validate (self : t) : res unit :=
  require truthy (member_id self) orelse "Member ID is required" ;;
  require truthy (first_name self) && truthy (last_name self)
    orelse "First name and last name are required" ;;
  require _is_valid_email (email self) orelse "Valid email is required" ;;
  require _is_valid_phone (phone self) orelse "Valid phone number is required" ;;
  require str_in (role self) ["member"; "exec"]
    orelse "Role must be 'member' or 'exec'" ;;
  require str_in (membership_status self) ["active"; "inactive"; "suspended"]
    orelse "Invalid membership status" ;;
  require str_in (payment_status self) ["paid"; "pending"; "overdue"]
    orelse "Invalid payment status" ;;
  Ok tt.

(** [__post_init__]: validate, then stamp. *)
Definition __post_init__ (now : string) (self : t) : res t :=
  try _ <-- _validate self ;;
  Ok (mk (member_id self) (first_name self) (last_name self) (email self)
         (phone self) (wix_user_id self) (role self) (membership_status self)
         (payment_status self) (join_date self) (graduation_year self)
         (major self) (emergency_contact self) (emergency_phone self)
         (notes self)
         (if truthy_opt (created_at self) then created_at self else Some now)
         (Some now)).

Definition full_name (self : t) : string :=
  (first_name self ++ " " ++ last_name self)%string.

Definition to_sheet_row (self : t) : Row :=
  [ member_id self; first_name self; last_name self; email self; phone self;
    or_empty (wix_user_id self); role self; membership_status self;
    payment_status self; or_empty (join_date self);
    or_empty (graduation_year self); or_empty (major self);
    or_empty (emergency_contact self); or_empty (emergency_phone self);
    or_empty (notes self); or_empty (created_at self);
    or_empty (updated_at self) ].

Definition from_sheet_row (now : string) (row0 : Row) : res t :=
  let row := pad 17 row0 in
  __post_init__ now
    (mk (cell 0 row) (cell 1 row) (cell 2 row) (cell 3 row) (cell 4 row)
        (none_if_empty (cell 5 row))
        (or_default (cell 6 row) "member")
        (or_default (cell 7 row) "active")
        (or_default (cell 8 row) "pending")
        (none_if_empty (cell 9 row)) (none_if_empty (cell 10 row))
        (none_if_empty (cell 11 row)) (none_if_empty (cell 12 row))
        (none_if_empty (cell 13 row)) (none_if_empty (cell 14 row))
        (none_if_empty (cell 15 row)) (none_if_empty (cell 16 row))).

Definition get_headers : Row :=
  [ "Member ID"; "First Name"; "Last Name"; "Email"; "Phone";
    "Wix User ID"; "Role"; "Membership Status"; "Payment Status";
    "Join Date"; "Graduation Year"; "Major"; "Emergency Contact";
    "Emergency Phone"; "Notes"; "Created At"; "Updated At" ].

End Member.

(** ** models.py: Event *)

Module Event.

Import Py.

Record t : Type := mk {
  event_id : string;
  event_name : string;
  event_type : string;
  event_date : string;
  start_time : string;
  end_time : string;
  location : string;
  description : option string;
  is_mandatory : bool;
  max_attendees : option Z;
  created_by : string;
  status : string;
  created_at : option string;
  updated_at : option string
}.

Definition _is_valid_date (date_str : string) : bool :=
  match Strptime.parse_Ymd date_str with Some _ => true | None => false end.

Definition _is_valid_time (time_str : string) : bool :=
  match Strptime.parse_HM time_str with Some _ => true | None => false end.

Definition _validate (self : t) : res unit :=
  require truthy (event_id self) orelse "Event ID is required" ;;
  require truthy (event_name self) orelse "Event name is required" ;;
  require str_in (event_type self) ["practice"; "game"; "meeting"; "social"]
    orelse "Invalid event type" ;;
  require _is_valid_date (event_date self)
    orelse "Valid event date is required (YYYY-MM-DD)" ;;
  require _is_valid_time (start_time self) && _is_valid_time (end_time self)
    orelse "Valid start and end times are required (HH:MM)" ;;
  require str_in (status self) ["scheduled"; "cancelled"; "completed"]
    orelse "Invalid event status" ;;
  Ok tt.

Definition __post_init__ (now : string) (self : t) : res t :=
  try _ <-- _validate self ;;
  Ok (mk (event_id self) (event_name self) (event_type self) (event_date self)
         (start_time self) (end_time self) (location self) (description self)
         (is_mandatory self) (max_attendees self) (created_by self)
         (status self)
         (if truthy_opt (created_at self) then created_at self else Some now)
         (Some now)).

(** [str(self.max_attendees) if self.max_attendees else ""]: [None] and
    [0] are both falsy; [str] can raise. *)
Definition max_attendees_cell (m : option Z) : res string :=
  match m with
  | Some n => if (n =? 0)%Z then Ok "" else str_of_int n
  | None => Ok ""
  end.

(** The only cell whose expression can raise is that of the capacity. *)
Definition to_sheet_row (self : t) : res Row :=
  try capacity <-- max_attendees_cell (max_attendees self) ;;
  Ok [ event_id self; event_name self; event_type self; event_date self;
       start_time self; end_time self; location self;
       or_empty (description self);
       str_of_bool_lower (is_mandatory self);
       capacity;
       created_by self; status self;
       or_empty (created_at self); or_empty (updated_at self) ].

(** [int(row[9]) if row[9] and row[9].isdigit() else None]; the call to
    [int] can still raise. *)
Definition parse_max_attendees (c : string) : res (option Z) :=
  if truthy c && isdigit c then (try n <-- int c ;; Ok (Some n)) else Ok None.

Definition from_sheet_row (now : string) (row0 : Row) : res t :=
  let row := pad 14 row0 in
  try ma <-- parse_max_attendees (cell 9 row) ;;
  __post_init__ now
    (mk (cell 0 row) (cell 1 row) (cell 2 row) (cell 3 row) (cell 4 row)
        (cell 5 row) (cell 6 row)
        (none_if_empty (cell 7 row))
        (if truthy (cell 8 row) then String.eqb (lower (cell 8 row)) "true"
         else false)
        ma
        (cell 10 row)
        (or_default (cell 11 row) "scheduled")
        (none_if_empty (cell 12 row)) (none_if_empty (cell 13 row))).

Definition get_headers : Row :=
  [ "Event ID"; "Event Name"; "Event Type"; "Event Date"; "Start Time";
    "End Time"; "Location"; "Description"; "Is Mandatory"; "Max Attendees";
    "Created By"; "Status"; "Created At"; "Updated At" ].

End Event.

(** ** models.py: AttendanceRecord *)

Module AttendanceRecord.

Import Py.

Record t : Type := mk {
  record_id : string;
  event_id : string;
  member_id : string;
  attendance_status : string;
  check_in_time : option string;
  check_out_time : option string;
  notes : option string;
  recorded_by : string;
  created_at : option string;
  updated_at : option string
}.

Definition _is_valid_time (time_str : string) : bool :=
  match Strptime.parse_HM time_str with Some _ => true | None => false end.

(** [if self.t and not self._is_valid_time(self.t)] *)
Definition bad_time (o : option string) : bool :=
  match o with
  | Some s => truthy s && negb (_is_valid_time s)
  | None => false
  end.

Definition _validate (self : t) : res unit :=
  require truthy (record_id self) orelse "Record ID is required" ;;
  require truthy (event_id self) orelse "Event ID is required" ;;
  require truthy (member_id self) orelse "Member ID is required" ;;
  require str_in (attendance_status self) ["present"; "absent"; "excused"; "late"]
    orelse "Invalid attendance status" ;;
  require negb (bad_time (check_in_time self))
    orelse "Invalid check-in time format (HH:MM)" ;;
  require negb (bad_time (check_out_time self))
    orelse "Invalid check-out time format (HH:MM)" ;;
  Ok tt.

Definition __post_init__ (now : string) (self : t) : res t :=
  try _ <-- _validate self ;;
  Ok (mk (record_id self) (event_id self) (member_id self)
         (attendance_status self) (check_in_time self) (check_out_time self)
         (notes self) (recorded_by self)
         (if truthy_opt (created_at self) then created_at self else Some now)
         (Some now)).

(** The property [duration_minutes]: [None] without both times; a
    check-out before the check-in is moved to the next day. *)
Definition duration_minutes (self : t) : res (option Z) :=
  if negb (truthy_opt (check_in_time self)) || negb (truthy_opt (check_out_time self))
  then Ok None
  else
    match Strptime.parse_HM (or_empty (check_in_time self)),
          Strptime.parse_HM (or_empty (check_out_time self)) with
    | Some ci, Some co =>
        let check_in := Strptime.minutes_of ci in
        let check_out := Strptime.minutes_of co in
        let check_out := if (check_out <? check_in)%Z
                         then (check_out + 1440)%Z else check_out in
        Ok (Some (check_out - check_in)%Z)
    | _, _ => Raise (ValueError "time data does not match format '%H:%M'")
    end.

Definition to_sheet_row (self : t) : Row :=
  [ record_id self; event_id self; member_id self; attendance_status self;
    or_empty (check_in_time self); or_empty (check_out_time self);
    or_empty (notes self); recorded_by self;
    or_empty (created_at self); or_empty (updated_at self) ].

Definition from_sheet_row (now : string) (row0 : Row) : res t :=
  let row := pad 10 row0 in
  __post_init__ now
    (mk (cell 0 row) (cell 1 row) (cell 2 row) (cell 3 row)
        (none_if_empty (cell 4 row)) (none_if_empty (cell 5 row))
        (none_if_empty (cell 6 row)) (cell 7 row)
        (none_if_empty (cell 8 row)) (none_if_empty (cell 9 row))).

Definition get_headers : Row :=
  [ "Record ID"; "Event ID"; "Member ID"; "Attendance Status";
    "Check In Time"; "Check Out Time"; "Notes"; "Recorded By";
    "Created At"; "Updated At" ].

End AttendanceRecord.

(** ** member_crud.py: GoogleSheetsManager._execute_with_retry *)

Module GoogleSheetsManager.

(** What the loop does to the outside world, in order. *)
Inductive effect : Type :=
| Execute (attempt : nat)
| Sleep (seconds : Q).


(** [delay * (2 ** attempt)] for a finite float [delay]: the power is an
    [int], which the product turns into a float, and that raises from
    [2 ** 1024] on.  The product itself is exact; where a float would
    overflow to infinity the value is beyond what [time.sleep] takes. *)
Definition backoff (delay : Q) (attempt : nat) : res Q :=
  if (1024 <=? attempt)%nat
  then Raise (OtherError "OverflowError: int too large to convert to float")
  else Ok (delay * inject_Z (2 ^ Z.of_nat attempt))%Q.

(** [time.sleep(seconds)] for a float, as CPython 3.11 has it: the
    nanoseconds are computed as a float (the nearest one, a tie going to
    [2 ** 63]) and must lie between [-2 ** 63] and [2 ** 63];
    they are then cast to a signed 64-bit integer, where [2 ** 63] itself
    wraps to a negative number; a negative wait raises [ValueError]. *)
Definition time_sleep (seconds : Q) : res unit :=
  let ns := (seconds * 1000000000)%Q in
  if negb (Qle_bool ns (inject_Z (2 ^ 63 + 1024)))
     || negb (Qle_bool (inject_Z (- 2 ^ 63 - 1024)) ns)
  then Raise (OtherError
                "OverflowError: timestamp too large to convert to C _PyTime_t")
  else if negb (Qle_bool 0 seconds) || Qle_bool (inject_Z (2 ^ 63 - 512)) ns
  then Raise (ValueError "sleep length must be non-negative")
  else Ok tt.

(** [wait_time = ...; time.sleep(wait_time)]: the wait when it was slept. *)
Definition pause (wait_time : res Q) : res Q :=
  try seconds <-- wait_time ;;
  try _ <-- time_sleep seconds ;;
  Ok seconds.

Definition is_rate_limit (status : Z) : bool := (status =? 429)%Z.

Definition is_server_error (status : Z) : bool :=
  existsb (Z.eqb status) [500; 502; 503; 504]%Z.

Section retry.

Context {R : Type}.

(** [request.execute()]: what the call made in attempt number [k]
    answers. *)
Variable execute : nat -> res R.
Variable max_retries : Z.
Variable delay : Q.

(** The body of [for attempt in range(max_retries + 1)], over the attempts
    still to run; [trace] is what has happened so far.  Falling out of the
    loop returns [None].  An exception of [time.sleep] is raised inside a
    handler, so nothing catches it. *)
Fixpoint retry_loop (attempts : list nat) (trace : list effect)
  : res (option R) * list effect :=
  match attempts with
  | [] => (Ok None, trace)
  | attempt :: rest =>
      let trace := trace ++ [Execute attempt] in
      match execute attempt with
      | Ok response => (Ok (Some response), trace)
      | Raise (HttpError status body) =>
          let e := HttpError status body in
          if (Z.of_nat attempt =? max_retries)%Z then (Raise e, trace)
          else if is_rate_limit status then
            match pause (backoff delay attempt) with
            | Ok wait_time => retry_loop rest (trace ++ [Sleep wait_time])
            | Raise e' => (Raise e', trace)
            end
          else if is_server_error status then
            match pause (backoff delay attempt) with
            | Ok wait_time => retry_loop rest (trace ++ [Sleep wait_time])
            | Raise e' => (Raise e', trace)
            end
          else (Raise e, trace)
      | Raise e =>
          if (Z.of_nat attempt =? max_retries)%Z then (Raise e, trace)
          else
            match pause (Ok delay) with
            | Ok wait_time => retry_loop rest (trace ++ [Sleep wait_time])
            | Raise e' => (Raise e', trace)
            end
      end
  end.

Definition _execute_with_retry : res (option R) * list effect :=
  retry_loop (seq 0 (Z.to_nat (max_retries + 1))) [].

End retry.

(** How often the request was retried: every execution after the first. *)
Definition is_execute (e : effect) : bool :=
  match e with Execute _ => true | Sleep _ => false end.


Definition sleeps (trace : list effect) : list Q :=
  omap (fun e => match e with Sleep q => Some q | _ => None end) trace.

End GoogleSheetsManager.

(** ** The remote sheet *)

(** One tab of the spreadsheet as [values().get] shows it, and the script
    of the requests to come: [Some e] makes the next request raise [e]
    (after the retries of [_execute_with_retry]), [None] lets it through;
    an exhausted script lets every request through. *)
Record World : Type := mkWorld {
  values : list Row;
  faults : list (option exn)
}.

Definition M (A : Type) : Type := World -> A * World.

Definition ret {A} (a : A) : M A := fun w => (a, w).

Definition bind {A B} (m : M A) (k : A -> M B) : M B :=
  fun w => let (a, w') := m w in k a w'.

Notation "'do' x <- m ; k" := (bind m (fun x => k))
  (at level 10, x name, m at level 99, k at level 200, only parsing).

Module Sheets.

(** A request through [_execute_with_retry]: the next script entry decides
    whether it raises; otherwise [serve] answers from the rows and may
    change them. *)
Definition request {A} (serve : list Row -> A * list Row) : M (res A) :=
  fun w =>
    match faults w with
    | Some e :: script => (Raise e, mkWorld (values w) script)
    | None :: script =>
        let (a, rows) := serve (values w) in (Ok a, mkWorld rows script)
    | [] =>
        let (a, rows) := serve (values w) in (Ok a, mkWorld rows [])
    end.

(** [values().get(range=<the whole tab>)]: [result.get('values', [])]. *)
Definition get_values : M (res (list Row)) :=
  request (fun rows => (rows, rows)).

(** The cell of column A in a one-column read: a blank cell gives an empty
    row. *)
Definition column_A (row : Row) : Row :=
  match row with
  | c :: _ => if Py.truthy c then [c] else []
  | [] => []
  end.

(** [values().get(range="<tab>!A:A")]. *)
Definition get_column_A : M (res (list Row)) :=
  request (fun rows => (map column_A rows, rows)).

(** [values().append(..., insertDataOption='INSERT_ROWS')]: the row is
    added below the last one; the answer is
    [result['updates']['updatedRows']]. *)
Definition append (row : Row) : M (res Z) :=
  request (fun rows => (1%Z, rows ++ [row])).

(** [values().update(range="<tab>!A<n>:<last><n>")] with the 1-indexed row
    number [n]; the answer is [result['updatedRows']]. *)
Definition update (row_number : nat) (row : Row) : M (res Z) :=
  request (fun rows => (1%Z, <[row_number - 1 := row]> rows)).

(** The loop of the [get_all_*] functions over [enumerate(values)]: the
    first row is dropped when its first cell is the header label; a row
    that does not parse is skipped.  [row[0]] of an empty first row raises
    [IndexError] outside the inner [try]. *)
Fixpoint read_rows {A} (parse : Row -> res A) (header : string)
    (i : nat) (values : list Row) : res (list A) :=
  match values with
  | [] => Ok []
  | row :: rest =>
      try is_header <--
        (if (i =? 0)%nat then
           match row with
           | c :: _ => Ok (String.eqb c header)
           | [] => Raise IndexError
           end
         else Ok false) ;;
      if is_header then read_rows parse header (S i) rest
      else
        match parse row with
        | Ok a =>
            try l <-- read_rows parse header (S i) rest ;;
            Ok (a :: l)
        | Raise _ => read_rows parse header (S i) rest
        end
  end.

(** The whole of a [get_all_*]: any exception, of the request or of the
    loop, gives the empty list. *)
Definition get_all {A} (parse : Row -> res A) (header : string) : M (list A) :=
  do result <- get_values ;
  ret match result with
      | Ok values =>
          match read_rows parse header 0 values with
          | Ok l => l
          | Raise _ => []
          end
      | Raise _ => []
      end.

(** The loop of the [_find_*_row] functions: the 1-indexed position of the
    first row of column A that holds [id]. *)
Fixpoint scan_ids (id : string) (i : nat) (values : list Row) : option nat :=
  match values with
  | [] => None
  | row :: rest =>
      match row with
      | c :: _ => if String.eqb c id then Some (i + 1) else scan_ids id (S i) rest
      | [] => scan_ids id (S i) rest
      end
  end.

Definition find_row (id : string) : M (option nat) :=
  do result <- get_column_A ;
  ret match result with
      | Ok values => scan_ids id 0 values
      | Raise _ => None
      end.

(** [for x in xs: if p(x): return x] and then [return None]. *)
Definition first {A} (p : A -> bool) (xs : list A) : option A :=
  List.find p xs.

End Sheets.

(** ** member_crud.py: MembersCRUD *)

Module MembersCRUD.

Definition get_all_members (now : string) : M (list Member.t) :=
  Sheets.get_all (Member.from_sheet_row now) "Member ID".

Definition get_member_by_id (now : string) (member_id : string)
  : M (option Member.t) :=
  do members <- get_all_members now ;
  ret (Sheets.first (fun member => String.eqb (Member.member_id member) member_id)
         members).

Definition create_member (now : string) (member : Member.t) : M bool :=
  do existing <- get_member_by_id now (Member.member_id member) ;
  match existing with
  | Some _ => ret false
  | None =>
      do result <- Sheets.append (Member.to_sheet_row member) ;
      ret match result with
          | Ok updatedRows => (0 <? updatedRows)%Z
          | Raise _ => false
          end
  end.

Definition get_active_members (now : string) : M (list Member.t) :=
  do all_members <- get_all_members now ;
  ret (List.filter (fun m => String.eqb (Member.membership_status m) "active")
         all_members).

End MembersCRUD.

(** ** event_crud.py: EventsCRUD *)

Module EventsCRUD.

Definition get_all_events (now : string) : M (list Event.t) :=
  Sheets.get_all (Event.from_sheet_row now) "Event ID".

Definition get_event_by_id (now : string) (event_id : string)
  : M (option Event.t) :=
  do events <- get_all_events now ;
  ret (Sheets.first (fun event => String.eqb (Event.event_id event) event_id)
         events).

Definition get_events_by_date (now : string) (event_date : string)
  : M (list Event.t) :=
  do all_events <- get_all_events now ;
  ret (List.filter (fun e => String.eqb (Event.event_date e) event_date)
         all_events).

(** [datetime.strptime(s, "%H:%M")], as minutes since midnight. *)
Definition strptime (s : string) : res Z :=
  match Strptime.parse_HM s with
  | Some hm => Ok (Strptime.minutes_of hm)
  | None => Raise (ValueError "time data does not match format '%H:%M'")
  end.

(** The loop of [_check_event_conflict]. *)
Fixpoint conflict_scan (new_event : Event.t) (existing_events : list Event.t)
  : res bool :=
  match existing_events with
  | [] => Ok false
  | event :: rest =>
      if String.eqb (Event.status event) "cancelled"
      then conflict_scan new_event rest
      else
        try new_start <-- strptime (Event.start_time new_event) ;;
        try new_end <-- strptime (Event.end_time new_event) ;;
        try existing_start <-- strptime (Event.start_time event) ;;
        try existing_end <-- strptime (Event.end_time event) ;;
        if (new_start <? existing_end)%Z && (new_end >? existing_start)%Z
        then Ok true
        else conflict_scan new_event rest
  end.

(** An exception of the scan is answered with [False]. *)
Definition _check_event_conflict (now : string) (new_event : Event.t) : M bool :=
  do existing_events <- get_events_by_date now (Event.event_date new_event) ;
  ret match conflict_scan new_event existing_events with
      | Ok conflict => conflict
      | Raise _ => false
      end.

Definition create_event (now : string) (event : Event.t) : M bool :=
  do existing <- get_event_by_id now (Event.event_id event) ;
  match existing with
  | Some _ => ret false
  | None =>
      do conflict <- _check_event_conflict now event ;
      if conflict then ret false
      else
        match Event.to_sheet_row event with
        | Ok row_data =>
            do result <- Sheets.append row_data ;
            ret match result with
                | Ok updatedRows => (0 <? updatedRows)%Z
                | Raise _ => false
                end
        | Raise _ => ret false
        end
  end.

End EventsCRUD.

(** ** attendance_crud.py: AttendanceCRUD *)

Module AttendanceCRUD.

Import Py.

Definition get_all_attendance (now : string) : M (list AttendanceRecord.t) :=
  Sheets.get_all (AttendanceRecord.from_sheet_row now) "Record ID".

Definition get_attendance_record (now : string) (event_id member_id : string)
  : M (option AttendanceRecord.t) :=
  do all_records <- get_all_attendance now ;
  ret (Sheets.first
         (fun record =>
            String.eqb (AttendanceRecord.event_id record) event_id
            && String.eqb (AttendanceRecord.member_id record) member_id)
         all_records).

Definition get_attendance_by_event (now : string) (event_id : string)
  : M (list AttendanceRecord.t) :=
  do all_records <- get_all_attendance now ;
  ret (List.filter (fun r => String.eqb (AttendanceRecord.event_id r) event_id)
         all_records).

Definition _find_attendance_row (record_id : string) : M (option nat) :=
  Sheets.find_row record_id.

(** [attendance.updated_at = datetime.now().isoformat()] *)
Definition touch (now : string) (a : AttendanceRecord.t) : AttendanceRecord.t :=
  AttendanceRecord.mk
    (AttendanceRecord.record_id a) (AttendanceRecord.event_id a)
    (AttendanceRecord.member_id a) (AttendanceRecord.attendance_status a)
    (AttendanceRecord.check_in_time a) (AttendanceRecord.check_out_time a)
    (AttendanceRecord.notes a) (AttendanceRecord.recorded_by a)
    (AttendanceRecord.created_at a) (Some now).

Definition update_attendance (now : string) (attendance : AttendanceRecord.t)
  : M bool :=
  do row_number <- _find_attendance_row (AttendanceRecord.record_id attendance) ;
  match row_number with
  | None => ret false
  | Some row_number =>
      do result <- Sheets.update row_number
                     (AttendanceRecord.to_sheet_row (touch now attendance)) ;
      ret match result with
          | Ok updatedRows => (0 <? updatedRows)%Z
          | Raise _ => false
          end
  end.

Definition record_attendance (now : string) (attendance : AttendanceRecord.t)
  : M bool :=
  do existing_record <-
    get_attendance_record now (AttendanceRecord.event_id attendance)
      (AttendanceRecord.member_id attendance) ;
  match existing_record with
  | Some _ => update_attendance now attendance
  | None =>
      do result <- Sheets.append (AttendanceRecord.to_sheet_row attendance) ;
      ret match result with
          | Ok updatedRows => (0 <? updatedRows)%Z
          | Raise _ => false
          end
  end.

Record Summary : Type := mkSummary {
  total_records : nat;
  present : nat;
  absent : nat;
  excused : nat;
  late : nat;
  attendance_rate : Q;
  average_duration : Q
}.

Definition count_status (status : string) (records : list AttendanceRecord.t)
  : nat :=
  List.length
    (List.filter (fun r => String.eqb (AttendanceRecord.attendance_status r) status)
       records).

(** [[r.duration_minutes for r in records
      if r.attendance_status in ['present', 'late'] and r.duration_minutes]] *)
Fixpoint durations (records : list AttendanceRecord.t) : res (list Z) :=
  match records with
  | [] => Ok []
  | r :: rest =>
      if str_in (AttendanceRecord.attendance_status r) ["present"; "late"]
      then
        try d <-- AttendanceRecord.duration_minutes r ;;
        try ds <-- durations rest ;;
        Ok match d with
           | Some minutes => if (minutes =? 0)%Z then ds else minutes :: ds
           | None => ds
           end
      else durations rest
  end.

Definition sum (l : list Z) : Z := fold_left Z.add l 0%Z.

(** The part of [get_event_attendance_summary] after the read; the
    numbers are floats from the first division on. *)
Definition summarize (records : list AttendanceRecord.t) : res Summary :=
  let total := List.length records in
  let n_present := count_status "present" records in
  let n_absent := count_status "absent" records in
  let n_excused := count_status "excused" records in
  let n_late := count_status "late" records in
  if (0 <? total)%nat then
    let present_and_late := (n_present + n_late)%nat in
    try ratio <-- Float.true_div (Z.of_nat present_and_late) (Z.of_nat total) ;;
    let rate := Float.round1 (Float.mul ratio 100) in
    try ds <-- durations records ;;
    try average <--
      match ds with
      | [] => Ok 0%Q
      | _ :: _ =>
          try mean <-- Float.true_div (sum ds) (Z.of_nat (List.length ds)) ;;
          Ok (Float.round1 mean)
      end ;;
    Ok (mkSummary total n_present n_absent n_excused n_late rate average)
  else
    Ok (mkSummary total n_present n_absent n_excused n_late 0%Q 0%Q).

Definition get_event_attendance_summary (now : string) (event_id : string)
  : M (res Summary) :=
  do records <- get_attendance_by_event now event_id ;
  ret (summarize records).

End AttendanceCRUD.

(** ** Predicates used to state the properties *)

(** No optional text field holds the empty string: [None] and [""] are
    written to the same cell. *)
Definition Member_normal (m : Member.t) : Prop :=
  Member.wix_user_id m <> Some "" /\ Member.join_date m <> Some "" /\
  Member.graduation_year m <> Some "" /\ Member.major m <> Some "" /\
  Member.emergency_contact m <> Some "" /\
  Member.emergency_phone m <> Some "" /\ Member.notes m <> Some "".

(** The description is absent or non-empty and the capacity is absent or
    a positive number whose numeral has at most 4300 digits. *)
Definition Event_normal (e : Event.t) : Prop :=
  Event.description e <> Some "" /\
  match Event.max_attendees e with
  | Some n => (0 < n)%Z /\ Py.digits n <= 4300
  | None => True
  end.

(** The capacity, if there is one, has a numeral of at most 4300 digits:
    [str] writes it. *)
Definition capacity_fits (e : Event.t) : Prop :=
  match Event.max_attendees e with
  | Some n => Py.digits n <= 4300
  | None => True
  end.

(** What a capacity reads back as: a positive one survives the cell; zero
    and absence both read back as absence; a negative one is dropped as
    well. *)
Definition capacity_read_back (m : option Z) : option Z :=
  match m with
  | Some n => if (0 <? n)%Z then Some n else None
  | None => None
  end.

(** The row of an event whose capacity [str] writes. *)
Definition Event_row (e : Event.t) : Row :=
  match Event.to_sheet_row e with
  | Ok row => row
  | Raise _ => []
  end.

Definition AttendanceRecord_normal (a : AttendanceRecord.t) : Prop :=
  AttendanceRecord.check_in_time a <> Some "" /\
  AttendanceRecord.check_out_time a <> Some "" /\
  AttendanceRecord.notes a <> Some "".

(** The entities of the rows that parse, in order. *)
Definition parsed {A} (parse : Row -> res A) (rows : list Row) : list A :=
  omap (fun row => match parse row with Ok a => Some a | Raise _ => None end) rows.

(** What a read shows of a sheet whose first row is not blank: the header
    row, if it is there, is left out. *)
Definition shown {A} (parse : Row -> res A) (header : string) (rows : list Row)
  : list A :=
  match rows with
  | (c :: _) :: rest => if String.eqb c header then parsed parse rest
                        else parsed parse rows
  | _ => parsed parse rows
  end.

(** The first row of the sheet, if there is one, is not blank. *)
Definition first_row_filled (rows : list Row) : Prop :=
  match rows with
  | [] :: _ => False
  | _ => True
  end.

(** How many rows carry [id] in column A. *)
Definition rows_with_id (id : string) (rows : list Row) : nat :=
  List.length (List.filter (fun row => String.eqb (cell 0 row) id) rows).

(** ** Sample data *)

Definition sample_now : string := "2024-03-01T10:00:00".

Definition sample_member : Member.t :=
  Member.mk "MBR_20240301100000" "John" "Doe" "john.doe@berkeley.edu"
    "555-123-4567" None "member" "active" "pending" None (Some "2025")
    (Some "Computer Science") None None None (Some sample_now) (Some sample_now).

(** The same person entered again under the same identifier. *)
Definition sample_member_again : Member.t :=
  Member.mk "MBR_20240301100000" "Johnny" "Doe" "johnny.doe@berkeley.edu"
    "555-123-4567" None "exec" "active" "paid" None None None None None None
    (Some sample_now) (Some sample_now).

Definition members_sheet : World := mkWorld [Member.get_headers] [].

(** A members tab whose first row is blank: the data start on row 2. *)
Definition members_blank_first : World :=
  mkWorld [[]; Member.to_sheet_row sample_member] [].

Definition members_with_header : World :=
  mkWorld [Member.get_headers; Member.to_sheet_row sample_member] [].

Definition sample_event : Event.t :=
  Event.mk "EVT_20240301100000" "Weekly Practice" "practice" "2024-03-20"
    "18:00" "20:00" "Memorial Stadium" None true (Some 25%Z) "MBR_001"
    "scheduled" (Some sample_now) (Some sample_now).

Definition events_blank_first : World :=
  mkWorld [[]; Event_row sample_event] [].

Definition attendance_first : AttendanceRecord.t :=
  AttendanceRecord.mk "ATT_EVT1_MBR1_20240301100000" "EVT1" "MBR1" "present"
    (Some "18:05") None None "system" (Some sample_now) (Some sample_now).

(** The same member at the same event, recorded five seconds later: the
    identifier [generate_record_id] gives carries the later time. *)
Definition attendance_again : AttendanceRecord.t :=
  AttendanceRecord.mk "ATT_EVT1_MBR1_20240301100005" "EVT1" "MBR1" "absent"
    None None None "system" (Some sample_now) (Some sample_now).

Definition attendance_other : AttendanceRecord.t :=
  AttendanceRecord.mk "ATT_EVT2_MBR2_20240301100000" "EVT2" "MBR2" "present"
    None None None "system" (Some sample_now) (Some sample_now).

(** A record of the first pair that carries the identifier of the other
    pair's row. *)
Definition attendance_clash : AttendanceRecord.t :=
  AttendanceRecord.mk "ATT_EVT2_MBR2_20240301100000" "EVT1" "MBR1" "late"
    None None None "system" (Some sample_now) (Some sample_now).

Definition attendance_sheet : World :=
  mkWorld [AttendanceRecord.get_headers;
           AttendanceRecord.to_sheet_row attendance_first] [].

Definition attendance_sheet2 : World :=
  mkWorld [AttendanceRecord.get_headers;
           AttendanceRecord.to_sheet_row attendance_first;
           AttendanceRecord.to_sheet_row attendance_other] [].

Definition attendance_blank_first : World :=
  mkWorld [[]; AttendanceRecord.to_sheet_row attendance_first] [].

(** How many rows belong to the pair of an event and a member. *)
Definition rows_of_pair (event_id member_id : string) (rows : list Row) : nat :=
  List.length
    (List.filter (fun row => String.eqb (cell 1 row) event_id
                             && String.eqb (cell 2 row) member_id) rows).

(** The statuses of the claim: the rate limit, 429, and the server errors
    500, 502, 503 and 504. *)
Definition rate_limit_or_server_error (status : Z) : Prop :=
  (status = 429 \/ status = 500 \/ status = 502 \/ status = 503 \/ status = 504)%Z.


(** [delay] times two to the power [i]. *)
Definition doubled (delay : Q) (i : nat) : Q :=
  (delay * inject_Z (2 ^ Z.of_nat i))%Q.

(** A wait that [time.sleep] takes: not negative, and short enough for its
    nanoseconds to fit 64 bits (some 292 years). *)
Definition sleepable (seconds : Q) : Prop :=
  (0 <= seconds)%Q /\ (seconds * 1000000000 < inject_Z (2 ^ 63 - 512))%Q.




(** A request that is refused twice for the rate limit and then answered. *)
Definition twice_limited (k : nat) : res string :=
  if (k <? 2)%nat then Raise (HttpError 429 "rate limit exceeded")
  else Ok "response".




(** A failure that is not an HTTP response at all. *)
Definition always_timeout (k : nat) : res string :=
  Raise (OtherError "timed out").

(** An event for which no seat at all is offered. *)
Definition event_zero_capacity_fields : Event.t :=
  Event.mk "EVT_20240301100001" "Board Meeting" "meeting" "2024-03-21"
    "12:00" "13:00" "Room 1" None false (Some 0%Z) "MBR_001" "scheduled"
    None None.

(** An event whose capacity has 4301 digits. *)
Definition event_huge_capacity : Event.t :=
  Event.mk "EVT_20240301100007" "Open Day" "social" "2024-03-22"
    "10:00" "16:00" "Main Field" None false (Some (10 ^ 4300)%Z) "MBR_001"
    "scheduled" (Some sample_now) (Some sample_now).

Definition event_zero_capacity : Event.t :=
  Event.mk "EVT_20240301100001" "Board Meeting" "meeting" "2024-03-21"
    "12:00" "13:00" "Room 1" None false (Some 0%Z) "MBR_001" "scheduled"
    (Some sample_now) (Some sample_now).

(** A members row with blank role, membership-status and payment-status
    cells. *)
Definition member_row_blank_enums : Row :=
  ["MBR_20240301100002"; "Jane"; "Roe"; "jane.roe@berkeley.edu";
   "(555) 987-6543"; ""; ""; ""; ""].

Definition event_row_blank_status : Row :=
  ["EVT_20240301100003"; "Friendly"; "game"; "2024-04-02"; "15:00"; "17:00";
   "Field 2"].

(** An enum cell is blank or holds one of the allowed words. *)
Definition blank_or_in (c : string) (allowed : list string) : Prop :=
  c = "" \/ Py.str_in c allowed = true.

(** The cells of a members row that [Member._validate] insists on are
    valid, and each enum cell is blank or valid. *)
Definition member_row_ok (row : Row) : Prop :=
  Py.truthy (cell 0 row) = true /\ Py.truthy (cell 1 row) = true /\
  Py.truthy (cell 2 row) = true /\
  Member._is_valid_email (cell 3 row) = true /\
  Member._is_valid_phone (cell 4 row) = true /\
  blank_or_in (cell 6 row) ["member"; "exec"] /\
  blank_or_in (cell 7 row) ["active"; "inactive"; "suspended"] /\
  blank_or_in (cell 8 row) ["paid"; "pending"; "overdue"].

Definition event_row_ok (row : Row) : Prop :=
  Py.truthy (cell 0 row) = true /\ Py.truthy (cell 1 row) = true /\
  Py.str_in (cell 2 row) ["practice"; "game"; "meeting"; "social"] = true /\
  Event._is_valid_date (cell 3 row) = true /\
  Event._is_valid_time (cell 4 row) = true /\
  Event._is_valid_time (cell 5 row) = true /\
  is_ok (Event.parse_max_attendees (cell 9 row)) = true /\
  blank_or_in (cell 11 row) ["scheduled"; "cancelled"; "completed"].

(** What a read that is let through returns. *)
Definition seen {A} (parse : Row -> res A) (header : string) (rows : list Row)
  : list A :=
  match Sheets.read_rows parse header 0 rows with
  | Ok l => l
  | Raise _ => []
  end.

(** A valid time of day in minutes since midnight. *)
Definition minutes (s : string) : Z :=
  match Strptime.parse_HM s with
  | Some hm => Strptime.minutes_of hm
  | None => 0%Z
  end.

(** [new_start < existing_end and new_end > existing_start] *)
Definition windows_overlap (new_event existing : Event.t) : bool :=
  (minutes (Event.start_time new_event) <? minutes (Event.end_time existing))%Z
  && (minutes (Event.end_time new_event) >? minutes (Event.start_time existing))%Z.

Definition cancelled (e : Event.t) : bool :=
  String.eqb (Event.status e) "cancelled".

Definition blocks (new_event existing : Event.t) : bool :=
  negb (cancelled existing) && windows_overlap new_event existing.

Definition events_sheet : World :=
  mkWorld [Event.get_headers; Event_row sample_event] [].

(** 19:00 to 21:00 on the day of [sample_event], which runs 18:00 to
    20:00. *)
Definition event_overlapping : Event.t :=
  Event.mk "EVT_20240301100004" "Scrimmage" "game" "2024-03-20"
    "19:00" "21:00" "Memorial Stadium" None false None "MBR_001"
    "scheduled" (Some sample_now) (Some sample_now).






(** Four records of one event, two present, one absent, one late, and a
    record of another event. *)
Definition attendance_sheet_four : World :=
  mkWorld
    [AttendanceRecord.get_headers;
     ["ATT_EVT1_MBR1_20240320180500"; "EVT1"; "MBR1"; "present"; "18:05"; "19:55"];
     ["ATT_EVT1_MBR2_20240320180600"; "EVT1"; "MBR2"; "present"; "18:06"];
     ["ATT_EVT1_MBR3_20240320200000"; "EVT1"; "MBR3"; "absent"];
     ["ATT_EVT1_MBR4_20240320183000"; "EVT1"; "MBR4"; "late"; "18:30"; "20:00"];
     ["ATT_EVT2_MBR1_20240321180000"; "EVT2"; "MBR1"; "excused"]]
    [].

(** The records of eighty members at one event, the first twenty-three
    present, the others absent. *)
Definition attendance_row_of (i : nat) : Row :=
  let member := ("M" ++ NilEmpty.string_of_uint (Nat.to_uint i))%string in
  [("ATT_EVT9_" ++ member ++ "_20240320180000")%string; "EVT9"; member;
   if (i <? 23)%nat then "present" else "absent"].

Definition attendance_sheet_eighty : World :=
  mkWorld (AttendanceRecord.get_headers :: map attendance_row_of (seq 0 80)) [].

(** [(present + late) / total_records * 100] as a number, before any
    rounding. *)
Definition exact_rate (s : AttendanceCRUD.Summary) : Q :=
  (inject_Z (Z.of_nat (AttendanceCRUD.present s + AttendanceCRUD.late s))
   / inject_Z (Z.of_nat (AttendanceCRUD.total_records s)) * 100)%Q.

(** The same expression as the floats evaluate it, with [round(_, 1)]
    around it. *)
Definition float_rate (s : AttendanceCRUD.Summary) : Q :=
  Float.round1
    (Float.mul
       (Float.nearest
          (inject_Z (Z.of_nat (AttendanceCRUD.present s + AttendanceCRUD.late s))
           / inject_Z (Z.of_nat (AttendanceCRUD.total_records s))))
       100).

(** A number rounded to one decimal place as the claim has it: the nearest
    multiple of one tenth of the number itself, a tie going to the even
    digit. *)
Definition rounded_to_one_decimal (x : Q) : Q :=
  (Float.round_half_even (x * 10) # 10)%Q.


(** ** Definitions for the further properties *)

From Stdlib Require OrderedTypeEx.
From Stdlib Require Import Sorted Permutation.

(** The expression matches nothing at all. *)
Fixpoint re_dead (r : Py.regex) : bool :=
  match r with
  | Py.Void => true
  | Py.Eps | Py.Cls _ | Py.Star _ => false
  | Py.Cat r s => re_dead r || re_dead s
  | Py.Alt r s => re_dead r && re_dead s
  end.

(** Some character class of the expression holds [c]. *)
Fixpoint re_accepts (r : Py.regex) (c : ascii) : bool :=
  match r with
  | Py.Void | Py.Eps => false
  | Py.Cls p => p c
  | Py.Cat r s | Py.Alt r s => re_accepts r c || re_accepts s c
  | Py.Star r => re_accepts r c
  end.

(** The characters an e-mail address may be written with. *)
Definition email_char (c : ascii) : bool :=
  Py.is_alnum c || Py.one_of "._%+-@" c.

Definition newline : string := String "010"%char EmptyString.

(** *** The remote sheet, continued *)

(** A row without any filled cell. *)
Definition blank_row (row : Row) : bool := forallb (String.eqb "") row.

(** [values().get] leaves out the blank rows at the end of a tab. *)
Fixpoint drop_blank_tail (rows : list Row) : list Row :=
  match rows with
  | [] => []
  | row :: rest =>
      match drop_blank_tail rest with
      | [] => if blank_row row then [] else [row]
      | rest' => row :: rest'
      end
  end.

(** [values().get(range="<tab>!A1:<last>1")]: the first row, unless it is
    blank. *)
Definition read_first_row (rows : list Row) : list Row :=
  match rows with
  | row :: _ => if blank_row row then [] else [row]
  | [] => []
  end.

Definition get_first_row : M (res (list Row)) :=
  Sheets.request (fun rows => (read_first_row rows, rows)).

(** [values().update(range="<tab>!A1:<last>1")] with a row that fills the
    whole width: the first row is replaced, or created on an empty tab. *)
Definition write_first_row (row : Row) (rows : list Row) : list Row :=
  match rows with
  | _ :: rest => row :: rest
  | [] => [row]
  end.

Definition update_first_row (row : Row) : M (res Z) :=
  Sheets.request (fun rows => (1%Z, write_first_row row rows)).

(** [values().clear(range="<tab>!A<n>:<last><n>")]: the row is emptied in
    place; the answer is whether [result['clearedRange']] is there. *)
Definition clear (row_number : nat) : M (res bool) :=
  Sheets.request
    (fun rows => (true, drop_blank_tail (<[row_number - 1 := []]> rows))).

(** The body shared by the three [initialize_sheet] methods. *)
Definition initialize (label : string) (headers : Row) : M bool :=
  do result <- get_first_row ;
  match result with
  | Raise _ => ret false
  | Ok values =>
      let missing :=
        match values with
        | [] => true
        | row :: _ => negb (String.eqb (cell 0 row) label)
        end in
      if missing then
        do written <- update_first_row headers ;
        ret match written with Ok _ => true | Raise _ => false end
      else ret true
  end.

(** *** member_crud.py, continued *)

Module Members.

Definition _find_member_row (member_id : string) : M (option nat) :=
  Sheets.find_row member_id.

(** [member.updated_at = pd.Timestamp.now().isoformat()] *)
Definition touch (now : string) (m : Member.t) : Member.t :=
  Member.mk (Member.member_id m) (Member.first_name m) (Member.last_name m)
    (Member.email m) (Member.phone m) (Member.wix_user_id m) (Member.role m)
    (Member.membership_status m) (Member.payment_status m)
    (Member.join_date m) (Member.graduation_year m) (Member.major m)
    (Member.emergency_contact m) (Member.emergency_phone m) (Member.notes m)
    (Member.created_at m) (Some now).

Definition update_member (now : string) (member : Member.t) : M bool :=
  do row_number <- _find_member_row (Member.member_id member) ;
  match row_number with
  | None => ret false
  | Some row_number =>
      do result <- Sheets.update row_number
                     (Member.to_sheet_row (touch now member)) ;
      ret match result with
          | Ok updatedRows => (0 <? updatedRows)%Z
          | Raise _ => false
          end
  end.

(** [member.membership_status = "inactive"] *)
Definition deactivate (m : Member.t) : Member.t :=
  Member.mk (Member.member_id m) (Member.first_name m) (Member.last_name m)
    (Member.email m) (Member.phone m) (Member.wix_user_id m) (Member.role m)
    "inactive" (Member.payment_status m)
    (Member.join_date m) (Member.graduation_year m) (Member.major m)
    (Member.emergency_contact m) (Member.emergency_phone m) (Member.notes m)
    (Member.created_at m) (Member.updated_at m).

Definition delete_member (now : string) (member_id : string) : M bool :=
  do member <- MembersCRUD.get_member_by_id now member_id ;
  match member with
  | None => ret false
  | Some member => update_member now (touch now (deactivate member))
  end.

Definition get_members_by_role (now : string) (role : string)
  : M (list Member.t) :=
  do all_members <- MembersCRUD.get_all_members now ;
  ret (List.filter (fun m => String.eqb (Member.role m) role) all_members).

Definition get_members_by_payment_status (now : string) (payment_status : string)
  : M (list Member.t) :=
  do all_members <- MembersCRUD.get_all_members now ;
  ret (List.filter (fun m => String.eqb (Member.payment_status m) payment_status)
         all_members).

Definition initialize_sheet : M bool :=
  initialize "Member ID" Member.get_headers.

End Members.

(** *** event_crud.py, continued *)

(** ** Dates *)

(** A [date] is kept as its proleptic Gregorian ordinal, day 1 being
    0001-01-01: dates compare as their ordinals do, and adding a
    [timedelta] adds its days to the ordinal. *)
Definition MAXORDINAL : Z := 3652059.

Definition days_before_year (year : nat) : Z :=
  let y := (Z.of_nat year - 1)%Z in
  (y * 365 + y / 4 - y / 100 + y / 400)%Z.

Definition days_before_month (year month : nat) : nat :=
  list_sum (map (Strptime.days_in_month year) (seq 1 (month - 1))).

Definition toordinal (date : nat * nat * nat) : Z :=
  let '(year, month, day) := date in
  (days_before_year year + Z.of_nat (days_before_month year month)
   + Z.of_nat day)%Z.

(** ** models.py: the [datetime] properties of an [Event] *)

Module EventTimes.

Import Py.
Import Strptime.

(** [\s] of [re] on code points below 256. *)
Definition is_space (c : ascii) : bool :=
  in_range 9 13 c || in_range 28 32 c || (code c =? 133)%nat || (code c =? 160)%nat.

(** [\s+], which a blank of the format stands for: the rests after one or
    more blanks, the longest run first. *)
Fixpoint spaces (s : list ascii) : list (list ascii) :=
  match s with
  | c :: rest => if is_space c then spaces rest ++ [rest] else []
  | [] => []
  end.

(** The year, month and day directives with what follows them. *)
Definition date_then {B} (s : list ascii)
    (k : nat * nat * nat -> list ascii -> option B) : option B :=
  first_match (dir_Y s) (fun y s1 =>
    match lit "-"%char s1 with
    | Some s2 =>
        first_match (dir_m s2) (fun m s3 =>
          match lit "-"%char s3 with
          | Some s4 => first_match (dir_d s4) (fun d s5 => k (y, m, d) s5)
          | None => None
          end)
    | None => None
    end).

(** The hour and minute directives with what follows them. *)
Definition time_then {B} (s : list ascii)
    (k : nat * nat -> list ascii -> option B) : option B :=
  first_match (dir_H s) (fun h s1 =>
    match lit ":"%char s1 with
    | Some s2 => first_match (dir_M s2) (fun mi s3 => k (h, mi) s3)
    | None => None
    end).

(** [datetime.strptime(s, "%Y-%m-%d %H:%M")]: the date, which must exist,
    and the time of day; [None] for [ValueError]. *)
Definition parse_YmdHM (s : string) : option (nat * nat * nat * (nat * nat)) :=
  match
    whole
      (date_then (list_ascii_of_string s) (fun date s1 =>
         first_match (map (pair 0) (spaces s1)) (fun _ s2 =>
           time_then s2 (fun hm s3 => at_end (date, hm) s3))))
  with
  | Some (y, m, d, hm) =>
      if ((1 <=? y) && (d <=? days_in_month y m))%nat then Some (y, m, d, hm)
      else None
  | None => None
  end.

(** A [datetime] without seconds: the ordinal of its date and the minutes
    since midnight. *)
Definition strptime (s : string) : res (Z * Z) :=
  match parse_YmdHM s with
  | Some (date, hm) => Ok (toordinal date, minutes_of hm)
  | None =>
      Raise (ValueError "time data does not match format '%Y-%m-%d %H:%M'")
  end.

Definition datetime_start (self : Event.t) : res (Z * Z) :=
  strptime (Event.event_date self ++ " " ++ Event.start_time self).

Definition datetime_end (self : Event.t) : res (Z * Z) :=
  strptime (Event.event_date self ++ " " ++ Event.end_time self).

(** [int((self.datetime_end - self.datetime_start).total_seconds() / 60)]:
    the end is computed first; [int] truncates towards zero. *)
Definition duration_minutes (self : Event.t) : res Z :=
  try finish <-- datetime_end self ;;
  try start <-- datetime_start self ;;
  let total_seconds :=
    (((fst finish - fst start) * 1440 + (snd finish - snd start)) * 60)%Z in
  Ok (Z.quot total_seconds 60).

End EventTimes.

Module Events.

Definition _find_event_row (event_id : string) : M (option nat) :=
  Sheets.find_row event_id.

(** [event.updated_at = datetime.now().isoformat()] *)
Definition touch (now : string) (e : Event.t) : Event.t :=
  Event.mk (Event.event_id e) (Event.event_name e) (Event.event_type e)
    (Event.event_date e) (Event.start_time e) (Event.end_time e)
    (Event.location e) (Event.description e) (Event.is_mandatory e)
    (Event.max_attendees e) (Event.created_by e) (Event.status e)
    (Event.created_at e) (Some now).

Definition update_event (now : string) (event : Event.t) : M bool :=
  do row_number <- _find_event_row (Event.event_id event) ;
  match row_number with
  | None => ret false
  | Some row_number =>
      match Event.to_sheet_row (touch now event) with
      | Ok row_data =>
          do result <- Sheets.update row_number row_data ;
          ret match result with
              | Ok updatedRows => (0 <? updatedRows)%Z
              | Raise _ => false
              end
      | Raise _ => ret false
      end
  end.

(** [event.status = "cancelled"] *)
Definition cancel (e : Event.t) : Event.t :=
  Event.mk (Event.event_id e) (Event.event_name e) (Event.event_type e)
    (Event.event_date e) (Event.start_time e) (Event.end_time e)
    (Event.location e) (Event.description e) (Event.is_mandatory e)
    (Event.max_attendees e) (Event.created_by e) "cancelled"
    (Event.created_at e) (Event.updated_at e).

Definition delete_event (now : string) (event_id : string) : M bool :=
  do event <- EventsCRUD.get_event_by_id now event_id ;
  match event with
  | None => ret false
  | Some event => update_event now (touch now (cancel event))
  end.

Definition get_events_by_type (now : string) (event_type : string)
  : M (list Event.t) :=
  do all_events <- EventsCRUD.get_all_events now ;
  ret (List.filter (fun e => String.eqb (Event.event_type e) event_type)
         all_events).

Definition get_events_by_status (now : string) (status : string)
  : M (list Event.t) :=
  do all_events <- EventsCRUD.get_all_events now ;
  ret (List.filter (fun e => String.eqb (Event.status e) status) all_events).

Definition get_mandatory_events (now : string) : M (list Event.t) :=
  do all_events <- EventsCRUD.get_all_events now ;
  ret (List.filter Event.is_mandatory all_events).

(** [(e1.event_date, e1.start_time) < (e2.event_date, e2.start_time)], the
    comparison of the sort keys: tuples of strings, strings by code
    point. *)
Definition key_lt (e1 e2 : Event.t) : bool :=
  if String.eqb (Event.event_date e1) (Event.event_date e2)
  then String.ltb (Event.start_time e1) (Event.start_time e2)
  else String.ltb (Event.event_date e1) (Event.event_date e2).

(** [list.sort(key=...)] is stable: an event goes in front of the first one
    that is not smaller. *)
Fixpoint insert_by_key (e : Event.t) (sorted : list Event.t) : list Event.t :=
  match sorted with
  | [] => [e]
  | x :: rest => if key_lt x e then x :: insert_by_key e rest else e :: sorted
  end.

Definition sort_by_key (events : list Event.t) : list Event.t :=
  fold_right insert_by_key [] events.

(** The test of the loop of [get_upcoming_events]; a date that does not
    parse raises [ValueError], which skips the event. *)
Definition is_upcoming (today cutoff_date : Z) (event : Event.t) : bool :=
  match Strptime.parse_Ymd (Event.event_date event) with
  | Some event_date =>
      (today <=? toordinal event_date)%Z
      && (toordinal event_date <=? cutoff_date)%Z
      && String.eqb (Event.status event) "scheduled"
  | None => false
  end.

(** [get_upcoming_events]: [today] is the ordinal of
    [datetime.now().date()].  [timedelta(days=days_ahead)] and the addition
    to [today] raise [OverflowError] out of range, and nothing catches
    it. *)
Definition get_upcoming_events (now : string) (today : Z) (days_ahead : Z)
  : M (res (list Event.t)) :=
  do all_events <- EventsCRUD.get_all_events now ;
  ret (if (999999999 <? Z.abs days_ahead)%Z
       then Raise (OtherError "OverflowError: days out of range")
       else
         let cutoff_date := (today + days_ahead)%Z in
         if (0 <? cutoff_date)%Z && (cutoff_date <=? MAXORDINAL)%Z
         then Ok (sort_by_key (List.filter (is_upcoming today cutoff_date) all_events))
         else Raise (OtherError "OverflowError: date value out of range")).

Definition initialize_sheet : M bool :=
  initialize "Event ID" Event.get_headers.

End Events.

(** *** attendance_crud.py, continued *)

(** ** The clock *)

(** [%H] and [%M] of [strftime]: two digits, padded with a zero. *)
Definition two_digits (n : nat) : string :=
  String (ascii_of_nat (48 + n / 10)) (String (ascii_of_nat (48 + n mod 10)) "").

(** [datetime.now().strftime("%H:%M")] at [hour] hours and [minute]
    minutes. *)
Definition strftime_HM (hour minute : nat) : string :=
  two_digits hour ++ ":" ++ two_digits minute.

(** models.py: [generate_record_id]; [timestamp] is
    [datetime.now().strftime("%Y%m%d%H%M%S")]. *)
Definition generate_record_id (timestamp : string) (event_id member_id : string)
  : string :=
  "ATT_" ++ event_id ++ "_" ++ member_id ++ "_" ++ timestamp.

Module Attendance.

Definition delete_attendance_record (record_id : string) : M bool :=
  do row_number <- AttendanceCRUD._find_attendance_row record_id ;
  match row_number with
  | None => ret false
  | Some row_number =>
      do result <- clear row_number ;
      ret match result with
          | Ok clearedRange => clearedRange
          | Raise _ => false
          end
  end.

Definition get_attendance_by_member (now : string) (member_id : string)
  : M (list AttendanceRecord.t) :=
  do all_records <- AttendanceCRUD.get_all_attendance now ;
  ret (List.filter (fun r => String.eqb (AttendanceRecord.member_id r) member_id)
         all_records).

Record Stats : Type := mkStats {
  total_events : nat;
  present : nat;
  absent : nat;
  excused : nat;
  late : nat;
  attendance_rate : Q;
  total_hours : Q
}.

(** [[r.duration_minutes for r in records
      if r.duration_minutes and r.attendance_status in ['present', 'late']]]:
    here the duration is computed for every record, whatever its status. *)
Fixpoint attended_minutes (records : list AttendanceRecord.t) : res (list Z) :=
  match records with
  | [] => Ok []
  | r :: rest =>
      try d <-- AttendanceRecord.duration_minutes r ;;
      try ds <-- attended_minutes rest ;;
      Ok match d with
         | Some minutes =>
             if negb (minutes =? 0)%Z
                && Py.str_in (AttendanceRecord.attendance_status r) ["present"; "late"]
             then minutes :: ds
             else ds
         | None => ds
         end
  end.

(** The part of [get_member_attendance_stats] after the read; the numbers
    are floats from the first division on. *)
Definition member_stats (records : list AttendanceRecord.t) : res Stats :=
  let total := List.length records in
  let n_present := AttendanceCRUD.count_status "present" records in
  let n_absent := AttendanceCRUD.count_status "absent" records in
  let n_excused := AttendanceCRUD.count_status "excused" records in
  let n_late := AttendanceCRUD.count_status "late" records in
  if (0 <? total)%nat then
    let attended := (n_present + n_late)%nat in
    try ratio <-- Float.true_div (Z.of_nat attended) (Z.of_nat total) ;;
    let rate := Float.round1 (Float.mul ratio 100) in
    try ms <-- attended_minutes records ;;
    let total_minutes := AttendanceCRUD.sum ms in
    try hours <-- Float.true_div total_minutes 60 ;;
    Ok (mkStats total n_present n_absent n_excused n_late rate
          (Float.round1 hours))
  else
    Ok (mkStats total n_present n_absent n_excused n_late 0%Q 0%Q).

Definition get_member_attendance_stats (now : string) (member_id : string)
  : M (res Stats) :=
  do records <- get_attendance_by_member now member_id ;
  ret (member_stats records).

(** [AttendanceRecord(...)] inside a [try] whose handler returns
    [False]. *)
Definition construct (now : string) (raw : AttendanceRecord.t)
    (k : AttendanceRecord.t -> M bool) : M bool :=
  match AttendanceRecord.__post_init__ now raw with
  | Ok record => k record
  | Raise _ => ret false
  end.

(** [check_in_member]: [hour] and [minute] are those of
    [current_time = datetime.now()], [timestamp] is what
    [generate_record_id] reads off the clock, [now] the ISO reading. *)
Definition check_in_member (now : string) (hour minute : nat) (timestamp : string)
    (event_id member_id recorded_by : string) : M bool :=
  do existing_record <- AttendanceCRUD.get_attendance_record now event_id member_id ;
  match existing_record with
  | Some existing_record =>
      AttendanceCRUD.update_attendance now
        (AttendanceRecord.mk
           (AttendanceRecord.record_id existing_record)
           (AttendanceRecord.event_id existing_record)
           (AttendanceRecord.member_id existing_record)
           "present"
           (Some (strftime_HM hour minute))
           (AttendanceRecord.check_out_time existing_record)
           (AttendanceRecord.notes existing_record)
           recorded_by
           (AttendanceRecord.created_at existing_record)
           (AttendanceRecord.updated_at existing_record))
  | None =>
      construct now
        (AttendanceRecord.mk
           (generate_record_id timestamp event_id member_id)
           event_id member_id "present"
           (Some (strftime_HM hour minute)) None None recorded_by None None)
        (AttendanceCRUD.record_attendance now)
  end.

Definition check_out_member (now : string) (hour minute : nat)
    (event_id member_id : string) : M bool :=
  do existing_record <- AttendanceCRUD.get_attendance_record now event_id member_id ;
  match existing_record with
  | None => ret false
  | Some existing_record =>
      AttendanceCRUD.update_attendance now
        (AttendanceRecord.mk
           (AttendanceRecord.record_id existing_record)
           (AttendanceRecord.event_id existing_record)
           (AttendanceRecord.member_id existing_record)
           (AttendanceRecord.attendance_status existing_record)
           (AttendanceRecord.check_in_time existing_record)
           (Some (strftime_HM hour minute))
           (AttendanceRecord.notes existing_record)
           (AttendanceRecord.recorded_by existing_record)
           (AttendanceRecord.created_at existing_record)
           (AttendanceRecord.updated_at existing_record))
  end.

Definition mark_absent (now : string) (timestamp : string)
    (event_id member_id : string) (is_excused : bool) (recorded_by : string)
  : M bool :=
  let status := if is_excused then "excused" else "absent" in
  do existing_record <- AttendanceCRUD.get_attendance_record now event_id member_id ;
  match existing_record with
  | Some existing_record =>
      AttendanceCRUD.update_attendance now
        (AttendanceRecord.mk
           (AttendanceRecord.record_id existing_record)
           (AttendanceRecord.event_id existing_record)
           (AttendanceRecord.member_id existing_record)
           status
           (AttendanceRecord.check_in_time existing_record)
           (AttendanceRecord.check_out_time existing_record)
           (AttendanceRecord.notes existing_record)
           recorded_by
           (AttendanceRecord.created_at existing_record)
           (AttendanceRecord.updated_at existing_record))
  | None =>
      construct now
        (AttendanceRecord.mk
           (generate_record_id timestamp event_id member_id)
           event_id member_id status None None
           (Some ("Marked absent" ++ (if is_excused then " (excused)" else ""))%string)
           recorded_by None None)
        (AttendanceCRUD.record_attendance now)
  end.

(** One dict of [attendance_data]; [None] is a key that is missing. *)
Record Entry : Type := mkEntry {
  entry_member_id : option string;
  entry_status : option string;
  entry_check_in_time : option string;
  entry_check_out_time : option string;
  entry_notes : option string;
  entry_recorded_by : option string
}.

(** The arguments [bulk_record_attendance] passes to [AttendanceRecord]. *)
Definition entry_record (timestamp event_id member_id : string) (data : Entry)
  : AttendanceRecord.t :=
  AttendanceRecord.mk (generate_record_id timestamp event_id member_id)
    event_id member_id
    (default "present" (entry_status data))
    (entry_check_in_time data) (entry_check_out_time data) (entry_notes data)
    (default "system" (entry_recorded_by data))
    None None.

(** The loop of [bulk_record_attendance] from entry number [i] on; [now i]
    and [timestamp i] are the clock readings while entry [i] is handled.
    A missing ['member_id'] raises [KeyError], which skips the entry. *)
Fixpoint bulk_loop (now timestamp : nat -> string) (event_id : string)
    (i : nat) (attendance_data : list Entry) (successful : nat) : M nat :=
  match attendance_data with
  | [] => ret successful
  | data :: rest =>
      do recorded <-
        match entry_member_id data with
        | None => ret false
        | Some member_id =>
            construct (now i) (entry_record (timestamp i) event_id member_id data)
              (AttendanceCRUD.record_attendance (now i))
        end ;
      bulk_loop now timestamp event_id (S i) rest
        (if recorded then S successful else successful)
  end.

Definition bulk_record_attendance (now timestamp : nat -> string)
    (event_id : string) (attendance_data : list Entry) : M (nat * nat) :=
  do successful <- bulk_loop now timestamp event_id 0 attendance_data 0 ;
  ret (successful, List.length attendance_data).

Definition initialize_sheet : M bool :=
  initialize "Record ID" AttendanceRecord.get_headers.

End Attendance.

(** What the row of a valid member reads back as when the clock reads
    [now]. *)
Definition Member_read_back (now : string) (m : Member.t) : Member.t :=
  Member.mk (Member.member_id m) (Member.first_name m) (Member.last_name m)
    (Member.email m) (Member.phone m)
    (Py.none_if_empty (Py.or_empty (Member.wix_user_id m)))
    (Member.role m) (Member.membership_status m) (Member.payment_status m)
    (Py.none_if_empty (Py.or_empty (Member.join_date m)))
    (Py.none_if_empty (Py.or_empty (Member.graduation_year m)))
    (Py.none_if_empty (Py.or_empty (Member.major m)))
    (Py.none_if_empty (Py.or_empty (Member.emergency_contact m)))
    (Py.none_if_empty (Py.or_empty (Member.emergency_phone m)))
    (Py.none_if_empty (Py.or_empty (Member.notes m)))
    (if Py.truthy_opt (Member.created_at m) then Member.created_at m
     else Some now)
    (Some now).

Definition Event_read_back (now : string) (e : Event.t) : Event.t :=
  Event.mk (Event.event_id e) (Event.event_name e) (Event.event_type e)
    (Event.event_date e) (Event.start_time e) (Event.end_time e)
    (Event.location e)
    (Py.none_if_empty (Py.or_empty (Event.description e)))
    (Event.is_mandatory e)
    match Event.max_attendees e with
    | Some n => if (0 <? n)%Z then Some n else None
    | None => None
    end
    (Event.created_by e) (Event.status e)
    (if Py.truthy_opt (Event.created_at e) then Event.created_at e
     else Some now)
    (Some now).

Definition AttendanceRecord_read_back (now : string) (a : AttendanceRecord.t)
  : AttendanceRecord.t :=
  AttendanceRecord.mk (AttendanceRecord.record_id a)
    (AttendanceRecord.event_id a) (AttendanceRecord.member_id a)
    (AttendanceRecord.attendance_status a)
    (Py.none_if_empty (Py.or_empty (AttendanceRecord.check_in_time a)))
    (Py.none_if_empty (Py.or_empty (AttendanceRecord.check_out_time a)))
    (Py.none_if_empty (Py.or_empty (AttendanceRecord.notes a)))
    (AttendanceRecord.recorded_by a)
    (if Py.truthy_opt (AttendanceRecord.created_at a)
     then AttendanceRecord.created_at a else Some now)
    (Some now).

(** Some row of the tab carries [id] in its first cell. *)
Definition has_row (id : string) (rows : list Row) : Prop :=
  exists row, In row rows /\ cell 0 row = id.

(** What [initialize_sheet] promises for a tab, on a remote that answers:
    it returns [True]; afterwards the first row starts with the label and
    the rows below are the ones that were there; a tab that already starts
    with the label is left alone, any other first row is replaced by the
    headers; a second run changes nothing; and a read then returns exactly
    what the rows below the first parse to. *)
Definition initializes {A} (init : M bool) (label : string) (headers : Row)
    (read_all : string -> M (list A)) (parse : string -> Row -> res A) : Prop :=
  forall w : World,
    faults w = [] ->
    fst (init w) = true /\
    (exists first,
        values (snd (init w)) = first :: tl (values w) /\
        cell 0 first = label) /\
    (cell 0 (hd [] (values w)) = label -> snd (init w) = w) /\
    (cell 0 (hd [] (values w)) <> label ->
     values (snd (init w)) = headers :: tl (values w)) /\
    init (snd (init w)) = (true, snd (init w)) /\
    (forall now,
        fst (read_all now (snd (init w))) = parsed (parse now) (tl (values w))).

(** The seconds a run of [_execute_with_retry] spends in [time.sleep]. *)
Definition total_sleep (trace : list GoogleSheetsManager.effect) : Q :=
  fold_right Qplus 0%Q (GoogleSheetsManager.sleeps trace).

(** What [_execute_with_retry] makes of the answer of the attempt it ends
    with. *)
Definition outcome {R} (answer : res R) : res (option R) :=
  match answer with
  | Ok response => Ok (Some response)
  | Raise e => Raise e
  end.

(** The answers after which [_execute_with_retry] ends although a retry is
    left: a response, or an HTTP error that is neither the rate limit nor
    one of the listed server errors. *)
Definition final {R} (answer : res R) : Prop :=
  (exists response, answer = Ok response) \/
  (exists status body,
      answer = Raise (HttpError status body) /\
      ~ rate_limit_or_server_error status).

(** The records that count as attended: present or late. *)
Definition attended (records : list AttendanceRecord.t) : nat :=
  AttendanceCRUD.count_status "present" records
  + AttendanceCRUD.count_status "late" records.

(** [strptime] reads the hour and the minute back from what [strftime]
    wrote. *)
Definition strftime_read_back (hour minute : nat) : bool :=
  match Strptime.parse_HM (strftime_HM hour minute) with
  | Some (h, m) => (h =? hour)%nat && (m =? minute)%nat
  | None => false
  end.

(** The condition of [get_attendance_record]. *)
Definition of_pair (event_id member_id : string) (record : AttendanceRecord.t)
  : bool :=
  String.eqb (AttendanceRecord.event_id record) event_id
  && String.eqb (AttendanceRecord.member_id record) member_id.

(** What the constructor makes of valid arguments at the clock reading
    [now]. *)
Definition stamped (now : string) (raw : AttendanceRecord.t) : AttendanceRecord.t :=
  AttendanceRecord.mk (AttendanceRecord.record_id raw)
    (AttendanceRecord.event_id raw) (AttendanceRecord.member_id raw)
    (AttendanceRecord.attendance_status raw)
    (AttendanceRecord.check_in_time raw) (AttendanceRecord.check_out_time raw)
    (AttendanceRecord.notes raw) (AttendanceRecord.recorded_by raw)
    (if Py.truthy_opt (AttendanceRecord.created_at raw)
     then AttendanceRecord.created_at raw else Some now)
    (Some now).

(** The rows with the first one that carries [id] in its first cell
    replaced by [row']; every other row stays where it is. *)
Fixpoint replace_first (id : string) (row' : Row) (rows : list Row) : list Row :=
  match rows with
  | [] => []
  | row :: rest =>
      if String.eqb (cell 0 row) id then row' :: rest
      else row :: replace_first id row' rest
  end.

(** The members a batch names, in order. *)
Definition batch_members (attendance_data : list Attendance.Entry) : list string :=
  omap Attendance.entry_member_id attendance_data.

(** [e1] does not come after [e2] in the order of the sort keys. *)
Definition key_le (e1 e2 : Event.t) : Prop := Events.key_lt e2 e1 = false.

(** A candidate of a directive with [u] put behind what it leaves unread. *)
Definition behind (u : list ascii) (x : nat * list ascii) : nat * list ascii :=
  (fst x, snd x ++ u).
(* ===================================================================== *)
(** * Part II: properties *)
(* ===================================================================== *)

(** ** Strings, cells and padding *)

Lemma truthy_true s : Py.truthy s = true <-> s <> "".
Proof.
  unfold Py.truthy. destruct (String.eqb_spec s ""); simpl; split; congruence.
Qed.

Lemma truthy_false s : Py.truthy s = false <-> s = "".
Proof.
  unfold Py.truthy. destruct (String.eqb_spec s ""); simpl; split; congruence.
Qed.

Lemma none_if_empty_or_empty (o : option string) :
  o <> Some "" -> Py.none_if_empty (Py.or_empty o) = o.
Proof.
  intros Ho. destruct o as [s|]; simpl; [|reflexivity].
  unfold Py.none_if_empty.
  destruct (Py.truthy s) eqn:E; simpl.
  - now rewrite E.
  - apply truthy_false in E. congruence.
Qed.

Lemma or_empty_truthy (o : option string) :
  Py.truthy_opt o = true -> Py.none_if_empty (Py.or_empty o) = o.
Proof.
  intros H. apply none_if_empty_or_empty. intros ->. discriminate.
Qed.

Lemma or_default_truthy s d : Py.truthy s = true -> Py.or_default s d = s.
Proof. unfold Py.or_default. now intros ->. Qed.

Lemma or_default_empty d : Py.or_default "" d = d.
Proof. reflexivity. Qed.

Lemma str_in_truthy s l : Py.str_in s l = true -> Py.str_in "" l = false -> Py.truthy s = true.
Proof.
  intros Hin Hno. apply truthy_true. intros ->. congruence.
Qed.

Lemma cell_pad n i row : cell i (pad n row) = cell i row.
Proof.
  unfold cell, pad.
  destruct (Nat.lt_ge_cases i (List.length row)) as [Hlt|Hge].
  - now rewrite app_nth1.
  - rewrite app_nth2 by exact Hge.
    rewrite (nth_overflow row) by exact Hge.
    generalize (i - List.length row) as k. generalize (n - List.length row) as m.
    induction m as [|m IH]; intros [|k]; simpl; auto.
Qed.

(** ** Decimal numerals *)

Lemma string_of_uint_digits d :
  Py.str_forall Py.is_digit (NilEmpty.string_of_uint d) = true.
Proof. induction d; simpl; auto. Qed.

Lemma is_digit_isdigit_char c : Py.is_digit c = true -> Py.isdigit_char c = true.
Proof. unfold Py.isdigit_char. now intros ->. Qed.

Lemma str_forall_impl (p q : ascii -> bool) s :
  (forall c, p c = true -> q c = true) ->
  Py.str_forall p s = true -> Py.str_forall q s = true.
Proof.
  intros Hpq. induction s as [|c s IH]; simpl; auto.
  intros H. apply andb_true_iff in H as [Hc Hs].
  now rewrite (Hpq _ Hc), IH.
Qed.

Lemma string_of_uint_nonempty d :
  d <> Decimal.Nil -> NilEmpty.string_of_uint d <> "".
Proof. destruct d; simpl; congruence. Qed.

Lemma numeral_pos (p : positive) :
  Py.numeral (Z.pos p) = NilEmpty.string_of_uint (Pos.to_uint p).
Proof.
  unfold Py.numeral. simpl.
  pose proof (DecimalPos.Unsigned.to_uint_nonnil p) as Hn.
  destruct (Pos.to_uint p); simpl; congruence.
Qed.

Lemma numeral_pos_truthy (p : positive) : Py.truthy (Py.numeral (Z.pos p)) = true.
Proof.
  rewrite numeral_pos. apply truthy_true, string_of_uint_nonempty.
  apply DecimalPos.Unsigned.to_uint_nonnil.
Qed.

Lemma numeral_pos_digits (p : positive) :
  Py.str_forall Py.is_digit (Py.numeral (Z.pos p)) = true.
Proof. rewrite numeral_pos. apply string_of_uint_digits. Qed.

Lemma numeral_pos_isdigit (p : positive) : Py.isdigit (Py.numeral (Z.pos p)) = true.
Proof.
  unfold Py.isdigit. rewrite numeral_pos_truthy. simpl.
  eapply str_forall_impl; [apply is_digit_isdigit_char | apply numeral_pos_digits].
Qed.

Lemma leading_digits_all s :
  Py.str_forall Py.is_digit s = true -> Py.leading_digits s = String.length s.
Proof.
  induction s as [|c s IH]; [reflexivity|]. cbn [Py.str_forall Py.leading_digits].
  intros H. apply andb_true_iff in H as [-> Hs]. cbn [String.length].
  now rewrite IH.
Qed.

Lemma digits_pos (p : positive) :
  Py.digits (Z.pos p) = String.length (Py.numeral (Z.pos p)).
Proof. unfold Py.digits. cbn [Z.ltb Z.compare]. apply Nat.sub_0_r. Qed.

(** [str] writes a number of at most 4300 digits, and refuses any other. *)
Lemma str_of_int_fits (n : Z) :
  Py.digits n <= 4300 -> Py.str_of_int n = Ok (Py.numeral n).
Proof.
  intros H. unfold Py.str_of_int.
  destruct (Nat.ltb_spec Py.MAX_STR_DIGITS (Py.digits n)) as [Hlt|_];
    [|reflexivity].
  unfold Py.MAX_STR_DIGITS in Hlt. lia.
Qed.

Lemma str_of_int_too_long (n : Z) :
  4300 < Py.digits n -> Py.str_of_int n = Raise Py.too_many_digits.
Proof.
  intros H. unfold Py.str_of_int.
  destruct (Nat.ltb_spec Py.MAX_STR_DIGITS (Py.digits n)) as [_|Hle];
    [reflexivity|].
  unfold Py.MAX_STR_DIGITS in Hle. lia.
Qed.

Lemma int_numeral_pos (p : positive) :
  Py.digits (Z.pos p) <= 4300 -> Py.int (Py.numeral (Z.pos p)) = Ok (Z.pos p).
Proof.
  intros H. unfold Py.int.
  rewrite leading_digits_all by apply numeral_pos_digits.
  rewrite <- digits_pos.
  destruct (Nat.ltb_spec Py.MAX_STR_DIGITS (Py.digits (Z.pos p))) as [Hlt|_].
  { unfold Py.MAX_STR_DIGITS in Hlt. lia. }
  rewrite numeral_pos_truthy, numeral_pos, NilEmpty.usu.
  unfold Z.of_uint. now rewrite DecimalPos.Unsigned.of_to.
Qed.

Lemma parse_max_attendees_cell (m : option Z) :
  match m with Some n => Py.digits n <= 4300 | None => True end ->
  exists c,
    Event.max_attendees_cell m = Ok c /\
    Event.parse_max_attendees c = Ok (capacity_read_back m).
Proof.
  destruct m as [[|p|p]|]; intros Hfit; cbn [Event.max_attendees_cell Z.eqb];
    try (exists ""; split; reflexivity).
  - rewrite str_of_int_fits by exact Hfit. eexists. split; [reflexivity|].
    unfold Event.parse_max_attendees.
    now rewrite numeral_pos_truthy, numeral_pos_isdigit, int_numeral_pos.
  - rewrite str_of_int_fits by exact Hfit. eexists. split; [reflexivity|].
    reflexivity.
Qed.

(** What [int] reads, [str] writes. *)
Lemma string_of_uint_length d :
  String.length (NilEmpty.string_of_uint d) = Decimal.nb_digits d.
Proof. induction d; simpl; congruence. Qed.

Lemma int_digits s n : Py.int s = Ok n -> Py.digits n <= 4300.
Proof.
  unfold Py.int.
  destruct (Nat.ltb_spec Py.MAX_STR_DIGITS (Py.leading_digits s)) as [|Hle];
    [discriminate|].
  destruct (Py.truthy s) eqn:Ht; [|discriminate].
  destruct (NilEmpty.uint_of_string s) as [d|] eqn:Hd; [|discriminate].
  intros H. injection H as <-.
  apply NilEmpty.sus in Hd.
  assert (Hn : d <> Decimal.Nil).
  { intros ->. subst s. discriminate. }
  rewrite leading_digits_all in Hle by (rewrite <- Hd; apply string_of_uint_digits).
  rewrite <- Hd, string_of_uint_length in Hle. unfold Py.MAX_STR_DIGITS in Hle.
  unfold Py.digits, Py.numeral.
  change (Z.of_uint d) with (Z.of_int (Decimal.Pos d)).
  rewrite DecimalZ.to_of. cbn [Decimal.norm].
  assert (Hu : Decimal.unorm d <> Decimal.Nil).
  { unfold Decimal.unorm. destruct (Decimal.nzhead d); discriminate. }
  assert (E : NilZero.string_of_int (Decimal.Pos (Decimal.unorm d))
              = NilEmpty.string_of_uint (Decimal.unorm d)).
  { cbn. destruct (Decimal.unorm d); [contradiction|reflexivity..]. }
  rewrite E, string_of_uint_length.
  pose proof (DecimalFacts.nb_digits_unorm d Hn). lia.
Qed.

Lemma parse_bool_cell (b : bool) :
  (if Py.truthy (Py.str_of_bool_lower b)
   then String.eqb (Py.lower (Py.str_of_bool_lower b)) "true" else false) = b.
Proof. now destruct b. Qed.

(** ** Validation *)

Lemma Member_validate_inv m :
  Member._validate m = Ok tt ->
  Py.truthy (Member.member_id m) = true /\
  Py.truthy (Member.first_name m) = true /\
  Py.truthy (Member.last_name m) = true /\
  Member._is_valid_email (Member.email m) = true /\
  Member._is_valid_phone (Member.phone m) = true /\
  Py.str_in (Member.role m) ["member"; "exec"] = true /\
  Py.str_in (Member.membership_status m) ["active"; "inactive"; "suspended"] = true /\
  Py.str_in (Member.payment_status m) ["paid"; "pending"; "overdue"] = true.
Proof.
  unfold Member._validate.
  repeat match goal with
         | |- (if ?b then _ else _) = _ -> _ => destruct b eqn:?; [|discriminate]
         end.
  intros _.
  match goal with H : (_ && _) = true |- _ => apply andb_true_iff in H as [? ?] end.
  tauto.
Qed.

Lemma Member_validate_intro m :
  Py.truthy (Member.member_id m) = true ->
  Py.truthy (Member.first_name m) = true ->
  Py.truthy (Member.last_name m) = true ->
  Member._is_valid_email (Member.email m) = true ->
  Member._is_valid_phone (Member.phone m) = true ->
  Py.str_in (Member.role m) ["member"; "exec"] = true ->
  Py.str_in (Member.membership_status m) ["active"; "inactive"; "suspended"] = true ->
  Py.str_in (Member.payment_status m) ["paid"; "pending"; "overdue"] = true ->
  Member._validate m = Ok tt.
Proof.
  unfold Member._validate. intros -> -> -> -> -> -> -> ->. reflexivity.
Qed.

Lemma Event_validate_inv e :
  Event._validate e = Ok tt ->
  Py.truthy (Event.event_id e) = true /\
  Py.truthy (Event.event_name e) = true /\
  Py.str_in (Event.event_type e) ["practice"; "game"; "meeting"; "social"] = true /\
  Event._is_valid_date (Event.event_date e) = true /\
  Event._is_valid_time (Event.start_time e) = true /\
  Event._is_valid_time (Event.end_time e) = true /\
  Py.str_in (Event.status e) ["scheduled"; "cancelled"; "completed"] = true.
Proof.
  unfold Event._validate.
  repeat match goal with
         | |- (if ?b then _ else _) = _ -> _ => destruct b eqn:?; [|discriminate]
         end.
  intros _.
  match goal with H : (_ && _) = true |- _ => apply andb_true_iff in H as [? ?] end.
  tauto.
Qed.

Lemma Event_validate_intro e :
  Py.truthy (Event.event_id e) = true ->
  Py.truthy (Event.event_name e) = true ->
  Py.str_in (Event.event_type e) ["practice"; "game"; "meeting"; "social"] = true ->
  Event._is_valid_date (Event.event_date e) = true ->
  Event._is_valid_time (Event.start_time e) = true ->
  Event._is_valid_time (Event.end_time e) = true ->
  Py.str_in (Event.status e) ["scheduled"; "cancelled"; "completed"] = true ->
  Event._validate e = Ok tt.
Proof.
  unfold Event._validate. intros -> -> -> -> -> -> ->. reflexivity.
Qed.

Lemma AttendanceRecord_validate_inv a :
  AttendanceRecord._validate a = Ok tt ->
  Py.truthy (AttendanceRecord.record_id a) = true /\
  Py.truthy (AttendanceRecord.event_id a) = true /\
  Py.truthy (AttendanceRecord.member_id a) = true /\
  Py.str_in (AttendanceRecord.attendance_status a)
    ["present"; "absent"; "excused"; "late"] = true /\
  AttendanceRecord.bad_time (AttendanceRecord.check_in_time a) = false /\
  AttendanceRecord.bad_time (AttendanceRecord.check_out_time a) = false.
Proof.
  unfold AttendanceRecord._validate.
  repeat match goal with
         | |- (if ?b then _ else _) = _ -> _ => destruct b eqn:?; [|discriminate]
         end.
  intros _.
  repeat match goal with H : negb _ = true |- _ => apply negb_true_iff in H end.
  tauto.
Qed.

Lemma AttendanceRecord_validate_intro a :
  Py.truthy (AttendanceRecord.record_id a) = true ->
  Py.truthy (AttendanceRecord.event_id a) = true ->
  Py.truthy (AttendanceRecord.member_id a) = true ->
  Py.str_in (AttendanceRecord.attendance_status a)
    ["present"; "absent"; "excused"; "late"] = true ->
  AttendanceRecord.bad_time (AttendanceRecord.check_in_time a) = false ->
  AttendanceRecord.bad_time (AttendanceRecord.check_out_time a) = false ->
  AttendanceRecord._validate a = Ok tt.
Proof.
  unfold AttendanceRecord._validate. intros -> -> -> -> -> ->. reflexivity.
Qed.

(** What a successful construction returns. *)
Lemma Member_post_init_inv now raw m :
  Member.__post_init__ now raw = Ok m ->
  Member._validate raw = Ok tt /\
  m = Member.mk (Member.member_id raw) (Member.first_name raw)
        (Member.last_name raw) (Member.email raw) (Member.phone raw)
        (Member.wix_user_id raw) (Member.role raw)
        (Member.membership_status raw) (Member.payment_status raw)
        (Member.join_date raw) (Member.graduation_year raw) (Member.major raw)
        (Member.emergency_contact raw) (Member.emergency_phone raw)
        (Member.notes raw)
        (if Py.truthy_opt (Member.created_at raw) then Member.created_at raw
         else Some now)
        (Some now).
Proof.
  unfold Member.__post_init__.
  destruct (Member._validate raw) as [[]|]; simpl; [|discriminate].
  intros [= <-]. auto.
Qed.

Lemma Event_post_init_inv now raw e :
  Event.__post_init__ now raw = Ok e ->
  Event._validate raw = Ok tt /\
  e = Event.mk (Event.event_id raw) (Event.event_name raw)
        (Event.event_type raw) (Event.event_date raw) (Event.start_time raw)
        (Event.end_time raw) (Event.location raw) (Event.description raw)
        (Event.is_mandatory raw) (Event.max_attendees raw)
        (Event.created_by raw) (Event.status raw)
        (if Py.truthy_opt (Event.created_at raw) then Event.created_at raw
         else Some now)
        (Some now).
Proof.
  unfold Event.__post_init__.
  destruct (Event._validate raw) as [[]|]; simpl; [|discriminate].
  intros [= <-]. auto.
Qed.

Lemma AttendanceRecord_post_init_inv now raw a :
  AttendanceRecord.__post_init__ now raw = Ok a ->
  AttendanceRecord._validate raw = Ok tt /\
  a = AttendanceRecord.mk (AttendanceRecord.record_id raw)
        (AttendanceRecord.event_id raw) (AttendanceRecord.member_id raw)
        (AttendanceRecord.attendance_status raw)
        (AttendanceRecord.check_in_time raw)
        (AttendanceRecord.check_out_time raw) (AttendanceRecord.notes raw)
        (AttendanceRecord.recorded_by raw)
        (if Py.truthy_opt (AttendanceRecord.created_at raw)
         then AttendanceRecord.created_at raw else Some now)
        (Some now).
Proof.
  unfold AttendanceRecord.__post_init__.
  destruct (AttendanceRecord._validate raw) as [[]|]; simpl; [|discriminate].
  intros [= <-]. auto.
Qed.

(** Whatever a constructor returns is valid and stamped. *)
Lemma Member_post_init_valid now raw m :
  Member.__post_init__ now raw = Ok m -> Member._validate m = Ok tt.
Proof. intros H. apply Member_post_init_inv in H as [Hv ->]. exact Hv. Qed.

Lemma Event_post_init_valid now raw e :
  Event.__post_init__ now raw = Ok e -> Event._validate e = Ok tt.
Proof. intros H. apply Event_post_init_inv in H as [Hv ->]. exact Hv. Qed.

Lemma AttendanceRecord_post_init_valid now raw a :
  AttendanceRecord.__post_init__ now raw = Ok a ->
  AttendanceRecord._validate a = Ok tt.
Proof. intros H. apply AttendanceRecord_post_init_inv in H as [Hv ->]. exact Hv. Qed.

Lemma created_stamp_truthy now (o : option string) :
  Py.truthy now = true ->
  Py.truthy_opt (if Py.truthy_opt o then o else Some now) = true.
Proof. intros Hn. destruct (Py.truthy_opt o) eqn:E; simpl; auto. Qed.

(** ** Rows written by [to_sheet_row] and read by [from_sheet_row] *)

Lemma status_cell_valid s l :
  Py.str_in s l = true -> Py.str_in "" l = false -> forall d, Py.or_default s d = s.
Proof. intros H1 H2 d. apply or_default_truthy. eapply str_in_truthy; eauto. Qed.

Lemma created_cell now (ca : option string) :
  (if Py.truthy_opt (Py.none_if_empty (Py.or_empty ca))
   then Py.none_if_empty (Py.or_empty ca) else Some now)
  = (if Py.truthy_opt ca then ca else Some now).
Proof.
  destruct ca as [c|]; cbn; [|reflexivity].
  unfold Py.none_if_empty. destruct (Py.truthy c) eqn:E; cbn; rewrite ?E; cbn;
    rewrite ?E; reflexivity.
Qed.

(** Reading back the row of a valid member at clock reading [now]: the
    optional fields come back normalised, the creation stamp is kept when
    there is one, the update stamp is the reading of the clock. *)
Lemma Member_from_to now m :
  Member._validate m = Ok tt ->
  Member.from_sheet_row now (Member.to_sheet_row m)
  = Ok (Member.mk (Member.member_id m) (Member.first_name m)
          (Member.last_name m) (Member.email m) (Member.phone m)
          (Py.none_if_empty (Py.or_empty (Member.wix_user_id m)))
          (Member.role m) (Member.membership_status m)
          (Member.payment_status m)
          (Py.none_if_empty (Py.or_empty (Member.join_date m)))
          (Py.none_if_empty (Py.or_empty (Member.graduation_year m)))
          (Py.none_if_empty (Py.or_empty (Member.major m)))
          (Py.none_if_empty (Py.or_empty (Member.emergency_contact m)))
          (Py.none_if_empty (Py.or_empty (Member.emergency_phone m)))
          (Py.none_if_empty (Py.or_empty (Member.notes m)))
          (if Py.truthy_opt (Member.created_at m) then Member.created_at m
           else Some now)
          (Some now)).
Proof.
  intros Hv. pose proof (Member_validate_inv _ Hv) as (H0 & H1 & H2 & H3 & H4 & H5 & H6 & H7).
  destruct m as [id fn ln em ph wix ro ms ps jd gy mj ec ep nt ca ua].
  cbn [Member.member_id Member.first_name Member.last_name Member.email
       Member.phone Member.role Member.membership_status
       Member.payment_status Member.created_at Member.wix_user_id
       Member.join_date Member.graduation_year Member.major
       Member.emergency_contact Member.emergency_phone Member.notes] in *.
  unfold Member.from_sheet_row, Member.to_sheet_row.
  cbn [pad List.length Nat.sub repeat app cell nth
       Member.member_id Member.first_name Member.last_name Member.email
       Member.phone Member.role Member.membership_status
       Member.payment_status Member.created_at Member.updated_at
       Member.wix_user_id
       Member.join_date Member.graduation_year Member.major
       Member.emergency_contact Member.emergency_phone Member.notes].
  rewrite (status_cell_valid ro _ H5 eq_refl), (status_cell_valid ms _ H6 eq_refl),
          (status_cell_valid ps _ H7 eq_refl).
  unfold Member.__post_init__.
  rewrite Member_validate_intro by (cbn; assumption).
  cbn [res_bind Member.member_id Member.first_name Member.last_name Member.email
       Member.phone Member.role Member.membership_status
       Member.payment_status Member.created_at Member.updated_at
       Member.wix_user_id
       Member.join_date Member.graduation_year Member.major
       Member.emergency_contact Member.emergency_phone Member.notes].
  now rewrite created_cell.
Qed.

(** The row of an event is written when its capacity fits, and only
    then. *)
Lemma Event_to_sheet_row_fits e :
  capacity_fits e -> Event.to_sheet_row e = Ok (Event_row e).
Proof.
  intros Hfit. unfold Event_row, Event.to_sheet_row.
  destruct (parse_max_attendees_cell (Event.max_attendees e) Hfit) as (c & -> & _).
  reflexivity.
Qed.

Lemma Event_to_sheet_row_inv e row :
  Event.to_sheet_row e = Ok row -> capacity_fits e /\ row = Event_row e.
Proof.
  intros H. split; [|unfold Event_row; now rewrite H].
  unfold capacity_fits. unfold Event.to_sheet_row, Event.max_attendees_cell in H.
  destruct (Event.max_attendees e) as [n|]; [|exact I].
  destruct (Nat.le_gt_cases (Py.digits n) 4300) as [Hle|Hgt]; [exact Hle|].
  rewrite (str_of_int_too_long n Hgt) in H.
  destruct (n =? 0)%Z eqn:E; [|discriminate].
  apply Z.eqb_eq in E. subst n. vm_compute in Hgt. lia.
Qed.

Lemma Event_row_cell_0 e : capacity_fits e -> cell 0 (Event_row e) = Event.event_id e.
Proof.
  intros Hfit. pose proof (Event_to_sheet_row_fits e Hfit) as H.
  unfold Event.to_sheet_row in H.
  destruct (Event.max_attendees_cell (Event.max_attendees e)); [|discriminate].
  cbn [res_bind] in H. injection H as <-. reflexivity.
Qed.

Lemma Event_row_filled e : capacity_fits e -> Event_row e <> [].
Proof.
  intros Hfit. pose proof (Event_to_sheet_row_fits e Hfit) as H.
  unfold Event.to_sheet_row in H.
  destruct (Event.max_attendees_cell (Event.max_attendees e)); [|discriminate].
  cbn [res_bind] in H. injection H as <-. discriminate.
Qed.

Lemma Event_from_to now e :
  Event._validate e = Ok tt -> capacity_fits e ->
  Event.from_sheet_row now (Event_row e)
  = Ok (Event.mk (Event.event_id e) (Event.event_name e) (Event.event_type e)
          (Event.event_date e) (Event.start_time e) (Event.end_time e)
          (Event.location e)
          (Py.none_if_empty (Py.or_empty (Event.description e)))
          (Event.is_mandatory e)
          (capacity_read_back (Event.max_attendees e))
          (Event.created_by e) (Event.status e)
          (if Py.truthy_opt (Event.created_at e) then Event.created_at e
           else Some now)
          (Some now)).
Proof.
  intros Hv Hfit.
  pose proof (Event_validate_inv _ Hv) as (H0 & H1 & H2 & H3 & H4 & H5 & H6).
  destruct (parse_max_attendees_cell (Event.max_attendees e) Hfit) as (c & Hc & Hp).
  unfold Event_row, Event.to_sheet_row. rewrite Hc. cbn [res_bind].
  destruct e as [id nm ty dt st et lo de im ma cb ss ca ua].
  cbn [Event.event_id Event.event_name Event.event_type Event.event_date
       Event.start_time Event.end_time Event.location Event.description
       Event.is_mandatory Event.max_attendees Event.created_by Event.status
       Event.created_at Event.updated_at] in *.
  unfold Event.from_sheet_row.
  cbn [pad List.length Nat.sub repeat app cell nth
       Event.event_id Event.event_name Event.event_type Event.event_date
       Event.start_time Event.end_time Event.location Event.description
       Event.is_mandatory Event.max_attendees Event.created_by Event.status
       Event.created_at Event.updated_at].
  rewrite Hp, parse_bool_cell.
  rewrite (status_cell_valid ss _ H6 eq_refl).
  cbn [res_bind]. unfold Event.__post_init__.
  rewrite Event_validate_intro by (cbn; assumption).
  cbn [res_bind Event.event_id Event.event_name Event.event_type Event.event_date
       Event.start_time Event.end_time Event.location Event.description
       Event.is_mandatory Event.max_attendees Event.created_by Event.status
       Event.created_at Event.updated_at].
  now rewrite created_cell.
Qed.

Lemma bad_time_cell (o : option string) :
  AttendanceRecord.bad_time (Py.none_if_empty (Py.or_empty o))
  = AttendanceRecord.bad_time o.
Proof.
  destruct o as [s|]; cbn; [|reflexivity].
  unfold Py.none_if_empty. destruct (Py.truthy s) eqn:E; cbn; rewrite ?E; cbn;
    rewrite ?E; reflexivity.
Qed.

Lemma AttendanceRecord_from_to now a :
  AttendanceRecord._validate a = Ok tt ->
  AttendanceRecord.from_sheet_row now (AttendanceRecord.to_sheet_row a)
  = Ok (AttendanceRecord.mk (AttendanceRecord.record_id a)
          (AttendanceRecord.event_id a) (AttendanceRecord.member_id a)
          (AttendanceRecord.attendance_status a)
          (Py.none_if_empty (Py.or_empty (AttendanceRecord.check_in_time a)))
          (Py.none_if_empty (Py.or_empty (AttendanceRecord.check_out_time a)))
          (Py.none_if_empty (Py.or_empty (AttendanceRecord.notes a)))
          (AttendanceRecord.recorded_by a)
          (if Py.truthy_opt (AttendanceRecord.created_at a)
           then AttendanceRecord.created_at a else Some now)
          (Some now)).
Proof.
  intros Hv.
  pose proof (AttendanceRecord_validate_inv _ Hv) as (H0 & H1 & H2 & H3 & H4 & H5).
  destruct a as [ri ei mi st ci co nt rb ca ua].
  cbn [AttendanceRecord.record_id AttendanceRecord.event_id
       AttendanceRecord.member_id AttendanceRecord.attendance_status
       AttendanceRecord.check_in_time AttendanceRecord.check_out_time
       AttendanceRecord.notes AttendanceRecord.recorded_by
       AttendanceRecord.created_at AttendanceRecord.updated_at] in *.
  unfold AttendanceRecord.from_sheet_row, AttendanceRecord.to_sheet_row.
  cbn [pad List.length Nat.sub repeat app cell nth
       AttendanceRecord.record_id AttendanceRecord.event_id
       AttendanceRecord.member_id AttendanceRecord.attendance_status
       AttendanceRecord.check_in_time AttendanceRecord.check_out_time
       AttendanceRecord.notes AttendanceRecord.recorded_by
       AttendanceRecord.created_at AttendanceRecord.updated_at].
  unfold AttendanceRecord.__post_init__.
  rewrite AttendanceRecord_validate_intro
    by (cbn; rewrite ?bad_time_cell; assumption).
  cbn [res_bind AttendanceRecord.record_id AttendanceRecord.event_id
       AttendanceRecord.member_id AttendanceRecord.attendance_status
       AttendanceRecord.check_in_time AttendanceRecord.check_out_time
       AttendanceRecord.notes AttendanceRecord.recorded_by
       AttendanceRecord.created_at AttendanceRecord.updated_at].
  now rewrite created_cell.
Qed.

(** ** Reading the sheet *)

Lemma request_healthy {A} (serve : list Row -> A * list Row) w :
  faults w = [] ->
  Sheets.request serve w
  = (Ok (fst (serve (values w))), mkWorld (snd (serve (values w))) []).
Proof.
  intros H. unfold Sheets.request. rewrite H. now destruct (serve (values w)).
Qed.

Lemma request_values_or_same {A} (serve : list Row -> A * list Row) w :
  faults (snd (Sheets.request serve w)) = tl (faults w).
Proof.
  unfold Sheets.request. destruct (faults w) as [|[e|] script]; simpl;
    try destruct (serve (values w)); reflexivity.
Qed.

Lemma read_rows_later {A} (parse : Row -> res A) header i rows :
  Sheets.read_rows parse header (S i) rows = Ok (parsed parse rows).
Proof.
  revert i. induction rows as [|row rest IH]; intros i; simpl; [reflexivity|].
  destruct (parse row) as [a|e]; rewrite IH; reflexivity.
Qed.

Lemma read_rows_first {A} (parse : Row -> res A) header rows :
  first_row_filled rows ->
  Sheets.read_rows parse header 0 rows = Ok (shown parse header rows).
Proof.
  destruct rows as [|[|c row] rest]; simpl; try tauto; intros _.
  destruct (String.eqb c header); simpl.
  - apply read_rows_later.
  - destruct (parse (c :: row)); rewrite read_rows_later; reflexivity.
Qed.

Lemma read_rows_blank_first {A} (parse : Row -> res A) header rest :
  Sheets.read_rows parse header 0 ([] :: rest) = Raise IndexError.
Proof. reflexivity. Qed.

Lemma get_all_keeps_values {A} (parse : Row -> res A) header w :
  values (snd (Sheets.get_all parse header w)) = values w.
Proof.
  unfold Sheets.get_all, bind, Sheets.get_values, Sheets.request, ret.
  destruct (faults w) as [|[e|] script]; reflexivity.
Qed.

Lemma get_all_faults {A} (parse : Row -> res A) header w :
  faults (snd (Sheets.get_all parse header w)) = tl (faults w).
Proof.
  unfold Sheets.get_all, bind, Sheets.get_values, Sheets.request, ret.
  destruct (faults w) as [|[e|] script]; reflexivity.
Qed.

Lemma get_all_healthy {A} (parse : Row -> res A) header w :
  faults w = [] -> first_row_filled (values w) ->
  Sheets.get_all parse header w = (shown parse header (values w), w).
Proof.
  intros Hf Hr. unfold Sheets.get_all, bind, Sheets.get_values, ret.
  rewrite request_healthy by exact Hf. simpl.
  rewrite read_rows_first by exact Hr.
  destruct w as [vs fs]; simpl in *. now subst.
Qed.

(** Every entity a read returns is the parse of a row of the sheet. *)
Lemma parsed_In {A} (parse : Row -> res A) rows a :
  In a (parsed parse rows) <-> exists row, In row rows /\ parse row = Ok a.
Proof.
  unfold parsed. induction rows as [|row rest IH]; simpl.
  - split; [tauto | intros (r & [] & _)].
  - destruct (parse row) as [a'|e] eqn:E; simpl; rewrite ?IH; split.
    + intros [<-|(r & Hr & Hp)]; eauto.
    + intros (r & [<-|Hr] & Hp); [left; congruence | right; eauto].
    + intros (r & Hr & Hp); eauto.
    + intros (r & [<-|Hr] & Hp); [congruence | eauto].
Qed.

Lemma read_rows_In {A} (parse : Row -> res A) header i rows l a :
  Sheets.read_rows parse header i rows = Ok l -> In a l ->
  exists row, In row rows /\ parse row = Ok a.
Proof.
  destruct i as [|i].
  - destruct rows as [|[|c row] rest]; simpl.
    + intros [= <-] [].
    + discriminate.
    + destruct (String.eqb c header); simpl.
      * rewrite read_rows_later. intros [= <-] Ha.
        apply parsed_In in Ha as (r & Hr & Hp). eauto.
      * destruct (parse (c :: row)) as [a'|e] eqn:E; rewrite read_rows_later;
          simpl; intros [= <-] Ha.
        -- destruct Ha as [<-|Ha]; [eauto|].
           apply parsed_In in Ha as (r & Hr & Hp). eauto.
        -- apply parsed_In in Ha as (r & Hr & Hp). eauto.
  - rewrite read_rows_later. intros [= <-] Ha. now apply parsed_In.
Qed.

Lemma get_all_In {A} (parse : Row -> res A) header w a :
  In a (fst (Sheets.get_all parse header w)) ->
  exists row, In row (values w) /\ parse row = Ok a.
Proof.
  unfold Sheets.get_all, bind, Sheets.get_values, Sheets.request, ret.
  destruct (faults w) as [|[e|] script]; simpl; try tauto;
    destruct (Sheets.read_rows parse header 0 (values w)) as [l|e'] eqn:E;
    simpl; try tauto; eauto using read_rows_In.
Qed.

(** ** Identifiers of parsed rows *)

Lemma Member_from_sheet_row_id now row m :
  Member.from_sheet_row now row = Ok m -> Member.member_id m = cell 0 row.
Proof.
  unfold Member.from_sheet_row. intros H.
  apply Member_post_init_inv in H as [_ ->]. cbn. apply cell_pad.
Qed.

Lemma Member_from_sheet_row_valid now row m :
  Member.from_sheet_row now row = Ok m -> Member._validate m = Ok tt.
Proof. unfold Member.from_sheet_row. apply Member_post_init_valid. Qed.

Lemma Event_from_sheet_row_valid now row e :
  Event.from_sheet_row now row = Ok e -> Event._validate e = Ok tt.
Proof.
  unfold Event.from_sheet_row.
  destruct (Event.parse_max_attendees _); simpl; [|discriminate].
  apply Event_post_init_valid.
Qed.

Lemma Event_from_sheet_row_fits now row e :
  Event.from_sheet_row now row = Ok e -> capacity_fits e.
Proof.
  unfold Event.from_sheet_row, Event.parse_max_attendees.
  destruct (Py.truthy _ && Py.isdigit _).
  - destruct (Py.int _) as [n|] eqn:Hn; [|discriminate]. cbn [res_bind].
    intros H. apply Event_post_init_inv in H as [_ ->].
    apply (int_digits _ _ Hn).
  - cbn [res_bind]. intros H. apply Event_post_init_inv in H as [_ ->].
    exact I.
Qed.

Lemma AttendanceRecord_from_sheet_row_valid now row a :
  AttendanceRecord.from_sheet_row now row = Ok a ->
  AttendanceRecord._validate a = Ok tt.
Proof. unfold AttendanceRecord.from_sheet_row. apply AttendanceRecord_post_init_valid. Qed.

Lemma parsed_app {A} (parse : Row -> res A) rows1 rows2 :
  parsed parse (rows1 ++ rows2) = parsed parse rows1 ++ parsed parse rows2.
Proof.
  unfold parsed. apply omap_app.
Qed.

Lemma find_app_none {A} (p : A -> bool) l1 l2 :
  List.find p l1 = None -> List.find p (l1 ++ l2) = List.find p l2.
Proof.
  induction l1 as [|x l1 IH]; simpl; [reflexivity|].
  destruct (p x); [discriminate | exact IH].
Qed.

Lemma rows_with_id_app id rows1 rows2 :
  rows_with_id id (rows1 ++ rows2) = rows_with_id id rows1 + rows_with_id id rows2.
Proof.
  unfold rows_with_id. now rewrite List.filter_app, List.length_app.
Qed.

Lemma rows_with_id_none id rows :
  (forall row, In row rows -> cell 0 row <> id) -> rows_with_id id rows = 0.
Proof.
  unfold rows_with_id. induction rows as [|r rows IH]; simpl; intros H; [reflexivity|].
  destruct (String.eqb_spec (cell 0 r) id) as [E|_].
  - exfalso. eapply H; eauto.
  - apply IH. eauto.
Qed.

(** No row with the identifier, no member with it. *)
Lemma find_member_absent now id rows :
  (forall row, In row rows -> cell 0 row <> id) ->
  List.find (fun member => String.eqb (Member.member_id member) id)
    (parsed (Member.from_sheet_row now) rows) = None.
Proof.
  intros H.
  destruct (List.find _ _) as [m|] eqn:E; [|reflexivity].
  apply List.find_some in E as [Hin Hid].
  apply parsed_In in Hin as (row & Hrow & Hp).
  apply Member_from_sheet_row_id in Hp.
  apply String.eqb_eq in Hid. exfalso. apply (H row Hrow). congruence.
Qed.

Lemma shown_absent now id rows :
  (forall row, In row rows -> cell 0 row <> id) ->
  List.find (fun member => String.eqb (Member.member_id member) id)
    (shown (Member.from_sheet_row now) "Member ID" rows) = None.
Proof.
  intros H. unfold shown.
  destruct rows as [|[|c row] rest]; try now apply find_member_absent.
  destruct (String.eqb c "Member ID"); apply find_member_absent; auto.
  intros r Hr. apply H. now right.
Qed.

(** What a read shows after a row was added below a sheet, when the new
    row cannot be taken for the header. *)
Lemma shown_app {A} (parse : Row -> res A) header rows row :
  first_row_filled rows -> cell 0 row <> header ->
  shown parse header (rows ++ [row])
  = shown parse header rows ++ parsed parse [row].
Proof.
  intros Hr Hh. unfold shown.
  destruct rows as [|[|c r] rest]; simpl in Hr; try tauto; cbn [app].
  - destruct row as [|c r]; [reflexivity|].
    unfold cell in Hh. simpl in Hh.
    destruct (String.eqb_spec c header); [congruence|reflexivity].
  - destruct (String.eqb c header).
    + apply parsed_app.
    + apply (parsed_app parse ((c :: r) :: rest) [row]).
Qed.

Lemma first_row_filled_app rows row :
  first_row_filled rows -> row <> [] -> first_row_filled (rows ++ [row]).
Proof.
  destruct rows as [|[|c r] rest]; simpl; try tauto.
  destruct row; simpl; tauto.
Qed.

(** ** MembersCRUD *)

Lemma get_member_by_id_healthy now id w :
  faults w = [] -> first_row_filled (values w) ->
  MembersCRUD.get_member_by_id now id w
  = (List.find (fun member => String.eqb (Member.member_id member) id)
       (shown (Member.from_sheet_row now) "Member ID" (values w)), w).
Proof.
  intros Hf Hr. unfold MembersCRUD.get_member_by_id, MembersCRUD.get_all_members, bind.
  now rewrite get_all_healthy.
Qed.

Lemma create_member_existing now m w m' :
  fst (MembersCRUD.get_member_by_id now (Member.member_id m) w) = Some m' ->
  fst (MembersCRUD.create_member now m w) = false /\
  values (snd (MembersCRUD.create_member now m w)) = values w.
Proof.
  unfold MembersCRUD.create_member, bind.
  destruct (MembersCRUD.get_member_by_id now (Member.member_id m) w) as [o w1] eqn:E.
  simpl. intros ->. simpl. split; [reflexivity|].
  unfold MembersCRUD.get_member_by_id, MembersCRUD.get_all_members, bind in E.
  pose proof (get_all_keeps_values (Member.from_sheet_row now) "Member ID" w) as Hk.
  destruct (Sheets.get_all _ _ w) as [l w0]. simpl in *.
  unfold ret in E. now inversion E; subst.
Qed.

Lemma create_member_fresh now m w :
  faults w = [] -> first_row_filled (values w) ->
  (forall row, In row (values w) -> cell 0 row <> Member.member_id m) ->
  MembersCRUD.create_member now m w
  = (true, mkWorld (values w ++ [Member.to_sheet_row m]) []).
Proof.
  intros Hf Hr Hno. unfold MembersCRUD.create_member, bind.
  rewrite get_member_by_id_healthy by assumption.
  rewrite shown_absent by assumption.
  unfold Sheets.append. rewrite request_healthy by assumption. reflexivity.
Qed.

(** A row that parses and does not start with the header label is among
    what a read shows. *)
Lemma shown_intro {A} (parse : Row -> res A) header rows row a :
  In row rows -> cell 0 row <> header -> parse row = Ok a ->
  In a (shown parse header rows).
Proof.
  intros Hin Hh Hp.
  assert (Hparsed : forall l, In row l -> In a (parsed parse l)).
  { intros l Hl. apply parsed_In. eauto. }
  unfold shown. destruct rows as [|[|c r] rest]; try now apply Hparsed.
  destruct (String.eqb_spec c header) as [E|_]; [|now apply Hparsed].
  apply Hparsed. destruct Hin as [<-|Hin]; [|exact Hin].
  exfalso. apply Hh. exact E.
Qed.

Lemma find_is_some {A} (p : A -> bool) l a :
  In a l -> p a = true -> exists a', List.find p l = Some a'.
Proof.
  intros Hin Hp. destruct (List.find p l) as [a'|] eqn:E; [eauto|].
  pose proof (List.find_none p l E a Hin). congruence.
Qed.

(** A stored row with the identifier that parses, on a tab that can be
    read, is found. *)
Lemma get_member_by_id_stored now id w row :
  faults w = [] -> first_row_filled (values w) ->
  In row (values w) -> cell 0 row = id -> id <> "Member ID" ->
  is_ok (Member.from_sheet_row now row) = true ->
  exists m', fst (MembersCRUD.get_member_by_id now id w) = Some m'.
Proof.
  intros Hf Hr Hin Hid Hh Hok.
  rewrite get_member_by_id_healthy by assumption. cbn [fst].
  destruct (Member.from_sheet_row now row) as [m|] eqn:Hp; [|discriminate].
  apply (find_is_some _ _ m).
  - apply (shown_intro _ _ _ row); [exact Hin | congruence | exact Hp].
  - apply Member_from_sheet_row_id in Hp. rewrite Hp, Hid. apply String.eqb_refl.
Qed.

(** C6, as the claim has it, fails: a row with the identifier can be in
    the store without a read returning it.  Below a blank first row the
    read returns nothing, and when the remote refuses the read the failure
    is answered with the empty list; either way [create_member] appends a
    second row with the identifier and returns [True]. *)
Lemma C6_unread_member_is_created_again :
  (rows_with_id (Member.member_id sample_member) (values members_blank_first) = 1 /\
   Member.member_id sample_member_again = Member.member_id sample_member /\
   fst (MembersCRUD.create_member sample_now sample_member_again
          members_blank_first) = true /\
   rows_with_id (Member.member_id sample_member)
     (values (snd (MembersCRUD.create_member sample_now sample_member_again
                     members_blank_first))) = 2) /\
  (let refused :=
     mkWorld (values members_with_header)
       [Some (HttpError 503 "service unavailable")] in
   rows_with_id (Member.member_id sample_member) (values refused) = 1 /\
   fst (MembersCRUD.create_member sample_now sample_member_again refused) = true /\
   rows_with_id (Member.member_id sample_member)
     (values (snd (MembersCRUD.create_member sample_now sample_member_again
                     refused))) = 2).
Proof. vm_compute. repeat split. Qed.

(** C6, amended: a member whose identifier is in a row that a read returns
    is not created again.  On a remote that answers, for a tab whose first
    row is not blank and an identifier other than the header label: when
    some row that parses as a member carries the identifier,
    [create_member] returns [False] and leaves the rows as they are; and
    when no row carries it, two creates in a row of a valid member under
    that identifier give [True] then [False] and leave exactly one row
    with it. *)
Theorem C6_second_create_member_rejected :
  forall (now : string) (m1 m2 : Member.t) (w : World),
    Member.member_id m2 = Member.member_id m1 ->
    faults w = [] -> first_row_filled (values w) ->
    Member.member_id m1 <> "Member ID" ->
    (forall row,
        In row (values w) -> cell 0 row = Member.member_id m1 ->
        is_ok (Member.from_sheet_row now row) = true ->
        MembersCRUD.create_member now m2 w = (false, w)) /\
    (Member._validate m1 = Ok tt ->
     (forall row, In row (values w) -> cell 0 row <> Member.member_id m1) ->
     let (r1, w1) := MembersCRUD.create_member now m1 w in
     let (r2, w2) := MembersCRUD.create_member now m2 w1 in
     r1 = true /\ r2 = false /\
     values w2 = values w ++ [Member.to_sheet_row m1] /\
     rows_with_id (Member.member_id m1) (values w2) = 1).
Proof.
  intros now m1 m2 w Hid Hf Hr Hh. split.
  - intros row Hin Hrow Hok.
    destruct (get_member_by_id_stored now _ w row Hf Hr Hin Hrow Hh Hok)
      as [m' Hfound].
    rewrite <- Hid in Hfound.
    destruct (create_member_existing now m2 w m' Hfound) as [Hfalse Hsame].
    unfold MembersCRUD.create_member, bind in *.
    rewrite get_member_by_id_healthy in * by assumption.
    cbn [fst] in Hfound. rewrite Hfound. reflexivity.
  - intros Hv Hno.
    rewrite create_member_fresh by assumption.
    set (w1 := mkWorld (values w ++ [Member.to_sheet_row m1]) []).
    assert (Hr1 : first_row_filled (values w1)).
    { apply first_row_filled_app; [assumption | now destruct m1]. }
    assert (Hget : exists m',
      fst (MembersCRUD.get_member_by_id now (Member.member_id m2) w1) = Some m').
    { rewrite get_member_by_id_healthy by (auto; reflexivity). cbn [fst values w1].
      rewrite shown_app by (auto; now destruct m1).
      rewrite find_app_none by (rewrite Hid; now apply shown_absent).
      unfold parsed. cbn [omap list_omap]. rewrite Member_from_to by assumption.
      cbn. rewrite Hid, String.eqb_refl. eauto. }
    destruct Hget as [m' Hget].
    destruct (create_member_existing now m2 w1 m' Hget) as [Hfalse Hsame].
    destruct (MembersCRUD.create_member now m2 w1) as [r2 w2]. simpl in *.
    subst r2. rewrite Hsame.
    repeat split; try reflexivity.
    rewrite rows_with_id_app, rows_with_id_none by assumption.
    unfold rows_with_id. destruct m1. cbn. now rewrite String.eqb_refl.
Qed.

Lemma C6_second_create_member_rejected_witness :
  MembersCRUD.create_member sample_now sample_member_again members_with_header
    = (false, members_with_header) /\
  let (r1, w1) := MembersCRUD.create_member sample_now sample_member members_sheet in
  let (r2, w2) := MembersCRUD.create_member sample_now sample_member_again w1 in
  r1 = true /\ r2 = false /\
  values w2 = values members_sheet ++ [Member.to_sheet_row sample_member] /\
  rows_with_id (Member.member_id sample_member) (values w2) = 1.
Proof.
  split.
  - destruct (C6_second_create_member_rejected sample_now sample_member
                sample_member_again members_with_header eq_refl eq_refl I)
      as [Hfound _]; [discriminate|].
    apply (Hfound (Member.to_sheet_row sample_member)).
    + right. left. reflexivity.
    + reflexivity.
    + vm_compute. reflexivity.
  - destruct (C6_second_create_member_rejected sample_now sample_member
                sample_member_again members_sheet eq_refl eq_refl I)
      as [_ Htwice]; [discriminate|].
    apply Htwice.
    + vm_compute. reflexivity.
    + intros row [<-|[]]. discriminate.
Defined.

(** C7: reading all rows of a tab.  On a tab whose first row is blank the
    header test [row[0]] raises outside the per-row [try], so the read
    returns nothing at all although the row below parses; under a header
    row the same row is returned.  The three stores behave alike. *)
Theorem C7_blank_first_row_loses_batch :
  Member.from_sheet_row sample_now (Member.to_sheet_row sample_member)
    = Ok sample_member /\
  fst (MembersCRUD.get_all_members sample_now members_blank_first) = [] /\
  fst (MembersCRUD.get_all_members sample_now members_with_header)
    = [sample_member] /\
  res_bind (Event.to_sheet_row sample_event) (Event.from_sheet_row sample_now)
    = Ok sample_event /\
  fst (EventsCRUD.get_all_events sample_now events_blank_first) = [] /\
  AttendanceRecord.from_sheet_row sample_now
    (AttendanceRecord.to_sheet_row attendance_first) = Ok attendance_first /\
  fst (AttendanceCRUD.get_all_attendance sample_now attendance_blank_first) = [].
Proof. vm_compute. repeat split. Qed.

(** C1: recording attendance for a pair that already has a row.  The
    update looks for the row by the identifier of the record passed in, not
    by the identifier of the row found for the pair.  With a fresh
    identifier nothing is found: the call returns [False] and the existing
    row keeps its old contents.  With the identifier of another pair's row
    that row is overwritten, and the pair then has two rows. *)
Theorem C1_record_attendance_misses_existing_row :
  (fst (AttendanceCRUD.get_attendance_record sample_now "EVT1" "MBR1"
          attendance_sheet) = Some attendance_first /\
   AttendanceCRUD.record_attendance sample_now attendance_again attendance_sheet
     = (false, attendance_sheet)) /\
  (rows_of_pair "EVT1" "MBR1" (values attendance_sheet2) = 1 /\
   fst (AttendanceCRUD.record_attendance sample_now attendance_clash
          attendance_sheet2) = true /\
   values (snd (AttendanceCRUD.record_attendance sample_now attendance_clash
                  attendance_sheet2))
     = [AttendanceRecord.get_headers;
        AttendanceRecord.to_sheet_row attendance_first;
        AttendanceRecord.to_sheet_row attendance_clash] /\
   rows_of_pair "EVT1" "MBR1"
     (values (snd (AttendanceCRUD.record_attendance sample_now attendance_clash
                     attendance_sheet2))) = 2).
Proof. vm_compute. repeat split. Qed.

(** ** The retry loop *)

Lemma time_sleep_sleepable (seconds : Q) :
  sleepable seconds -> GoogleSheetsManager.time_sleep seconds = Ok tt.
Proof.
  intros [H0 Hns]. unfold GoogleSheetsManager.time_sleep.
  change (inject_Z (2 ^ 63 + 1024)) with 9223372036854776832%Q.
  change (inject_Z (- 2 ^ 63 - 1024)) with (-9223372036854776832)%Q.
  change (inject_Z (2 ^ 63 - 512)) with 9223372036854775296%Q in *.
  set (ns := (seconds * 1000000000)%Q) in *.
  assert (Hpos : (0 <= ns)%Q) by (unfold ns; lra).
  assert (E1 : Qle_bool ns 9223372036854776832 = true)
    by (apply Qle_bool_iff; lra).
  assert (E2 : Qle_bool (-9223372036854776832) ns = true)
    by (apply Qle_bool_iff; lra).
  assert (E3 : Qle_bool 0 seconds = true) by now apply Qle_bool_iff.
  assert (E4 : Qle_bool 9223372036854775296 ns = false).
  { destruct (Qle_bool 9223372036854775296 ns) eqn:E; [|reflexivity].
    apply Qle_bool_iff in E. lra. }
  now rewrite E1, E2, E3, E4.
Qed.

(** A negative wait of less than 292 years is refused with [ValueError]. *)
Lemma time_sleep_negative (seconds : Q) :
  (seconds < 0)%Q -> (-9223372036 <= seconds)%Q ->
  GoogleSheetsManager.time_sleep seconds
  = Raise (ValueError "sleep length must be non-negative").
Proof.
  intros Hneg Hlo. unfold GoogleSheetsManager.time_sleep.
  change (inject_Z (2 ^ 63 + 1024)) with 9223372036854776832%Q.
  change (inject_Z (- 2 ^ 63 - 1024)) with (-9223372036854776832)%Q.
  change (inject_Z (2 ^ 63 - 512)) with 9223372036854775296%Q in *.
  set (ns := (seconds * 1000000000)%Q) in *.
  assert (E1 : Qle_bool ns 9223372036854776832 = true)
    by (apply Qle_bool_iff; unfold ns; lra).
  assert (E2 : Qle_bool (-9223372036854776832) ns = true)
    by (apply Qle_bool_iff; unfold ns; lra).
  assert (E3 : Qle_bool 0 seconds = false).
  { destruct (Qle_bool 0 seconds) eqn:E; [|reflexivity].
    apply Qle_bool_iff in E. lra. }
  now rewrite E1, E2, E3.
Qed.

Lemma pause_sleepable (seconds : Q) :
  sleepable seconds -> GoogleSheetsManager.pause (Ok seconds) = Ok seconds.
Proof.
  intros H. unfold GoogleSheetsManager.pause. cbn [res_bind].
  now rewrite time_sleep_sleepable.
Qed.

Lemma pause_backoff (delay : Q) (i : nat) :
  i < 1024 -> sleepable (doubled delay i) ->
  GoogleSheetsManager.pause (GoogleSheetsManager.backoff delay i)
  = Ok (doubled delay i).
Proof.
  intros Hi Hs. unfold GoogleSheetsManager.backoff.
  destruct (Nat.leb_spec 1024 i) as [Hge|_]; [lia|].
  now apply pause_sleepable.
Qed.

Section retry_facts.

Import GoogleSheetsManager.

Context {R : Type}.
Variable execute : nat -> res R.
Variable max_retries : Z.
Variable delay : Q.




Hypothesis max_retries_range : (0 <= max_retries <= 1024)%Z.












End retry_facts.






(** ** The round trip through a row *)

Lemma Member_roundtrip now raw m :
  Py.truthy now = true ->
  Member.__post_init__ now raw = Ok m -> Member_normal m ->
  Member.from_sheet_row now (Member.to_sheet_row m) = Ok m.
Proof.
  intros Hnow Hc (N1 & N2 & N3 & N4 & N5 & N6 & N7).
  pose proof (Member_post_init_valid _ _ _ Hc) as Hv.
  rewrite (Member_from_to now m Hv).
  apply Member_post_init_inv in Hc as [_ ->].
  cbn [Member.member_id Member.first_name Member.last_name Member.email
       Member.phone Member.role Member.membership_status
       Member.payment_status Member.created_at Member.updated_at
       Member.wix_user_id Member.join_date Member.graduation_year Member.major
       Member.emergency_contact Member.emergency_phone Member.notes] in *.
  rewrite !none_if_empty_or_empty by assumption.
  now rewrite created_stamp_truthy.
Qed.

Lemma Event_normal_fits e : Event_normal e -> capacity_fits e.
Proof.
  intros [_ N]. unfold capacity_fits.
  destruct (Event.max_attendees e); [apply N | exact I].
Qed.

Lemma Event_roundtrip now raw e :
  Py.truthy now = true ->
  Event.__post_init__ now raw = Ok e -> Event_normal e ->
  res_bind (Event.to_sheet_row e) (Event.from_sheet_row now) = Ok e.
Proof.
  intros Hnow Hc HN.
  pose proof (Event_normal_fits e HN) as Hfit. destruct HN as (N1 & N2).
  pose proof (Event_post_init_valid _ _ _ Hc) as Hv.
  rewrite (Event_to_sheet_row_fits e Hfit). cbn [res_bind].
  rewrite (Event_from_to now e Hv Hfit).
  apply Event_post_init_inv in Hc as [_ ->].
  cbn [Event.event_id Event.event_name Event.event_type Event.event_date
       Event.start_time Event.end_time Event.location Event.description
       Event.is_mandatory Event.max_attendees Event.created_by Event.status
       Event.created_at Event.updated_at] in *.
  rewrite none_if_empty_or_empty by assumption.
  rewrite created_stamp_truthy by assumption.
  destruct (Event.max_attendees raw) as [n|]; [|reflexivity].
  destruct N2 as [N2 _]. apply Z.ltb_lt in N2. cbn [capacity_read_back].
  now rewrite N2.
Qed.

Lemma AttendanceRecord_roundtrip now raw a :
  Py.truthy now = true ->
  AttendanceRecord.__post_init__ now raw = Ok a -> AttendanceRecord_normal a ->
  AttendanceRecord.from_sheet_row now (AttendanceRecord.to_sheet_row a) = Ok a.
Proof.
  intros Hnow Hc (N1 & N2 & N3).
  pose proof (AttendanceRecord_post_init_valid _ _ _ Hc) as Hv.
  rewrite (AttendanceRecord_from_to now a Hv).
  apply AttendanceRecord_post_init_inv in Hc as [_ ->].
  cbn [AttendanceRecord.record_id AttendanceRecord.event_id
       AttendanceRecord.member_id AttendanceRecord.attendance_status
       AttendanceRecord.check_in_time AttendanceRecord.check_out_time
       AttendanceRecord.notes AttendanceRecord.recorded_by
       AttendanceRecord.created_at AttendanceRecord.updated_at] in *.
  rewrite !none_if_empty_or_empty by assumption.
  now rewrite created_stamp_truthy.
Qed.

(** C2, as the claim has it, fails: an event constructed with a capacity of
    zero is valid, and its row reads back with no capacity; and an event
    whose capacity has 4301 digits is valid, but [str] refuses to write
    the capacity, so there is no row to read back. *)
Lemma C2_capacity_zero_or_huge_not_restored :
  (Event.__post_init__ sample_now event_zero_capacity_fields
     = Ok event_zero_capacity /\
   res_bind (Event.to_sheet_row event_zero_capacity)
     (Event.from_sheet_row sample_now) <> Ok event_zero_capacity) /\
  (Event.__post_init__ sample_now event_huge_capacity = Ok event_huge_capacity /\
   Event.to_sheet_row event_huge_capacity = Raise Py.too_many_digits).
Proof.
  split; split;
    [vm_compute; reflexivity | vm_compute; discriminate
     | vm_compute; reflexivity | vm_compute; reflexivity].
Qed.

(** C2, amended: a Member, Event or AttendanceRecord constructed while the
    clock reads [now], whose optional text fields are absent or non-empty
    and (for an Event) whose capacity is absent or a positive number of at
    most 4300 digits, is given back field by field when its row is parsed
    while the clock reads [now]. *)
Theorem C2_roundtrip_of_normal_entities :
  forall now : string,
    Py.truthy now = true ->
    (forall raw m,
        Member.__post_init__ now raw = Ok m -> Member_normal m ->
        Member.from_sheet_row now (Member.to_sheet_row m) = Ok m) /\
    (forall raw e,
        Event.__post_init__ now raw = Ok e -> Event_normal e ->
        res_bind (Event.to_sheet_row e) (Event.from_sheet_row now) = Ok e) /\
    (forall raw a,
        AttendanceRecord.__post_init__ now raw = Ok a ->
        AttendanceRecord_normal a ->
        AttendanceRecord.from_sheet_row now (AttendanceRecord.to_sheet_row a)
        = Ok a).
Proof.
  intros now Hnow. split; [|split].
  - intros raw m. now apply Member_roundtrip.
  - intros raw e. now apply Event_roundtrip.
  - intros raw a. now apply AttendanceRecord_roundtrip.
Qed.

Lemma C2_roundtrip_of_normal_entities_witness :
  Member.from_sheet_row sample_now (Member.to_sheet_row sample_member)
    = Ok sample_member /\
  res_bind (Event.to_sheet_row sample_event) (Event.from_sheet_row sample_now)
    = Ok sample_event /\
  AttendanceRecord.from_sheet_row sample_now
    (AttendanceRecord.to_sheet_row attendance_first) = Ok attendance_first.
Proof.
  destruct (C2_roundtrip_of_normal_entities sample_now eq_refl) as (HM & HE & HA).
  split; [|split].
  - apply (HM sample_member); [vm_compute; reflexivity|].
    unfold Member_normal; simpl; repeat split; discriminate.
  - apply (HE sample_event); [vm_compute; reflexivity|].
    unfold Event_normal. cbn [Event.description Event.max_attendees sample_event].
    split; [discriminate|]. split; [lia|]. vm_compute. lia.
  - apply (HA attendance_first); [vm_compute; reflexivity|].
    unfold AttendanceRecord_normal; simpl; repeat split; discriminate.
Defined.

(** C9: an event whose capacity is 0 writes an empty Max Attendees cell,
    the very cell an event without capacity writes, and its row reads back
    with no capacity. *)
Theorem C9_zero_capacity_reads_back_absent :
  forall (now : string) (e : Event.t),
    Event._validate e = Ok tt ->
    Event.max_attendees e = Some 0%Z ->
    exists row,
      Event.to_sheet_row e = Ok row /\
      cell 9 row = "" /\
      Event.max_attendees_cell (Some 0%Z) = Event.max_attendees_cell None /\
      exists e',
        Event.from_sheet_row now row = Ok e' /\
        Event.max_attendees e' = None.
Proof.
  intros now e Hv H0.
  assert (Hfit : capacity_fits e).
  { unfold capacity_fits. rewrite H0. vm_compute. lia. }
  exists (Event_row e). split; [now apply Event_to_sheet_row_fits|].
  split; [|split].
  - unfold Event_row, Event.to_sheet_row. rewrite H0. reflexivity.
  - reflexivity.
  - rewrite (Event_from_to now e Hv Hfit). eexists. split; [reflexivity|].
    simpl. now rewrite H0.
Qed.

Lemma C9_zero_capacity_reads_back_absent_witness :
  exists row,
    Event.to_sheet_row event_zero_capacity = Ok row /\
    cell 9 row = "" /\
    Event.max_attendees_cell (Some 0%Z) = Event.max_attendees_cell None /\
    exists e',
      Event.from_sheet_row sample_now row = Ok e' /\
      Event.max_attendees e' = None.
Proof.
  apply (C9_zero_capacity_reads_back_absent sample_now event_zero_capacity).
  - vm_compute. reflexivity.
  - reflexivity.
Defined.

(** ** Blank enum cells *)

Lemma or_default_in s d l :
  blank_or_in s l -> Py.str_in d l = true -> Py.str_in "" l = false ->
  Py.str_in (Py.or_default s d) l = true.
Proof.
  intros [->|Hin] Hd Hno; [exact Hd|].
  now rewrite or_default_truthy by (eapply str_in_truthy; eauto).
Qed.

Lemma Member_from_blank_enums now row :
  member_row_ok row ->
  exists m,
    Member.from_sheet_row now row = Ok m /\
    Member.member_id m = cell 0 row /\
    Member.role m = Py.or_default (cell 6 row) "member" /\
    Member.membership_status m = Py.or_default (cell 7 row) "active" /\
    Member.payment_status m = Py.or_default (cell 8 row) "pending".
Proof.
  intros (H0 & H1 & H2 & H3 & H4 & H6 & H7 & H8).
  unfold Member.from_sheet_row, Member.__post_init__.
  rewrite !cell_pad.
  rewrite Member_validate_intro;
    cbn [Member.member_id Member.first_name Member.last_name Member.email
         Member.phone Member.role Member.membership_status
         Member.payment_status];
    try assumption;
    try (apply or_default_in; [assumption | reflexivity | reflexivity]).
  eexists. split; [reflexivity|]. cbn. auto.
Qed.

Lemma Event_from_blank_status now row :
  event_row_ok row ->
  exists e,
    Event.from_sheet_row now row = Ok e /\
    Event.event_id e = cell 0 row /\
    Event.status e = Py.or_default (cell 11 row) "scheduled".
Proof.
  intros (H0 & H1 & H2 & H3 & H4 & H5 & H9 & H11).
  unfold Event.from_sheet_row, Event.__post_init__.
  rewrite !cell_pad.
  destruct (Event.parse_max_attendees (cell 9 row)) as [ma|]; [|discriminate].
  cbn [res_bind].
  rewrite Event_validate_intro;
    cbn [Event.event_id Event.event_name Event.event_type Event.event_date
         Event.start_time Event.end_time Event.status];
    try assumption;
    try (apply or_default_in; [assumption | reflexivity | reflexivity]).
  eexists. split; [reflexivity|]. cbn. auto.
Qed.

(** C10: blank enum cells are read as the defaults.  A members row whose
    other cells are valid parses, and its role, membership status and
    payment status are "member", "active" and "pending" wherever the cell
    is blank; an events row with a blank status cell parses as
    "scheduled"; and a stored members row with a blank membership-status
    cell is among the active members. *)
Theorem C10_blank_enum_cells_take_defaults :
  forall (now : string) (row : Row),
    (member_row_ok row ->
     exists m,
       Member.from_sheet_row now row = Ok m /\
       (cell 6 row = "" -> Member.role m = "member") /\
       (cell 7 row = "" -> Member.membership_status m = "active") /\
       (cell 8 row = "" -> Member.payment_status m = "pending")) /\
    (event_row_ok row -> cell 11 row = "" ->
     exists e,
       Event.from_sheet_row now row = Ok e /\ Event.status e = "scheduled") /\
    (forall (w : World) (rows : list Row),
        member_row_ok row -> cell 7 row = "" ->
        faults w = [] -> values w = Member.get_headers :: rows -> In row rows ->
        exists m,
          In m (fst (MembersCRUD.get_active_members now w)) /\
          Member.member_id m = cell 0 row /\
          Member.membership_status m = "active").
Proof.
  intros now row. split; [|split].
  - intros Hok. destruct (Member_from_blank_enums now row Hok)
      as (m & Hp & _ & Hr & Hs & Hy).
    exists m. split; [exact Hp|].
    repeat split; intros E; rewrite E in *; assumption.
  - intros Hok E. destruct (Event_from_blank_status now row Hok) as (e & Hp & _ & Hs).
    exists e. split; [exact Hp|]. now rewrite E in Hs.
  - intros w rows Hok E Hf Hvals Hin.
    destruct (Member_from_blank_enums now row Hok) as (m & Hp & Hid & _ & Hs & _).
    rewrite E in Hs. exists m. split; [|auto].
    unfold MembersCRUD.get_active_members, MembersCRUD.get_all_members, bind.
    rewrite get_all_healthy by (rewrite ?Hvals; auto; exact I).
    cbn [fst ret]. rewrite Hvals. cbn [shown Member.get_headers String.eqb].
    change (String.eqb "Member ID" "Member ID") with true. cbv iota.
    apply List.filter_In. split; [|now rewrite Hs].
    apply parsed_In. eauto.
Qed.

Lemma C10_blank_enum_cells_take_defaults_witness :
  exists m,
    Member.from_sheet_row sample_now member_row_blank_enums = Ok m /\
    (cell 6 member_row_blank_enums = "" -> Member.role m = "member") /\
    (cell 7 member_row_blank_enums = "" -> Member.membership_status m = "active") /\
    (cell 8 member_row_blank_enums = "" -> Member.payment_status m = "pending").
Proof.
  destruct (C10_blank_enum_cells_take_defaults sample_now member_row_blank_enums)
    as [Hmember _].
  apply Hmember.
  unfold member_row_ok, blank_or_in. vm_compute. intuition.
Defined.

(** ** EventsCRUD *)

Lemma get_all_no_faults {A} (parse : Row -> res A) header w :
  faults w = [] ->
  Sheets.get_all parse header w = (seen parse header (values w), w).
Proof.
  intros Hf. unfold Sheets.get_all, bind, Sheets.get_values, ret.
  rewrite request_healthy by exact Hf. simpl.
  destruct w as [vs fs]; simpl in *. now subst.
Qed.

Lemma seen_In {A} (parse : Row -> res A) header rows a :
  In a (seen parse header rows) -> exists row, In row rows /\ parse row = Ok a.
Proof.
  unfold seen. destruct (Sheets.read_rows parse header 0 rows) as [l|e] eqn:E.
  - eauto using read_rows_In.
  - intros [].
Qed.

Lemma strptime_valid s :
  Event._is_valid_time s = true -> EventsCRUD.strptime s = Ok (minutes s).
Proof.
  unfold Event._is_valid_time, EventsCRUD.strptime, minutes.
  now destruct (Strptime.parse_HM s).
Qed.


Lemma conflict_scan_not_true new_event events :
  (forall e, In e events -> Event._validate e = Ok tt) ->
  (forall e, In e events -> blocks new_event e = false) ->
  match EventsCRUD.conflict_scan new_event events with
  | Ok conflict => conflict
  | Raise _ => false
  end = false.
Proof.
  intros Hall Hno. induction events as [|e rest IH]; [reflexivity|].
  cbn [EventsCRUD.conflict_scan].
  pose proof (Hno e (or_introl eq_refl)) as Hb. unfold blocks, cancelled in Hb.
  assert (IH' : match EventsCRUD.conflict_scan new_event rest with
                | Ok conflict => conflict
                | Raise _ => false
                end = false).
  { apply IH; intros e' Hin; [apply Hall | apply Hno]; now right. }
  destruct (String.eqb (Event.status e) "cancelled"); [exact IH'|].
  cbn [negb andb] in Hb.
  destruct (Event_validate_inv e (Hall e (or_introl eq_refl)))
    as (_ & _ & _ & _ & Hs' & He' & _).
  unfold EventsCRUD.strptime at 1.
  destruct (Strptime.parse_HM (Event.start_time new_event)) as [ns|] eqn:Ens;
    [|reflexivity].
  cbn [res_bind]. unfold EventsCRUD.strptime at 1.
  destruct (Strptime.parse_HM (Event.end_time new_event)) as [ne|] eqn:Ene;
    [|reflexivity].
  cbn [res_bind]. rewrite !strptime_valid by assumption. cbn [res_bind].
  unfold windows_overlap, minutes in Hb. rewrite Ens, Ene in Hb.
  fold (minutes (Event.end_time e)) in Hb. fold (minutes (Event.start_time e)) in Hb.
  rewrite Hb. exact IH'.
Qed.

Lemma events_seen_valid now rows date e :
  In e (List.filter (fun e => String.eqb (Event.event_date e) date)
          (seen (Event.from_sheet_row now) "Event ID" rows)) ->
  Event._validate e = Ok tt.
Proof.
  intros Hin. apply List.filter_In in Hin as [Hin _].
  apply seen_In in Hin as (row & _ & Hp).
  eauto using Event_from_sheet_row_valid.
Qed.

Lemma get_events_by_date_no_faults now date w :
  faults w = [] ->
  EventsCRUD.get_events_by_date now date w
  = (List.filter (fun e => String.eqb (Event.event_date e) date)
       (seen (Event.from_sheet_row now) "Event ID" (values w)), w).
Proof.
  intros Hf. unfold EventsCRUD.get_events_by_date, EventsCRUD.get_all_events, bind.
  now rewrite get_all_no_faults.
Qed.

Lemma get_event_by_id_no_faults now id w :
  faults w = [] ->
  EventsCRUD.get_event_by_id now id w
  = (List.find (fun event => String.eqb (Event.event_id event) id)
       (seen (Event.from_sheet_row now) "Event ID" (values w)), w).
Proof.
  intros Hf. unfold EventsCRUD.get_event_by_id, EventsCRUD.get_all_events, bind.
  now rewrite get_all_no_faults.
Qed.

Lemma Event_from_sheet_row_id now row e :
  Event.from_sheet_row now row = Ok e -> Event.event_id e = cell 0 row.
Proof.
  unfold Event.from_sheet_row.
  destruct (Event.parse_max_attendees _); [|discriminate]. cbn [res_bind].
  intros H. apply Event_post_init_inv in H as [_ ->]. cbn. apply cell_pad.
Qed.





Lemma create_event_free now new_event w :
  faults w = [] ->
  capacity_fits new_event ->
  fst (EventsCRUD.get_event_by_id now (Event.event_id new_event) w) = None ->
  (forall existing,
      In existing (fst (EventsCRUD.get_events_by_date now
                          (Event.event_date new_event) w)) ->
      blocks new_event existing = false) ->
  EventsCRUD.create_event now new_event w
  = (true, mkWorld (values w ++ [Event_row new_event]) []).
Proof.
  intros Hf Hfit Hfresh Hno.
  rewrite get_event_by_id_no_faults in Hfresh by exact Hf. cbn [fst] in Hfresh.
  unfold EventsCRUD.create_event, bind.
  rewrite get_event_by_id_no_faults by exact Hf. rewrite Hfresh.
  unfold EventsCRUD._check_event_conflict, bind.
  rewrite get_events_by_date_no_faults in * by exact Hf. cbn [fst] in Hno.
  unfold ret at 1.
  rewrite conflict_scan_not_true by eauto using events_seen_valid.
  rewrite (Event_to_sheet_row_fits new_event Hfit).
  unfold Sheets.append. rewrite request_healthy by exact Hf. reflexivity.
Qed.

(** An event whose capacity [str] refuses is not created: no request to
    append is made. *)
Lemma create_event_unwritable now new_event w :
  ~ capacity_fits new_event ->
  fst (EventsCRUD.create_event now new_event w) = false /\
  values (snd (EventsCRUD.create_event now new_event w)) = values w.
Proof.
  intros Hfit.
  assert (Hraise : exists e, Event.to_sheet_row new_event = Raise e).
  { destruct (Event.to_sheet_row new_event) as [row|e] eqn:E; [|eauto].
    exfalso. apply Hfit. now apply (Event_to_sheet_row_inv new_event row). }
  destruct Hraise as [e Hraise].
  unfold EventsCRUD.create_event, EventsCRUD._check_event_conflict,
    EventsCRUD.get_events_by_date, EventsCRUD.get_event_by_id, bind.
  pose proof (get_all_keeps_values (Event.from_sheet_row now) "Event ID" w) as K1.
  unfold EventsCRUD.get_all_events.
  destruct (Sheets.get_all (Event.from_sheet_row now) "Event ID" w) as [l1 w1].
  cbn [snd fst ret] in *.
  destruct (Sheets.first _ l1); [now split|].
  pose proof (get_all_keeps_values (Event.from_sheet_row now) "Event ID" w1) as K2.
  destruct (Sheets.get_all (Event.from_sheet_row now) "Event ID" w1) as [l2 w2].
  cbn [snd fst ret] in *.
  assert (K : values w2 = values w) by congruence.
  destruct (match EventsCRUD.conflict_scan new_event _ with
            | Ok conflict => conflict
            | Raise _ => false
            end); [split; [reflexivity | exact K]|].
  rewrite Hraise. split; [reflexivity | exact K].
Qed.







(** ** Attendance summaries *)

(** ** Binary floating point *)

Lemma round_half_even_close (x : Q) :
  (x - (1 # 2) <= inject_Z (Float.round_half_even x))%Q /\
  (inject_Z (Float.round_half_even x) <= x + (1 # 2))%Q.
Proof.
  unfold Float.round_half_even.
  pose proof (Qfloor_le x) as Hle.
  pose proof (Qlt_floor x) as Hlt.
  rewrite inject_Z_plus in Hlt. change (inject_Z 1) with 1%Q in Hlt.
  set (f := Qfloor x) in *. clearbody f.
  destruct (Qcompare_spec (x - inject_Z f) (1 # 2)) as [E|L|G].
  - destruct (Z.even f); rewrite ?inject_Z_plus;
      change (inject_Z 1) with 1%Q; split; lra.
  - split; lra.
  - rewrite inject_Z_plus. change (inject_Z 1) with 1%Q. split; lra.
Qed.

Lemma round_half_even_comp (x y : Q) :
  (x == y)%Q -> Float.round_half_even x = Float.round_half_even y.
Proof.
  intros E. unfold Float.round_half_even. rewrite (Qfloor_comp x y E).
  assert (Ec : ((x - inject_Z (Qfloor y)) ?= 1 # 2)%Q
               = ((y - inject_Z (Qfloor y)) ?= 1 # 2)%Q).
  { apply Qcompare_comp; [now rewrite E | reflexivity]. }
  now rewrite Ec.
Qed.

Lemma round_half_even_int (n : Z) : Float.round_half_even (inject_Z n) = n.
Proof.
  unfold Float.round_half_even. rewrite Qfloor_Z.
  assert (E : ((inject_Z n - inject_Z n) ?= 1 # 2)%Q = Lt).
  { rewrite <- Qlt_alt. lra. }
  now rewrite E.
Qed.

(** An integer on one side of [x] stays on that side of the rounding. *)
Lemma round_half_even_le_int (x : Q) (n : Z) :
  (x <= inject_Z n)%Q -> (Float.round_half_even x <= n)%Z.
Proof.
  intros H. unfold Float.round_half_even.
  pose proof (Qfloor_le x) as Hle.
  pose proof (Qlt_floor x) as Hlt.
  rewrite inject_Z_plus in Hlt. change (inject_Z 1) with 1%Q in Hlt.
  assert (Hf : (Qfloor x <= n)%Z) by (rewrite Zle_Qle; lra).
  destruct (Z.eq_dec (Qfloor x) n) as [E|N].
  - assert (Ex : (x == inject_Z n)%Q) by (rewrite E in Hle; lra).
    assert (Ec : ((x - inject_Z (Qfloor x)) ?= 1 # 2)%Q = Lt).
    { rewrite <- Qlt_alt. rewrite E. lra. }
    rewrite Ec. lia.
  - destruct (_ ?= _)%Q; try destruct (Z.even _); lia.
Qed.

Lemma round_half_even_ge_int (x : Q) (n : Z) :
  (inject_Z n <= x)%Q -> (n <= Float.round_half_even x)%Z.
Proof.
  intros H. unfold Float.round_half_even.
  assert (Hf : (n <= Qfloor x)%Z).
  { rewrite <- (Qfloor_Z n). now apply Qfloor_resp_le. }
  destruct (_ ?= _)%Q; try destruct (Z.even _); lia.
Qed.

Lemma round_half_even_mono (x y : Q) :
  (x <= y)%Q -> (Float.round_half_even x <= Float.round_half_even y)%Z.
Proof.
  intros H.
  destruct (Z_le_gt_dec (Float.round_half_even x) (Float.round_half_even y))
    as [Hle|Hgt]; [exact Hle|exfalso].
  (* rx > ry: then ry + 1 <= rx, and x >= rx - 1/2 >= ry + 1/2 >= y, so all are ties *)
  pose proof (round_half_even_close x) as [Hx1 Hx2].
  pose proof (round_half_even_close y) as [Hy1 Hy2].
  set (rx := Float.round_half_even x) in *.
  set (ry := Float.round_half_even y) in *.
  assert (Hz : (inject_Z ry + 1 <= inject_Z rx)%Q).
  { change 1%Q with (inject_Z 1). rewrite <- inject_Z_plus, <- Zle_Qle. lia. }
  assert (Ex : (x == inject_Z ry + (1 # 2))%Q) by lra.
  assert (Ey : (y == inject_Z ry + (1 # 2))%Q) by lra.
  assert (Exy : (x == y)%Q) by lra.
  pose proof (round_half_even_comp x y Exy). subst rx ry. lia.
Qed.

Lemma pow2_pos (k : Z) : (0 < 2 ^ k)%Q.
Proof. apply Qpower_0_lt. reflexivity. Qed.

Lemma pow2_add (a b : Z) : (2 ^ (a + b) == 2 ^ a * 2 ^ b)%Q.
Proof. apply Qpower_plus. discriminate. Qed.

Lemma pow2_succ (a : Z) : (2 ^ (a + 1) == 2 * 2 ^ a)%Q.
Proof. rewrite pow2_add. change (2 ^ 1)%Q with 2%Q. ring. Qed.

Lemma pow2_Z (k : Z) : (0 <= k)%Z -> (2 ^ k == inject_Z (2 ^ k))%Q.
Proof. intros H. now rewrite Zpower_Qpower. Qed.

Lemma pow2_le (a b : Z) : (a <= b)%Z -> (2 ^ a <= 2 ^ b)%Q.
Proof. intros H. apply Qpower_le_compat_l; [exact H | discriminate]. Qed.

Lemma pow2_lt_inv (a b : Z) : (2 ^ a < 2 ^ b)%Q -> (a < b)%Z.
Proof. intros H. apply (Qpower_lt_compat_l_inv 2); [exact H | reflexivity]. Qed.

(** The bracket of a positive rational between two powers of two. *)
Lemma ilog2_spec (x : Q) :
  (0 < x)%Q -> (2 ^ Float.ilog2 x <= x)%Q /\ (x < 2 ^ (Float.ilog2 x + 1))%Q.
Proof.
  intros Hx. destruct x as [n d].
  assert (Hn : (0 < n)%Z).
  { unfold Qlt in Hx. cbn in Hx. lia. }
  unfold Float.ilog2. cbn [Qnum Qden].
  pose proof (Z.log2_spec n Hn) as [Ha1 Ha2].
  pose proof (Z.log2_spec (Z.pos d) (Pos2Z.is_pos d)) as [Hb1 Hb2].
  pose proof (Z.log2_nonneg n) as HA.
  pose proof (Z.log2_nonneg (Z.pos d)) as HB.
  set (A := Z.log2 n) in *. set (B := Z.log2 (Z.pos d)) in *.
  replace (Z.succ A) with (A + 1)%Z in Ha2 by lia.
  replace (Z.succ B) with (B + 1)%Z in Hb2 by lia.
  (* everything over Q *)
  assert (Ea : (2 ^ A == inject_Z (2 ^ A))%Q) by now apply pow2_Z.
  assert (Eb : (2 ^ B == inject_Z (2 ^ B))%Q) by now apply pow2_Z.
  assert (Hx' : (n # d == inject_Z n / inject_Z (Z.pos d))%Q) by apply Qmake_Qdiv.
  set (x := (n # d)%Q) in *.
  set (N := inject_Z n) in *. set (D := inject_Z (Z.pos d)) in *.
  assert (HD : (0 < D)%Q).
  { unfold D. change 0%Q with (inject_Z 0). rewrite <- Zlt_Qlt. lia. }
  assert (HxD : (x * D == N)%Q).
  { rewrite Hx'. field. lra. }
  assert (Ha1' : (2 ^ A <= N)%Q) by (rewrite Ea; unfold N; now rewrite <- Zle_Qle).
  assert (Ha2' : (N < 2 * 2 ^ A)%Q).
  { rewrite Ea. unfold N. change 2%Q with (inject_Z 2).
    rewrite <- inject_Z_mult, <- Zlt_Qlt.
    rewrite Z.pow_add_r in Ha2 by lia. change (2 ^ 1)%Z with 2%Z in Ha2. lia. }
  assert (Hb1' : (2 ^ B <= D)%Q) by (rewrite Eb; unfold D; now rewrite <- Zle_Qle).
  assert (Hb2' : (D < 2 * 2 ^ B)%Q).
  { rewrite Eb. unfold D. change 2%Q with (inject_Z 2).
    rewrite <- inject_Z_mult, <- Zlt_Qlt.
    rewrite Z.pow_add_r in Hb2 by lia. change (2 ^ 1)%Z with 2%Z in Hb2. lia. }
  assert (Ep : (2 ^ (A - B) * 2 ^ B == 2 ^ A)%Q).
  { rewrite <- pow2_add. now replace (A - B + B)%Z with A by lia. }
  pose proof (pow2_pos (A - B)) as Hp. pose proof (pow2_pos B) as Hb.
  pose proof (pow2_pos A) as Ha.
  set (p := (2 ^ (A - B))%Q) in *. set (a := (2 ^ A)%Q) in *.
  set (b := (2 ^ B)%Q) in *.
  assert (Hup : (x < 2 * p)%Q).
  { destruct (Qlt_le_dec x (2 * p)) as [H|H]; [exact H|exfalso].
    assert (2 * p * b <= x * D)%Q by nra. nra. }
  assert (Hlo : (p < 2 * x)%Q).
  { destruct (Qlt_le_dec p (2 * x)) as [H|H]; [exact H|exfalso].
    assert (2 * x * D <= p * (2 * b))%Q by nra. nra. }
  destruct (Qle_bool p x) eqn:E.
  - apply Qle_bool_iff in E. split; [exact E|].
    rewrite pow2_succ. exact Hup.
  - assert (Hlt : (x < p)%Q).
    { destruct (Qlt_le_dec x p) as [H|H]; [exact H|].
      apply Qle_bool_iff in H. congruence. }
    replace (A - B - 1 + 1)%Z with (A - B)%Z by lia. fold p.
    split; [|exact Hlt].
    assert (Eh : (2 * 2 ^ (A - B - 1) == p)%Q).
    { rewrite <- pow2_succ. unfold p. now replace (A - B - 1 + 1)%Z with (A - B)%Z by lia. }
    pose proof (pow2_pos (A - B - 1)). lra.
Qed.

Lemma ilog2_unique (x : Q) (e : Z) :
  (2 ^ e <= x)%Q -> (x < 2 ^ (e + 1))%Q -> Float.ilog2 x = e.
Proof.
  intros H1 H2.
  assert (Hx : (0 < x)%Q) by (pose proof (pow2_pos e); lra).
  destruct (ilog2_spec x Hx) as [S1 S2].
  assert ((Float.ilog2 x < e + 1)%Z) by (apply pow2_lt_inv; lra).
  assert ((e < Float.ilog2 x + 1)%Z) by (apply pow2_lt_inv; lra).
  lia.
Qed.

Lemma ilog2_comp (x y : Q) : (0 < x)%Q -> (x == y)%Q -> Float.ilog2 x = Float.ilog2 y.
Proof.
  intros Hx E. destruct (ilog2_spec x Hx) as [S1 S2]. symmetry.
  apply ilog2_unique; now rewrite <- E.
Qed.

Lemma ilog2_mono (x y : Q) :
  (0 < x)%Q -> (x <= y)%Q -> (Float.ilog2 x <= Float.ilog2 y)%Z.
Proof.
  intros Hx Hxy.
  destruct (ilog2_spec x Hx) as [S1 _].
  destruct (ilog2_spec y ltac:(lra)) as [_ T2].
  assert ((Float.ilog2 x < Float.ilog2 y + 1)%Z) by (apply pow2_lt_inv; lra).
  lia.
Qed.

Lemma exponent_comp (x y : Q) :
  (0 < x)%Q -> (x == y)%Q -> Float.exponent x = Float.exponent y.
Proof. intros Hx E. unfold Float.exponent. now rewrite (ilog2_comp x y Hx E). Qed.

Lemma exponent_mono (x y : Q) :
  (0 < x)%Q -> (x <= y)%Q -> (Float.exponent x <= Float.exponent y)%Z.
Proof.
  intros Hx Hxy. unfold Float.exponent. pose proof (ilog2_mono x y Hx Hxy). lia.
Qed.

Lemma nearest_pos_comp (x y : Q) :
  (0 < x)%Q -> (x == y)%Q -> (Float.nearest_pos x == Float.nearest_pos y)%Q.
Proof.
  intros Hx E. unfold Float.nearest_pos. rewrite (exponent_comp x y Hx E).
  rewrite (round_half_even_comp (x / 2 ^ Float.exponent y) (y / 2 ^ Float.exponent y));
    [reflexivity|]. now rewrite E.
Qed.

Lemma nearest_pos_nonneg (x : Q) : (0 < x)%Q -> (0 <= Float.nearest_pos x)%Q.
Proof.
  intros Hx. unfold Float.nearest_pos.
  pose proof (pow2_pos (Float.exponent x)) as Hp.
  apply Qmult_le_0_compat; [|lra].
  change 0%Q with (inject_Z 0). rewrite <- Zle_Qle.
  apply round_half_even_ge_int. change (inject_Z 0) with 0%Q.
  apply Qle_shift_div_l; [exact Hp|lra].
Qed.

(** The scaled number [x / 2 ^ s] and what times [2 ^ s] gives back. *)
Lemma scaled (x : Q) (s : Z) : (x / 2 ^ s * 2 ^ s == x)%Q.
Proof. field. pose proof (pow2_pos s). lra. Qed.

(** Rounding stays within the powers of two around [x]. *)
Lemma nearest_pos_ge_pow2 (x : Q) (k : Z) :
  (0 < x)%Q -> (2 ^ k <= x)%Q -> (Float.exponent x <= k)%Z ->
  (2 ^ k <= Float.nearest_pos x)%Q.
Proof.
  intros Hx Hk Hs. unfold Float.nearest_pos.
  set (s := Float.exponent x) in *.
  pose proof (pow2_pos s) as Hp.
  assert (Ek : (2 ^ k == inject_Z (2 ^ (k - s)) * 2 ^ s)%Q).
  { rewrite <- pow2_Z by lia. rewrite <- pow2_add.
    now replace (k - s + s)%Z with k by lia. }
  rewrite Ek. apply Qmult_le_compat_r; [|lra].
  rewrite <- Zle_Qle. apply round_half_even_ge_int.
  apply Qle_shift_div_l; [exact Hp|]. now rewrite <- Ek.
Qed.

Lemma nearest_pos_le_pow2 (x : Q) (k : Z) :
  (0 < x)%Q -> (x <= 2 ^ k)%Q -> (Float.exponent x <= k)%Z ->
  (Float.nearest_pos x <= 2 ^ k)%Q.
Proof.
  intros Hx Hk Hs. unfold Float.nearest_pos.
  set (s := Float.exponent x) in *.
  pose proof (pow2_pos s) as Hp.
  assert (Ek : (2 ^ k == inject_Z (2 ^ (k - s)) * 2 ^ s)%Q).
  { rewrite <- pow2_Z by lia. rewrite <- pow2_add.
    now replace (k - s + s)%Z with k by lia. }
  rewrite Ek. apply Qmult_le_compat_r; [|lra].
  rewrite <- Zle_Qle. apply round_half_even_le_int.
  apply Qle_shift_div_r; [exact Hp|]. now rewrite <- Ek.
Qed.

Lemma nearest_pos_mono (x y : Q) :
  (0 < x)%Q -> (x <= y)%Q -> (Float.nearest_pos x <= Float.nearest_pos y)%Q.
Proof.
  intros Hx Hxy.
  assert (Hy : (0 < y)%Q) by lra.
  pose proof (exponent_mono x y Hx Hxy) as Hs.
  destruct (Z.eq_dec (Float.exponent x) (Float.exponent y)) as [E|N].
  - unfold Float.nearest_pos. rewrite E.
    pose proof (pow2_pos (Float.exponent y)) as Hp.
    apply Qmult_le_compat_r; [|lra].
    rewrite <- Zle_Qle. apply round_half_even_mono.
    apply Qmult_le_compat_r; [exact Hxy|].
    apply Qinv_le_0_compat. lra.
  - (* the weight grows: [y] is a normal number above the binade of [x] *)
    destruct (ilog2_spec x Hx) as [X1 X2].
    destruct (ilog2_spec y Hy) as [Y1 Y2].
    unfold Float.exponent in Hs, N.
    set (ex := Float.ilog2 x) in *. set (ey := Float.ilog2 y) in *.
    set (k := Z.max (ex + 1) (Float.exponent x)).
    apply Qle_trans with (2 ^ k)%Q.
    + apply nearest_pos_le_pow2; [exact Hx| |unfold k; lia].
      apply Qle_trans with (2 ^ (ex + 1))%Q; [lra|].
      apply pow2_le. unfold k. lia.
    + apply Qle_trans with (2 ^ ey)%Q.
      * apply pow2_le. unfold k, Float.exponent. fold ex. lia.
      * apply nearest_pos_ge_pow2; [exact Hy | exact Y1|].
        unfold Float.exponent. fold ey. lia.
Qed.

(** The relative error of a rounding in the normal range is at most
    [2 ^ -53]. *)
Lemma nearest_pos_error (x : Q) :
  (0 < x)%Q -> (-1022 <= Float.ilog2 x)%Z ->
  (x - x * (1 # 9007199254740992) <= Float.nearest_pos x)%Q /\
  (Float.nearest_pos x <= x + x * (1 # 9007199254740992))%Q.
Proof.
  intros Hx He. destruct (ilog2_spec x Hx) as [X1 _].
  unfold Float.nearest_pos, Float.exponent.
  replace (Z.max (Float.ilog2 x - 52) (-1074)) with (Float.ilog2 x - 52)%Z by lia.
  set (e := Float.ilog2 x) in *. set (s := (e - 52)%Z).
  pose proof (pow2_pos s) as Hp.
  pose proof (round_half_even_close (x / 2 ^ s)) as [C1 C2].
  pose proof (scaled x s) as Es.
  assert (E52 : (2 ^ e == 4503599627370496 * 2 ^ s)%Q).
  { replace e with (52 + s)%Z by (unfold s; lia). rewrite pow2_add.
    apply Qmult_comp; [|reflexivity]. reflexivity. }
  set (z := (x / 2 ^ s)%Q) in *. set (m := inject_Z (Float.round_half_even z)) in *.
  set (p := (2 ^ s)%Q) in *. set (q := (2 ^ e)%Q) in *.
  split; nra.
Qed.

Lemma nearest_of_pos (x : Q) : (0 < x)%Q -> Float.nearest x = Float.nearest_pos x.
Proof.
  intros Hx. unfold Float.nearest.
  assert (E : (x ?= 0)%Q = Gt) by (rewrite <- Qgt_alt; exact Hx).
  now rewrite E.
Qed.

Lemma nearest_of_zero (x : Q) : (x == 0)%Q -> Float.nearest x = 0%Q.
Proof.
  intros Hx. unfold Float.nearest.
  assert (E : (x ?= 0)%Q = Eq) by (rewrite <- Qeq_alt; exact Hx).
  now rewrite E.
Qed.

Lemma nearest_comp (x y : Q) :
  (0 <= x)%Q -> (x == y)%Q -> (Float.nearest x == Float.nearest y)%Q.
Proof.
  intros Hx E. destruct (Qlt_le_dec 0 x) as [Hpos|Hle].
  - rewrite !nearest_of_pos by lra. now apply nearest_pos_comp.
  - rewrite !nearest_of_zero by lra. reflexivity.
Qed.

Lemma nearest_nonneg (x : Q) : (0 <= x)%Q -> (0 <= Float.nearest x)%Q.
Proof.
  intros Hx. destruct (Qlt_le_dec 0 x) as [Hpos|Hle].
  - rewrite nearest_of_pos by exact Hpos. now apply nearest_pos_nonneg.
  - rewrite nearest_of_zero by lra. lra.
Qed.

(** Rounding keeps the order. *)
Lemma nearest_mono (x y : Q) :
  (0 <= x)%Q -> (x <= y)%Q -> (Float.nearest x <= Float.nearest y)%Q.
Proof.
  intros Hx Hxy. destruct (Qlt_le_dec 0 x) as [Hpos|Hle].
  - rewrite !nearest_of_pos by lra. now apply nearest_pos_mono.
  - rewrite (nearest_of_zero x) by lra. apply nearest_nonneg. lra.
Qed.

Lemma nearest_error (x : Q) :
  (2 ^ (-1022) <= x)%Q ->
  (x - x * (1 # 9007199254740992) <= Float.nearest x)%Q /\
  (Float.nearest x <= x + x * (1 # 9007199254740992))%Q.
Proof.
  intros Hx. pose proof (pow2_pos (-1022)) as Hp.
  rewrite nearest_of_pos by lra. apply nearest_pos_error; [lra|].
  destruct (ilog2_spec x ltac:(lra)) as [_ S2].
  assert ((-1022 < Float.ilog2 x + 1)%Z) by (apply pow2_lt_inv; lra).
  lia.
Qed.

Lemma finite_below (x : Q) :
  (0 <= x)%Q -> (x < 2 ^ 1024)%Q -> Float.finite x = true.
Proof.
  intros H0 H. unfold Float.finite.
  destruct (Qle_bool (2 ^ 1024) (Qabs x)) eqn:E; [|reflexivity].
  apply Qle_bool_iff in E. rewrite Qabs_pos in E by exact H0. lra.
Qed.

Lemma ratio_of_ints (a b : Z) :
  (0 <= a)%Z -> (0 < b)%Z -> (0 <= inject_Z a / inject_Z b)%Q.
Proof.
  intros Ha Hb. apply Qle_shift_div_l.
  - change 0%Q with (inject_Z 0). now rewrite <- Zlt_Qlt.
  - rewrite Qmult_0_l. change 0%Q with (inject_Z 0). now rewrite <- Zle_Qle.
Qed.

Lemma ratio_le (a b K : Z) :
  (0 < b)%Z -> (a <= K * b)%Z -> (inject_Z a / inject_Z b <= inject_Z K)%Q.
Proof.
  intros Hb H. apply Qle_shift_div_r.
  - change 0%Q with (inject_Z 0). now rewrite <- Zlt_Qlt.
  - now rewrite <- inject_Z_mult, <- Zle_Qle.
Qed.

(** [a / b] for [0 <= a <= K * b]: no exception, and a float between [0]
    and the float of [K]. *)
Lemma true_div_bounded (a b K : Z) :
  (0 <= a)%Z -> (0 < b)%Z -> (a <= K * b)%Z ->
  (Float.nearest (inject_Z K) < 2 ^ 1024)%Q ->
  Float.true_div a b = Ok (Float.nearest (inject_Z a / inject_Z b)) /\
  (0 <= Float.nearest (inject_Z a / inject_Z b))%Q /\
  (Float.nearest (inject_Z a / inject_Z b) <= Float.nearest (inject_Z K))%Q.
Proof.
  intros Ha Hb HK Hfin.
  pose proof (ratio_of_ints a b Ha Hb) as H0.
  pose proof (ratio_le a b K Hb HK) as H1.
  pose proof (nearest_nonneg _ H0) as N0.
  pose proof (nearest_mono _ _ H0 H1) as N1.
  split; [|split; assumption].
  unfold Float.true_div.
  destruct (Z.eqb_spec b 0) as [E|_]; [lia|].
  rewrite finite_below; [reflexivity | exact N0 | lra].
Qed.

Lemma nearest_1 : (Float.nearest 1 == 1)%Q.
Proof. vm_compute. reflexivity. Qed.

Lemma nearest_100 : (Float.nearest 100 == 100)%Q.
Proof. vm_compute. reflexivity. Qed.

(** [round(x, 1)] of a float between [0] and [100]. *)
Lemma round1_percent (x : Q) :
  (0 <= x)%Q -> (x <= 100)%Q ->
  (0 <= Float.round_half_even (x * 10) <= 1000)%Z /\
  (0 <= Float.round1 x)%Q /\ (Float.round1 x <= 100)%Q.
Proof.
  intros H0 H1.
  assert (Hk0 : (0 <= Float.round_half_even (x * 10))%Z).
  { apply round_half_even_ge_int. change (inject_Z 0) with 0%Q. lra. }
  assert (Hk1 : (Float.round_half_even (x * 10) <= 1000)%Z).
  { apply round_half_even_le_int. change (inject_Z 1000) with 1000%Q. lra. }
  split; [lia|]. unfold Float.round1.
  set (k := Float.round_half_even (x * 10)) in *.
  assert (Hq0 : (0 <= inject_Z k / 10)%Q).
  { apply Qle_shift_div_l; [reflexivity|]. rewrite Qmult_0_l.
    change 0%Q with (inject_Z 0). now rewrite <- Zle_Qle. }
  assert (Hq1 : (inject_Z k / 10 <= 100)%Q).
  { apply Qle_shift_div_r; [reflexivity|].
    change (100 * 10)%Q with (inject_Z 1000). now rewrite <- Zle_Qle. }
  split; [now apply nearest_nonneg|].
  apply Qle_trans with (Float.nearest 100); [now apply nearest_mono|].
  apply Qle_lteq. right. exact nearest_100.
Qed.

(** The float of [(a / b) * 100] for [0 <= a <= b]. *)
Lemma percent_bounds (a b : Z) :
  (0 <= a <= b)%Z -> (0 < b)%Z ->
  let ratio := Float.nearest (inject_Z a / inject_Z b) in
  Float.true_div a b = Ok ratio /\
  (0 <= Float.mul ratio 100)%Q /\ (Float.mul ratio 100 <= 100)%Q.
Proof.
  intros [Ha Hab] Hb ratio.
  destruct (true_div_bounded a b 1 Ha Hb ltac:(lia)) as (Hdiv & R0 & R1).
  { vm_compute. reflexivity. }
  fold ratio in Hdiv, R0, R1.
  assert (R1' : (ratio <= 1)%Q).
  { apply Qle_trans with (Float.nearest (inject_Z 1)); [exact R1|].
    apply Qle_lteq. right. exact nearest_1. }
  split; [exact Hdiv|]. unfold Float.mul.
  split; [apply nearest_nonneg; lra|].
  apply Qle_trans with (Float.nearest 100); [apply nearest_mono; lra|].
  apply Qle_lteq. right. exact nearest_100.
Qed.

(** The rate of [a] in [b], for fewer than [2 ^ 40] records: the one
    decimal the float is rounded to is a nearest one of the exact rate.
    The floats are off by less than the exact rate is from the middle
    between two decimals, unless it lies in the middle. *)
Lemma rate_close (a b : Z) :
  (0 <= a <= b)%Z -> (0 < b < 2 ^ 40)%Z ->
  let exact := (inject_Z a / inject_Z b * 100)%Q in
  let k := Float.round_half_even
             (Float.mul (Float.nearest (inject_Z a / inject_Z b)) 100 * 10) in
  (exact - (1 # 20) <= inject_Z k / 10)%Q /\
  (inject_Z k / 10 <= exact + (1 # 20))%Q.
Proof.
  intros [Ha Hab] [Hb Hb40] exact k.
  assert (HT : (0 < inject_Z b)%Q).
  { change 0%Q with (inject_Z 0). now rewrite <- Zlt_Qlt. }
  assert (HT40 : (inject_Z b < 1099511627776)%Q).
  { change 1099511627776%Q with (inject_Z (2 ^ 40)). now rewrite <- Zlt_Qlt. }
  assert (HqT : (inject_Z a / inject_Z b * inject_Z b == inject_Z a)%Q)
    by (field; lra).
  destruct (Z.eq_dec a 0) as [E0|Hne].
  - (* nobody attended: every number is zero *)
    assert (Eq : (inject_Z a / inject_Z b == 0)%Q).
    { subst a. unfold Qdiv. now rewrite Qmult_0_l. }
    assert (Ek : k = 0%Z).
    { unfold k, Float.mul. rewrite (nearest_of_zero _ Eq).
      rewrite (nearest_of_zero (0 * 100)%Q) by reflexivity. reflexivity. }
    rewrite Ek. unfold exact. rewrite Eq. split; vm_compute; discriminate.
  - assert (HN : (1 <= inject_Z a)%Q).
    { change 1%Q with (inject_Z 1). rewrite <- Zle_Qle. lia. }
    assert (HNT : (inject_Z a <= inject_Z b)%Q) by now rewrite <- Zle_Qle.
    set (q := (inject_Z a / inject_Z b)%Q) in *.
    set (T := inject_Z b) in *. set (N := inject_Z a) in *.
    assert (Hq1 : (q <= 1)%Q).
    { apply Qle_shift_div_r; [exact HT | lra]. }
    assert (Hq40 : ((1 # 1099511627776) <= q)%Q).
    { apply Qle_shift_div_l; [exact HT|]. lra. }
    assert (Hlow : (2 ^ (-1022) <= (1 # 2199023255552))%Q).
    { change (1 # 2199023255552)%Q with (2 ^ (-41))%Q. apply pow2_le. lia. }
    destruct (nearest_error q ltac:(lra)) as [R1 R2].
    set (r := Float.nearest q) in *.
    destruct (nearest_error (r * 100)%Q ltac:(lra)) as [X1 X2].
    unfold k, Float.mul. fold r.
    set (X := Float.nearest (r * 100)) in *.
    pose proof (round_half_even_close (X * 10)) as [K1 K2].
    set (K := Float.round_half_even (X * 10)) in *.
    assert (Hdiv : (inject_Z K / 10 == inject_Z K * (1 # 10))%Q) by (field; lra).
    rewrite Hdiv. unfold exact.
    (* the floats are off by less than a half of 1 / b *)
    assert (Hoff1 : (X * 10 - q * 1000 <= (1 # 4000000000000))%Q) by lra.
    assert (Hoff2 : (q * 1000 - X * 10 <= (1 # 4000000000000))%Q) by lra.
    split.
    + destruct (Qlt_le_dec (inject_Z K) (q * 1000 - (1 # 2))) as [Hbad|Hok];
        [exfalso|lra].
      assert (HZ : (2 * K * b + b < 2000 * a)%Z).
      { rewrite Zlt_Qlt, !inject_Z_plus, !inject_Z_mult.
        fold T N. change (inject_Z 2) with 2%Q. change (inject_Z 2000) with 2000%Q.
        nra. }
      assert (HZ' : (2 * K * b + b + 1 <= 2000 * a)%Z) by lia.
      rewrite Zle_Qle, !inject_Z_plus, !inject_Z_mult in HZ'.
      fold T N in HZ'. change (inject_Z 2) with 2%Q in HZ'.
      change (inject_Z 2000) with 2000%Q in HZ'. change (inject_Z 1) with 1%Q in HZ'.
      set (d := (q * 1000 - (1 # 2) - inject_Z K)%Q).
      assert (Hd1 : (d <= (1 # 4000000000000))%Q) by (unfold d; lra).
      assert (Hd2 : (1 <= d * (2 * T))%Q) by (unfold d; nra).
      nra.
    + destruct (Qlt_le_dec (q * 1000 + (1 # 2)) (inject_Z K)) as [Hbad|Hok];
        [exfalso|lra].
      assert (HZ : (2000 * a + b < 2 * K * b)%Z).
      { rewrite Zlt_Qlt, !inject_Z_plus, !inject_Z_mult.
        fold T N. change (inject_Z 2) with 2%Q. change (inject_Z 2000) with 2000%Q.
        nra. }
      assert (HZ' : (2000 * a + b + 1 <= 2 * K * b)%Z) by lia.
      rewrite Zle_Qle, !inject_Z_plus, !inject_Z_mult in HZ'.
      fold T N in HZ'. change (inject_Z 2) with 2%Q in HZ'.
      change (inject_Z 2000) with 2000%Q in HZ'. change (inject_Z 1) with 1%Q in HZ'.
      set (d := (inject_Z K - q * 1000 - (1 # 2))%Q).
      assert (Hd1 : (d <= (1 # 4000000000000))%Q) by (unfold d; lra).
      assert (Hd2 : (1 <= d * (2 * T))%Q) by (unfold d; nra).
      nra.
Qed.

(** A whole number of at most 53 bits is a float. *)
Lemma nearest_int (n : Z) :
  (0 <= n < 2 ^ 53)%Z -> (Float.nearest (inject_Z n) == inject_Z n)%Q.
Proof.
  intros [H0 H53]. destruct (Z.eq_dec n 0) as [->|Hne]; [reflexivity|].
  assert (Hn : (0 < n)%Z) by lia.
  assert (Hx : (0 < inject_Z n)%Q).
  { change 0%Q with (inject_Z 0). now rewrite <- Zlt_Qlt. }
  rewrite nearest_of_pos by exact Hx.
  pose proof (Z.log2_spec n Hn) as [L1 L2].
  pose proof (Z.log2_nonneg n) as L0.
  assert (L52 : (Z.log2 n < 53)%Z) by (apply Z.log2_lt_pow2; lia).
  set (e := Z.log2 n) in *.
  assert (He : Float.ilog2 (inject_Z n) = e).
  { apply ilog2_unique.
    - rewrite pow2_Z by lia. now rewrite <- Zle_Qle.
    - rewrite pow2_Z by lia. rewrite <- Zlt_Qlt. now replace (e + 1)%Z with (Z.succ e) by lia. }
  unfold Float.nearest_pos, Float.exponent. rewrite He.
  replace (Z.max (e - 52) (-1074)) with (e - 52)%Z by lia.
  pose proof (pow2_pos (e - 52)) as Hp.
  assert (Es : (2 ^ (e - 52) * inject_Z (2 ^ (52 - e)) == 1)%Q).
  { rewrite <- pow2_Z by lia. rewrite <- pow2_add.
    now replace (e - 52 + (52 - e))%Z with 0%Z by lia. }
  assert (Ez : (inject_Z n / 2 ^ (e - 52) == inject_Z (n * 2 ^ (52 - e)))%Q).
  { rewrite inject_Z_mult. set (p := (2 ^ (e - 52))%Q) in *.
    set (c := inject_Z (2 ^ (52 - e))) in *.
    rewrite <- (Qmult_1_r (inject_Z n / p)). rewrite <- Es. field. lra. }
  rewrite (round_half_even_comp _ _ Ez), round_half_even_int, inject_Z_mult.
  set (p := (2 ^ (e - 52))%Q) in *. set (c := inject_Z (2 ^ (52 - e))) in *. nra.
Qed.

(** ** Times of day *)

Lemma first_match_inv {B} (cs : Strptime.cands) (k : nat -> list ascii -> option B) b :
  Strptime.first_match cs k = Some b ->
  exists v rest, In (v, rest) cs /\ k v rest = Some b.
Proof.
  induction cs as [|[v rest] cs IH]; simpl; [discriminate|].
  destruct (k v rest) as [b'|] eqn:E.
  - intros [= <-]. eauto.
  - intros H. destruct (IH H) as (v' & rest' & Hin & Hk). eauto.
Qed.

Lemma in_range_digit_val lo hi c :
  Py.in_range lo hi c = true -> 48 <= lo ->
  lo - 48 <= Strptime.digit_val c <= hi - 48.
Proof.
  unfold Py.in_range, Strptime.digit_val. intros H Hlo.
  apply andb_true_iff in H as [H1 H2].
  apply Nat.leb_le in H1, H2. lia.
Qed.

Lemma two_In p1 p2 s v rest :
  In (v, rest) (Strptime.two p1 p2 s) ->
  exists c1 c2,
    s = c1 :: c2 :: rest /\ p1 c1 = true /\ p2 c2 = true /\
    v = 10 * Strptime.digit_val c1 + Strptime.digit_val c2.
Proof.
  unfold Strptime.two. destruct s as [|c1 [|c2 s]]; try (intros []).
  destruct (p1 c1) eqn:E1; [|intros []].
  destruct (p2 c2) eqn:E2; [|intros []].
  simpl. intros [[= <- <-]|[]]. eauto 10.
Qed.

Lemma one_In p s v rest :
  In (v, rest) (Strptime.one p s) ->
  exists c, s = c :: rest /\ p c = true /\ v = Strptime.digit_val c.
Proof.
  unfold Strptime.one. destruct s as [|c s]; [intros []|].
  destruct (p c) eqn:E; [|intros []].
  simpl. intros [[= <- <-]|[]]. eauto.
Qed.

Lemma dir_H_bound s v rest : In (v, rest) (Strptime.dir_H s) -> v < 24.
Proof.
  unfold Strptime.dir_H. intros H.
  apply in_app_or in H as [H|H]; [|apply in_app_or in H as [H|H]].
  - apply two_In in H as (c1 & c2 & _ & H1 & H2 & ->).
    apply in_range_digit_val in H1, H2; lia.
  - apply two_In in H as (c1 & c2 & _ & H1 & H2 & ->).
    apply in_range_digit_val in H1, H2; lia.
  - apply one_In in H as (c & _ & H1 & ->).
    apply in_range_digit_val in H1; lia.
Qed.

Lemma dir_M_bound s v rest : In (v, rest) (Strptime.dir_M s) -> v < 60.
Proof.
  unfold Strptime.dir_M. intros H.
  apply in_app_or in H as [H|H].
  - apply two_In in H as (c1 & c2 & _ & H1 & H2 & ->).
    apply in_range_digit_val in H1, H2; lia.
  - apply one_In in H as (c & _ & H1 & ->).
    apply in_range_digit_val in H1; lia.
Qed.

Lemma parse_HM_bounds s h m :
  Strptime.parse_HM s = Some (h, m) -> h < 24 /\ m < 60.
Proof.
  unfold Strptime.parse_HM, Strptime.whole.
  destruct (Strptime.first_match _ _) as [[[h' m'] rest]|] eqn:E; [|discriminate].
  destruct rest; [|discriminate]. intros [= <- <-].
  apply first_match_inv in E as (v & r1 & Hin & Hk).
  destruct (Strptime.lit ":" r1) as [r2|]; [|discriminate].
  apply first_match_inv in Hk as (v2 & r3 & Hin2 & Hk2).
  unfold Strptime.at_end in Hk2. injection Hk2 as <- <- _.
  split; [eapply dir_H_bound | eapply dir_M_bound]; eauto.
Qed.

Lemma minutes_range s : (0 <= minutes s < 1440)%Z.
Proof.
  unfold minutes. destruct (Strptime.parse_HM s) as [[h m]|] eqn:E; [|lia].
  apply parse_HM_bounds in E as [Hh Hm].
  unfold Strptime.minutes_of. simpl. lia.
Qed.

Lemma sum_from (l : list Z) (acc : Z) :
  fold_left Z.add l acc = (acc + AttendanceCRUD.sum l)%Z.
Proof.
  unfold AttendanceCRUD.sum. revert acc.
  induction l as [|x l IH]; intros acc; cbn [fold_left]; [lia|].
  rewrite (IH (acc + x)%Z), (IH (0 + x)%Z). lia.
Qed.

Lemma sum_cons (x : Z) (l : list Z) :
  AttendanceCRUD.sum (x :: l) = (x + AttendanceCRUD.sum l)%Z.
Proof. unfold AttendanceCRUD.sum at 1. cbn [fold_left]. now rewrite sum_from. Qed.

Lemma sum_bounds (l : list Z) :
  Forall (fun d => 1 <= d <= 1439)%Z l ->
  (Z.of_nat (List.length l) <= AttendanceCRUD.sum l
   <= 1439 * Z.of_nat (List.length l))%Z.
Proof.
  induction 1 as [|x l Hx _ IH]; [cbv; split; discriminate|].
  rewrite sum_cons. cbn [List.length]. lia.
Qed.

Lemma duration_minutes_range a d :
  AttendanceRecord.duration_minutes a = Ok (Some d) -> (0 <= d < 1440)%Z.
Proof.
  unfold AttendanceRecord.duration_minutes.
  destruct (Py.truthy_opt (AttendanceRecord.check_in_time a)); [|discriminate].
  destruct (Py.truthy_opt (AttendanceRecord.check_out_time a)); [|discriminate].
  cbn [negb orb].
  pose proof (minutes_range (Py.or_empty (AttendanceRecord.check_in_time a))) as Ri.
  pose proof (minutes_range (Py.or_empty (AttendanceRecord.check_out_time a))) as Ro.
  unfold minutes in *.
  destruct (Strptime.parse_HM (Py.or_empty (AttendanceRecord.check_in_time a)))
    as [ci|]; [|discriminate].
  destruct (Strptime.parse_HM (Py.or_empty (AttendanceRecord.check_out_time a)))
    as [co|]; [|discriminate].
  cbv zeta.
  destruct (Z.ltb_spec (Strptime.minutes_of co) (Strptime.minutes_of ci));
    intros [= <-]; lia.
Qed.

Lemma attended_cons r rest :
  attended (r :: rest)
  = (if Py.str_in (AttendanceRecord.attendance_status r) ["present"; "late"]
     then 1 else 0) + attended rest.
Proof.
  unfold attended, AttendanceCRUD.count_status, Py.str_in.
  cbn [List.filter existsb].
  destruct (String.eqb_spec (AttendanceRecord.attendance_status r) "present") as [E|_].
  - rewrite E. simpl. lia.
  - destruct (String.eqb (AttendanceRecord.attendance_status r) "late"); simpl; lia.
Qed.

Lemma attended_le records : attended records <= List.length records.
Proof.
  induction records as [|r rest IH]; [unfold attended, AttendanceCRUD.count_status; simpl; lia|].
  rewrite attended_cons. cbn [List.length]. destruct (Py.str_in _ _); lia.
Qed.

Lemma durations_bounds records ds :
  AttendanceCRUD.durations records = Ok ds ->
  Forall (fun d => 1 <= d <= 1439)%Z ds /\ List.length ds <= attended records.
Proof.
  revert ds. induction records as [|r rest IH]; intros ds.
  - intros [= <-]. split; [constructor | unfold attended, AttendanceCRUD.count_status; simpl; lia].
  - cbn [AttendanceCRUD.durations]. rewrite attended_cons.
    destruct (Py.str_in _ _).
    + destruct (AttendanceRecord.duration_minutes r) as [d|] eqn:Ed; [|discriminate].
      destruct (AttendanceCRUD.durations rest) as [ds'|]; [|discriminate].
      destruct (IH ds' eq_refl) as [HF HL]. cbn [res_bind].
      destruct d as [m|]; [|intros [= <-]; split; [exact HF | lia]].
      pose proof (duration_minutes_range r m Ed) as Hr.
      destruct (Z.eqb_spec m 0); intros [= <-].
      * split; [exact HF | lia].
      * split; [constructor; [lia | exact HF] | cbn [List.length]; lia].
    + intros H. destruct (IH ds H) as [HF HL]. split; [exact HF | lia].
Qed.


Lemma duration_minutes_valid a :
  AttendanceRecord._validate a = Ok tt ->
  is_ok (AttendanceRecord.duration_minutes a) = true.
Proof.
  intros Hv. apply AttendanceRecord_validate_inv in Hv as (_ & _ & _ & _ & Hi & Ho).
  unfold AttendanceRecord.duration_minutes.
  destruct (AttendanceRecord.check_in_time a) as [ci|]; [|reflexivity].
  destruct (AttendanceRecord.check_out_time a) as [co|];
    [|now rewrite orb_true_r].
  cbn [Py.truthy_opt Py.or_empty AttendanceRecord.bad_time] in *.
  destruct (Py.truthy ci); [|reflexivity].
  destruct (Py.truthy co); [|reflexivity].
  cbn [negb orb andb] in *. apply negb_false_iff in Hi, Ho.
  unfold AttendanceRecord._is_valid_time in Hi, Ho.
  destruct (Strptime.parse_HM ci); [|discriminate].
  destruct (Strptime.parse_HM co); [|discriminate].
  reflexivity.
Qed.

Lemma durations_valid records :
  (forall r, In r records -> AttendanceRecord._validate r = Ok tt) ->
  is_ok (AttendanceCRUD.durations records) = true.
Proof.
  induction records as [|r rest IH]; intros Hall; [reflexivity|].
  cbn [AttendanceCRUD.durations].
  assert (Hrest : is_ok (AttendanceCRUD.durations rest) = true).
  { apply IH. intros r' Hin. apply Hall. now right. }
  destruct (Py.str_in _ _); [|exact Hrest].
  pose proof (duration_minutes_valid r (Hall r (or_introl eq_refl))) as Hd.
  destruct (AttendanceRecord.duration_minutes r); [|discriminate].
  destruct (AttendanceCRUD.durations rest); [reflexivity|discriminate].
Qed.

(** The four statuses split the valid records. *)
Lemma counts_partition records :
  (forall r, In r records -> AttendanceRecord._validate r = Ok tt) ->
  AttendanceCRUD.count_status "present" records
  + AttendanceCRUD.count_status "absent" records
  + AttendanceCRUD.count_status "excused" records
  + AttendanceCRUD.count_status "late" records
  = List.length records.
Proof.
  unfold AttendanceCRUD.count_status.
  induction records as [|r rest IH]; intros Hall; [reflexivity|].
  assert (Hrest := IH (fun r' Hin => Hall r' (or_intror Hin))).
  destruct (AttendanceRecord_validate_inv r (Hall r (or_introl eq_refl)))
    as (_ & _ & _ & Hs & _).
  cbn [List.filter List.length].
  unfold Py.str_in in Hs. cbn [existsb] in Hs.
  destruct (String.eqb_spec (AttendanceRecord.attendance_status r) "present") as [E|_];
    [rewrite E; simpl; lia|].
  destruct (String.eqb_spec (AttendanceRecord.attendance_status r) "absent") as [E|_];
    [rewrite E; simpl; lia|].
  destruct (String.eqb_spec (AttendanceRecord.attendance_status r) "excused") as [E|_];
    [rewrite E; simpl; lia|].
  destruct (String.eqb_spec (AttendanceRecord.attendance_status r) "late") as [E|_];
    [simpl; lia|].
  discriminate.
Qed.

Lemma attendance_by_event_valid now event_id w r :
  In r (fst (AttendanceCRUD.get_attendance_by_event now event_id w)) ->
  AttendanceRecord._validate r = Ok tt.
Proof.
  unfold AttendanceCRUD.get_attendance_by_event, AttendanceCRUD.get_all_attendance, bind.
  destruct (Sheets.get_all _ _ w) as [l w'] eqn:E. cbn [fst ret].
  intros Hin. apply List.filter_In in Hin as [Hin _].
  assert (Hl : l = fst (Sheets.get_all (AttendanceRecord.from_sheet_row now)
                          "Record ID" w)) by now rewrite E.
  rewrite Hl in Hin. apply get_all_In in Hin as (row & _ & Hp).
  eauto using AttendanceRecord_from_sheet_row_valid.
Qed.

Lemma nearest_1439 : (Float.nearest 1439 == 1439)%Q.
Proof. vm_compute. reflexivity. Qed.

(** [round(x, 1)] stays between two whole numbers that are floats. *)
Lemma round1_between (lo hi : Z) (x : Q) :
  (0 <= lo)%Z -> (hi < 2 ^ 53)%Z ->
  (inject_Z lo <= x)%Q -> (x <= inject_Z hi)%Q ->
  (inject_Z lo <= Float.round1 x)%Q /\ (Float.round1 x <= inject_Z hi)%Q.
Proof.
  intros Hlo Hhi H0 H1.
  assert (Hle : (lo <= hi)%Z) by (rewrite Zle_Qle; lra).
  assert (Hk0 : (10 * lo <= Float.round_half_even (x * 10))%Z).
  { apply round_half_even_ge_int. rewrite inject_Z_mult.
    change (inject_Z 10) with 10%Q. lra. }
  assert (Hk1 : (Float.round_half_even (x * 10) <= 10 * hi)%Z).
  { apply round_half_even_le_int. rewrite inject_Z_mult.
    change (inject_Z 10) with 10%Q. lra. }
  unfold Float.round1. set (k := Float.round_half_even (x * 10)) in *.
  assert (Hq0 : (inject_Z lo <= inject_Z k / 10)%Q).
  { apply Qle_shift_div_l; [reflexivity|].
    change 10%Q with (inject_Z 10). rewrite <- inject_Z_mult, <- Zle_Qle. lia. }
  assert (Hq1 : (inject_Z k / 10 <= inject_Z hi)%Q).
  { apply Qle_shift_div_r; [reflexivity|].
    change 10%Q with (inject_Z 10). rewrite <- inject_Z_mult, <- Zle_Qle. lia. }
  assert (Hl0 : (0 <= inject_Z lo)%Q).
  { change 0%Q with (inject_Z 0). now rewrite <- Zle_Qle. }
  split.
  - apply Qle_trans with (Float.nearest (inject_Z lo)).
    + apply Qle_lteq. right. symmetry. apply nearest_int. lia.
    + now apply nearest_mono.
  - apply Qle_trans with (Float.nearest (inject_Z hi)).
    + apply nearest_mono; lra.
    + apply Qle_lteq. right. apply nearest_int. lia.
Qed.

(** The mean of the durations: no exception, and between 1 and 1439. *)
Lemma mean_bounds (ds : list Z) :
  ds <> [] -> Forall (fun d => 1 <= d <= 1439)%Z ds ->
  let mean := Float.nearest (inject_Z (AttendanceCRUD.sum ds)
                             / inject_Z (Z.of_nat (List.length ds))) in
  Float.true_div (AttendanceCRUD.sum ds) (Z.of_nat (List.length ds)) = Ok mean /\
  (1 <= mean)%Q /\ (mean <= 1439)%Q.
Proof.
  intros Hne HF mean. destruct (sum_bounds ds HF) as [Hlo Hhi].
  assert (Hn : (0 < Z.of_nat (List.length ds))%Z).
  { destruct ds; [congruence | cbn [List.length]; lia]. }
  destruct (true_div_bounded (AttendanceCRUD.sum ds) (Z.of_nat (List.length ds)) 1439)
    as (Hdiv & _ & M1); try lia.
  { vm_compute. reflexivity. }
  fold mean in Hdiv, M1. split; [exact Hdiv|]. split.
  - apply Qle_trans with (Float.nearest 1).
    + apply Qle_lteq. right. symmetry. exact nearest_1.
    + apply nearest_mono; [discriminate|].
      apply Qle_shift_div_l.
      * change 0%Q with (inject_Z 0). now rewrite <- Zlt_Qlt.
      * rewrite Qmult_1_l. now rewrite <- Zle_Qle.
  - apply Qle_trans with (Float.nearest (inject_Z 1439)); [exact M1|].
    apply Qle_lteq. right. exact nearest_1439.
Qed.

(** What the summary holds, for records as a read returns them. *)
Lemma summarize_valid records :
  (forall r, In r records -> AttendanceRecord._validate r = Ok tt) ->
  exists s,
    AttendanceCRUD.summarize records = Ok s /\
    AttendanceCRUD.total_records s = List.length records /\
    AttendanceCRUD.present s = AttendanceCRUD.count_status "present" records /\
    AttendanceCRUD.absent s = AttendanceCRUD.count_status "absent" records /\
    AttendanceCRUD.excused s = AttendanceCRUD.count_status "excused" records /\
    AttendanceCRUD.late s = AttendanceCRUD.count_status "late" records /\
    (AttendanceCRUD.total_records s = 0 -> AttendanceCRUD.attendance_rate s = 0%Q) /\
    (0 < AttendanceCRUD.total_records s ->
     AttendanceCRUD.attendance_rate s = float_rate s) /\
    (attended records = 0 -> AttendanceCRUD.average_duration s = 0%Q) /\
    (AttendanceCRUD.average_duration s = 0%Q \/
     (1 <= AttendanceCRUD.average_duration s)%Q /\
     (AttendanceCRUD.average_duration s <= 1439)%Q).
Proof.
  intros Hall. unfold AttendanceCRUD.summarize.
  pose proof (durations_valid records Hall) as Hd.
  pose proof (attended_le records) as Hle. unfold attended in Hle.
  destruct (0 <? List.length records)%nat eqn:E.
  - apply Nat.ltb_lt in E.
    destruct (percent_bounds
                (Z.of_nat (AttendanceCRUD.count_status "present" records
                           + AttendanceCRUD.count_status "late" records))
                (Z.of_nat (List.length records))) as (Hdiv & _); try lia.
    rewrite Hdiv. cbn [res_bind].
    destruct (AttendanceCRUD.durations records) as [ds|] eqn:Eds; [|discriminate].
    destruct (durations_bounds records ds Eds) as [HF HL].
    cbn [res_bind].
    destruct ds as [|d ds'].
    + cbn [res_bind]. eexists. split; [reflexivity|].
      cbn [AttendanceCRUD.total_records AttendanceCRUD.present AttendanceCRUD.absent
           AttendanceCRUD.excused AttendanceCRUD.late AttendanceCRUD.attendance_rate
           AttendanceCRUD.average_duration].
      do 5 (split; [reflexivity|]). split; [lia|].
      split; [reflexivity|]. split; [reflexivity | left; reflexivity].
    + destruct (mean_bounds (d :: ds')) as (Hmean & M0 & M1);
        [discriminate | exact HF |].
      rewrite Hmean. cbn [res_bind]. eexists. split; [reflexivity|].
      cbn [AttendanceCRUD.total_records AttendanceCRUD.present AttendanceCRUD.absent
           AttendanceCRUD.excused AttendanceCRUD.late AttendanceCRUD.attendance_rate
           AttendanceCRUD.average_duration].
      do 5 (split; [reflexivity|]). split; [lia|].
      split; [reflexivity|]. split.
      * intros H0. cbn [List.length] in HL. lia.
      * right. apply (round1_between 1 1439); try lia; assumption.
  - eexists. split; [reflexivity|].
    cbn [AttendanceCRUD.total_records AttendanceCRUD.present AttendanceCRUD.absent
         AttendanceCRUD.excused AttendanceCRUD.late AttendanceCRUD.attendance_rate
         AttendanceCRUD.average_duration].
    apply Nat.ltb_ge in E.
    do 5 (split; [reflexivity|]). split; [reflexivity|].
    split; [lia|]. split; [reflexivity | left; reflexivity].
Qed.

(** The rate of a summary with records: a float between 0 and 100 that
    stands for a number with one decimal, and for fewer than [2 ^ 40]
    records a decimal nearest to the exact rate. *)
Lemma float_rate_facts (s : AttendanceCRUD.Summary) :
  0 < AttendanceCRUD.total_records s ->
  AttendanceCRUD.present s + AttendanceCRUD.late s <= AttendanceCRUD.total_records s ->
  exists k : Z,
    (0 <= k <= 1000)%Z /\
    float_rate s = Float.nearest (inject_Z k / 10) /\
    (0 <= float_rate s)%Q /\ (float_rate s <= 100)%Q /\
    ((Z.of_nat (AttendanceCRUD.total_records s) < 2 ^ 40)%Z ->
     (exact_rate s - (1 # 20) <= inject_Z k / 10)%Q /\
     (inject_Z k / 10 <= exact_rate s + (1 # 20))%Q).
Proof.
  intros Hpos Hle. unfold float_rate, exact_rate.
  set (a := Z.of_nat (AttendanceCRUD.present s + AttendanceCRUD.late s)).
  set (b := Z.of_nat (AttendanceCRUD.total_records s)).
  assert (Ha : (0 <= a <= b)%Z) by (unfold a, b; lia).
  assert (Hb : (0 < b)%Z) by (unfold b; lia).
  destruct (percent_bounds a b Ha Hb) as (_ & X0 & X1).
  destruct (round1_percent _ X0 X1) as (Hk & R0 & R1).
  exists (Float.round_half_even
            (Float.mul (Float.nearest (inject_Z a / inject_Z b)) 100 * 10)).
  split; [exact Hk|]. split; [reflexivity|].
  split; [exact R0|]. split; [exact R1|].
  intros H40. apply (rate_close a b Ha). lia.
Qed.

(** C8, as the claim has it, fails: the rate is computed in binary floating
    point.  With 23 of 80 records present the exact rate is 28.75, which
    rounded to one decimal place is 28.8; but [23 / 80] is a float just
    below 0.2875, a hundred times it is a float just below 28.75, and
    [round] returns 28.7. *)
Lemma C8_rate_of_23_in_80_is_rounded_down :
  exists s,
    fst (AttendanceCRUD.get_event_attendance_summary sample_now "EVT9"
           attendance_sheet_eighty) = Ok s /\
    AttendanceCRUD.total_records s = 80 /\
    AttendanceCRUD.present s = 23 /\
    AttendanceCRUD.late s = 0 /\
    (exact_rate s == 2875 # 100)%Q /\
    (rounded_to_one_decimal (exact_rate s) == 288 # 10)%Q /\
    (AttendanceCRUD.attendance_rate s == Float.nearest (287 # 10))%Q /\
    (AttendanceCRUD.attendance_rate s < 2871 # 100)%Q.
Proof.
  eexists. split; [vm_compute; reflexivity|].
  repeat split; vm_compute; reflexivity.
Qed.

(** C8, amended: the summary of an event's attendance.  It is always
    produced; its counts are those of the event's records, status by
    status, and add up to the number of records; without records the rate
    is 0; otherwise the rate is [round((present + late) / total_records *
    100, 1)] as the floats evaluate it: a float between 0 and 100 that is
    the one nearest to a number with one decimal, and for fewer than
    [2 ^ 40] records that number is within one twentieth of the exact
    rate; for four records of which three are present or late it is
    75. *)
Theorem C8_event_attendance_summary :
  forall (now event_id : string) (w : World),
    exists s,
      fst (AttendanceCRUD.get_event_attendance_summary now event_id w) = Ok s /\
      (let records := fst (AttendanceCRUD.get_attendance_by_event now event_id w) in
       AttendanceCRUD.total_records s = List.length records /\
       AttendanceCRUD.present s = AttendanceCRUD.count_status "present" records /\
       AttendanceCRUD.absent s = AttendanceCRUD.count_status "absent" records /\
       AttendanceCRUD.excused s = AttendanceCRUD.count_status "excused" records /\
       AttendanceCRUD.late s = AttendanceCRUD.count_status "late" records) /\
      AttendanceCRUD.present s + AttendanceCRUD.absent s
        + AttendanceCRUD.excused s + AttendanceCRUD.late s
        = AttendanceCRUD.total_records s /\
      (AttendanceCRUD.total_records s = 0 ->
       AttendanceCRUD.attendance_rate s = 0%Q) /\
      (0 < AttendanceCRUD.total_records s ->
       AttendanceCRUD.attendance_rate s = float_rate s /\
       exists k : Z,
         (0 <= k <= 1000)%Z /\
         AttendanceCRUD.attendance_rate s = Float.nearest (inject_Z k / 10) /\
         (0 <= AttendanceCRUD.attendance_rate s)%Q /\
         (AttendanceCRUD.attendance_rate s <= 100)%Q /\
         ((Z.of_nat (AttendanceCRUD.total_records s) < 2 ^ 40)%Z ->
          (exact_rate s - (1 # 20) <= inject_Z k / 10)%Q /\
          (inject_Z k / 10 <= exact_rate s + (1 # 20))%Q)) /\
      (AttendanceCRUD.total_records s = 4 ->
       AttendanceCRUD.present s + AttendanceCRUD.late s = 3 ->
       (AttendanceCRUD.attendance_rate s == 75)%Q).
Proof.
  intros now event_id w.
  pose proof (attendance_by_event_valid now event_id w) as Hall.
  unfold AttendanceCRUD.get_event_attendance_summary, bind.
  destruct (AttendanceCRUD.get_attendance_by_event now event_id w) as [records w'].
  cbn [fst ret] in *.
  destruct (summarize_valid records Hall)
    as (s & Hs & Ht & Hp & Ha & He & Hl & Hzero & Hrate & _).
  pose proof (counts_partition records Hall) as Hsum.
  assert (Hpart : AttendanceCRUD.present s + AttendanceCRUD.absent s
                  + AttendanceCRUD.excused s + AttendanceCRUD.late s
                  = AttendanceCRUD.total_records s).
  { rewrite Ht, Hp, Ha, He, Hl. exact Hsum. }
  exists s. split; [exact Hs|].
  split; [auto|]. split; [exact Hpart|]. split; [exact Hzero|].
  split.
  - intros Hpos. split; [exact (Hrate Hpos)|]. rewrite (Hrate Hpos).
    apply float_rate_facts; [exact Hpos | lia].
  - intros H4 H3. rewrite Hrate by lia.
    unfold float_rate. rewrite H4, H3. vm_compute. reflexivity.
Qed.

Lemma C8_event_attendance_summary_witness :
  exists s,
    fst (AttendanceCRUD.get_event_attendance_summary sample_now "EVT1"
           attendance_sheet_four) = Ok s /\
    AttendanceCRUD.total_records s = 4 /\
    AttendanceCRUD.present s = 2 /\
    AttendanceCRUD.absent s = 1 /\
    AttendanceCRUD.excused s = 0 /\
    AttendanceCRUD.late s = 1 /\
    (AttendanceCRUD.attendance_rate s == 75)%Q.
Proof.
  destruct (C8_event_attendance_summary sample_now "EVT1" attendance_sheet_four)
    as (s & Hs & (Ht & Hp & Ha & He & Hl) & _ & _ & _ & H75).
  exists s. split; [exact Hs|].
  assert (Ht' : AttendanceCRUD.total_records s = 4) by (rewrite Ht; vm_compute; reflexivity).
  assert (Hp' : AttendanceCRUD.present s = 2) by (rewrite Hp; vm_compute; reflexivity).
  assert (Hl' : AttendanceCRUD.late s = 1) by (rewrite Hl; vm_compute; reflexivity).
  split; [exact Ht'|]. split; [exact Hp'|].
  split; [rewrite Ha; vm_compute; reflexivity|].
  split; [rewrite He; vm_compute; reflexivity|].
  split; [exact Hl'|].
  apply H75; [exact Ht' | now rewrite Hp', Hl'].
Defined.

(* ===================================================================== *)
(** * Part III: further properties of the code *)
(* ===================================================================== *)

(** ** Rows of any length *)

Lemma cell_app_blank i row k : cell i (row ++ repeat "" k) = cell i row.
Proof.
  unfold cell.
  destruct (Nat.lt_ge_cases i (List.length row)) as [Hlt|Hge].
  - now rewrite app_nth1.
  - rewrite app_nth2 by exact Hge.
    rewrite (nth_overflow row) by exact Hge.
    generalize (i - List.length row) as j.
    induction k as [|k IH]; intros [|j]; simpl; auto.
Qed.

Lemma cell_take n i row : i < n -> cell i (take n row) = cell i row.
Proof.
  unfold cell. revert i row. induction n as [|n IH]; intros i row Hi; [lia|].
  destruct row as [|c row]; [now destruct i|].
  destruct i as [|i]; simpl; [reflexivity|]. apply IH. lia.
Qed.

(** X1: [from_sheet_row] reads a row only through its first 17 (Member),
    14 (Event) or 10 (AttendanceRecord) cells, a missing cell counting as
    blank: two rows that agree there parse to the same result, be it an
    entity or an error.  So blank cells dropped from or added to the end of
    a row, and columns beyond the entity's width, change nothing. *)
Theorem X1_from_sheet_row_reads_leading_cells :
  forall (now : string) (r1 r2 : Row),
    ((forall i, i < 17 -> cell i r1 = cell i r2) ->
     Member.from_sheet_row now r1 = Member.from_sheet_row now r2) /\
    ((forall i, i < 14 -> cell i r1 = cell i r2) ->
     Event.from_sheet_row now r1 = Event.from_sheet_row now r2) /\
    ((forall i, i < 10 -> cell i r1 = cell i r2) ->
     AttendanceRecord.from_sheet_row now r1
     = AttendanceRecord.from_sheet_row now r2) /\
    (forall k,
        Member.from_sheet_row now (r1 ++ repeat "" k)
          = Member.from_sheet_row now r1 /\
        Event.from_sheet_row now (r1 ++ repeat "" k)
          = Event.from_sheet_row now r1 /\
        AttendanceRecord.from_sheet_row now (r1 ++ repeat "" k)
          = AttendanceRecord.from_sheet_row now r1) /\
    (Member.from_sheet_row now (take 17 r1) = Member.from_sheet_row now r1 /\
     Event.from_sheet_row now (take 14 r1) = Event.from_sheet_row now r1 /\
     AttendanceRecord.from_sheet_row now (take 10 r1)
       = AttendanceRecord.from_sheet_row now r1).
Proof.
  intros now r1 r2.
  assert (HM : forall a b, (forall i, i < 17 -> cell i a = cell i b) ->
                 Member.from_sheet_row now a = Member.from_sheet_row now b).
  { intros a b H. unfold Member.from_sheet_row. rewrite !cell_pad.
    now rewrite !H by lia. }
  assert (HE : forall a b, (forall i, i < 14 -> cell i a = cell i b) ->
                 Event.from_sheet_row now a = Event.from_sheet_row now b).
  { intros a b H. unfold Event.from_sheet_row. rewrite !cell_pad.
    now rewrite !H by lia. }
  assert (HA : forall a b, (forall i, i < 10 -> cell i a = cell i b) ->
                 AttendanceRecord.from_sheet_row now a
                 = AttendanceRecord.from_sheet_row now b).
  { intros a b H. unfold AttendanceRecord.from_sheet_row. rewrite !cell_pad.
    now rewrite !H by lia. }
  split; [apply HM|]. split; [apply HE|]. split; [apply HA|]. split.
  - intros k. repeat split; [apply HM | apply HE | apply HA];
      intros i _; apply cell_app_blank.
  - repeat split; [apply HM | apply HE | apply HA];
      intros i Hi; now apply cell_take.
Qed.

Lemma X1_from_sheet_row_reads_leading_cells_witness :
  Member.from_sheet_row sample_now
    ["MBR_20240301100002"; "Jane"; "Roe"; "jane.roe@berkeley.edu";
     "(555) 987-6543"]
  = Member.from_sheet_row sample_now member_row_blank_enums.
Proof.
  destruct (X1_from_sheet_row_reads_leading_cells sample_now
              ["MBR_20240301100002"; "Jane"; "Roe"; "jane.roe@berkeley.edu";
               "(555) 987-6543"] member_row_blank_enums) as [HM _].
  apply HM. intros i Hi.
  do 17 (destruct i as [|i]; [reflexivity|]). lia.
Defined.

(** ** The e-mail pattern *)

Lemma re_dead_not_nullable r : re_dead r = true -> Py.nullable r = false.
Proof.
  induction r; simpl; try discriminate; auto.
  - intros H. apply orb_true_iff in H as [H|H].
    + now rewrite IHr1.
    + rewrite IHr2 by exact H. apply andb_false_r.
  - intros H. apply andb_true_iff in H as [H1 H2]. now rewrite IHr1, IHr2.
Qed.

Lemma re_dead_deriv c r : re_dead r = true -> re_dead (Py.deriv c r) = true.
Proof.
  induction r; simpl; try discriminate; auto.
  - intros H. apply orb_true_iff in H as [H|H].
    + rewrite (re_dead_not_nullable r1 H). simpl. now rewrite IHr1.
    + destruct (Py.nullable r1); simpl; rewrite ?H, ?IHr2 by exact H;
        now rewrite ?orb_true_r.
  - intros H. apply andb_true_iff in H as [H1 H2]. now rewrite IHr1, IHr2.
Qed.

Lemma re_dead_no_match r s : re_dead r = true -> Py.fullmatch r s = false.
Proof.
  revert r. induction s as [|c s IH]; intros r H; simpl.
  - now apply re_dead_not_nullable.
  - apply IH. now apply re_dead_deriv.
Qed.

Lemma re_rejects_dead c r : re_accepts r c = false -> re_dead (Py.deriv c r) = true.
Proof.
  induction r; simpl; auto.
  - now intros ->.
  - intros H. apply orb_false_iff in H as [H1 H2].
    destruct (Py.nullable r1); simpl; now rewrite IHr1, ?IHr2.
  - intros H. apply orb_false_iff in H as [H1 H2]. now rewrite IHr1, IHr2.
  - intros H. now rewrite IHr.
Qed.

Lemma re_accepts_deriv c c' r :
  re_accepts (Py.deriv c r) c' = true -> re_accepts r c' = true.
Proof.
  induction r; simpl; try discriminate.
  - destruct (p c); discriminate.
  - destruct (Py.nullable r1); simpl; intros H;
      repeat (apply orb_true_iff in H as [H|H]);
      rewrite ?(IHr1 H), ?(IHr2 H), ?H, ?orb_true_r; reflexivity.
  - intros H. apply orb_true_iff in H as [H|H];
      rewrite ?(IHr1 H), ?(IHr2 H), ?orb_true_r; reflexivity.
  - intros H. apply orb_true_iff in H as [H|H]; [now apply IHr | exact H].
Qed.

Lemma fullmatch_alphabet r s :
  Py.fullmatch r s = true -> Py.str_forall (re_accepts r) s = true.
Proof.
  revert r. induction s as [|c s IH]; intros r H; simpl in *; [reflexivity|].
  destruct (re_accepts r c) eqn:E.
  - simpl. eapply str_forall_impl; [|apply (IH _ H)].
    intros c'. apply re_accepts_deriv.
  - rewrite re_dead_no_match in H by now apply re_rejects_dead. discriminate.
Qed.

Lemma email_pattern_alphabet c :
  re_accepts Member.email_pattern c = true -> email_char c = true.
Proof.
  unfold Member.email_pattern, email_char, Py.Plus, Py.AtLeast2, Py.Chr, Py.one_of,
    Py.is_alnum.
  cbn [re_accepts list_ascii_of_string existsb].
  rewrite (Ascii.eqb_sym "@"%char c), (Ascii.eqb_sym "."%char c).
  destruct (Py.is_alpha c), (Py.is_digit c), (Ascii.eqb c "."), (Ascii.eqb c "_"),
    (Ascii.eqb c "%"), (Ascii.eqb c "+"), (Ascii.eqb c "-"), (Ascii.eqb c "@");
    cbn; auto.
Qed.

Lemma strip_final_newline_app s :
  Py.strip_final_newline (s ++ newline) = Some s.
Proof.
  induction s as [|c s IH]; [reflexivity|].
  destruct s as [|c2 s]; [reflexivity|].
  change (Py.strip_final_newline (String c2 (s ++ newline)) = Some (String c2 s))
    in IH.
  change (Py.strip_final_newline (String c (String c2 s) ++ newline))
    with (Py.strip_final_newline (String c (String c2 (s ++ newline)))).
  change (Py.strip_final_newline (String c (String c2 (s ++ newline))))
    with (option_map (String c)
            (Py.strip_final_newline (String c2 (s ++ newline)))).
  now rewrite IH.
Qed.

Lemma strip_final_newline_inv s s' :
  Py.strip_final_newline s = Some s' -> s = (s' ++ newline)%string.
Proof.
  revert s'. induction s as [|c s IH]; intros s'; [discriminate|].
  cbn [Py.strip_final_newline]. destruct s as [|c2 s].
  - destruct (Ascii.eqb_spec c "010"%char); [|discriminate].
    intros [= <-]. now subst.
  - destruct (Py.strip_final_newline (String c2 s)) as [t|]; [|discriminate].
    intros [= <-]. rewrite (IH t eq_refl). reflexivity.
Qed.

(** X2: the e-mail check.  An accepted address, apart from one newline that
    may end it, is written only with letters, digits and the characters
    . _ % + - @ (no blank, comma or quote gets through), and every
    address the pattern matches is still accepted with a newline added at
    its end. *)
Theorem X2_valid_email_alphabet_and_final_newline :
  forall email : string,
    (Member._is_valid_email email = true ->
     exists address,
       (email = address \/ email = (address ++ newline)%string) /\
       Py.fullmatch Member.email_pattern address = true /\
       Py.str_forall email_char address = true) /\
    (Py.fullmatch Member.email_pattern email = true ->
     Member._is_valid_email email = true /\
     Member._is_valid_email (email ++ newline) = true).
Proof.
  intros email. split.
  - unfold Member._is_valid_email, Py.match_anchored. intros H.
    apply orb_true_iff in H as [H|H].
    + exists email. split; [now left|]. split; [exact H|].
      eapply str_forall_impl; [apply email_pattern_alphabet|].
      now apply fullmatch_alphabet.
    + destruct (Py.strip_final_newline email) as [address|] eqn:E; [|discriminate].
      exists address. split; [right; now apply strip_final_newline_inv|].
      split; [exact H|].
      eapply str_forall_impl; [apply email_pattern_alphabet|].
      now apply fullmatch_alphabet.
  - intros H. unfold Member._is_valid_email, Py.match_anchored. split.
    + now rewrite H.
    + rewrite strip_final_newline_app, H. apply orb_true_r.
Qed.

Lemma X2_valid_email_alphabet_and_final_newline_witness :
  Member._is_valid_email "john.doe@berkeley.edu" = true /\
  Member._is_valid_email ("john.doe@berkeley.edu" ++ newline) = true.
Proof.
  destruct (X2_valid_email_alphabet_and_final_newline "john.doe@berkeley.edu")
    as [_ H].
  apply H. vm_compute. reflexivity.
Defined.

(** ** The duration of an attendance *)

(** X3: the duration of an attendance.  Whenever [duration_minutes] gives
    a number, both times are set and valid, the number lies between 0 and
    1439, and it is the check-out minus the check-in in minutes, a
    check-out earlier than the check-in counting as the next day's; and
    for a valid record [duration_minutes] does not raise and is [None]
    exactly when a time is missing or empty. *)
Theorem X3_attendance_duration_range :
  forall (a : AttendanceRecord.t),
    (forall d,
        AttendanceRecord.duration_minutes a = Ok (Some d) ->
        let check_in := minutes (Py.or_empty (AttendanceRecord.check_in_time a)) in
        let check_out := minutes (Py.or_empty (AttendanceRecord.check_out_time a)) in
        Py.truthy_opt (AttendanceRecord.check_in_time a) = true /\
        Py.truthy_opt (AttendanceRecord.check_out_time a) = true /\
        (0 <= d < 1440)%Z /\
        d = ((check_out - check_in) mod 1440)%Z /\
        ((check_in <= check_out)%Z -> d = (check_out - check_in)%Z) /\
        ((check_out < check_in)%Z -> d = (check_out + 1440 - check_in)%Z)) /\
    (AttendanceRecord._validate a = Ok tt ->
     exists o,
       AttendanceRecord.duration_minutes a = Ok o /\
       (o = None <->
        Py.truthy_opt (AttendanceRecord.check_in_time a) = false \/
        Py.truthy_opt (AttendanceRecord.check_out_time a) = false)).
Proof.
  intros a. split.
  - intros d. unfold AttendanceRecord.duration_minutes.
    destruct (Py.truthy_opt (AttendanceRecord.check_in_time a)) eqn:Ei;
      [|discriminate].
    destruct (Py.truthy_opt (AttendanceRecord.check_out_time a)) eqn:Eo;
      [|discriminate].
    cbn [negb orb].
    pose proof (minutes_range (Py.or_empty (AttendanceRecord.check_in_time a))) as Ri.
    pose proof (minutes_range (Py.or_empty (AttendanceRecord.check_out_time a))) as Ro.
    unfold minutes in *.
    destruct (Strptime.parse_HM (Py.or_empty (AttendanceRecord.check_in_time a)))
      as [ci|]; [|discriminate].
    destruct (Strptime.parse_HM (Py.or_empty (AttendanceRecord.check_out_time a)))
      as [co|]; [|discriminate].
    cbv zeta.
    destruct (Z.ltb_spec (Strptime.minutes_of co) (Strptime.minutes_of ci));
      intros [= <-]; repeat split; try lia.
    + apply Z.mod_unique with (q := (-1)%Z); lia.
    + apply Z.mod_unique with (q := 0%Z); lia.
  - intros Hv. pose proof (duration_minutes_valid a Hv) as Hok.
    destruct (AttendanceRecord.duration_minutes a) as [o|] eqn:E; [|discriminate].
    exists o. split; [reflexivity|].
    unfold AttendanceRecord.duration_minutes in E.
    destruct (Py.truthy_opt (AttendanceRecord.check_in_time a));
      destruct (Py.truthy_opt (AttendanceRecord.check_out_time a));
      cbn [negb orb] in E.
    + destruct (Strptime.parse_HM _); [|discriminate].
      destruct (Strptime.parse_HM _); [|discriminate].
      injection E as <-. split; [discriminate | intros [?|?]; discriminate].
    + injection E as <-. tauto.
    + injection E as <-. tauto.
    + injection E as <-. tauto.
Qed.

Lemma X3_attendance_duration_range_witness :
  let a := AttendanceRecord.mk "ATT_EVT1_MBR1_20240320233000" "EVT1" "MBR1"
             "present" (Some "23:30") (Some "00:15") None "system"
             (Some sample_now) (Some sample_now) in
  (0 <= 45 < 1440)%Z /\
  45%Z = ((minutes "00:15" - minutes "23:30") mod 1440)%Z.
Proof.
  intros a.
  destruct (X3_attendance_duration_range a) as [H _].
  destruct (H 45%Z) as (_ & _ & Hr & Hm & _); [vm_compute; reflexivity|].
  split; [exact Hr | exact Hm].
Defined.

(** ** Finding, rewriting and reading a row *)

Lemma column_A_match id row :
  match Sheets.column_A row with
  | c :: _ => String.eqb c id
  | [] => false
  end = Py.truthy id && String.eqb (cell 0 row) id.
Proof.
  unfold Sheets.column_A, cell. destruct row as [|c row]; cbn [nth].
  - now destruct id.
  - destruct (Py.truthy c) eqn:Ec.
    + destruct (String.eqb_spec c id) as [<-|]; [now rewrite Ec|].
      now rewrite andb_false_r.
    + apply truthy_false in Ec. subst c. now destruct id.
Qed.

Lemma scan_ids_step id i row rest :
  Sheets.scan_ids id i (Sheets.column_A row :: rest)
  = if Py.truthy id && String.eqb (cell 0 row) id then Some (i + 1)
    else Sheets.scan_ids id (S i) rest.
Proof.
  rewrite <- column_A_match. cbn [Sheets.scan_ids].
  destruct (Sheets.column_A row) as [|c r]; [reflexivity|].
  now destruct (String.eqb c id).
Qed.

Lemma scan_ids_none id i rows :
  (forall r, In r rows -> cell 0 r <> id) ->
  Sheets.scan_ids id i (map Sheets.column_A rows) = None.
Proof.
  revert i. induction rows as [|row rows IH]; intros i H; [reflexivity|].
  cbn [map]. rewrite scan_ids_step.
  destruct (String.eqb_spec (cell 0 row) id) as [E|_].
  - exfalso. apply (H row); [now left | exact E].
  - rewrite andb_false_r. apply IH. intros r Hr. apply H. now right.
Qed.

Lemma scan_ids_some id i rows n :
  Sheets.scan_ids id i (map Sheets.column_A rows) = Some n ->
  exists pre old post,
    rows = pre ++ old :: post /\ n = i + List.length pre + 1 /\
    cell 0 old = id /\ Py.truthy id = true /\
    forall r, In r pre -> cell 0 r <> id.
Proof.
  revert i. induction rows as [|row rows IH]; intros i; [discriminate|].
  cbn [map]. rewrite scan_ids_step.
  destruct (Py.truthy id) eqn:Et; cbn [andb].
  - destruct (String.eqb_spec (cell 0 row) id) as [E|Hne].
    + intros [= <-]. exists [], row, rows. simpl. repeat split; auto; lia.
    + intros H. destruct (IH _ H) as (pre & old & post & -> & -> & Ho & _ & Hpre).
      exists (row :: pre), old, post. simpl. repeat split; auto; try lia.
      intros r [<-|Hr]; auto.
  - intros H. destruct (IH _ H) as (pre & old & post & _ & _ & _ & Hc & _).
    discriminate.
Qed.

Lemma scan_ids_finds id i rows row :
  In row rows -> cell 0 row = id -> Py.truthy id = true ->
  exists n, Sheets.scan_ids id i (map Sheets.column_A rows) = Some n.
Proof.
  intros Hin Hid Ht. revert i.
  induction rows as [|r rows IH]; intros i; [destruct Hin|].
  cbn [map]. rewrite scan_ids_step, Ht. cbn [andb].
  destruct (String.eqb_spec (cell 0 r) id) as [_|Hne]; [eauto|].
  destruct Hin as [->|Hin]; [congruence | now apply IH].
Qed.

Lemma find_row_no_faults id w :
  faults w = [] ->
  Sheets.find_row id w
  = (Sheets.scan_ids id 0 (map Sheets.column_A (values w)), w).
Proof.
  intros Hf. unfold Sheets.find_row, Sheets.get_column_A, bind, ret.
  rewrite request_healthy by exact Hf. simpl.
  destruct w as [vs fs]; simpl in *. now subst.
Qed.

Lemma find_row_absent id w :
  (forall r, In r (values w) -> cell 0 r <> id) ->
  fst (Sheets.find_row id w) = None /\ values (snd (Sheets.find_row id w)) = values w.
Proof.
  intros H. unfold Sheets.find_row, Sheets.get_column_A, Sheets.request, bind, ret.
  destruct (faults w) as [|[e|] script]; simpl; auto using scan_ids_none.
Qed.

Lemma insert_middle {A} (pre : list A) old x post :
  <[List.length pre := x]> (pre ++ old :: post) = pre ++ x :: post.
Proof. induction pre as [|a pre IH]; simpl; [reflexivity|]. now rewrite IH. Qed.

Section keyed.

Context {A : Type}.
Variable parse : Row -> res A.
Variable key : A -> string.
Variable header : string.
Hypothesis parse_key : forall row a, parse row = Ok a -> key a = cell 0 row.

Lemma keyed_absent id rows :
  (forall row, In row rows -> cell 0 row <> id) ->
  List.find (fun a => String.eqb (key a) id) (parsed parse rows) = None.
Proof.
  intros H.
  destruct (List.find _ _) as [a|] eqn:E; [|reflexivity].
  apply List.find_some in E as [Hin Hid].
  apply parsed_In in Hin as (row & Hrow & Hp).
  apply parse_key in Hp. apply String.eqb_eq in Hid.
  exfalso. apply (H row Hrow). congruence.
Qed.

Lemma keyed_shown_absent id rows :
  (forall row, In row rows -> cell 0 row <> id) ->
  List.find (fun a => String.eqb (key a) id) (shown parse header rows) = None.
Proof.
  intros H. unfold shown.
  destruct rows as [|[|c row] rest]; try now apply keyed_absent.
  destruct (String.eqb c header); apply keyed_absent; auto.
  intros r Hr. apply H. now right.
Qed.

Lemma keyed_seen_absent id rows :
  (forall row, In row rows -> cell 0 row <> id) ->
  List.find (fun a => String.eqb (key a) id) (seen parse header rows) = None.
Proof.
  intros H.
  destruct (List.find _ _) as [a|] eqn:E; [|reflexivity].
  apply List.find_some in E as [Hin Hid].
  apply seen_In in Hin as (row & Hrow & Hp).
  apply parse_key in Hp. apply String.eqb_eq in Hid.
  exfalso. apply (H row Hrow). congruence.
Qed.

(** The first row that carries [id] has been rewritten with a row that
    parses to [a']: looking [id] up finds [a']. *)
Lemma keyed_found_after_write id pre old post row' a' :
  first_row_filled (pre ++ old :: post) ->
  id <> header ->
  (forall r, In r pre -> cell 0 r <> id) ->
  parse row' = Ok a' -> key a' = id ->
  List.find (fun a => String.eqb (key a) id)
    (shown parse header (pre ++ row' :: post)) = Some a'.
Proof.
  intros Hfill Hh Hpre Hp Hk.
  assert (Hhead : List.find (fun a => String.eqb (key a) id)
                    (parsed parse (row' :: post)) = Some a').
  { unfold parsed. cbn [omap list_omap]. rewrite Hp. cbn.
    now rewrite Hk, String.eqb_refl. }
  pose proof (parse_key _ _ Hp) as Hc. rewrite Hk in Hc.
  destruct pre as [|r0 pre].
  - cbn [app]. unfold shown. destruct row' as [|c r]; [exact Hhead|].
    unfold cell in Hc. simpl in Hc. subst c.
    destruct (String.eqb_spec id header); [congruence | exact Hhead].
  - cbn [app] in *. unfold shown.
    destruct r0 as [|c r0]; [destruct Hfill|].
    destruct (String.eqb c header).
    + rewrite parsed_app, find_app_none; [exact Hhead|].
      apply keyed_absent. intros r Hr. apply Hpre. now right.
    + change ((c :: r0) :: pre ++ row' :: post)
        with (((c :: r0) :: pre) ++ row' :: post).
      rewrite parsed_app, find_app_none; [exact Hhead|].
      now apply keyed_absent.
Qed.

End keyed.

Lemma update_no_faults n row w :
  faults w = [] ->
  Sheets.update n row w = (Ok 1%Z, mkWorld (<[n - 1 := row]> (values w)) []).
Proof.
  intros Hf. unfold Sheets.update. now rewrite request_healthy.
Qed.

Lemma first_row_filled_write pre old post row' :
  first_row_filled (pre ++ old :: post) -> row' <> [] ->
  first_row_filled (pre ++ row' :: post).
Proof.
  destruct pre as [|[|c r] pre]; simpl; try tauto.
  destruct row'; simpl; tauto.
Qed.

Lemma AttendanceRecord_from_sheet_row_id now row a :
  AttendanceRecord.from_sheet_row now row = Ok a ->
  AttendanceRecord.record_id a = cell 0 row.
Proof.
  unfold AttendanceRecord.from_sheet_row. intros H.
  apply AttendanceRecord_post_init_inv in H as [_ ->]. cbn. apply cell_pad.
Qed.

Lemma get_all_find_absent {A} (parse : Row -> res A) (key : A -> string) header id w :
  (forall row a, parse row = Ok a -> key a = cell 0 row) ->
  (forall r, In r (values w) -> cell 0 r <> id) ->
  List.find (fun a => String.eqb (key a) id)
    (fst (Sheets.get_all parse header w)) = None.
Proof.
  intros Hkey H.
  destruct (List.find _ _) as [a|] eqn:E; [|reflexivity].
  apply List.find_some in E as [Hin Hid].
  apply get_all_In in Hin as (row & Hrow & Hp).
  apply Hkey in Hp. apply String.eqb_eq in Hid.
  exfalso. apply (H row Hrow). congruence.
Qed.

(** X4: an identifier that no row carries.  When no row of the tab has
    [id] in its first cell, updating a member, an event or an attendance
    record with that identifier, and deleting the member, the event or the
    attendance record, all return [False] and leave every row as it was,
    whether the remote answers or fails. *)
Theorem X4_unknown_id_changes_nothing :
  forall (now id : string) (w : World),
    (forall r, In r (values w) -> cell 0 r <> id) ->
    (forall m, Member.member_id m = id ->
       fst (Members.update_member now m w) = false /\
       values (snd (Members.update_member now m w)) = values w) /\
    (forall e, Event.event_id e = id ->
       fst (Events.update_event now e w) = false /\
       values (snd (Events.update_event now e w)) = values w) /\
    (forall a, AttendanceRecord.record_id a = id ->
       fst (AttendanceCRUD.update_attendance now a w) = false /\
       values (snd (AttendanceCRUD.update_attendance now a w)) = values w) /\
    (fst (Attendance.delete_attendance_record id w) = false /\
     values (snd (Attendance.delete_attendance_record id w)) = values w) /\
    (fst (Members.delete_member now id w) = false /\
     values (snd (Members.delete_member now id w)) = values w) /\
    (fst (Events.delete_event now id w) = false /\
     values (snd (Events.delete_event now id w)) = values w).
Proof.
  intros now id w Habs.
  destruct (find_row_absent id w Habs) as [Hnone Hsame].
  split; [|split; [|split; [|split; [|split]]]].
  - intros m <-. unfold Members.update_member, Members._find_member_row, bind.
    destruct (Sheets.find_row (Member.member_id m) w) as [o w'].
    simpl in *. subst o. auto.
  - intros e <-. unfold Events.update_event, Events._find_event_row, bind.
    destruct (Sheets.find_row (Event.event_id e) w) as [o w'].
    simpl in *. subst o. auto.
  - intros a <-.
    unfold AttendanceCRUD.update_attendance, AttendanceCRUD._find_attendance_row, bind.
    destruct (Sheets.find_row (AttendanceRecord.record_id a) w) as [o w'].
    simpl in *. subst o. auto.
  - unfold Attendance.delete_attendance_record,
      AttendanceCRUD._find_attendance_row, bind.
    destruct (Sheets.find_row id w) as [o w'].
    simpl in *. subst o. auto.
  - unfold Members.delete_member, MembersCRUD.get_member_by_id,
      MembersCRUD.get_all_members, bind.
    pose proof (get_all_find_absent (Member.from_sheet_row now) Member.member_id
                  "Member ID" id w (Member_from_sheet_row_id now) Habs) as Hfind.
    pose proof (get_all_keeps_values (Member.from_sheet_row now) "Member ID" w) as Hk.
    destruct (Sheets.get_all _ _ w) as [l w']. cbn [fst snd ret] in *.
    unfold Sheets.first. rewrite Hfind. auto.
  - unfold Events.delete_event, EventsCRUD.get_event_by_id,
      EventsCRUD.get_all_events, bind.
    pose proof (get_all_find_absent (Event.from_sheet_row now) Event.event_id
                  "Event ID" id w (Event_from_sheet_row_id now) Habs) as Hfind.
    pose proof (get_all_keeps_values (Event.from_sheet_row now) "Event ID" w) as Hk.
    destruct (Sheets.get_all _ _ w) as [l w']. cbn [fst snd ret] in *.
    unfold Sheets.first. rewrite Hfind. auto.
Qed.

Lemma X4_unknown_id_changes_nothing_witness :
  fst (Members.delete_member sample_now "MBR_19990101000000" members_with_header)
    = false /\
  values (snd (Members.delete_member sample_now "MBR_19990101000000"
                 members_with_header)) = values members_with_header.
Proof.
  apply (X4_unknown_id_changes_nothing sample_now "MBR_19990101000000"
           members_with_header).
  intros r [<-|[<-|[]]]; discriminate.
Defined.

(** ** Updates *)

Lemma Member_validate_touch now m :
  Member._validate (Members.touch now m) = Member._validate m.
Proof. reflexivity. Qed.

Lemma Event_validate_touch now e :
  Event._validate (Events.touch now e) = Event._validate e.
Proof. reflexivity. Qed.

Lemma find_row_first id w :
  faults w = [] -> Py.truthy id = true -> has_row id (values w) ->
  exists pre old post,
    values w = pre ++ old :: post /\ cell 0 old = id /\
    (forall r, In r pre -> cell 0 r <> id) /\
    Sheets.find_row id w = (Some (List.length pre + 1), w).
Proof.
  intros Hf Ht (row & Hin & Hid).
  rewrite find_row_no_faults by exact Hf.
  destruct (scan_ids_finds id 0 (values w) row Hin Hid Ht) as [n Hn].
  destruct (scan_ids_some id 0 (values w) n Hn)
    as (pre & old & post & Hv & -> & Ho & _ & Hpre).
  exists pre, old, post. rewrite Hn. auto.
Qed.

Lemma update_member_written now m w :
  faults w = [] -> Member._validate m = Ok tt ->
  has_row (Member.member_id m) (values w) ->
  exists pre old post,
    values w = pre ++ old :: post /\ cell 0 old = Member.member_id m /\
    (forall r, In r pre -> cell 0 r <> Member.member_id m) /\
    Members.update_member now m w
    = (true, mkWorld (pre ++ Member.to_sheet_row (Members.touch now m) :: post) []).
Proof.
  intros Hf Hv Hrow.
  destruct (Member_validate_inv m Hv) as (Ht & _).
  destruct (find_row_first _ w Hf Ht Hrow) as (pre & old & post & Hvals & Ho & Hpre & Hfind).
  exists pre, old, post. repeat split; auto.
  unfold Members.update_member, Members._find_member_row, bind.
  rewrite Hfind, update_no_faults by exact Hf.
  rewrite Hvals. replace (List.length pre + 1 - 1) with (List.length pre) by lia.
  now rewrite insert_middle.
Qed.

Lemma capacity_fits_touch now e :
  capacity_fits e -> capacity_fits (Events.touch now e).
Proof. intros H. exact H. Qed.

Lemma update_event_written now e w :
  faults w = [] -> Event._validate e = Ok tt -> capacity_fits e ->
  has_row (Event.event_id e) (values w) ->
  exists pre old post,
    values w = pre ++ old :: post /\ cell 0 old = Event.event_id e /\
    (forall r, In r pre -> cell 0 r <> Event.event_id e) /\
    Events.update_event now e w
    = (true, mkWorld (pre ++ Event_row (Events.touch now e) :: post) []).
Proof.
  intros Hf Hv Hfit Hrow.
  destruct (Event_validate_inv e Hv) as (Ht & _).
  destruct (find_row_first _ w Hf Ht Hrow) as (pre & old & post & Hvals & Ho & Hpre & Hfind).
  exists pre, old, post. repeat split; auto.
  unfold Events.update_event, Events._find_event_row, bind.
  rewrite Hfind.
  rewrite (Event_to_sheet_row_fits _ (capacity_fits_touch now e Hfit)).
  rewrite update_no_faults by exact Hf.
  rewrite Hvals. replace (List.length pre + 1 - 1) with (List.length pre) by lia.
  now rewrite insert_middle.
Qed.

Lemma get_event_by_id_healthy now id w :
  faults w = [] -> first_row_filled (values w) ->
  EventsCRUD.get_event_by_id now id w
  = (List.find (fun event => String.eqb (Event.event_id event) id)
       (shown (Event.from_sheet_row now) "Event ID" (values w)), w).
Proof.
  intros Hf Hr. unfold EventsCRUD.get_event_by_id, EventsCRUD.get_all_events, bind.
  now rewrite get_all_healthy.
Qed.

Lemma update_member_then_read now now' m w :
  faults w = [] -> first_row_filled (values w) ->
  Member._validate m = Ok tt -> Member.member_id m <> "Member ID" ->
  has_row (Member.member_id m) (values w) ->
  fst (Members.update_member now m w) = true /\
  List.length (values (snd (Members.update_member now m w)))
    = List.length (values w) /\
  fst (MembersCRUD.get_member_by_id now' (Member.member_id m)
         (snd (Members.update_member now m w)))
    = Some (Member_read_back now' (Members.touch now m)).
Proof.
  intros Hf Hfill Hv Hh Hrow.
  destruct (update_member_written now m w Hf Hv Hrow)
    as (pre & old & post & Hvals & Ho & Hpre & ->).
  cbn [fst snd values]. split; [reflexivity|]. split.
  - rewrite Hvals, !List.length_app. reflexivity.
  - rewrite Hvals in Hfill.
    rewrite get_member_by_id_healthy;
      [|reflexivity|apply (first_row_filled_write pre old); [exact Hfill|discriminate]].
    cbn [fst values].
    apply (keyed_found_after_write (Member.from_sheet_row now') Member.member_id
             "Member ID" (Member_from_sheet_row_id now') _ pre old post); auto.
    now apply (Member_from_to now' (Members.touch now m)).
Qed.

Lemma update_event_then_read now now' e w :
  faults w = [] -> first_row_filled (values w) ->
  Event._validate e = Ok tt -> Event.event_id e <> "Event ID" ->
  capacity_fits e ->
  has_row (Event.event_id e) (values w) ->
  fst (Events.update_event now e w) = true /\
  List.length (values (snd (Events.update_event now e w)))
    = List.length (values w) /\
  fst (EventsCRUD.get_event_by_id now' (Event.event_id e)
         (snd (Events.update_event now e w)))
    = Some (Event_read_back now' (Events.touch now e)).
Proof.
  intros Hf Hfill Hv Hh Hfit Hrow.
  destruct (update_event_written now e w Hf Hv Hfit Hrow)
    as (pre & old & post & Hvals & Ho & Hpre & ->).
  cbn [fst snd values]. split; [reflexivity|]. split.
  - rewrite Hvals, !List.length_app. reflexivity.
  - rewrite Hvals in Hfill.
    rewrite get_event_by_id_healthy;
      [|reflexivity
       |apply (first_row_filled_write pre old);
        [exact Hfill|now apply (Event_row_filled (Events.touch now e))]].
    cbn [fst values].
    apply (keyed_found_after_write (Event.from_sheet_row now') Event.event_id
             "Event ID" (Event_from_sheet_row_id now') _ pre old post); auto.
    now apply (Event_from_to now' (Events.touch now e)).
Qed.

(** X5: an update can be read back.  Take a remote with no failure
    pending and a tab whose first row is not blank.  Take a valid member
    whose identifier is not the header label "Member ID", or a valid event
    whose identifier is not the header label "Event ID" and whose capacity,
    if it has one, is written with at most 4300 digits, and let some row of
    the tab carry that identifier in its first cell.  Then the update
    returns [True], keeps the number of rows, and a following look-up by
    that identifier returns the member (or event) as written: the same
    fields, the optional ones normalised, the update stamp that of the
    reading clock. *)
Theorem X5_update_then_read :
  forall (now now' : string) (w : World),
    faults w = [] -> first_row_filled (values w) ->
    (forall m,
        Member._validate m = Ok tt -> Member.member_id m <> "Member ID" ->
        has_row (Member.member_id m) (values w) ->
        fst (Members.update_member now m w) = true /\
        List.length (values (snd (Members.update_member now m w)))
          = List.length (values w) /\
        fst (MembersCRUD.get_member_by_id now' (Member.member_id m)
               (snd (Members.update_member now m w)))
          = Some (Member_read_back now' (Members.touch now m))) /\
    (forall e,
        Event._validate e = Ok tt -> Event.event_id e <> "Event ID" ->
        capacity_fits e ->
        has_row (Event.event_id e) (values w) ->
        fst (Events.update_event now e w) = true /\
        List.length (values (snd (Events.update_event now e w)))
          = List.length (values w) /\
        fst (EventsCRUD.get_event_by_id now' (Event.event_id e)
               (snd (Events.update_event now e w)))
          = Some (Event_read_back now' (Events.touch now e))).
Proof.
  intros now now' w Hf Hfill. split.
  - intros m. now apply update_member_then_read.
  - intros e. now apply update_event_then_read.
Qed.

Lemma X5_update_then_read_witness :
  fst (Members.update_member sample_now sample_member_again members_with_header)
    = true /\
  List.length (values (snd (Members.update_member sample_now sample_member_again
                              members_with_header)))
    = List.length (values members_with_header) /\
  fst (MembersCRUD.get_member_by_id sample_now
         (Member.member_id sample_member_again)
         (snd (Members.update_member sample_now sample_member_again
                 members_with_header)))
    = Some (Member_read_back sample_now
              (Members.touch sample_now sample_member_again)).
Proof.
  destruct (X5_update_then_read sample_now sample_now members_with_header
              eq_refl I) as [HM _].
  apply HM.
  - vm_compute. reflexivity.
  - discriminate.
  - exists (Member.to_sheet_row sample_member). split; [|reflexivity].
    right. left. reflexivity.
Defined.

(** ** Soft deletion *)

Lemma found_has_row {A} (parse : Row -> res A) (key : A -> string) header id rows a :
  (forall row a, parse row = Ok a -> key a = cell 0 row) ->
  List.find (fun a => String.eqb (key a) id) (shown parse header rows) = Some a ->
  has_row id rows /\ key a = id /\ exists row, parse row = Ok a.
Proof.
  intros Hkey Hfind. apply List.find_some in Hfind as [Hin Hid].
  apply String.eqb_eq in Hid.
  assert (Hrow : exists row, In row rows /\ parse row = Ok a).
  { unfold shown in Hin. destruct rows as [|[|c r] rest];
      try (now apply parsed_In in Hin).
    destruct (String.eqb c header); apply parsed_In in Hin as (row & Hr & Hp);
      [exists row; split; [now right | exact Hp] | eauto]. }
  destruct Hrow as (row & Hr & Hp).
  split; [|split; [exact Hid | eauto]].
  exists row. split; [exact Hr|]. rewrite <- (Hkey _ _ Hp). exact Hid.
Qed.

Lemma deactivate_valid now m :
  Member._validate m = Ok tt ->
  Member._validate (Members.touch now (Members.deactivate m)) = Ok tt.
Proof.
  intros Hv. apply Member_validate_inv in Hv as (H0 & H1 & H2 & H3 & H4 & H5 & _ & H7).
  now apply Member_validate_intro.
Qed.

Lemma cancel_valid now e :
  Event._validate e = Ok tt ->
  Event._validate (Events.touch now (Events.cancel e)) = Ok tt.
Proof.
  intros Hv. apply Event_validate_inv in Hv as (H0 & H1 & H2 & H3 & H4 & H5 & _).
  now apply Event_validate_intro.
Qed.

(** X6: deleting a member or an event keeps the row.  Take a remote with
    no failure pending and a tab whose first row is not blank.  Deleting,
    by an identifier other than the header label "Member ID", a member
    that [get_member_by_id] finds returns [True], keeps the number of
    rows, and the member is still found afterwards, under the same
    identifier, name, e-mail, role and payment status, with membership
    status "inactive".  Deleting, by an identifier other than the header
    label "Event ID", an event that [get_event_by_id] finds returns
    [True], keeps the number of rows, and leaves the event in place, with
    the same name, date and times, with status "cancelled". *)
Theorem X6_soft_delete_keeps_the_row :
  forall (now now' id : string) (w : World),
    faults w = [] -> first_row_filled (values w) ->
    (forall m,
        id <> "Member ID" ->
        fst (MembersCRUD.get_member_by_id now id w) = Some m ->
        fst (Members.delete_member now id w) = true /\
        List.length (values (snd (Members.delete_member now id w)))
          = List.length (values w) /\
        exists m',
          fst (MembersCRUD.get_member_by_id now' id
                 (snd (Members.delete_member now id w))) = Some m' /\
          Member.member_id m' = id /\
          Member.membership_status m' = "inactive" /\
          Member.first_name m' = Member.first_name m /\
          Member.last_name m' = Member.last_name m /\
          Member.email m' = Member.email m /\
          Member.role m' = Member.role m /\
          Member.payment_status m' = Member.payment_status m) /\
    (forall e,
        id <> "Event ID" ->
        fst (EventsCRUD.get_event_by_id now id w) = Some e ->
        fst (Events.delete_event now id w) = true /\
        List.length (values (snd (Events.delete_event now id w)))
          = List.length (values w) /\
        exists e',
          fst (EventsCRUD.get_event_by_id now' id
                 (snd (Events.delete_event now id w))) = Some e' /\
          Event.event_id e' = id /\
          Event.status e' = "cancelled" /\
          Event.event_name e' = Event.event_name e /\
          Event.event_date e' = Event.event_date e /\
          Event.start_time e' = Event.start_time e /\
          Event.end_time e' = Event.end_time e).
Proof.
  intros now now' id w Hf Hfill. split.
  - intros m Hh Hfound.
    rewrite get_member_by_id_healthy in Hfound by assumption. cbn [fst] in Hfound.
    destruct (found_has_row _ _ _ _ _ _ (Member_from_sheet_row_id now) Hfound)
      as (Hrow & Hid & row & Hp).
    pose proof (Member_from_sheet_row_valid _ _ _ Hp) as Hv.
    unfold Members.delete_member, bind.
    rewrite get_member_by_id_healthy by assumption. rewrite Hfound.
    set (m1 := Members.touch now (Members.deactivate m)).
    assert (Hid1 : Member.member_id m1 = id) by exact Hid.
    destruct (update_member_then_read now now' m1 w Hf Hfill
                (deactivate_valid now m Hv))
      as (Hok & Hlen & Hread).
    { now rewrite Hid1. }
    { now rewrite Hid1. }
    rewrite Hid1 in Hread.
    split; [exact Hok|]. split; [exact Hlen|].
    eexists. split; [exact Hread|]. cbn. repeat split; auto.
  - intros e Hh Hfound.
    rewrite get_event_by_id_healthy in Hfound by assumption. cbn [fst] in Hfound.
    destruct (found_has_row _ _ _ _ _ _ (Event_from_sheet_row_id now) Hfound)
      as (Hrow & Hid & row & Hp).
    pose proof (Event_from_sheet_row_valid _ _ _ Hp) as Hv.
    unfold Events.delete_event, bind.
    rewrite get_event_by_id_healthy by assumption. rewrite Hfound.
    set (e1 := Events.touch now (Events.cancel e)).
    assert (Hid1 : Event.event_id e1 = id) by exact Hid.
    destruct (update_event_then_read now now' e1 w Hf Hfill
                (cancel_valid now e Hv))
      as (Hok & Hlen & Hread).
    { now rewrite Hid1. }
    { exact (Event_from_sheet_row_fits _ _ _ Hp). }
    { now rewrite Hid1. }
    rewrite Hid1 in Hread.
    split; [exact Hok|]. split; [exact Hlen|].
    eexists. split; [exact Hread|]. cbn. repeat split; auto.
Qed.

Lemma X6_soft_delete_keeps_the_row_witness :
  fst (Members.delete_member sample_now "MBR_20240301100000" members_with_header)
    = true /\
  List.length (values (snd (Members.delete_member sample_now "MBR_20240301100000"
                              members_with_header)))
    = List.length (values members_with_header) /\
  exists m',
    fst (MembersCRUD.get_member_by_id sample_now "MBR_20240301100000"
           (snd (Members.delete_member sample_now "MBR_20240301100000"
                   members_with_header))) = Some m' /\
    Member.member_id m' = "MBR_20240301100000" /\
    Member.membership_status m' = "inactive" /\
    Member.first_name m' = Member.first_name sample_member /\
    Member.last_name m' = Member.last_name sample_member /\
    Member.email m' = Member.email sample_member /\
    Member.role m' = Member.role sample_member /\
    Member.payment_status m' = Member.payment_status sample_member.
Proof.
  destruct (X6_soft_delete_keeps_the_row sample_now sample_now
              "MBR_20240301100000" members_with_header eq_refl I) as [HM _].
  apply (HM sample_member).
  - discriminate.
  - vm_compute. reflexivity.
Defined.

(** ** Hard deletion *)

Lemma blank_row_cell i row : blank_row row = true -> cell i row = "".
Proof.
  unfold blank_row, cell. revert i. induction row as [|c row IH]; intros i H.
  - now destruct i.
  - cbn [forallb] in H. apply andb_true_iff in H as [Hc Hrow].
    apply String.eqb_eq in Hc. destruct i as [|i]; simpl; auto.
Qed.

Lemma AttendanceRecord_blank_row now row :
  blank_row row = true -> is_ok (AttendanceRecord.from_sheet_row now row) = false.
Proof.
  intros Hb. unfold AttendanceRecord.from_sheet_row, AttendanceRecord.__post_init__,
    AttendanceRecord._validate.
  cbn [AttendanceRecord.record_id]. rewrite cell_pad, (blank_row_cell 0 row Hb).
  reflexivity.
Qed.

Lemma drop_blank_tail_nonblank row rest :
  blank_row row = false -> drop_blank_tail (row :: rest) = row :: drop_blank_tail rest.
Proof.
  intros H. cbn [drop_blank_tail]. rewrite H. now destruct (drop_blank_tail rest).
Qed.

Section blank_tail.

Context {A : Type}.
Variable parse : Row -> res A.
Variable header : string.
Hypothesis parse_blank : forall row, blank_row row = true -> is_ok (parse row) = false.
Hypothesis header_filled : header <> "".

Lemma parsed_skip_blank row rest :
  blank_row row = true -> parsed parse (row :: rest) = parsed parse rest.
Proof.
  intros Hb. unfold parsed. cbn [omap list_omap].
  pose proof (parse_blank row Hb) as Hp. now destruct (parse row).
Qed.

Lemma parsed_drop_blank_tail rows :
  parsed parse (drop_blank_tail rows) = parsed parse rows.
Proof.
  induction rows as [|row rest IH]; [reflexivity|].
  destruct (blank_row row) eqn:Hb.
  - rewrite (parsed_skip_blank row rest Hb), <- IH.
    cbn [drop_blank_tail]. rewrite Hb.
    destruct (drop_blank_tail rest) as [|r rest']; [reflexivity|].
    now rewrite parsed_skip_blank.
  - rewrite drop_blank_tail_nonblank by exact Hb.
    change (row :: drop_blank_tail rest) with ([row] ++ drop_blank_tail rest).
    change (row :: rest) with ([row] ++ rest).
    now rewrite !parsed_app, IH.
Qed.

Lemma blank_row_not_header c row :
  blank_row (c :: row) = true -> String.eqb c header = false.
Proof.
  intros H. unfold blank_row in H. cbn [forallb] in H.
  apply andb_true_iff in H as [Hc _].
  apply String.eqb_eq in Hc. subst c.
  destruct (String.eqb_spec "" header); congruence.
Qed.

Lemma shown_drop_blank_tail rows :
  shown parse header (drop_blank_tail rows) = shown parse header rows.
Proof.
  destruct rows as [|row rest]; [reflexivity|].
  destruct (blank_row row) eqn:Hb.
  - assert (Hshown : forall l, shown parse header (row :: l) = parsed parse l).
    { intros l. unfold shown. destruct row as [|c row].
      - now apply parsed_skip_blank.
      - rewrite (blank_row_not_header c row Hb). now apply parsed_skip_blank. }
    rewrite Hshown. cbn [drop_blank_tail]. rewrite Hb.
    pose proof (parsed_drop_blank_tail rest) as Hp.
    destruct (drop_blank_tail rest) as [|r rest']; [exact Hp|].
    now rewrite Hshown.
  - rewrite drop_blank_tail_nonblank by exact Hb. unfold shown.
    destruct row as [|c row]; [discriminate|].
    destruct (String.eqb c header).
    + apply parsed_drop_blank_tail.
    + change ((c :: row) :: drop_blank_tail rest)
        with ([c :: row] ++ drop_blank_tail rest).
      change ((c :: row) :: rest) with ([c :: row] ++ rest).
      now rewrite !parsed_app, parsed_drop_blank_tail.
Qed.

(** Removing one row from below the first row of a tab removes from what
    a read shows exactly what that row parsed to. *)
Lemma shown_remove_row r0 pre old post :
  exists l1 l2,
    shown parse header ((r0 :: pre) ++ old :: post)
      = l1 ++ parsed parse [old] ++ l2 /\
    shown parse header ((r0 :: pre) ++ post) = l1 ++ l2 /\
    shown parse header ((r0 :: pre) ++ [] :: post) = l1 ++ l2.
Proof.
  assert (Hb : parsed parse [[]] = []).
  { apply (parsed_skip_blank [] []). reflexivity. }
  assert (Hsplit : forall x, exists l1 l2, forall mid,
             parsed parse (x ++ mid ++ post) = l1 ++ parsed parse mid ++ l2).
  { intros x. exists (parsed parse x), (parsed parse post). intros mid.
    now rewrite !parsed_app. }
  unfold shown. cbn [app].
  destruct r0 as [|c r0].
  - destruct (Hsplit ([] :: pre)) as (l1 & l2 & H).
    exists l1, l2. repeat split.
    + apply (H [old]).
    + rewrite <- (app_nil_l l2) at 1. apply (H []).
    + rewrite <- (app_nil_l l2) at 1. rewrite <- Hb. apply (H [[]]).
  - destruct (String.eqb c header).
    + destruct (Hsplit pre) as (l1 & l2 & H).
      exists l1, l2. repeat split.
      * apply (H [old]).
      * rewrite <- (app_nil_l l2) at 1. apply (H []).
      * rewrite <- (app_nil_l l2) at 1. rewrite <- Hb. apply (H [[]]).
    + destruct (Hsplit ((c :: r0) :: pre)) as (l1 & l2 & H).
      exists l1, l2. repeat split.
      * apply (H [old]).
      * rewrite <- (app_nil_l l2) at 1. apply (H []).
      * rewrite <- (app_nil_l l2) at 1. rewrite <- Hb. apply (H [[]]).
Qed.

End blank_tail.

Lemma first_row_filled_drop_blank_tail rows :
  first_row_filled rows -> first_row_filled (drop_blank_tail rows).
Proof.
  destruct rows as [|[|c row] rest]; cbn [first_row_filled]; try tauto.
  intros _. cbn [drop_blank_tail].
  destruct (drop_blank_tail rest); [|exact I].
  destruct (blank_row (c :: row)); exact I.
Qed.

Lemma clear_no_faults n w :
  faults w = [] ->
  clear n w = (Ok true, mkWorld (drop_blank_tail (<[n - 1 := []]> (values w))) []).
Proof. intros Hf. unfold clear. now rewrite request_healthy. Qed.

Lemma get_all_attendance_healthy now w :
  faults w = [] -> first_row_filled (values w) ->
  AttendanceCRUD.get_all_attendance now w
  = (shown (AttendanceRecord.from_sheet_row now) "Record ID" (values w), w).
Proof. intros Hf Hr. now apply get_all_healthy. Qed.

(** X7: deleting an attendance record empties its row.  Take a remote with
    no failure pending, a tab whose first row is not blank and does not
    itself carry the identifier, and a non-empty identifier that some row
    carries in its first cell.  Then [delete_attendance_record] returns
    [True]; afterwards a read returns what it returned before, in the same
    order, without what the first row with that identifier parsed to; and
    when only one row carried the identifier, no record with it is read
    any more. *)
Theorem X7_hard_delete_removes_the_record :
  forall (now id : string) (w : World),
    faults w = [] -> first_row_filled (values w) ->
    Py.truthy id = true -> has_row id (values w) ->
    cell 0 (hd [] (values w)) <> id ->
    fst (Attendance.delete_attendance_record id w) = true /\
    exists old l1 l2,
      In old (values w) /\ cell 0 old = id /\
      fst (AttendanceCRUD.get_all_attendance now w)
        = l1 ++ parsed (AttendanceRecord.from_sheet_row now) [old] ++ l2 /\
      fst (AttendanceCRUD.get_all_attendance now
             (snd (Attendance.delete_attendance_record id w))) = l1 ++ l2 /\
      (rows_with_id id (values w) = 1 ->
       forall a,
         In a (fst (AttendanceCRUD.get_all_attendance now
                      (snd (Attendance.delete_attendance_record id w)))) ->
         AttendanceRecord.record_id a <> id).
Proof.
  intros now id w Hf Hfill Ht Hrow Hfirst.
  destruct (find_row_first id w Hf Ht Hrow)
    as (pre & old & post & Hvals & Ho & Hpre & Hfind).
  unfold Attendance.delete_attendance_record, AttendanceCRUD._find_attendance_row, bind.
  rewrite Hfind, clear_no_faults by exact Hf. cbn [fst snd ret].
  split; [reflexivity|].
  rewrite Hvals in *.
  replace (List.length pre + 1 - 1) with (List.length pre) by lia.
  rewrite insert_middle.
  destruct pre as [|r0 pre]; [exfalso; apply Hfirst; exact Ho|].
  assert (Hblank : forall row, blank_row row = true ->
                     is_ok (AttendanceRecord.from_sheet_row now row) = false)
    by (intros row; apply AttendanceRecord_blank_row).
  assert (Hhdr : "Record ID" <> "") by discriminate.
  destruct (shown_remove_row (AttendanceRecord.from_sheet_row now) "Record ID"
              Hblank r0 pre old post) as (l1 & l2 & Hbefore & Hafter & Hcleared).
  assert (Hread : fst (AttendanceCRUD.get_all_attendance now
             (mkWorld (drop_blank_tail ((r0 :: pre) ++ [] :: post)) [])) = l1 ++ l2).
  { rewrite get_all_attendance_healthy; [|reflexivity|].
    - cbn [fst values]. now rewrite shown_drop_blank_tail.
    - cbn [values]. apply first_row_filled_drop_blank_tail.
      destruct r0; [destruct Hfill | exact I]. }
  exists old, l1, l2. split; [apply in_elt|]. split; [exact Ho|]. split.
  - rewrite get_all_attendance_healthy by (rewrite ?Hvals; assumption).
    cbn [fst]. rewrite Hvals. exact Hbefore.
  - split; [exact Hread|].
    intros Hone a Ha0.
    assert (Ha : In a (l1 ++ l2)) by (rewrite <- Hread; exact Ha0).
    rewrite <- Hafter in Ha.
    assert (Hpost : forall r, In r ((r0 :: pre) ++ post) -> cell 0 r <> id).
    { intros r Hr. apply in_app_or in Hr as [Hr|Hr]; [now apply Hpre|].
      intros Hc. rewrite rows_with_id_app in Hone.
      change (old :: post) with ([old] ++ post) in Hone.
      rewrite rows_with_id_app in Hone.
      assert (rows_with_id id [old] = 1).
      { unfold rows_with_id. cbn. rewrite Ho, String.eqb_refl. reflexivity. }
      assert (1 <= rows_with_id id post).
      { unfold rows_with_id. clear -Hr Hc.
        induction post as [|p post IH]; [destruct Hr|].
        cbn. destruct Hr as [->|Hr].
        - rewrite Hc, String.eqb_refl. cbn. lia.
        - destruct (String.eqb (cell 0 p) id); cbn; [lia | now apply IH]. }
      lia. }
    intros Hida.
    pose proof (keyed_shown_absent (AttendanceRecord.from_sheet_row now)
                  AttendanceRecord.record_id "Record ID"
                  (AttendanceRecord_from_sheet_row_id now) id _ Hpost) as Hnone.
    eapply List.find_none in Hnone; [|exact Ha].
    cbn in Hnone. rewrite Hida, String.eqb_refl in Hnone. discriminate.
Qed.

Lemma X7_hard_delete_removes_the_record_witness :
  fst (Attendance.delete_attendance_record "ATT_EVT1_MBR1_20240301100000"
         attendance_sheet2) = true.
Proof.
  apply (X7_hard_delete_removes_the_record sample_now
           "ATT_EVT1_MBR1_20240301100000" attendance_sheet2).
  - reflexivity.
  - exact I.
  - reflexivity.
  - exists (AttendanceRecord.to_sheet_row attendance_first).
    split; [right; left; reflexivity | reflexivity].
  - discriminate.
Defined.

(** ** Header rows *)

Lemma blank_row_label label row :
  label <> "" -> cell 0 row = label -> blank_row row = false.
Proof.
  intros Hne Hc. destruct (blank_row row) eqn:Hb; [|reflexivity].
  rewrite (blank_row_cell 0 row Hb) in Hc. congruence.
Qed.

Lemma get_first_row_no_faults w :
  faults w = [] -> get_first_row w = (Ok (read_first_row (values w)), w).
Proof.
  intros Hf. unfold get_first_row. rewrite request_healthy by exact Hf. simpl.
  destruct w as [vs fs]; simpl in *. now subst.
Qed.

Lemma update_first_row_no_faults row w :
  faults w = [] ->
  update_first_row row w = (Ok 1%Z, mkWorld (write_first_row row (values w)) []).
Proof. intros Hf. unfold update_first_row. now rewrite request_healthy. Qed.

Lemma initialize_labelled label headers w :
  faults w = [] -> label <> "" -> cell 0 (hd [] (values w)) = label ->
  initialize label headers w = (true, w).
Proof.
  intros Hf Hne Hc. unfold initialize, bind.
  rewrite get_first_row_no_faults by exact Hf.
  destruct (values w) as [|row rest] eqn:Hv; cbn [hd] in Hc.
  - unfold cell in Hc. simpl in Hc. congruence.
  - unfold read_first_row. rewrite (blank_row_label label row Hne Hc).
    rewrite Hc, String.eqb_refl. reflexivity.
Qed.

Lemma initialize_unlabelled label headers w :
  faults w = [] -> cell 0 (hd [] (values w)) <> label ->
  initialize label headers w
  = (true, mkWorld (write_first_row headers (values w)) []).
Proof.
  intros Hf Hc. unfold initialize, bind.
  rewrite get_first_row_no_faults by exact Hf.
  assert (Hmissing :
    match read_first_row (values w) with
    | [] => true
    | row :: _ => negb (String.eqb (cell 0 row) label)
    end = true).
  { destruct (values w) as [|row rest]; [reflexivity|]. cbn [hd] in Hc.
    unfold read_first_row. destruct (blank_row row); [reflexivity|].
    destruct (String.eqb_spec (cell 0 row) label); [contradiction|reflexivity]. }
  rewrite Hmissing. now rewrite update_first_row_no_faults.
Qed.

Lemma write_first_row_tail row rows :
  write_first_row row rows = row :: tl rows.
Proof. now destruct rows. Qed.

Lemma shown_under_header {A} (parse : Row -> res A) label first rest :
  label <> "" -> cell 0 first = label ->
  shown parse label (first :: rest) = parsed parse rest.
Proof.
  intros Hne Hc. unfold shown. destruct first as [|c first].
  - unfold cell in Hc. simpl in Hc. congruence.
  - unfold cell in Hc. simpl in Hc. subst c. now rewrite String.eqb_refl.
Qed.

Lemma initialize_spec {A} label headers (parse : string -> Row -> res A) :
  label <> "" -> cell 0 headers = label ->
  initializes (initialize label headers) label headers
    (fun now => Sheets.get_all (parse now) label) parse.
Proof.
  intros Hne Hh w Hf.
  destruct (String.eqb_spec (cell 0 (hd [] (values w))) label) as [Hc|Hc].
  - rewrite (initialize_labelled label headers w Hf Hne Hc). cbn [fst snd].
    assert (Hrows : values w = hd [] (values w) :: tl (values w)).
    { destruct (values w); [|reflexivity].
      unfold cell in Hc. simpl in Hc. congruence. }
    split; [reflexivity|]. split; [eauto|]. split; [reflexivity|].
    split; [contradiction|]. split; [now apply initialize_labelled|].
    intros now. rewrite get_all_healthy; [|exact Hf|].
    + cbn [fst]. rewrite Hrows at 1. now apply shown_under_header.
    + rewrite Hrows. destruct (hd [] (values w)); [|exact I].
      unfold cell in Hc. simpl in Hc. congruence.
  - rewrite (initialize_unlabelled label headers w Hf Hc). cbn [fst snd values].
    rewrite write_first_row_tail.
    split; [reflexivity|]. split; [eauto|]. split; [contradiction|].
    split; [reflexivity|]. split; [now apply initialize_labelled|].
    intros now. rewrite get_all_healthy; [|reflexivity|].
    + cbn [fst values]. now apply shown_under_header.
    + cbn [values]. destruct headers; [|exact I].
      unfold cell in Hh. simpl in Hh. congruence.
Qed.

(** X8: [initialize_sheet] of the three stores.  On a remote that answers
    it returns [True] and leaves a tab whose first row starts with the
    header label; the rows below the first are not touched; a tab that
    already starts with the label is not written at all, while any other
    first row, a row of data included, is replaced by the header row; a
    second run changes nothing; and a read afterwards returns what the rows
    below the first parse to. *)
Theorem X8_initialize_sheet :
  initializes Members.initialize_sheet "Member ID" Member.get_headers
    MembersCRUD.get_all_members Member.from_sheet_row /\
  initializes Events.initialize_sheet "Event ID" Event.get_headers
    EventsCRUD.get_all_events Event.from_sheet_row /\
  initializes Attendance.initialize_sheet "Record ID" AttendanceRecord.get_headers
    AttendanceCRUD.get_all_attendance AttendanceRecord.from_sheet_row.
Proof.
  split; [|split].
  - apply (initialize_spec "Member ID" Member.get_headers Member.from_sheet_row);
      [discriminate | reflexivity].
  - apply (initialize_spec "Event ID" Event.get_headers Event.from_sheet_row);
      [discriminate | reflexivity].
  - apply (initialize_spec "Record ID" AttendanceRecord.get_headers
             AttendanceRecord.from_sheet_row); [discriminate | reflexivity].
Qed.

Lemma X8_initialize_sheet_witness :
  fst (Members.initialize_sheet members_blank_first) = true /\
  values (snd (Members.initialize_sheet members_blank_first))
    = [Member.get_headers; Member.to_sheet_row sample_member] /\
  fst (MembersCRUD.get_all_members sample_now
         (snd (Members.initialize_sheet members_blank_first)))
    = [sample_member].
Proof.
  destruct X8_initialize_sheet as [HM _].
  destruct (HM members_blank_first eq_refl) as (Hok & _ & _ & Hnew & _ & Hread).
  split; [exact Hok|]. split.
  - apply Hnew. discriminate.
  - rewrite Hread. vm_compute. reflexivity.
Defined.
(** ** Statistics *)

(** The rate when nobody attended, and when everybody did. *)
Lemma percent_none (b : Z) :
  (0 < b)%Z ->
  Float.round1 (Float.mul (Float.nearest (inject_Z 0 / inject_Z b)) 100) = 0%Q.
Proof.
  intros Hb.
  rewrite (nearest_of_zero (inject_Z 0 / inject_Z b))
    by (unfold Qdiv; change (inject_Z 0) with 0%Q; apply Qmult_0_l).
  unfold Float.mul. rewrite (nearest_of_zero (0 * 100)) by reflexivity.
  vm_compute. reflexivity.
Qed.

Lemma round1_of_int (n : Z) (x : Q) :
  (0 <= n < 2 ^ 53)%Z -> (x == inject_Z n)%Q -> (Float.round1 x == inject_Z n)%Q.
Proof.
  intros Hn E.
  destruct (round1_between n n x) as [H0 H1]; try lia; try (rewrite E; apply Qle_refl).
  now apply Qle_antisym.
Qed.

Lemma percent_all (b : Z) :
  (0 < b)%Z ->
  (Float.round1 (Float.mul (Float.nearest (inject_Z b / inject_Z b)) 100) == 100)%Q.
Proof.
  intros Hb.
  assert (Hq : (inject_Z b / inject_Z b == 1)%Q).
  { field. change 0%Q with (inject_Z 0). rewrite inject_Z_injective. lia. }
  assert (H1 : (Float.nearest (inject_Z b / inject_Z b) == 1)%Q).
  { apply Qeq_trans with (Float.nearest 1); [|exact nearest_1].
    apply nearest_comp; [rewrite Hq; discriminate | exact Hq]. }
  assert (H100 : (Float.mul (Float.nearest (inject_Z b / inject_Z b)) 100 == 100)%Q).
  { unfold Float.mul. apply Qeq_trans with (Float.nearest 100); [|exact nearest_100].
    apply nearest_comp; [rewrite H1; discriminate | rewrite H1; reflexivity]. }
  apply (round1_of_int 100); [lia | exact H100].
Qed.

(** The rate of [a] in [b], [0 <= a <= b] and [0 < b]. *)
Lemma rate_bounds (a b : nat) :
  a <= b -> 0 < b ->
  let ratio := Float.nearest (inject_Z (Z.of_nat a) / inject_Z (Z.of_nat b)) in
  let rate := Float.round1 (Float.mul ratio 100) in
  Float.true_div (Z.of_nat a) (Z.of_nat b) = Ok ratio /\
  (0 <= rate)%Q /\ (rate <= 100)%Q /\
  (a = 0 -> rate = 0%Q) /\ (a = b -> (rate == 100)%Q).
Proof.
  intros Hab Hb ratio rate.
  destruct (percent_bounds (Z.of_nat a) (Z.of_nat b)) as (Hdiv & P0 & P1); try lia.
  destruct (round1_percent _ P0 P1) as (_ & R0 & R1).
  split; [exact Hdiv|]. split; [exact R0|]. split; [exact R1|]. split.
  - intros ->. apply percent_none. lia.
  - intros ->. apply percent_all. lia.
Qed.

Lemma attended_minutes_bounds records ms :
  Attendance.attended_minutes records = Ok ms ->
  Forall (fun d => 1 <= d <= 1439)%Z ms /\ List.length ms <= attended records.
Proof.
  revert ms. induction records as [|r rest IH]; intros ms.
  - intros [= <-]. split; [constructor | unfold attended, AttendanceCRUD.count_status; simpl; lia].
  - cbn [Attendance.attended_minutes]. rewrite attended_cons.
    destruct (AttendanceRecord.duration_minutes r) as [d|] eqn:Ed; [|discriminate].
    destruct (Attendance.attended_minutes rest) as [ms'|]; [|discriminate].
    destruct (IH ms' eq_refl) as [HF HL]. cbn [res_bind].
    destruct d as [m|].
    + pose proof (duration_minutes_range r m Ed) as Hr.
      destruct (Z.eqb_spec m 0); cbn [negb andb].
      * intros [= <-]. split; [exact HF | lia].
      * destruct (Py.str_in _ _); intros [= <-].
        -- split; [constructor; [lia | exact HF] | cbn [List.length]; lia].
        -- split; [exact HF | lia].
    + intros [= <-]. split; [exact HF | lia].
Qed.

Lemma attended_minutes_valid records :
  (forall r, In r records -> AttendanceRecord._validate r = Ok tt) ->
  is_ok (Attendance.attended_minutes records) = true.
Proof.
  induction records as [|r rest IH]; intros Hall; [reflexivity|].
  cbn [Attendance.attended_minutes].
  pose proof (duration_minutes_valid r (Hall r (or_introl eq_refl))) as Hd.
  destruct (AttendanceRecord.duration_minutes r); [|discriminate].
  assert (Hrest : is_ok (Attendance.attended_minutes rest) = true).
  { apply IH. intros r' Hin. apply Hall. now right. }
  destruct (Attendance.attended_minutes rest); [reflexivity|discriminate].
Qed.

Lemma attendance_by_member_valid now member_id w r :
  In r (fst (Attendance.get_attendance_by_member now member_id w)) ->
  AttendanceRecord._validate r = Ok tt.
Proof.
  unfold Attendance.get_attendance_by_member, AttendanceCRUD.get_all_attendance, bind.
  destruct (Sheets.get_all _ _ w) as [l w'] eqn:E. cbn [fst ret].
  intros Hin. apply List.filter_In in Hin as [Hin _].
  assert (Hl : l = fst (Sheets.get_all (AttendanceRecord.from_sheet_row now)
                          "Record ID" w)) by now rewrite E.
  rewrite Hl in Hin. apply get_all_In in Hin as (row & _ & Hp).
  eauto using AttendanceRecord_from_sheet_row_valid.
Qed.

(** The hours of at most [k] durations, [k] below [2 ^ 48]. *)
Lemma hours_bounds (ms : list Z) (k : nat) :
  Forall (fun d => 1 <= d <= 1439)%Z ms -> List.length ms <= k ->
  (Z.of_nat k < 2 ^ 48)%Z ->
  let hours := Float.nearest (inject_Z (AttendanceCRUD.sum ms) / inject_Z 60) in
  Float.true_div (AttendanceCRUD.sum ms) 60 = Ok hours /\
  (0 <= Float.round1 hours)%Q /\
  (Float.round1 hours <= inject_Z (Z.of_nat (24 * k)))%Q.
Proof.
  intros HF Hk Hsmall hours. destruct (sum_bounds ms HF) as [Hlo Hhi].
  set (t := AttendanceCRUD.sum ms) in *. clearbody t.
  assert (HK : (0 <= Z.of_nat (24 * k) < 2 ^ 53)%Z).
  { change (2 ^ 53)%Z with (32 * 2 ^ 48)%Z. lia. }
  pose proof (nearest_int _ HK) as EK.
  destruct (true_div_bounded t 60 (Z.of_nat (24 * k))) as (Hdiv & H0 & H1); try lia.
  { apply Qle_lt_trans with (inject_Z (Z.of_nat (24 * k)));
      [apply Qle_lteq; right; exact EK|].
    apply Qlt_trans with (inject_Z (2 ^ 53)); [rewrite <- Zlt_Qlt; lia|].
    vm_compute. reflexivity. }
  fold hours in Hdiv, H0, H1. split; [exact Hdiv|].
  destruct (round1_between 0 (Z.of_nat (24 * k)) hours) as [R0 R1]; try lia.
  - exact H0.
  - apply Qle_trans with (Float.nearest (inject_Z (Z.of_nat (24 * k)))); [exact H1|].
    apply Qle_lteq. right. exact EK.
  - split; [exact R0 | exact R1].
Qed.

Lemma member_stats_valid records :
  (forall r, In r records -> AttendanceRecord._validate r = Ok tt) ->
  (Z.of_nat (List.length records) < 2 ^ 48)%Z ->
  exists s,
    Attendance.member_stats records = Ok s /\
    Attendance.total_events s = List.length records /\
    Attendance.present s = AttendanceCRUD.count_status "present" records /\
    Attendance.absent s = AttendanceCRUD.count_status "absent" records /\
    Attendance.excused s = AttendanceCRUD.count_status "excused" records /\
    Attendance.late s = AttendanceCRUD.count_status "late" records /\
    (0 <= Attendance.attendance_rate s)%Q /\
    (Attendance.attendance_rate s <= 100)%Q /\
    (0 <= Attendance.total_hours s)%Q /\
    (Attendance.total_hours s
     <= inject_Z (Z.of_nat (24 * attended records)))%Q /\
    (attended records = 0 -> (Attendance.attendance_rate s == 0)%Q) /\
    (0 < List.length records -> attended records = List.length records ->
     (Attendance.attendance_rate s == 100)%Q).
Proof.
  intros Hall Hsmall. unfold Attendance.member_stats.
  pose proof (attended_minutes_valid records Hall) as Hd.
  pose proof (attended_le records) as Hle.
  destruct (0 <? List.length records)%nat eqn:E.
  - apply Nat.ltb_lt in E.
    destruct (rate_bounds (attended records) (List.length records) Hle E)
      as (Hdiv & R0 & R1 & Rnone & Rall).
    fold (attended records). rewrite Hdiv. cbn [res_bind].
    destruct (Attendance.attended_minutes records) as [ms|] eqn:Ems; [|discriminate].
    destruct (attended_minutes_bounds records ms Ems) as [HF HL].
    cbn [res_bind].
    destruct (hours_bounds ms (attended records) HF HL) as (Hh & T0 & T1); [lia|].
    rewrite Hh. cbn [res_bind]. eexists. split; [reflexivity|].
    cbn [Attendance.total_events Attendance.present Attendance.absent
         Attendance.excused Attendance.late Attendance.attendance_rate
         Attendance.total_hours].
    do 5 (split; [reflexivity|]).
    split; [exact R0|]. split; [exact R1|]. split; [exact T0|]. split; [exact T1|].
    split.
    + intros H0. rewrite (Rnone H0). reflexivity.
    + intros _ H1. exact (Rall H1).
  - apply Nat.ltb_ge in E. eexists. split; [reflexivity|].
    cbn [Attendance.total_events Attendance.present Attendance.absent
         Attendance.excused Attendance.late Attendance.attendance_rate
         Attendance.total_hours].
    do 5 (split; [reflexivity|]).
    split; [apply Qle_refl|]. split; [discriminate|]. split; [apply Qle_refl|].
    split.
    + change 0%Q with (inject_Z 0). rewrite <- Zle_Qle. lia.
    + split; [reflexivity | lia].
Qed.

Lemma summarize_bounds records :
  (forall r, In r records -> AttendanceRecord._validate r = Ok tt) ->
  exists s,
    AttendanceCRUD.summarize records = Ok s /\
    AttendanceCRUD.total_records s = List.length records /\
    AttendanceCRUD.present s + AttendanceCRUD.late s = attended records /\
    (0 <= AttendanceCRUD.attendance_rate s)%Q /\
    (AttendanceCRUD.attendance_rate s <= 100)%Q /\
    (attended records = 0 ->
     (AttendanceCRUD.attendance_rate s == 0)%Q /\
     (AttendanceCRUD.average_duration s == 0)%Q) /\
    (0 < List.length records -> attended records = List.length records ->
     (AttendanceCRUD.attendance_rate s == 100)%Q) /\
    ((AttendanceCRUD.average_duration s == 0)%Q \/
     (1 <= AttendanceCRUD.average_duration s)%Q /\
     (AttendanceCRUD.average_duration s <= 1439)%Q).
Proof.
  intros Hall.
  destruct (summarize_valid records Hall)
    as (s & Hs & Ht & Hp & _ & _ & Hl & Hzero & Hrate & Hnone & Havg).
  pose proof (attended_le records) as Hle.
  assert (Hatt : AttendanceCRUD.present s + AttendanceCRUD.late s = attended records).
  { unfold attended. now rewrite Hp, Hl. }
  exists s. split; [exact Hs|]. split; [exact Ht|]. split; [exact Hatt|].
  destruct (Nat.eq_dec (List.length records) 0) as [E0|Epos].
  - rewrite Hzero by lia.
    split; [apply Qle_refl|]. split; [discriminate|].
    split; [intros H0; split; [reflexivity | rewrite (Hnone H0); reflexivity]|].
    split; [lia|].
    destruct Havg as [-> | Havg]; [left; reflexivity | right; exact Havg].
  - assert (E : 0 < List.length records) by lia.
    destruct (rate_bounds (attended records) (List.length records) Hle E)
      as (_ & R0 & R1 & Rnone & Rall).
    assert (Er : AttendanceCRUD.attendance_rate s
                 = Float.round1
                     (Float.mul
                        (Float.nearest
                           (inject_Z (Z.of_nat (attended records))
                            / inject_Z (Z.of_nat (List.length records)))) 100)).
    { rewrite Hrate by lia. unfold float_rate. now rewrite Hatt, Ht. }
    rewrite Er.
    split; [exact R0|]. split; [exact R1|].
    split; [intros H0; split;
            [rewrite (Rnone H0); reflexivity | rewrite (Hnone H0); reflexivity]|].
    split; [intros _ H1; exact (Rall H1)|].
    destruct Havg as [-> | Havg]; [left; reflexivity | right; exact Havg].
Qed.

(** X9: the attendance statistics of a member of whom a read returns
    fewer than [2 ^ 48] records.  They are produced, whatever the sheet
    holds and whether or not the remote answers; the four counts are those
    of the member's records and add up to [total_events]; the rate lies
    between 0 and 100, is 0 when no record is present or late and 100 when
    all of at least one are; the total of hours is not negative and at
    most 24 for each record that is present or late, so it is 0 when there
    is none. *)
Theorem X9_member_attendance_stats :
  forall (now member_id : string) (w : World),
    (Z.of_nat (List.length
                 (fst (Attendance.get_attendance_by_member now member_id w)))
     < 2 ^ 48)%Z ->
    exists s,
      fst (Attendance.get_member_attendance_stats now member_id w) = Ok s /\
      (let records := fst (Attendance.get_attendance_by_member now member_id w) in
       Attendance.total_events s = List.length records /\
       Attendance.present s = AttendanceCRUD.count_status "present" records /\
       Attendance.absent s = AttendanceCRUD.count_status "absent" records /\
       Attendance.excused s = AttendanceCRUD.count_status "excused" records /\
       Attendance.late s = AttendanceCRUD.count_status "late" records) /\
      Attendance.present s + Attendance.absent s
        + Attendance.excused s + Attendance.late s
        = Attendance.total_events s /\
      (0 <= Attendance.attendance_rate s)%Q /\
      (Attendance.attendance_rate s <= 100)%Q /\
      (0 <= Attendance.total_hours s)%Q /\
      (Attendance.total_hours s
       <= inject_Z (Z.of_nat (24 * (Attendance.present s + Attendance.late s))))%Q /\
      (Attendance.present s + Attendance.late s = 0 ->
       (Attendance.attendance_rate s == 0)%Q /\
       (Attendance.total_hours s == 0)%Q) /\
      (0 < Attendance.total_events s ->
       Attendance.absent s + Attendance.excused s = 0 ->
       (Attendance.attendance_rate s == 100)%Q).
Proof.
  intros now member_id w Hsmall.
  pose proof (attendance_by_member_valid now member_id w) as Hall.
  unfold Attendance.get_member_attendance_stats, bind.
  destruct (Attendance.get_attendance_by_member now member_id w) as [records w'].
  cbn [fst ret] in *.
  destruct (member_stats_valid records Hall Hsmall)
    as (s & Hs & Ht & Hp & Ha & He & Hl & R0 & R1 & T0 & T1 & Hnone & Hfull).
  pose proof (counts_partition records Hall) as Hsum.
  assert (Hatt : Attendance.present s + Attendance.late s = attended records).
  { unfold attended. now rewrite Hp, Hl. }
  exists s. split; [exact Hs|]. split; [auto|].
  split; [rewrite Ht, Hp, Ha, He, Hl; exact Hsum|].
  split; [exact R0|]. split; [exact R1|]. split; [exact T0|].
  split; [now rewrite Hatt|]. split.
  - intros H0. rewrite Hatt in H0. split; [now apply Hnone|].
    rewrite H0 in T1. now apply Qle_antisym.
  - intros Hpos H0. apply Hfull; [lia|].
    rewrite <- Hatt. rewrite Hp, Ha, He, Hl in *. lia.
Qed.

Lemma X9_member_attendance_stats_witness :
  exists s,
    fst (Attendance.get_member_attendance_stats sample_now "MBR1"
           attendance_sheet_four) = Ok s /\
    Attendance.total_events s = 2 /\
    Attendance.present s = 1 /\
    Attendance.excused s = 1 /\
    (Attendance.attendance_rate s <= 100)%Q /\
    (Attendance.total_hours s <= 24)%Q.
Proof.
  destruct (X9_member_attendance_stats sample_now "MBR1" attendance_sheet_four)
    as (s & Hs & (Ht & Hp & _ & He & Hl) & _ & _ & R1 & _ & T1 & _).
  { vm_compute. reflexivity. }
  exists s. split; [exact Hs|].
  assert (Hp' : Attendance.present s = 1) by (rewrite Hp; vm_compute; reflexivity).
  assert (Hl' : Attendance.late s = 0) by (rewrite Hl; vm_compute; reflexivity).
  split; [rewrite Ht; vm_compute; reflexivity|].
  split; [exact Hp'|].
  split; [rewrite He; vm_compute; reflexivity|].
  split; [exact R1|].
  rewrite Hp', Hl' in T1. exact T1.
Defined.

(** X10: bounds of an event's attendance summary, as the floats compute
    it.  The summary is produced, whatever the sheet holds and whether or
    not the remote fails.  The rate lies between 0 and 100, is 0 when no
    record is present or late and 100 when every one of at least one
    record is; the average duration is 0, which it is whenever no record
    is present or late, or lies between 1 and 1439 minutes. *)
Theorem X10_event_summary_bounds :
  forall (now event_id : string) (w : World),
    exists s,
      fst (AttendanceCRUD.get_event_attendance_summary now event_id w) = Ok s /\
      (0 <= AttendanceCRUD.attendance_rate s)%Q /\
      (AttendanceCRUD.attendance_rate s <= 100)%Q /\
      (AttendanceCRUD.present s + AttendanceCRUD.late s = 0 ->
       (AttendanceCRUD.attendance_rate s == 0)%Q /\
       (AttendanceCRUD.average_duration s == 0)%Q) /\
      (0 < AttendanceCRUD.total_records s ->
       AttendanceCRUD.present s + AttendanceCRUD.late s
         = AttendanceCRUD.total_records s ->
       (AttendanceCRUD.attendance_rate s == 100)%Q) /\
      ((AttendanceCRUD.average_duration s == 0)%Q \/
       (1 <= AttendanceCRUD.average_duration s)%Q /\
       (AttendanceCRUD.average_duration s <= 1439)%Q).
Proof.
  intros now event_id w.
  pose proof (attendance_by_event_valid now event_id w) as Hall.
  unfold AttendanceCRUD.get_event_attendance_summary, bind.
  destruct (AttendanceCRUD.get_attendance_by_event now event_id w) as [records w'].
  cbn [fst ret] in *.
  destruct (summarize_bounds records Hall)
    as (s & Hs & Ht & Hatt & R0 & R1 & Hnone & Hfull & Havg).
  exists s. split; [exact Hs|]. split; [exact R0|]. split; [exact R1|].
  split; [intros H0; apply Hnone; lia|].
  split; [intros Hpos Hall'; apply Hfull; lia | exact Havg].
Qed.

Lemma X10_event_summary_bounds_witness :
  exists s,
    fst (AttendanceCRUD.get_event_attendance_summary sample_now "EVT2"
           attendance_sheet_four) = Ok s /\
    (AttendanceCRUD.attendance_rate s == 0)%Q /\
    (AttendanceCRUD.average_duration s == 0)%Q.
Proof.
  destruct (X10_event_summary_bounds sample_now "EVT2" attendance_sheet_four)
    as (s & Hs & _ & _ & Hnone & _).
  exists s. split; [exact Hs|]. apply Hnone.
  vm_compute in Hs. injection Hs as <-. reflexivity.
Defined.
(** ** The retry loop in general *)

Lemma retried_status (status : Z) :
  GoogleSheetsManager.is_rate_limit status
  || GoogleSheetsManager.is_server_error status = true
  <-> rate_limit_or_server_error status.
Proof.
  unfold GoogleSheetsManager.is_rate_limit, GoogleSheetsManager.is_server_error,
    rate_limit_or_server_error.
  cbn [existsb]. rewrite !orb_true_iff, !Z.eqb_eq.
  split; intros H; intuition discriminate.
Qed.

Section retry_shape.

Import GoogleSheetsManager.

Context {R : Type}.
Variable execute : nat -> res R.
Variable max_retries : Z.
Variable delay : Q.

Hypothesis max_retries_small : (max_retries <= 1024)%Z.
Hypothesis waits_sleepable :
  forall i, (Z.of_nat i < max_retries)%Z -> sleepable (doubled delay i).

Lemma sleeps_app (t1 t2 : list effect) : sleeps (t1 ++ t2) = sleeps t1 ++ sleeps t2.
Proof. unfold sleeps. apply omap_app. Qed.

Lemma total_sleep_app (t1 t2 : list effect) :
  (total_sleep (t1 ++ t2) == total_sleep t1 + total_sleep t2)%Q.
Proof.
  unfold total_sleep. rewrite sleeps_app.
  induction (sleeps t1) as [|q l IH]; cbn [app fold_right]; [ring|].
  rewrite IH. ring.
Qed.

Lemma inject_Z_sub (x y : Z) : (inject_Z (x - y) == inject_Z x - inject_Z y)%Q.
Proof. unfold Z.sub, Qminus. now rewrite inject_Z_plus, inject_Z_opp. Qed.

Lemma delay_le_doubled (i : nat) : (0 <= delay)%Q -> (delay <= doubled delay i)%Q.
Proof.
  intros Hd. unfold doubled.
  assert (H1 : (1 <= inject_Z (2 ^ Z.of_nat i))%Q).
  { change 1%Q with (inject_Z 1). rewrite <- Zle_Qle.
    pose proof (Z.pow_pos_nonneg 2 (Z.of_nat i)). lia. }
  set (p := inject_Z (2 ^ Z.of_nat i)) in *. clearbody p. nra.
Qed.

(** With a retry to spend, the delay itself is a wait that is slept. *)
Lemma delay_sleepable : (0 < max_retries)%Z -> sleepable delay.
Proof.
  intros Hpos. destruct (waits_sleepable 0 Hpos) as [H0 H1].
  unfold doubled in H0, H1. change (inject_Z (2 ^ Z.of_nat 0)) with 1%Q in H0, H1.
  split; lra.
Qed.

(** The loop over the attempts [a, a + k), the last of which is attempt
    number [max_retries]. *)
Lemma retry_loop_shape (k a : nat) (trace : list effect) :
  0 < k -> (Z.of_nat (a + k) = max_retries + 1)%Z ->
  exists (n : nat) (more : list effect),
    a <= n < a + k /\
    retry_loop execute max_retries delay (seq a k) trace
    = (outcome (execute n), trace ++ more ++ [Execute n]) /\
    List.filter is_execute more = map Execute (seq a (n - a)) /\
    List.length (sleeps more) = n - a /\
    (forall i, a <= i < n -> exists e, execute i = Raise e /\ ~ final (execute i)) /\
    ((Z.of_nat n < max_retries)%Z -> final (execute n)) /\
    (total_sleep more <= delay * inject_Z (2 ^ Z.of_nat n - 2 ^ Z.of_nat a))%Q.
Proof.
  revert a trace. induction k as [|k IH]; intros a trace Hk Hlast; [lia|].
  assert (Hstop : forall result : res (option R),
    result = outcome (execute a) ->
    ((Z.of_nat a < max_retries)%Z -> final (execute a)) ->
    exists (n : nat) (more : list effect),
      a <= n < a + S k /\
      (result, trace ++ [Execute a])
      = (outcome (execute n), trace ++ more ++ [Execute n]) /\
      List.filter is_execute more = map Execute (seq a (n - a)) /\
      List.length (sleeps more) = n - a /\
      (forall i, a <= i < n -> exists e, execute i = Raise e /\ ~ final (execute i)) /\
      ((Z.of_nat n < max_retries)%Z -> final (execute n)) /\
      (total_sleep more <= delay * inject_Z (2 ^ Z.of_nat n - 2 ^ Z.of_nat a))%Q).
  { intros result -> Hfinal. exists a, []. rewrite Nat.sub_diag, Z.sub_diag.
    split; [lia|]. split; [reflexivity|]. split; [reflexivity|].
    split; [reflexivity|]. split; [intros i Hi; lia|]. split; [exact Hfinal|].
    unfold total_sleep. cbn. rewrite Qmult_0_r. apply Qle_refl. }
  assert (Hgo : forall (e : exn) (s : Q),
    execute a = Raise e -> ~ final (execute a) ->
    (Z.of_nat a <> max_retries)%Z ->
    (s <= doubled delay a)%Q ->
    exists (n : nat) (more : list effect),
      a <= n < a + S k /\
      retry_loop execute max_retries delay (seq (S a) k)
        ((trace ++ [Execute a]) ++ [Sleep s])
      = (outcome (execute n), trace ++ more ++ [Execute n]) /\
      List.filter is_execute more = map Execute (seq a (n - a)) /\
      List.length (sleeps more) = n - a /\
      (forall i, a <= i < n -> exists e, execute i = Raise e /\ ~ final (execute i)) /\
      ((Z.of_nat n < max_retries)%Z -> final (execute n)) /\
      (total_sleep more <= delay * inject_Z (2 ^ Z.of_nat n - 2 ^ Z.of_nat a))%Q).
  { intros e s Hx Hnf Hne Hs.
    destruct (IH (S a) ((trace ++ [Execute a]) ++ [Sleep s]))
      as (n & more & Hn & Hrun & Hex & Hsl & Hfail & Hfin & Htot); [lia | lia |].
    exists n, ([Execute a; Sleep s] ++ more).
    split; [lia|]. split; [rewrite Hrun; now rewrite <- !app_assoc|].
    replace (n - a) with (S (n - S a)) by lia.
    split; [cbn [app List.filter is_execute seq map]; now rewrite Hex|].
    split; [rewrite sleeps_app, List.length_app, Hsl; reflexivity|].
    split.
    { intros i Hi. destruct (Nat.eq_dec i a) as [->|Hia]; [eauto|].
      apply Hfail. lia. }
    split; [exact Hfin|].
    rewrite total_sleep_app.
    assert (Hhead : (total_sleep [Execute a; Sleep s] == s)%Q).
    { unfold total_sleep. cbn. ring. }
    rewrite Hhead. unfold doubled in Hs.
    rewrite inject_Z_sub in Htot. rewrite inject_Z_sub.
    replace (Z.of_nat (S a)) with (Z.succ (Z.of_nat a)) in Htot by lia.
    rewrite Z.pow_succ_r in Htot by lia. rewrite inject_Z_mult in Htot.
    change (inject_Z 2) with 2%Q in Htot.
    set (pa := inject_Z (2 ^ Z.of_nat a)) in *. clearbody pa.
    set (pn := inject_Z (2 ^ Z.of_nat n)) in *. clearbody pn.
    set (t := total_sleep more) in *. clearbody t. nra. }
  assert (Hother : forall e : exn,
    execute a = Raise e -> (forall status body, e <> HttpError status body) ->
    (Z.of_nat a <> max_retries)%Z ->
    exists (n : nat) (more : list effect),
      a <= n < a + S k /\
      match pause (Ok delay) with
      | Ok wait_time =>
          retry_loop execute max_retries delay (seq (S a) k)
            ((trace ++ [Execute a]) ++ [Sleep wait_time])
      | Raise e' => (Raise e', trace ++ [Execute a])
      end
      = (outcome (execute n), trace ++ more ++ [Execute n]) /\
      List.filter is_execute more = map Execute (seq a (n - a)) /\
      List.length (sleeps more) = n - a /\
      (forall i, a <= i < n -> exists e, execute i = Raise e /\ ~ final (execute i)) /\
      ((Z.of_nat n < max_retries)%Z -> final (execute n)) /\
      (total_sleep more <= delay * inject_Z (2 ^ Z.of_nat n - 2 ^ Z.of_nat a))%Q).
  { intros e Hx Hne E.
    pose proof (delay_sleepable ltac:(lia)) as Hsd.
    rewrite (pause_sleepable delay Hsd).
    apply (Hgo e delay); [exact Hx| |exact E|].
    - rewrite Hx. intros [[r [=]]|(st & b & [= ->] & _)]. now apply (Hne st b).
    - apply delay_le_doubled. apply Hsd. }
  cbn [seq retry_loop].
  destruct (execute a) as [r|e] eqn:Hx.
  - apply Hstop; [reflexivity|]. intros _. left. eauto.
  - assert (Hlast' : forall (P : Prop), (Z.of_nat a = max_retries)%Z ->
              ((Z.of_nat a < max_retries)%Z -> P)) by (intros; lia).
    destruct e as [msg| |status body|msg].
    + destruct (Z.eqb_spec (Z.of_nat a) max_retries) as [E|E].
      * apply Hstop; [reflexivity | now apply Hlast'].
      * apply (Hother (ValueError msg)); [reflexivity|discriminate|exact E].
    + destruct (Z.eqb_spec (Z.of_nat a) max_retries) as [E|E].
      * apply Hstop; [reflexivity | now apply Hlast'].
      * apply (Hother IndexError); [reflexivity|discriminate|exact E].
    + destruct (Z.eqb_spec (Z.of_nat a) max_retries) as [E|E].
      * apply Hstop; [reflexivity | now apply Hlast'].
      * pose proof (retried_status status) as Hst.
        assert (Hwait : pause (backoff delay a) = Ok (doubled delay a)).
        { apply pause_backoff; [lia | apply waits_sleepable; lia]. }
        destruct (is_rate_limit status || is_server_error status) eqn:Ht.
        -- assert (Hnf : ~ final (Raise (HttpError status body) : res R)).
           { intros [[r [=]]|(st & b & [= -> _] & Hf)]. apply Hf, Hst. reflexivity. }
           assert (Hloop :
             exists (n : nat) (more : list effect),
               a <= n < a + S k /\
               retry_loop execute max_retries delay (seq (S a) k)
                 ((trace ++ [Execute a]) ++ [Sleep (doubled delay a)])
               = (outcome (execute n), trace ++ more ++ [Execute n]) /\
               List.filter is_execute more = map Execute (seq a (n - a)) /\
               List.length (sleeps more) = n - a /\
               (forall i, a <= i < n ->
                          exists e, execute i = Raise e /\ ~ final (execute i)) /\
               ((Z.of_nat n < max_retries)%Z -> final (execute n)) /\
               (total_sleep more
                <= delay * inject_Z (2 ^ Z.of_nat n - 2 ^ Z.of_nat a))%Q).
           { apply (Hgo (HttpError status body)); auto. apply Qle_refl. }
           rewrite Hwait.
           destruct (is_rate_limit status); [exact Hloop|].
           cbn [orb] in Ht. rewrite Ht. exact Hloop.
        -- apply orb_false_iff in Ht as [Hr Hs].
           rewrite Hr, Hs. apply Hstop; [reflexivity|].
           intros _. right. exists status, body. split; [reflexivity|].
           intros Hyes. apply Hst in Hyes. discriminate.
    + destruct (Z.eqb_spec (Z.of_nat a) max_retries) as [E|E].
      * apply Hstop; [reflexivity | now apply Hlast'].
      * apply (Hother (OtherError msg)); [reflexivity|discriminate|exact E].
Qed.

End retry_shape.

(** X11: the shape of a run of [_execute_with_retry].  With a negative
    [max_retries] the request is never executed and [None] is returned.
    Let [max_retries] be between 0 and 1024 and let every wait
    [delay * 2 ** i] with [i < max_retries] be one that [time.sleep]
    takes: not negative, and of fewer than [2 ** 63 - 512] nanoseconds.
    Then the run ends with some attempt [n <= max_retries], and its result
    is that attempt's answer, a response or the error raised as it is,
    never [None]; the attempts 0 to [n] are executed once each, in order,
    with one sleep after each but the last; every attempt before the last
    failed with an error that is retried; the run ends before attempt
    [max_retries] only on a response or on an HTTP error that is neither
    429 nor one of 500, 502, 503, 504; and the sleeps add up to at most
    [delay * (2 ** max_retries - 1)] seconds. *)
Theorem X11_retry_run_shape :
  forall (R : Type) (execute : nat -> res R) (max_retries : Z) (delay : Q),
    let run := GoogleSheetsManager._execute_with_retry execute max_retries delay in
    ((max_retries < 0)%Z -> run = (Ok None, [])) /\
    ((0 <= max_retries <= 1024)%Z ->
     (forall i, (Z.of_nat i < max_retries)%Z -> sleepable (doubled delay i)) ->
     exists n : nat,
       (Z.of_nat n <= max_retries)%Z /\
       fst run = outcome (execute n) /\
       List.filter GoogleSheetsManager.is_execute (snd run)
       = map GoogleSheetsManager.Execute (seq 0 (S n)) /\
       List.length (GoogleSheetsManager.sleeps (snd run)) = n /\
       last (snd run) = Some (GoogleSheetsManager.Execute n) /\
       (forall i, i < n ->
                  exists e, execute i = Raise e /\ ~ final (execute i)) /\
       ((Z.of_nat n < max_retries)%Z -> final (execute n)) /\
       (total_sleep (snd run) <= delay * inject_Z (2 ^ max_retries - 1))%Q).
Proof.
  intros R execute max_retries delay run. subst run.
  unfold GoogleSheetsManager._execute_with_retry. split.
  - intros Hneg. replace (Z.to_nat (max_retries + 1)) with 0 by lia. reflexivity.
  - intros [Hmax Hsmall] Hsleep.
    destruct (retry_loop_shape execute max_retries delay Hsmall Hsleep
                (Z.to_nat (max_retries + 1)) 0 [])
      as (n & more & Hn & Hrun & Hex & Hsl & Hfail & Hfin & Htot); [lia | lia |].
    rewrite Hrun. cbn [fst snd app]. rewrite Nat.sub_0_r in *.
    exists n. split; [lia|]. split; [reflexivity|].
    split.
    { rewrite List.filter_app, Hex. cbn [List.filter GoogleSheetsManager.is_execute].
      replace (S n) with (n + 1) by lia. rewrite seq_app, map_app. reflexivity. }
    split.
    { rewrite sleeps_app, List.length_app, Hsl. cbn. lia. }
    split; [apply last_snoc|].
    split; [intros i Hi; apply Hfail; lia|].
    split; [exact Hfin|].
    rewrite total_sleep_app.
    assert (Hend : (total_sleep [GoogleSheetsManager.Execute n] == 0)%Q) by reflexivity.
    rewrite Hend, Qplus_0_r. eapply Qle_trans; [exact Htot|].
    change (2 ^ Z.of_nat 0)%Z with 1%Z.
    destruct (Z.eq_dec max_retries 0) as [E0|Epos].
    { assert (Hn0 : n = 0) by lia. rewrite Hn0, E0. apply Qle_refl. }
    assert (Hd : (0 <= delay)%Q).
    { apply (delay_sleepable max_retries delay Hsleep). lia. }
    assert (Hpow : (2 ^ Z.of_nat n <= 2 ^ max_retries)%Z)
      by (apply Z.pow_le_mono_r; lia).
    rewrite !inject_Z_sub.
    assert (Hq : (inject_Z (2 ^ Z.of_nat n) <= inject_Z (2 ^ max_retries))%Q)
      by now rewrite <- Zle_Qle.
    set (pn := inject_Z (2 ^ Z.of_nat n)) in *. clearbody pn.
    set (pm := inject_Z (2 ^ max_retries)) in *. clearbody pm.
    change (inject_Z 1) with 1%Q. nra.
Qed.

Lemma X11_retry_run_shape_witness :
  GoogleSheetsManager._execute_with_retry twice_limited (-1) 1 = (Ok None, []) /\
  (total_sleep
     (snd (GoogleSheetsManager._execute_with_retry always_timeout 3 1)) <= 7)%Q.
Proof.
  split.
  - apply (X11_retry_run_shape string twice_limited (-1) 1). reflexivity.
  - destruct (X11_retry_run_shape string always_timeout 3 1) as [_ H].
    destruct (H ltac:(lia)) as (n & _ & _ & _ & _ & _ & _ & _ & Htot).
    + intros i Hi.
      assert (Hc : i = 0 \/ i = 1 \/ i = 2) by lia.
      destruct Hc as [->|[->| ->]]; split; vm_compute; congruence.
    + exact Htot.
Defined.

(** ** Checking in and out *)

Lemma strftime_parse (hour minute : nat) :
  hour < 24 -> minute < 60 ->
  Strptime.parse_HM (strftime_HM hour minute) = Some (hour, minute).
Proof.
  intros Hh Hm.
  assert (Hall : forallb (fun h => forallb (strftime_read_back h) (seq 0 60))
                   (seq 0 24) = true) by (vm_compute; reflexivity).
  rewrite List.forallb_forall in Hall.
  specialize (Hall hour ltac:(apply List.in_seq; lia)).
  rewrite List.forallb_forall in Hall.
  specialize (Hall minute ltac:(apply List.in_seq; lia)).
  unfold strftime_read_back in Hall.
  destruct (Strptime.parse_HM (strftime_HM hour minute)) as [[h m]|]; [|discriminate].
  apply andb_true_iff in Hall as [H1 H2].
  apply Nat.eqb_eq in H1, H2. now subst.
Qed.

Lemma strftime_truthy (hour minute : nat) :
  Py.truthy (strftime_HM hour minute) = true.
Proof. reflexivity. Qed.

Lemma strftime_cell (hour minute : nat) :
  Py.none_if_empty (strftime_HM hour minute) = Some (strftime_HM hour minute).
Proof. reflexivity. Qed.

Lemma strftime_not_bad (hour minute : nat) :
  hour < 24 -> minute < 60 ->
  AttendanceRecord.bad_time (Some (strftime_HM hour minute)) = false.
Proof.
  intros Hh Hm. unfold AttendanceRecord.bad_time, AttendanceRecord._is_valid_time.
  rewrite strftime_parse by assumption. apply andb_false_r.
Qed.

Lemma generate_record_id_truthy timestamp event_id member_id :
  Py.truthy (generate_record_id timestamp event_id member_id) = true.
Proof. reflexivity. Qed.

Lemma generate_record_id_not_header timestamp event_id member_id :
  generate_record_id timestamp event_id member_id <> "Record ID".
Proof. discriminate. Qed.

Lemma AttendanceRecord_from_sheet_row_fields now row a :
  AttendanceRecord.from_sheet_row now row = Ok a ->
  AttendanceRecord.record_id a = cell 0 row /\
  AttendanceRecord.event_id a = cell 1 row /\
  AttendanceRecord.member_id a = cell 2 row.
Proof.
  unfold AttendanceRecord.from_sheet_row. intros H.
  apply AttendanceRecord_post_init_inv in H as [_ ->]. cbn.
  now rewrite !cell_pad.
Qed.

(** Whether a row parses does not depend on the clock, nor do the
    identifiers it parses to. *)
Lemma AttendanceRecord_from_sheet_row_clock now t row a :
  AttendanceRecord.from_sheet_row now row = Ok a ->
  exists a',
    AttendanceRecord.from_sheet_row t row = Ok a' /\
    AttendanceRecord.record_id a' = AttendanceRecord.record_id a /\
    AttendanceRecord.event_id a' = AttendanceRecord.event_id a /\
    AttendanceRecord.member_id a' = AttendanceRecord.member_id a.
Proof.
  unfold AttendanceRecord.from_sheet_row, AttendanceRecord.__post_init__.
  destruct (AttendanceRecord._validate _) as [[]|]; [|discriminate].
  cbn [res_bind]. intros [= <-]. eexists. split; [reflexivity|]. now cbn.
Qed.

Lemma shown_In {A} (parse : Row -> res A) header rows a :
  In a (shown parse header rows) -> exists row, In row rows /\ parse row = Ok a.
Proof.
  unfold shown. destruct rows as [|[|c r] rest]; try apply parsed_In.
  destruct (String.eqb c header); [|apply parsed_In].
  intros H. apply parsed_In in H as (row & Hin & Hp). exists row. split; [now right | exact Hp].
Qed.

Lemma find_none_all {A} (p : A -> bool) l :
  (forall x, In x l -> p x = false) -> List.find p l = None.
Proof.
  intros H. destruct (List.find p l) as [x|] eqn:E; [|reflexivity].
  apply List.find_some in E as [Hin Hp]. rewrite (H x Hin) in Hp. discriminate.
Qed.

Lemma find_app_some {A} (p : A -> bool) l1 l2 x :
  List.find p l1 = Some x -> List.find p (l1 ++ l2) = Some x.
Proof.
  induction l1 as [|y l1 IH]; simpl; [discriminate|].
  destruct (p y); [auto | exact IH].
Qed.

Section found_after_write.

Context {A : Type}.
Variables parse1 parse2 : Row -> res A.
Variable key : A -> string.
Variable p : A -> bool.
Variable header : string.
Hypothesis parse1_key : forall row a, parse1 row = Ok a -> key a = cell 0 row.
Hypothesis parse2_key : forall row a, parse2 row = Ok a -> key a = cell 0 row.
Hypothesis same_rows :
  forall row a2, parse2 row = Ok a2 -> p a2 = true ->
                 exists a1, parse1 row = Ok a1 /\ p a1 = true.

(** A read with [parse1] found [r] first among the entities that satisfy
    [p]; the first row that carries [r]'s key has then been rewritten with
    a row that parses to [a'], which satisfies [p]: a read with [parse2]
    finds [a'] first. *)
Lemma found_after_write id pre old post row' r a' :
  first_row_filled (pre ++ old :: post) ->
  List.find p (shown parse1 header (pre ++ old :: post)) = Some r ->
  key r = id -> id <> header ->
  (forall row, In row pre -> cell 0 row <> id) ->
  parse2 row' = Ok a' -> key a' = id -> p a' = true ->
  List.find p (shown parse2 header (pre ++ row' :: post)) = Some a'.
Proof.
  intros Hfill Hfind Hr Hh Hpre Hp Hk Hpa.
  assert (Hhead : List.find p (parsed parse2 (row' :: post)) = Some a').
  { unfold parsed. cbn [omap list_omap]. rewrite Hp. cbn. now rewrite Hpa. }
  pose proof (parse2_key _ _ Hp) as Hc. rewrite Hk in Hc.
  destruct pre as [|r0 pre].
  - cbn [app]. unfold shown. destruct row' as [|c row']; [exact Hhead|].
    unfold cell in Hc. simpl in Hc. subst c.
    destruct (String.eqb_spec id header); [congruence | exact Hhead].
  - cbn [app] in *. destruct r0 as [|c r0]; [destruct Hfill|].
    set (kept := if String.eqb c header then pre else (c :: r0) :: pre).
    assert (Hkept : forall row, In row kept -> cell 0 row <> id).
    { intros row Hin. apply Hpre. subst kept.
      destruct (String.eqb c header); [now right | exact Hin]. }
    assert (Hshown : forall (parse : Row -> res A) x,
               shown parse header ((c :: r0) :: pre ++ x :: post)
               = parsed parse kept ++ parsed parse (x :: post)).
    { intros parse x. unfold shown. subst kept.
      destruct (String.eqb c header); [apply parsed_app|].
      apply (parsed_app parse ((c :: r0) :: pre) (x :: post)). }
    rewrite Hshown in Hfind. rewrite Hshown.
    rewrite find_app_none; [exact Hhead|].
    apply find_none_all. intros a2 Hin2.
    destruct (p a2) eqn:Hp2; [exfalso|reflexivity].
    apply parsed_In in Hin2 as (row & Hrow & Hparse2).
    destruct (same_rows row a2 Hparse2 Hp2) as (a1 & Hparse1 & Hp1).
    assert (Hin1 : In a1 (parsed parse1 kept)) by (apply parsed_In; eauto).
    destruct (List.find p (parsed parse1 kept)) as [a0|] eqn:E0.
    + rewrite (find_app_some p _ _ a0 E0) in Hfind. injection Hfind as <-.
      apply List.find_some in E0 as [Hin0 _].
      apply parsed_In in Hin0 as (row0 & Hrow0 & Hparse0).
      apply (Hkept row0 Hrow0). rewrite <- Hr. symmetry. now apply parse1_key.
    + pose proof (List.find_none _ _ E0 a1 Hin1) as Hno. congruence.
Qed.

End found_after_write.

Lemma get_attendance_record_healthy now event_id member_id w :
  faults w = [] -> first_row_filled (values w) ->
  AttendanceCRUD.get_attendance_record now event_id member_id w
  = (List.find (of_pair event_id member_id)
       (shown (AttendanceRecord.from_sheet_row now) "Record ID" (values w)), w).
Proof.
  intros Hf Hr.
  unfold AttendanceCRUD.get_attendance_record, AttendanceCRUD.get_all_attendance, bind.
  now rewrite get_all_healthy.
Qed.

Lemma pair_absent t event_id member_id rows :
  (forall row, In row rows -> ~ (cell 1 row = event_id /\ cell 2 row = member_id)) ->
  List.find (of_pair event_id member_id)
    (shown (AttendanceRecord.from_sheet_row t) "Record ID" rows) = None.
Proof.
  intros H. apply find_none_all. intros a Hin.
  apply shown_In in Hin as (row & Hrow & Hp).
  apply AttendanceRecord_from_sheet_row_fields in Hp as (_ & He & Hm).
  unfold of_pair. rewrite He, Hm.
  destruct (String.eqb_spec (cell 1 row) event_id) as [E1|]; [|reflexivity].
  destruct (String.eqb_spec (cell 2 row) member_id) as [E2|]; [|reflexivity].
  exfalso. apply (H row Hrow). now split.
Qed.

Lemma append_no_faults row w :
  faults w = [] ->
  Sheets.append row w = (Ok 1%Z, mkWorld (values w ++ [row]) []).
Proof. intros Hf. unfold Sheets.append. now rewrite request_healthy. Qed.

Lemma first_row_filled_snoc rows row :
  first_row_filled rows -> row <> [] -> first_row_filled (rows ++ [row]).
Proof.
  destruct rows as [|[|c r] rest]; simpl; try tauto.
  destruct row; simpl; tauto.
Qed.

(** A record that the sheet does not hold yet is appended, and a read finds
    it. *)
Lemma record_attendance_fresh now a w :
  faults w = [] -> first_row_filled (values w) ->
  AttendanceRecord._validate a = Ok tt ->
  AttendanceRecord.record_id a <> "Record ID" ->
  (forall row, In row (values w) ->
               ~ (cell 1 row = AttendanceRecord.event_id a /\
                  cell 2 row = AttendanceRecord.member_id a)) ->
  AttendanceCRUD.record_attendance now a w
  = (true, mkWorld (values w ++ [AttendanceRecord.to_sheet_row a]) []) /\
  forall t,
    AttendanceCRUD.get_attendance_record t (AttendanceRecord.event_id a)
      (AttendanceRecord.member_id a)
      (mkWorld (values w ++ [AttendanceRecord.to_sheet_row a]) [])
    = (Some (AttendanceRecord_read_back t a),
       mkWorld (values w ++ [AttendanceRecord.to_sheet_row a]) []).
Proof.
  intros Hf Hfill Hv Hh Hnone. split.
  - unfold AttendanceCRUD.record_attendance, bind.
    rewrite get_attendance_record_healthy by assumption.
    rewrite pair_absent by exact Hnone.
    now rewrite append_no_faults.
  - intros t. rewrite get_attendance_record_healthy;
      [|reflexivity|apply first_row_filled_snoc; [exact Hfill|discriminate]].
    cbn [values]. f_equal.
    rewrite shown_app; [|exact Hfill|exact Hh].
    rewrite find_app_none by now apply pair_absent.
    unfold parsed. cbn [omap list_omap].
    rewrite AttendanceRecord_from_to by exact Hv.
    cbn. unfold of_pair. cbn. now rewrite !String.eqb_refl.
Qed.

Lemma AttendanceRecord_validate_touch now a :
  AttendanceRecord._validate (AttendanceCRUD.touch now a)
  = AttendanceRecord._validate a.
Proof. reflexivity. Qed.

(** The record that a look-up returns is rewritten in place, and every
    later look-up returns what was written. *)
Lemma update_attendance_then_read now event_id member_id r r' w :
  faults w = [] -> first_row_filled (values w) ->
  fst (AttendanceCRUD.get_attendance_record now event_id member_id w) = Some r ->
  AttendanceRecord.record_id r <> "Record ID" ->
  AttendanceRecord._validate r' = Ok tt ->
  AttendanceRecord.record_id r' = AttendanceRecord.record_id r ->
  AttendanceRecord.event_id r' = event_id ->
  AttendanceRecord.member_id r' = member_id ->
  exists w',
    AttendanceCRUD.update_attendance now r' w = (true, w') /\
    faults w' = [] /\ first_row_filled (values w') /\
    List.length (values w') = List.length (values w) /\
    forall t,
      AttendanceCRUD.get_attendance_record t event_id member_id w'
      = (Some (AttendanceRecord_read_back t (AttendanceCRUD.touch now r')), w').
Proof.
  intros Hf Hfill Hget Hh Hv Hid He Hm.
  rewrite get_attendance_record_healthy in Hget by assumption. cbn [fst] in Hget.
  pose proof (List.find_some _ _ Hget) as [Hin Hpair].
  apply shown_In in Hin as (row0 & Hrow0 & Hparse0).
  pose proof (AttendanceRecord_from_sheet_row_id _ _ _ Hparse0) as Hkey0.
  pose proof (AttendanceRecord_from_sheet_row_valid _ _ _ Hparse0) as Hvr.
  destruct (AttendanceRecord_validate_inv r Hvr) as (Ht & _).
  assert (Hrow : has_row (AttendanceRecord.record_id r) (values w))
    by (exists row0; split; [exact Hrow0 | now symmetry]).
  destruct (find_row_first _ w Hf Ht Hrow)
    as (pre & old & post & Hvals & Ho & Hpre & Hfindrow).
  exists (mkWorld (pre ++ AttendanceRecord.to_sheet_row (AttendanceCRUD.touch now r')
                     :: post) []).
  rewrite Hvals in Hfill.
  assert (Hfill' : first_row_filled
            (pre ++ AttendanceRecord.to_sheet_row (AttendanceCRUD.touch now r') :: post))
    by (apply (first_row_filled_write pre old); [exact Hfill | discriminate]).
  split.
  { unfold AttendanceCRUD.update_attendance, AttendanceCRUD._find_attendance_row, bind.
    rewrite Hid, Hfindrow, update_no_faults by exact Hf.
    rewrite Hvals. replace (List.length pre + 1 - 1) with (List.length pre) by lia.
    now rewrite insert_middle. }
  split; [reflexivity|]. split; [exact Hfill'|].
  split; [cbn [values]; rewrite Hvals, !List.length_app; reflexivity|].
  intros t. rewrite get_attendance_record_healthy; [|reflexivity|exact Hfill'].
  cbn [values]. f_equal.
  rewrite Hvals in Hget.
  apply (found_after_write (AttendanceRecord.from_sheet_row now)
           (AttendanceRecord.from_sheet_row t) AttendanceRecord.record_id
           (of_pair event_id member_id) "Record ID"
           (AttendanceRecord_from_sheet_row_id now)
           (AttendanceRecord_from_sheet_row_id t))
    with (id := AttendanceRecord.record_id r) (old := old) (r := r); auto.
  - intros row a2 Hp2 Hpair2.
    destruct (AttendanceRecord_from_sheet_row_clock t now row a2 Hp2)
      as (a1 & Hp1 & _ & He1 & Hm1).
    exists a1. split; [exact Hp1|]. unfold of_pair in *. now rewrite He1, Hm1.
  - now apply (AttendanceRecord_from_to t (AttendanceCRUD.touch now r')).
  - unfold of_pair. cbn. rewrite He, Hm. now rewrite !String.eqb_refl.
Qed.

Lemma duration_of_times (hour minute hour' minute' : nat) (a : AttendanceRecord.t) :
  hour < 24 -> minute < 60 -> hour' < 24 -> minute' < 60 ->
  AttendanceRecord.check_in_time a = Some (strftime_HM hour minute) ->
  AttendanceRecord.check_out_time a = Some (strftime_HM hour' minute') ->
  AttendanceRecord.duration_minutes a
  = Ok (Some ((Z.of_nat (60 * hour' + minute') - Z.of_nat (60 * hour + minute))
              mod 1440)%Z).
Proof.
  intros Hh Hm Hh' Hm' Hi Ho. unfold AttendanceRecord.duration_minutes.
  rewrite Hi, Ho. cbn [Py.truthy_opt Py.or_empty]. rewrite !strftime_truthy.
  cbn [negb orb]. rewrite !strftime_parse by assumption.
  unfold Strptime.minutes_of. cbn [fst snd]. do 2 f_equal.
  destruct (Z.ltb_spec (Z.of_nat hour' * 60 + Z.of_nat minute')
              (Z.of_nat hour * 60 + Z.of_nat minute)).
  - apply Z.mod_unique with (q := (-1)%Z); lia.
  - apply Z.mod_unique with (q := 0%Z); lia.
Qed.

Lemma check_in_fresh now hour minute timestamp event_id member_id recorded_by w :
  faults w = [] -> first_row_filled (values w) ->
  event_id <> "" -> member_id <> "" -> hour < 24 -> minute < 60 ->
  (forall row, In row (values w) ->
               ~ (cell 1 row = event_id /\ cell 2 row = member_id)) ->
  let record :=
    AttendanceRecord.mk (generate_record_id timestamp event_id member_id)
      event_id member_id "present" (Some (strftime_HM hour minute)) None None
      recorded_by (Some now) (Some now) in
  AttendanceRecord._validate record = Ok tt /\
  Attendance.check_in_member now hour minute timestamp event_id member_id
    recorded_by w
  = (true, mkWorld (values w ++ [AttendanceRecord.to_sheet_row record]) []) /\
  forall t,
    AttendanceCRUD.get_attendance_record t event_id member_id
      (mkWorld (values w ++ [AttendanceRecord.to_sheet_row record]) [])
    = (Some (AttendanceRecord_read_back t record),
       mkWorld (values w ++ [AttendanceRecord.to_sheet_row record]) []).
Proof.
  intros Hf Hfill He Hm Hh Hmi Hnone record.
  assert (Hv : AttendanceRecord._validate record = Ok tt).
  { apply AttendanceRecord_validate_intro; subst record;
      cbn [AttendanceRecord.record_id AttendanceRecord.event_id
           AttendanceRecord.member_id AttendanceRecord.attendance_status
           AttendanceRecord.check_in_time AttendanceRecord.check_out_time];
      try reflexivity; try (now apply truthy_true).
    now apply strftime_not_bad. }
  destruct (record_attendance_fresh now record w Hf Hfill Hv
              (generate_record_id_not_header _ _ _) Hnone) as [Hrec Hread].
  split; [exact Hv|]. split; [|exact Hread].
  unfold Attendance.check_in_member, bind.
  rewrite get_attendance_record_healthy by assumption.
  rewrite pair_absent by exact Hnone.
  unfold Attendance.construct, AttendanceRecord.__post_init__.
  rewrite AttendanceRecord_validate_intro;
    cbn [AttendanceRecord.record_id AttendanceRecord.event_id
         AttendanceRecord.member_id AttendanceRecord.attendance_status
         AttendanceRecord.check_in_time AttendanceRecord.check_out_time];
    try reflexivity; try (now apply truthy_true);
    [|now apply strftime_not_bad].
  cbn [res_bind AttendanceRecord.record_id AttendanceRecord.event_id
       AttendanceRecord.member_id AttendanceRecord.attendance_status
       AttendanceRecord.check_in_time AttendanceRecord.check_out_time
       AttendanceRecord.notes AttendanceRecord.recorded_by
       AttendanceRecord.created_at Py.truthy_opt].
  exact Hrec.
Qed.

(** X12: a member who is checked in and then checked out.  Take a remote
    with no failure pending, a tab whose first row is not blank and that
    holds no row of this member at this event, non-empty identifiers of
    the event and the member, and two times of day (hours below 24,
    minutes below 60).  [check_in_member] returns [True] and appends one
    row: the generated identifier, the two identifiers, "present", the
    time of day as HH:MM, no check-out time and no notes, who recorded it,
    and the clock reading twice.  A look-up then returns that record,
    without a duration.  A following [check_out_member] returns [True] and
    keeps the number of rows, and a look-up then returns the record with
    both times, whose duration is the minutes from the check-in to the
    check-out, counted round the clock. *)
Theorem X12_check_in_then_check_out :
  forall (now now' event_id member_id recorded_by timestamp : string)
         (hour minute hour' minute' : nat) (w : World),
    faults w = [] -> first_row_filled (values w) ->
    event_id <> "" -> member_id <> "" ->
    hour < 24 -> minute < 60 -> hour' < 24 -> minute' < 60 ->
    (forall row, In row (values w) ->
                 ~ (cell 1 row = event_id /\ cell 2 row = member_id)) ->
    exists w1 w2,
      Attendance.check_in_member now hour minute timestamp event_id member_id
        recorded_by w = (true, w1) /\
      Attendance.check_out_member now' hour' minute' event_id member_id w1
        = (true, w2) /\
      values w1
        = values w
          ++ [[generate_record_id timestamp event_id member_id; event_id;
               member_id; "present"; strftime_HM hour minute; ""; "";
               recorded_by; now; now]] /\
      List.length (values w2) = List.length (values w1) /\
      (forall t, exists r,
          fst (AttendanceCRUD.get_attendance_record t event_id member_id w1)
            = Some r /\
          AttendanceRecord.attendance_status r = "present" /\
          AttendanceRecord.check_in_time r = Some (strftime_HM hour minute) /\
          AttendanceRecord.check_out_time r = None /\
          AttendanceRecord.duration_minutes r = Ok None) /\
      (forall t, exists r,
          fst (AttendanceCRUD.get_attendance_record t event_id member_id w2)
            = Some r /\
          AttendanceRecord.attendance_status r = "present" /\
          AttendanceRecord.check_in_time r = Some (strftime_HM hour minute) /\
          AttendanceRecord.check_out_time r = Some (strftime_HM hour' minute') /\
          AttendanceRecord.recorded_by r = recorded_by /\
          AttendanceRecord.duration_minutes r
          = Ok (Some ((Z.of_nat (60 * hour' + minute')
                       - Z.of_nat (60 * hour + minute)) mod 1440)%Z)).
Proof.
  intros now now' event_id member_id recorded_by timestamp hour minute hour' minute' w
         Hf Hfill He Hm Hh Hmi Hh' Hmi' Hnone.
  destruct (check_in_fresh now hour minute timestamp event_id member_id recorded_by w
              Hf Hfill He Hm Hh Hmi Hnone) as (Hv & Hin & Hread).
  set (record := AttendanceRecord.mk (generate_record_id timestamp event_id member_id)
                   event_id member_id "present" (Some (strftime_HM hour minute))
                   None None recorded_by (Some now) (Some now)) in *.
  set (w1 := mkWorld (values w ++ [AttendanceRecord.to_sheet_row record]) []) in *.
  set (r1 := AttendanceRecord_read_back now' record).
  set (r1' := AttendanceRecord.mk
                (AttendanceRecord.record_id r1) (AttendanceRecord.event_id r1)
                (AttendanceRecord.member_id r1) (AttendanceRecord.attendance_status r1)
                (AttendanceRecord.check_in_time r1) (Some (strftime_HM hour' minute'))
                (AttendanceRecord.notes r1) (AttendanceRecord.recorded_by r1)
                (AttendanceRecord.created_at r1) (AttendanceRecord.updated_at r1)).
  assert (Hfill1 : first_row_filled (values w1))
    by (apply first_row_filled_snoc; [exact Hfill | discriminate]).
  assert (Hci : AttendanceRecord.check_in_time r1 = Some (strftime_HM hour minute))
    by reflexivity.
  assert (Hv1 : AttendanceRecord._validate r1' = Ok tt).
  { apply AttendanceRecord_validate_intro.
    - reflexivity.
    - apply truthy_true. exact He.
    - apply truthy_true. exact Hm.
    - reflexivity.
    - change (AttendanceRecord.bad_time (Some (strftime_HM hour minute)) = false).
      now apply strftime_not_bad.
    - change (AttendanceRecord.bad_time (Some (strftime_HM hour' minute')) = false).
      now apply strftime_not_bad. }
  destruct (update_attendance_then_read now' event_id member_id r1 r1' w1)
    as (w2 & Hupd & Hf2 & Hfill2 & Hlen2 & Hread2);
    [reflexivity | exact Hfill1 | now rewrite Hread | discriminate | exact Hv1
    | reflexivity | reflexivity | reflexivity |].
  exists w1, w2. split; [exact Hin|]. split.
  { unfold Attendance.check_out_member, bind. rewrite Hread. exact Hupd. }
  split.
  { assert (Hstamp : Py.or_empty (Some now) = now) by now destruct now.
    subst w1 record. unfold AttendanceRecord.to_sheet_row.
    cbn [values AttendanceRecord.record_id AttendanceRecord.event_id
         AttendanceRecord.member_id AttendanceRecord.attendance_status
         AttendanceRecord.check_in_time AttendanceRecord.check_out_time
         AttendanceRecord.notes AttendanceRecord.recorded_by
         AttendanceRecord.created_at AttendanceRecord.updated_at].
    rewrite Hstamp. reflexivity. }
  split; [exact Hlen2|]. split.
  - intros t. exists (AttendanceRecord_read_back t record).
    rewrite Hread. repeat split.
  - intros t. exists (AttendanceRecord_read_back t (AttendanceCRUD.touch now' r1')).
    rewrite Hread2. split; [reflexivity|]. split; [reflexivity|].
    split; [reflexivity|]. split; [reflexivity|]. split; [reflexivity|].
    now apply duration_of_times.
Qed.

Lemma X12_check_in_then_check_out_witness :
  exists w1 w2,
    Attendance.check_in_member sample_now 18 10 "20240320181000" "EVT1" "MBR2"
      "system" attendance_sheet = (true, w1) /\
    Attendance.check_out_member sample_now 19 55 "EVT1" "MBR2" w1 = (true, w2) /\
    exists r,
      fst (AttendanceCRUD.get_attendance_record sample_now "EVT1" "MBR2" w2)
        = Some r /\
      AttendanceRecord.duration_minutes r = Ok (Some 105%Z).
Proof.
  destruct (X12_check_in_then_check_out sample_now sample_now "EVT1" "MBR2"
              "system" "20240320181000" 18 10 19 55 attendance_sheet)
    as (w1 & w2 & Hin & Hout & _ & _ & _ & Hread);
    [reflexivity | exact I | discriminate | discriminate | lia | lia | lia | lia | |].
  - intros row [<-|[<-|[]]] [_ H]; discriminate H.
  - exists w1, w2. split; [exact Hin|]. split; [exact Hout|].
    destruct (Hread sample_now) as (r & Hr & _ & _ & _ & _ & Hd).
    exists r. split; [exact Hr | exact Hd].
Defined.

Lemma none_if_empty_not_blank s : Py.none_if_empty s <> Some "".
Proof.
  unfold Py.none_if_empty. destruct (Py.truthy s) eqn:E; [|discriminate].
  intros [= ->]. discriminate.
Qed.

(** What a row parses to holds no empty optional field. *)
Lemma AttendanceRecord_from_sheet_row_normal now row a :
  AttendanceRecord.from_sheet_row now row = Ok a -> AttendanceRecord_normal a.
Proof.
  unfold AttendanceRecord.from_sheet_row. intros H.
  apply AttendanceRecord_post_init_inv in H as [_ ->].
  repeat split; apply none_if_empty_not_blank.
Qed.

Lemma get_attendance_record_found now event_id member_id w r :
  fst (AttendanceCRUD.get_attendance_record now event_id member_id w) = Some r ->
  AttendanceRecord._validate r = Ok tt /\ AttendanceRecord_normal r /\
  AttendanceRecord.event_id r = event_id /\
  AttendanceRecord.member_id r = member_id.
Proof.
  unfold AttendanceCRUD.get_attendance_record, AttendanceCRUD.get_all_attendance, bind.
  destruct (Sheets.get_all _ _ w) as [l w'] eqn:E. cbn [fst ret].
  intros Hfind. apply List.find_some in Hfind as [Hin Hpair].
  assert (Hl : l = fst (Sheets.get_all (AttendanceRecord.from_sheet_row now)
                          "Record ID" w)) by now rewrite E.
  rewrite Hl in Hin. apply get_all_In in Hin as (row & _ & Hp).
  apply andb_true_iff in Hpair as [He Hm].
  apply String.eqb_eq in He, Hm.
  split; [eapply AttendanceRecord_from_sheet_row_valid; exact Hp|].
  split; [eapply AttendanceRecord_from_sheet_row_normal; exact Hp|].
  split; assumption.
Qed.

Lemma replace_first_middle id row' pre old post :
  (forall row, In row pre -> cell 0 row <> id) -> cell 0 old = id ->
  replace_first id row' (pre ++ old :: post) = pre ++ row' :: post.
Proof.
  intros Hpre Ho. induction pre as [|r pre IH]; cbn [app replace_first].
  - now rewrite Ho, String.eqb_refl.
  - destruct (String.eqb_spec (cell 0 r) id) as [E|_].
    + exfalso. apply (Hpre r); [now left | exact E].
    + f_equal. apply IH. intros row Hin. apply Hpre. now right.
Qed.

(** The row that [update_attendance] writes takes the place of the first
    row that carries the identifier. *)
Lemma update_attendance_in_place now event_id member_id r r' w :
  faults w = [] -> first_row_filled (values w) ->
  fst (AttendanceCRUD.get_attendance_record now event_id member_id w) = Some r ->
  AttendanceRecord.record_id r' = AttendanceRecord.record_id r ->
  values (snd (AttendanceCRUD.update_attendance now r' w))
  = replace_first (AttendanceRecord.record_id r)
      (AttendanceRecord.to_sheet_row (AttendanceCRUD.touch now r')) (values w).
Proof.
  intros Hf Hfill Hget Hid.
  rewrite get_attendance_record_healthy in Hget by assumption. cbn [fst] in Hget.
  pose proof (List.find_some _ _ Hget) as [Hin Hpair].
  apply shown_In in Hin as (row0 & Hrow0 & Hparse0).
  pose proof (AttendanceRecord_from_sheet_row_id _ _ _ Hparse0) as Hkey0.
  pose proof (AttendanceRecord_from_sheet_row_valid _ _ _ Hparse0) as Hvr.
  destruct (AttendanceRecord_validate_inv r Hvr) as (Ht & _).
  assert (Hrow : has_row (AttendanceRecord.record_id r) (values w))
    by (exists row0; split; [exact Hrow0 | now symmetry]).
  destruct (find_row_first _ w Hf Ht Hrow)
    as (pre & old & post & Hvals & Ho & Hpre & Hfindrow).
  unfold AttendanceCRUD.update_attendance, AttendanceCRUD._find_attendance_row, bind.
  rewrite Hid, Hfindrow, update_no_faults by exact Hf.
  cbn [snd values ret]. rewrite Hvals.
  replace (List.length pre + 1 - 1) with (List.length pre) by lia.
  rewrite insert_middle. symmetry. now apply replace_first_middle.
Qed.

(** X13: attendance operations on a record that is there, and a check-out
    without one.  Take a remote with no failure pending and a tab whose
    first row is not blank.  When the look-up of a member at an event finds
    nothing, [check_out_member] returns [False] and the sheet stays as it
    is.  When it finds a record whose identifier is not the header label
    "Record ID", [check_in_member] and [check_out_member], at an hour
    below 24 and a minute below 60, and [mark_absent] each return [True]
    and rewrite the record in place: the first row that carries the
    record's identifier is replaced by a row with that identifier, every
    other row stays where it is, and no row is added.  A look-up
    afterwards returns the record under its old identifier with the new
    status, time and recorder; everything else is kept, so a record marked
    absent keeps its times and its notes. *)
Theorem X13_existing_record_rewritten :
  forall (now event_id member_id : string) (w : World),
    faults w = [] -> first_row_filled (values w) ->
    (fst (AttendanceCRUD.get_attendance_record now event_id member_id w) = None ->
     forall hour minute,
       Attendance.check_out_member now hour minute event_id member_id w
       = (false, w)) /\
    (forall r,
        fst (AttendanceCRUD.get_attendance_record now event_id member_id w)
          = Some r ->
        AttendanceRecord.record_id r <> "Record ID" ->
        (forall hour minute timestamp recorded_by,
            hour < 24 -> minute < 60 ->
            exists w',
              Attendance.check_in_member now hour minute timestamp event_id
                member_id recorded_by w = (true, w') /\
              (exists row',
                  cell 0 row' = AttendanceRecord.record_id r /\
                  values w'
                  = replace_first (AttendanceRecord.record_id r) row' (values w)) /\
              List.length (values w') = List.length (values w) /\
              forall t, exists r',
                fst (AttendanceCRUD.get_attendance_record t event_id member_id w')
                  = Some r' /\
                AttendanceRecord.record_id r' = AttendanceRecord.record_id r /\
                AttendanceRecord.attendance_status r' = "present" /\
                AttendanceRecord.check_in_time r' = Some (strftime_HM hour minute) /\
                AttendanceRecord.recorded_by r' = recorded_by /\
                AttendanceRecord.check_out_time r' = AttendanceRecord.check_out_time r /\
                AttendanceRecord.notes r' = AttendanceRecord.notes r) /\
        (forall timestamp is_excused recorded_by,
            exists w',
              Attendance.mark_absent now timestamp event_id member_id is_excused
                recorded_by w = (true, w') /\
              (exists row',
                  cell 0 row' = AttendanceRecord.record_id r /\
                  values w'
                  = replace_first (AttendanceRecord.record_id r) row' (values w)) /\
              List.length (values w') = List.length (values w) /\
              forall t, exists r',
                fst (AttendanceCRUD.get_attendance_record t event_id member_id w')
                  = Some r' /\
                AttendanceRecord.record_id r' = AttendanceRecord.record_id r /\
                AttendanceRecord.attendance_status r'
                  = (if is_excused then "excused" else "absent") /\
                AttendanceRecord.recorded_by r' = recorded_by /\
                AttendanceRecord.check_in_time r' = AttendanceRecord.check_in_time r /\
                AttendanceRecord.check_out_time r' = AttendanceRecord.check_out_time r /\
                AttendanceRecord.notes r' = AttendanceRecord.notes r) /\
        (forall hour minute,
            hour < 24 -> minute < 60 ->
            exists w',
              Attendance.check_out_member now hour minute event_id member_id w
                = (true, w') /\
              (exists row',
                  cell 0 row' = AttendanceRecord.record_id r /\
                  values w'
                  = replace_first (AttendanceRecord.record_id r) row' (values w)) /\
              List.length (values w') = List.length (values w) /\
              forall t, exists r',
                fst (AttendanceCRUD.get_attendance_record t event_id member_id w')
                  = Some r' /\
                AttendanceRecord.record_id r' = AttendanceRecord.record_id r /\
                AttendanceRecord.attendance_status r'
                  = AttendanceRecord.attendance_status r /\
                AttendanceRecord.check_in_time r' = AttendanceRecord.check_in_time r /\
                AttendanceRecord.check_out_time r'
                  = Some (strftime_HM hour minute) /\
                AttendanceRecord.notes r' = AttendanceRecord.notes r)).
Proof.
  intros now event_id member_id w Hf Hfill. split.
  - intros Hnone hour minute. unfold Attendance.check_out_member, bind.
    rewrite get_attendance_record_healthy in * by assumption.
    cbn [fst] in Hnone. now rewrite Hnone.
  - intros r Hget Hh.
    destruct (get_attendance_record_found _ _ _ _ _ Hget)
      as (Hv & (N1 & N2 & N3) & He & Hm).
    destruct (AttendanceRecord_validate_inv r Hv) as (V0 & V1 & V2 & V3 & V4 & V5).
    assert (Hgot : AttendanceCRUD.get_attendance_record now event_id member_id w
                   = (Some r, w)).
    { rewrite get_attendance_record_healthy in * by assumption.
      cbn [fst] in Hget. now rewrite Hget. }
    assert (Hplace : forall r' w',
      AttendanceRecord.record_id r' = AttendanceRecord.record_id r ->
      AttendanceCRUD.update_attendance now r' w = (true, w') ->
      exists row',
        cell 0 row' = AttendanceRecord.record_id r /\
        values w' = replace_first (AttendanceRecord.record_id r) row' (values w)).
    { intros r' w' Hid Hupd.
      exists (AttendanceRecord.to_sheet_row (AttendanceCRUD.touch now r')).
      split; [exact Hid|].
      rewrite <- (update_attendance_in_place now event_id member_id r r' w Hf Hfill
                    Hget Hid).
      now rewrite Hupd. }
    split; [|split].
    + intros hour minute timestamp recorded_by Hhour Hminute.
      set (r' := AttendanceRecord.mk
                   (AttendanceRecord.record_id r) (AttendanceRecord.event_id r)
                   (AttendanceRecord.member_id r) "present"
                   (Some (strftime_HM hour minute))
                   (AttendanceRecord.check_out_time r) (AttendanceRecord.notes r)
                   recorded_by (AttendanceRecord.created_at r)
                   (AttendanceRecord.updated_at r)).
      destruct (update_attendance_then_read now event_id member_id r r' w)
        as (w' & Hupd & _ & _ & Hlen & Hread); auto.
      { apply AttendanceRecord_validate_intro; auto.
        now apply strftime_not_bad. }
      exists w'. split.
      { unfold Attendance.check_in_member, bind. rewrite Hgot. exact Hupd. }
      split; [exact (Hplace r' w' eq_refl Hupd)|].
      split; [exact Hlen|]. intros t. eexists. rewrite Hread.
      split; [reflexivity|]. cbn.
      rewrite !none_if_empty_or_empty by assumption. repeat split.
    + intros timestamp is_excused recorded_by.
      set (r' := AttendanceRecord.mk
                   (AttendanceRecord.record_id r) (AttendanceRecord.event_id r)
                   (AttendanceRecord.member_id r)
                   (if is_excused then "excused" else "absent")
                   (AttendanceRecord.check_in_time r)
                   (AttendanceRecord.check_out_time r) (AttendanceRecord.notes r)
                   recorded_by (AttendanceRecord.created_at r)
                   (AttendanceRecord.updated_at r)).
      destruct (update_attendance_then_read now event_id member_id r r' w)
        as (w' & Hupd & _ & _ & Hlen & Hread); auto.
      { apply AttendanceRecord_validate_intro; auto. now destruct is_excused. }
      exists w'. split.
      { unfold Attendance.mark_absent, bind. rewrite Hgot. exact Hupd. }
      split; [exact (Hplace r' w' eq_refl Hupd)|].
      split; [exact Hlen|]. intros t. eexists. rewrite Hread.
      split; [reflexivity|]. cbn.
      rewrite !none_if_empty_or_empty by assumption. repeat split.
    + intros hour minute Hhour Hminute.
      set (r' := AttendanceRecord.mk
                   (AttendanceRecord.record_id r) (AttendanceRecord.event_id r)
                   (AttendanceRecord.member_id r)
                   (AttendanceRecord.attendance_status r)
                   (AttendanceRecord.check_in_time r)
                   (Some (strftime_HM hour minute)) (AttendanceRecord.notes r)
                   (AttendanceRecord.recorded_by r) (AttendanceRecord.created_at r)
                   (AttendanceRecord.updated_at r)).
      destruct (update_attendance_then_read now event_id member_id r r' w)
        as (w' & Hupd & _ & _ & Hlen & Hread); auto.
      { apply AttendanceRecord_validate_intro; auto.
        now apply strftime_not_bad. }
      exists w'. split.
      { unfold Attendance.check_out_member, bind. rewrite Hgot. exact Hupd. }
      split; [exact (Hplace r' w' eq_refl Hupd)|].
      split; [exact Hlen|]. intros t. eexists. rewrite Hread.
      split; [reflexivity|]. cbn.
      rewrite !none_if_empty_or_empty by assumption. repeat split.
Qed.

Lemma X13_existing_record_rewritten_witness :
  Attendance.check_out_member sample_now 20 0 "EVT1" "MBR9" attendance_sheet
    = (false, attendance_sheet) /\
  exists w',
    Attendance.mark_absent sample_now "20240320200000" "EVT1" "MBR1" true "coach"
      attendance_sheet = (true, w') /\
    exists r',
      fst (AttendanceCRUD.get_attendance_record sample_now "EVT1" "MBR1" w')
        = Some r' /\
      AttendanceRecord.attendance_status r' = "excused" /\
      AttendanceRecord.check_in_time r' = Some "18:05".
Proof.
  destruct (X13_existing_record_rewritten sample_now "EVT1" "MBR9" attendance_sheet
              eq_refl I) as [Hnone _].
  destruct (X13_existing_record_rewritten sample_now "EVT1" "MBR1" attendance_sheet
              eq_refl I) as [_ Hsome].
  split; [apply Hnone; reflexivity|].
  destruct (Hsome attendance_first) as (_ & Habsent & _);
    [vm_compute; reflexivity | discriminate |].
  destruct (Habsent "20240320200000" true "coach") as (w' & Hrun & _ & _ & Hread).
  exists w'. split; [exact Hrun|].
  destruct (Hread sample_now) as (r' & Hr & _ & Hs & _ & Hci & _).
  exists r'. split; [exact Hr|]. split; [exact Hs | exact Hci].
Defined.

(** ** The filtered reads *)

Lemma list_sum_map_add {B} (f g : B -> nat) (l : list B) :
  list_sum (map (fun o => f o + g o) l) = list_sum (map f l) + list_sum (map g l).
Proof. induction l as [|o l IH]; simpl; [reflexivity|]. lia. Qed.

Lemma one_class (s : string) (opts : list string) :
  List.NoDup opts -> Py.str_in s opts = true ->
  list_sum (map (fun o => if String.eqb s o then 1 else 0) opts) = 1.
Proof.
  unfold Py.str_in. induction 1 as [|o opts Hnin _ IH]; simpl; [discriminate|].
  destruct (String.eqb_spec s o) as [->|Hne]; simpl.
  - intros _. f_equal.
    assert (Hzero : forall l, ~ In o l ->
              list_sum (map (fun o' => if String.eqb o o' then 1 else 0) l) = 0).
    { induction l as [|o' l IHl]; simpl; [reflexivity|]. intros Hl.
      destruct (String.eqb_spec o o') as [->|_]; [tauto|]. apply IHl. tauto. }
    now apply Hzero.
  - exact IH.
Qed.

(** A field that only takes the values [opts] splits a list into the
    sublists the filters return. *)
Lemma filter_classes {B} (f : B -> string) (opts : list string) (l : list B) :
  List.NoDup opts -> (forall x, In x l -> Py.str_in (f x) opts = true) ->
  list_sum (map (fun o => List.length
                            (List.filter (fun x => String.eqb (f x) o) l)) opts)
  = List.length l.
Proof.
  intros Hnd. induction l as [|x l IH]; intros Hall.
  - clear. induction opts as [|o opts IHo]; [reflexivity | exact IHo].
  - cbn [List.filter List.length].
    transitivity
      (list_sum
         (map (fun o => (if String.eqb (f x) o then 1 else 0)
                        + List.length
                            (List.filter (fun y => String.eqb (f y) o) l)) opts)).
    + f_equal. apply map_ext. intros o.
      destruct (String.eqb (f x) o); reflexivity.
    + rewrite list_sum_map_add.
      rewrite (one_class (f x) opts Hnd (Hall x (or_introl eq_refl))).
      now rewrite (IH (fun y Hy => Hall y (or_intror Hy))).
Qed.

Lemma filter_other_class {B} (f : B -> string) (opts : list string) (l : list B) o :
  (forall x, In x l -> Py.str_in (f x) opts = true) ->
  Py.str_in o opts = false ->
  List.filter (fun x => String.eqb (f x) o) l = [].
Proof.
  intros Hall Ho. induction l as [|x l IH]; [reflexivity|].
  cbn [List.filter].
  destruct (String.eqb_spec (f x) o) as [E|_].
  - rewrite <- E, (Hall x (or_introl eq_refl)) in Ho. discriminate.
  - apply IH. intros y Hy. apply Hall. now right.
Qed.

Ltac distinct_strings :=
  repeat (constructor; [simpl; intuition discriminate|]); constructor.

Lemma get_all_members_valid now w m :
  In m (fst (MembersCRUD.get_all_members now w)) -> Member._validate m = Ok tt.
Proof.
  unfold MembersCRUD.get_all_members. intros Hin.
  apply get_all_In in Hin as (row & _ & Hp).
  eauto using Member_from_sheet_row_valid.
Qed.

Lemma get_all_events_valid now w e :
  In e (fst (EventsCRUD.get_all_events now w)) -> Event._validate e = Ok tt.
Proof.
  unfold EventsCRUD.get_all_events. intros Hin.
  apply get_all_In in Hin as (row & _ & Hp).
  eauto using Event_from_sheet_row_valid.
Qed.

Lemma filtered_read {B} (read : M (list B)) (keep : B -> bool) w :
  fst ((do all <- read ; ret (List.filter keep all)) w)
  = List.filter keep (fst (read w)).
Proof. unfold bind, ret. now destruct (read w). Qed.

(** X14: the filtered reads split the store.  Whatever the sheet holds and
    whether or not the remote answers, the members with role "member" and
    those with role "exec" are together as many as [get_all_members]
    returns, and any other role gives the empty list; the same holds for
    the payment statuses "paid", "pending" and "overdue", for the event
    types "practice", "game", "meeting" and "social", and for the event
    statuses "scheduled", "cancelled" and "completed". *)
Theorem X14_filtered_reads_split_the_store :
  forall (now : string) (w : World),
    let by_role r := fst (Members.get_members_by_role now r w) in
    let by_payment p := fst (Members.get_members_by_payment_status now p w) in
    let by_type t := fst (Events.get_events_by_type now t w) in
    let by_status s := fst (Events.get_events_by_status now s w) in
    let members := fst (MembersCRUD.get_all_members now w) in
    let events := fst (EventsCRUD.get_all_events now w) in
    List.length (by_role "member") + List.length (by_role "exec")
      = List.length members /\
    (forall r, r <> "member" -> r <> "exec" -> by_role r = []) /\
    List.length (by_payment "paid") + List.length (by_payment "pending")
      + List.length (by_payment "overdue") = List.length members /\
    (forall p, p <> "paid" -> p <> "pending" -> p <> "overdue" ->
               by_payment p = []) /\
    List.length (by_type "practice") + List.length (by_type "game")
      + List.length (by_type "meeting") + List.length (by_type "social")
      = List.length events /\
    (forall t, t <> "practice" -> t <> "game" -> t <> "meeting" ->
               t <> "social" -> by_type t = []) /\
    List.length (by_status "scheduled") + List.length (by_status "cancelled")
      + List.length (by_status "completed") = List.length events /\
    (forall s, s <> "scheduled" -> s <> "cancelled" -> s <> "completed" ->
               by_status s = []).
Proof.
  intros now w. cbv zeta.
  unfold Members.get_members_by_role, Members.get_members_by_payment_status,
    Events.get_events_by_type, Events.get_events_by_status.
  rewrite !filtered_read.
  pose proof (get_all_members_valid now w) as HM.
  pose proof (get_all_events_valid now w) as HE.
  set (members := fst (MembersCRUD.get_all_members now w)) in *.
  set (events := fst (EventsCRUD.get_all_events now w)) in *.
  assert (Hrole : forall m, In m members ->
            Py.str_in (Member.role m) ["member"; "exec"] = true).
  { intros m Hm. apply HM in Hm.
    now apply Member_validate_inv in Hm as (_ & _ & _ & _ & _ & H & _). }
  assert (Hpay : forall m, In m members ->
            Py.str_in (Member.payment_status m) ["paid"; "pending"; "overdue"] = true).
  { intros m Hm. apply HM in Hm.
    now apply Member_validate_inv in Hm as (_ & _ & _ & _ & _ & _ & _ & H). }
  assert (Htype : forall e, In e events ->
            Py.str_in (Event.event_type e) ["practice"; "game"; "meeting"; "social"]
            = true).
  { intros e He. apply HE in He.
    now apply Event_validate_inv in He as (_ & _ & H & _). }
  assert (Hstat : forall e, In e events ->
            Py.str_in (Event.status e) ["scheduled"; "cancelled"; "completed"] = true).
  { intros e He. apply HE in He.
    now apply Event_validate_inv in He as (_ & _ & _ & _ & _ & _ & H). }
  assert (Hne : forall s o : string, s <> o -> String.eqb s o = false).
  { intros s o. now destruct (String.eqb_spec s o). }
  repeat split.
  - pose proof (filter_classes Member.role ["member"; "exec"] members
                  ltac:(distinct_strings) Hrole) as H.
    unfold list_sum in H. cbn [map fold_right] in H. lia.
  - intros r H1 H2. rewrite filtered_read. apply (filter_other_class _ _ _ _ Hrole).
    unfold Py.str_in. cbn [existsb]. now rewrite !Hne by congruence.
  - pose proof (filter_classes Member.payment_status ["paid"; "pending"; "overdue"]
                  members ltac:(distinct_strings) Hpay) as H.
    unfold list_sum in H. cbn [map fold_right] in H. lia.
  - intros p H1 H2 H3. rewrite filtered_read. apply (filter_other_class _ _ _ _ Hpay).
    unfold Py.str_in. cbn [existsb]. now rewrite !Hne by congruence.
  - pose proof (filter_classes Event.event_type
                  ["practice"; "game"; "meeting"; "social"] events
                  ltac:(distinct_strings) Htype) as H.
    unfold list_sum in H. cbn [map fold_right] in H. lia.
  - intros t H1 H2 H3 H4. rewrite filtered_read. apply (filter_other_class _ _ _ _ Htype).
    unfold Py.str_in. cbn [existsb]. now rewrite !Hne by congruence.
  - pose proof (filter_classes Event.status ["scheduled"; "cancelled"; "completed"]
                  events ltac:(distinct_strings) Hstat) as H.
    unfold list_sum in H. cbn [map fold_right] in H. lia.
  - intros s H1 H2 H3. rewrite filtered_read. apply (filter_other_class _ _ _ _ Hstat).
    unfold Py.str_in. cbn [existsb]. now rewrite !Hne by congruence.
Qed.

Lemma X14_filtered_reads_split_the_store_witness :
  List.length (fst (Members.get_members_by_role sample_now "member"
                      members_with_header))
  + List.length (fst (Members.get_members_by_role sample_now "exec"
                        members_with_header)) = 1 /\
  fst (Members.get_members_by_role sample_now "coach" members_with_header) = [].
Proof.
  destruct (X14_filtered_reads_split_the_store sample_now members_with_header)
    as (Hroles & Hother & _).
  split.
  - rewrite Hroles. vm_compute. reflexivity.
  - apply Hother; discriminate.
Defined.

(** ** Deleting, then creating *)

Lemma rows_with_id_zero id rows :
  rows_with_id id rows = 0 -> forall row, In row rows -> cell 0 row <> id.
Proof.
  unfold rows_with_id. induction rows as [|r rows IH]; [intros _ row []|].
  cbn [List.filter].
  destruct (String.eqb_spec (cell 0 r) id) as [E|Hne]; [discriminate|].
  intros H row [<-|Hin]; [exact Hne | now apply IH].
Qed.

Lemma rows_with_id_single id pre old post :
  rows_with_id id (pre ++ old :: post) = 1 -> cell 0 old = id ->
  forall row, In row pre \/ In row post -> cell 0 row <> id.
Proof.
  intros H1 Ho.
  rewrite rows_with_id_app in H1.
  change (old :: post) with ([old] ++ post) in H1. rewrite rows_with_id_app in H1.
  assert (Hold : rows_with_id id [old] = 1).
  { unfold rows_with_id. cbn [List.filter]. now rewrite Ho, String.eqb_refl. }
  rewrite Hold in H1.
  intros row [Hin|Hin]; eapply rows_with_id_zero; eauto; lia.
Qed.

Lemma delete_event_written now id w e :
  faults w = [] -> first_row_filled (values w) ->
  fst (EventsCRUD.get_event_by_id now id w) = Some e ->
  Event._validate e = Ok tt /\ capacity_fits e /\ Event.event_id e = id /\
  exists pre old post,
    values w = pre ++ old :: post /\ cell 0 old = id /\
    (forall r, In r pre -> cell 0 r <> id) /\
    Events.delete_event now id w
    = (true,
       mkWorld (pre ++ Event_row
                         (Events.touch now (Events.touch now (Events.cancel e)))
                    :: post) []).
Proof.
  intros Hf Hfill Hfound.
  rewrite get_event_by_id_healthy in Hfound by assumption. cbn [fst] in Hfound.
  destruct (found_has_row _ _ _ _ _ _ (Event_from_sheet_row_id now) Hfound)
    as (Hrow & Hid & row & Hp).
  pose proof (Event_from_sheet_row_valid _ _ _ Hp) as Hv.
  split; [exact Hv|]. split; [exact (Event_from_sheet_row_fits _ _ _ Hp)|].
  split; [exact Hid|].
  destruct (update_event_written now (Events.touch now (Events.cancel e)) w Hf
              (cancel_valid now e Hv))
    as (pre & old & post & Hvals & Ho & Hpre & Hupd).
  { exact (Event_from_sheet_row_fits _ _ _ Hp). }
  { cbn [Events.touch Events.cancel Event.event_id]. now rewrite Hid. }
  cbn [Events.touch Events.cancel Event.event_id] in Ho, Hpre.
  rewrite Hid in Ho, Hpre.
  exists pre, old, post. split; [exact Hvals|]. split; [exact Ho|].
  split; [exact Hpre|].
  unfold Events.delete_event, bind.
  rewrite get_event_by_id_healthy by assumption. rewrite Hfound. exact Hupd.
Qed.

(** X15: cancelling an event frees its time but not its identifier.  Take
    a remote with no failure pending and a tab whose first row is not
    blank, an identifier other than the header label "Event ID" that
    exactly one row carries and under which [get_event_by_id] finds an
    event.  After [delete_event] of it, creating an event under that
    identifier is still refused and changes nothing.  A valid event whose
    capacity, if any, is written with at most 4300 digits, whose
    identifier no row carries, and which no event of another row blocks,
    is created as a new last row: the cancelled event no longer blocks
    it. *)
Theorem X15_cancelled_event_frees_its_slot :
  forall (now now' id : string) (w : World) (e new_event : Event.t),
    faults w = [] -> first_row_filled (values w) ->
    id <> "Event ID" ->
    fst (EventsCRUD.get_event_by_id now id w) = Some e ->
    rows_with_id id (values w) = 1 ->
    Event._validate new_event = Ok tt -> capacity_fits new_event ->
    (forall row, In row (values w) -> cell 0 row <> Event.event_id new_event) ->
    (forall row x,
        In row (values w) -> cell 0 row <> id ->
        Event.from_sheet_row now' row = Ok x ->
        blocks new_event x = false) ->
    exists w1,
      Events.delete_event now id w = (true, w1) /\
      (forall again,
          Event.event_id again = id ->
          EventsCRUD.create_event now' again w1 = (false, w1)) /\
      EventsCRUD.create_event now' new_event w1
      = (true, mkWorld (values w1 ++ [Event_row new_event]) []).
Proof.
  intros now now' id w e new_event Hf Hfill Hh Hfound Hone Hv Hfit Hfresh Hfree.
  destruct (delete_event_written now id w e Hf Hfill Hfound)
    as (Hve & Hfe & Hid & pre & old & post & Hvals & Ho & Hpre & Hdel).
  set (e1 := Events.touch now (Events.touch now (Events.cancel e))) in *.
  assert (Hv1 : Event._validate e1 = Ok tt)
    by (subst e1; rewrite Event_validate_touch; now apply cancel_valid).
  assert (Hid1 : Event.event_id e1 = id) by exact Hid.
  assert (Hfit1 : capacity_fits e1) by exact Hfe.
  rewrite Hvals in Hfill, Hone, Hfresh, Hfree.
  pose proof (rows_with_id_single id pre old post Hone Ho) as Hothers.
  exists (mkWorld (pre ++ Event_row e1 :: post) []).
  split; [exact Hdel|].
  assert (Hfill1 : first_row_filled (pre ++ Event_row e1 :: post))
    by (apply (first_row_filled_write pre old);
        [exact Hfill | now apply Event_row_filled]).
  split.
  - intros again Hagain. unfold EventsCRUD.create_event, bind.
    rewrite get_event_by_id_healthy; [|reflexivity|exact Hfill1].
    cbn [values]. rewrite Hagain.
    rewrite (keyed_found_after_write (Event.from_sheet_row now') Event.event_id
               "Event ID" (Event_from_sheet_row_id now') id pre old post
               (Event_row e1) _ Hfill Hh Hpre
               (Event_from_to now' e1 Hv1 Hfit1) Hid1).
    reflexivity.
  - apply create_event_free; [reflexivity|exact Hfit| |].
    + rewrite get_event_by_id_no_faults by reflexivity. cbn [fst values].
      apply (keyed_seen_absent (Event.from_sheet_row now') Event.event_id
               "Event ID" (Event_from_sheet_row_id now')).
      intros row Hin. apply in_app_or in Hin as [Hin|[<-|Hin]].
      * apply Hfresh. apply in_or_app. now left.
      * rewrite (Event_row_cell_0 e1 Hfit1).
        rewrite Hid1, <- Ho. apply not_eq_sym. 
        intros E. apply (Hfresh old); [apply in_or_app; right; now left|].
        now symmetry.
      * apply Hfresh. apply in_or_app. right. now right.
    + intros existing Hin.
      rewrite get_events_by_date_no_faults in Hin by reflexivity.
      cbn [fst values] in Hin.
      apply List.filter_In in Hin as [Hin _].
      apply seen_In in Hin as (row & Hrow & Hp).
      apply in_app_or in Hrow as [Hrow|[<-|Hrow]].
      * apply (Hfree row); [apply in_or_app; now left | apply Hothers; now left | exact Hp].
      * rewrite (Event_from_to now' e1 Hv1 Hfit1) in Hp. injection Hp as <-.
        reflexivity.
      * apply (Hfree row);
          [apply in_or_app; right; now right | apply Hothers; now right | exact Hp].
Qed.

Lemma X15_cancelled_event_frees_its_slot_witness :
  fst (EventsCRUD.create_event sample_now event_overlapping events_sheet) = false /\
  exists w1,
    Events.delete_event sample_now (Event.event_id sample_event) events_sheet
      = (true, w1) /\
    EventsCRUD.create_event sample_now sample_event w1 = (false, w1) /\
    fst (EventsCRUD.create_event sample_now event_overlapping w1) = true.
Proof.
  split; [vm_compute; reflexivity|].
  destruct (X15_cancelled_event_frees_its_slot sample_now sample_now
              (Event.event_id sample_event) events_sheet sample_event
              event_overlapping)
    as (w1 & Hdel & Htaken & Hnew);
    [reflexivity | exact I | discriminate | vm_compute; reflexivity
    | reflexivity | vm_compute; reflexivity | vm_compute; lia | | |].
  - intros row [<-|[<-|[]]]; discriminate.
  - intros row x [<-|[<-|[]]] Hne Hp; [discriminate Hp | now elim Hne].
  - exists w1. split; [exact Hdel|]. split; [now apply Htaken|].
    now rewrite Hnew.
Defined.

(** ** Marking absent, and identifiers that are empty *)

Lemma get_attendance_record_keeps now event_id member_id w :
  values (snd (AttendanceCRUD.get_attendance_record now event_id member_id w))
  = values w.
Proof.
  unfold AttendanceCRUD.get_attendance_record, AttendanceCRUD.get_all_attendance, bind.
  pose proof (get_all_keeps_values (AttendanceRecord.from_sheet_row now)
                "Record ID" w) as Hk.
  destruct (Sheets.get_all _ _ w) as [l w0]. exact Hk.
Qed.

(** No record is found under an empty identifier. *)
Lemma get_attendance_record_empty now event_id member_id w :
  event_id = "" \/ member_id = "" ->
  fst (AttendanceCRUD.get_attendance_record now event_id member_id w) = None.
Proof.
  intros Hempty.
  destruct (fst (AttendanceCRUD.get_attendance_record now event_id member_id w))
    as [r|] eqn:E; [|reflexivity].
  destruct (get_attendance_record_found _ _ _ _ _ E) as (Hv & _ & He & Hm).
  apply AttendanceRecord_validate_inv in Hv as (_ & H1 & H2 & _).
  rewrite He in H1. rewrite Hm in H2.
  destruct Hempty as [->| ->]; discriminate.
Qed.

Lemma construct_empty now raw k w :
  AttendanceRecord.event_id raw = "" \/ AttendanceRecord.member_id raw = "" ->
  Attendance.construct now raw k w = (false, w).
Proof.
  intros Hempty.
  unfold Attendance.construct, AttendanceRecord.__post_init__,
    AttendanceRecord._validate.
  destruct (Py.truthy (AttendanceRecord.record_id raw)); [|reflexivity].
  destruct Hempty as [->| ->]; [reflexivity|].
  destruct (Py.truthy (AttendanceRecord.event_id raw)); reflexivity.
Qed.

Lemma mark_absent_fresh now timestamp event_id member_id (is_excused : bool)
    recorded_by w :
  faults w = [] -> first_row_filled (values w) ->
  event_id <> "" -> member_id <> "" ->
  (forall row, In row (values w) ->
               ~ (cell 1 row = event_id /\ cell 2 row = member_id)) ->
  let record :=
    AttendanceRecord.mk (generate_record_id timestamp event_id member_id)
      event_id member_id (if is_excused then "excused" else "absent") None None
      (Some (if is_excused then "Marked absent (excused)" else "Marked absent"))
      recorded_by (Some now) (Some now) in
  Attendance.mark_absent now timestamp event_id member_id is_excused recorded_by w
  = (true, mkWorld (values w ++ [AttendanceRecord.to_sheet_row record]) []) /\
  forall t,
    AttendanceCRUD.get_attendance_record t event_id member_id
      (mkWorld (values w ++ [AttendanceRecord.to_sheet_row record]) [])
    = (Some (AttendanceRecord_read_back t record),
       mkWorld (values w ++ [AttendanceRecord.to_sheet_row record]) []).
Proof.
  intros Hf Hfill He Hm Hnone record.
  assert (Hv : AttendanceRecord._validate record = Ok tt).
  { apply AttendanceRecord_validate_intro; subst record;
      cbn [AttendanceRecord.record_id AttendanceRecord.event_id
           AttendanceRecord.member_id AttendanceRecord.attendance_status
           AttendanceRecord.check_in_time AttendanceRecord.check_out_time];
      try reflexivity; try (now apply truthy_true).
    now destruct is_excused. }
  destruct (record_attendance_fresh now record w Hf Hfill Hv
              (generate_record_id_not_header _ _ _) Hnone) as [Hrec Hread].
  split; [|exact Hread].
  unfold Attendance.mark_absent, bind.
  rewrite get_attendance_record_healthy by assumption.
  rewrite pair_absent by exact Hnone.
  unfold Attendance.construct, AttendanceRecord.__post_init__.
  rewrite AttendanceRecord_validate_intro;
    cbn [AttendanceRecord.record_id AttendanceRecord.event_id
         AttendanceRecord.member_id AttendanceRecord.attendance_status
         AttendanceRecord.check_in_time AttendanceRecord.check_out_time];
    try reflexivity; try (now apply truthy_true);
    [|now destruct is_excused].
  cbn [res_bind AttendanceRecord.record_id AttendanceRecord.event_id
       AttendanceRecord.member_id AttendanceRecord.attendance_status
       AttendanceRecord.check_in_time AttendanceRecord.check_out_time
       AttendanceRecord.notes AttendanceRecord.recorded_by
       AttendanceRecord.created_at Py.truthy_opt].
  destruct is_excused; exact Hrec.
Qed.

(** X16: marking a member absent, and empty identifiers.  With an empty
    event or member identifier [check_in_member] and [mark_absent] return
    [False] and write nothing, whatever the sheet holds and whether or not
    the remote fails.  On a remote with no failure pending, for a tab
    whose first row is not blank and that holds no row of this member at
    this event, [mark_absent] with non-empty identifiers returns [True]
    and appends one row with status "absent", or "excused", no times, and
    the note "Marked absent", or "Marked absent (excused)"; a look-up then
    returns that record, which has no duration. *)
Theorem X16_mark_absent_and_empty_identifiers :
  forall (now timestamp event_id member_id recorded_by : string) (w : World),
    ((event_id = "" \/ member_id = "") ->
     (forall hour minute,
         fst (Attendance.check_in_member now hour minute timestamp event_id
                member_id recorded_by w) = false /\
         values (snd (Attendance.check_in_member now hour minute timestamp
                        event_id member_id recorded_by w)) = values w) /\
     (forall is_excused,
         fst (Attendance.mark_absent now timestamp event_id member_id is_excused
                recorded_by w) = false /\
         values (snd (Attendance.mark_absent now timestamp event_id member_id
                        is_excused recorded_by w)) = values w)) /\
    (faults w = [] -> first_row_filled (values w) ->
     event_id <> "" -> member_id <> "" ->
     (forall row, In row (values w) ->
                  ~ (cell 1 row = event_id /\ cell 2 row = member_id)) ->
     forall is_excused : bool,
       let status := if is_excused then "excused" else "absent" in
       let note := if is_excused then "Marked absent (excused)"
                   else "Marked absent" in
       exists w1,
         Attendance.mark_absent now timestamp event_id member_id is_excused
           recorded_by w = (true, w1) /\
         values w1
           = values w
             ++ [[generate_record_id timestamp event_id member_id; event_id;
                  member_id; status; ""; ""; note; recorded_by; now; now]] /\
         forall t, exists r,
           fst (AttendanceCRUD.get_attendance_record t event_id member_id w1)
             = Some r /\
           AttendanceRecord.attendance_status r = status /\
           AttendanceRecord.notes r = Some note /\
           AttendanceRecord.recorded_by r = recorded_by /\
           AttendanceRecord.check_in_time r = None /\
           AttendanceRecord.check_out_time r = None /\
           AttendanceRecord.duration_minutes r = Ok None).
Proof.
  intros now timestamp event_id member_id recorded_by w. split.
  - intros Hempty.
    pose proof (get_attendance_record_empty now event_id member_id w Hempty) as Hnone.
    pose proof (get_attendance_record_keeps now event_id member_id w) as Hkeep.
    split.
    + intros hour minute. unfold Attendance.check_in_member, bind.
      destruct (AttendanceCRUD.get_attendance_record now event_id member_id w)
        as [o w0].
      cbn [fst snd] in Hnone, Hkeep. subst o.
      rewrite construct_empty by exact Hempty. now split.
    + intros is_excused. unfold Attendance.mark_absent, bind.
      destruct (AttendanceCRUD.get_attendance_record now event_id member_id w)
        as [o w0].
      cbn [fst snd] in Hnone, Hkeep. subst o.
      rewrite construct_empty by exact Hempty. now split.
  - intros Hf Hfill He Hm Hnone is_excused status note.
    destruct (mark_absent_fresh now timestamp event_id member_id is_excused
                recorded_by w Hf Hfill He Hm Hnone) as [Hrun Hread].
    eexists. split; [exact Hrun|]. split.
    + assert (Hstamp : Py.or_empty (Some now) = now) by now destruct now.
      unfold AttendanceRecord.to_sheet_row.
      cbn [values AttendanceRecord.record_id AttendanceRecord.event_id
           AttendanceRecord.member_id AttendanceRecord.attendance_status
           AttendanceRecord.check_in_time AttendanceRecord.check_out_time
           AttendanceRecord.notes AttendanceRecord.recorded_by
           AttendanceRecord.created_at AttendanceRecord.updated_at].
      rewrite Hstamp. subst status note. now destruct is_excused.
    + intros t. eexists. rewrite Hread. split; [reflexivity|].
      subst status note. destruct is_excused; repeat split.
Qed.

Lemma X16_mark_absent_and_empty_identifiers_witness :
  fst (Attendance.check_in_member sample_now 18 0 "20240320180000" "EVT1" ""
         "system" attendance_sheet) = false /\
  exists w1,
    Attendance.mark_absent sample_now "20240320200000" "EVT1" "MBR2" true "coach"
      attendance_sheet = (true, w1) /\
    exists r,
      fst (AttendanceCRUD.get_attendance_record sample_now "EVT1" "MBR2" w1)
        = Some r /\
      AttendanceRecord.attendance_status r = "excused" /\
      AttendanceRecord.notes r = Some "Marked absent (excused)".
Proof.
  destruct (X16_mark_absent_and_empty_identifiers sample_now "20240320180000"
              "EVT1" "" "system" attendance_sheet) as [Hempty _].
  destruct (X16_mark_absent_and_empty_identifiers sample_now "20240320200000"
              "EVT1" "MBR2" "coach" attendance_sheet) as [_ Hfresh].
  split.
  - destruct (Hempty (or_intror eq_refl)) as [Hin _]. apply (Hin 18 0).
  - destruct (Hfresh eq_refl I) with (is_excused := true)
      as (w1 & Hrun & _ & Hread); try discriminate.
    + intros row [<-|[<-|[]]] [_ H]; discriminate H.
    + exists w1. split; [exact Hrun|].
      destruct (Hread sample_now) as (r & Hr & Hs & Hn & _).
      exists r. split; [exact Hr|]. split; [exact Hs | exact Hn].
Defined.

(** ** Recording a batch *)

Lemma request_outcome {A} (serve : list Row -> A * list Row) w :
  (exists e, fst (Sheets.request serve w) = Raise e /\
             values (snd (Sheets.request serve w)) = values w) \/
  (fst (Sheets.request serve w) = Ok (fst (serve (values w))) /\
   values (snd (Sheets.request serve w)) = snd (serve (values w))).
Proof.
  unfold Sheets.request.
  destruct (faults w) as [|[e|] script]; cbn [fst snd values];
    try destruct (serve (values w)); eauto.
Qed.

Lemma find_row_keeps id w : values (snd (Sheets.find_row id w)) = values w.
Proof.
  unfold Sheets.find_row, Sheets.get_column_A, bind, ret.
  destruct (request_outcome (fun rows => (map Sheets.column_A rows, rows)) w)
    as [(e & _ & Hk)|[_ Hk]];
    destruct (Sheets.request _ w) as [r w0]; exact Hk.
Qed.

Lemma update_attendance_length now a w :
  List.length (values (snd (AttendanceCRUD.update_attendance now a w)))
  = List.length (values w).
Proof.
  unfold AttendanceCRUD.update_attendance, AttendanceCRUD._find_attendance_row, bind.
  pose proof (find_row_keeps (AttendanceRecord.record_id a) w) as Hk.
  destruct (Sheets.find_row (AttendanceRecord.record_id a) w) as [[n|] w0];
    cbn [snd] in Hk; [|unfold ret; cbn [snd]; now rewrite Hk].
  unfold Sheets.update.
  destruct (request_outcome
              (fun rows => (1%Z, <[n - 1 := AttendanceRecord.to_sheet_row
                                              (AttendanceCRUD.touch now a)]> rows)) w0)
    as [(e & _ & Hv)|[_ Hv]];
    destruct (Sheets.request _ w0) as [r w1]; unfold ret; cbn [snd fst] in *;
    rewrite Hv, <- Hk; [reflexivity | apply length_insert].
Qed.

(** Recording never removes a row, and adds one only when it succeeds. *)
Lemma record_attendance_length now a w :
  List.length (values w)
  <= List.length (values (snd (AttendanceCRUD.record_attendance now a w))) /\
  List.length (values (snd (AttendanceCRUD.record_attendance now a w)))
  <= List.length (values w)
     + (if fst (AttendanceCRUD.record_attendance now a w) then 1 else 0).
Proof.
  unfold AttendanceCRUD.record_attendance, bind.
  pose proof (get_attendance_record_keeps now (AttendanceRecord.event_id a)
                (AttendanceRecord.member_id a) w) as Hk.
  destruct (AttendanceCRUD.get_attendance_record now _ _ w) as [[r|] w0];
    cbn [snd] in Hk.
  - rewrite update_attendance_length, Hk. lia.
  - unfold Sheets.append.
    destruct (request_outcome
                (fun rows => (1%Z, rows ++ [AttendanceRecord.to_sheet_row a])) w0)
      as [(e & He & Hv)|[He Hv]];
      destruct (Sheets.request _ w0) as [res w1]; unfold ret;
      cbn [snd fst] in *; subst res; rewrite Hv, <- ?Hk.
    + lia.
    + rewrite List.length_app. cbn. lia.
Qed.

Lemma bulk_loop_bounds now timestamp event_id data i successful w :
  let run := Attendance.bulk_loop now timestamp event_id i data successful w in
  successful <= fst run <= successful + List.length data /\
  List.length (values w) <= List.length (values (snd run)) /\
  List.length (values (snd run))
  <= List.length (values w) + (fst run - successful).
Proof.
  revert i successful w. induction data as [|d rest IH]; intros i successful w.
  - cbn. lia.
  - cbn [Attendance.bulk_loop List.length]. unfold bind.
    assert (Hstep :
      forall step : M bool,
        (let out := step w in
         List.length (values w) <= List.length (values (snd out)) /\
         List.length (values (snd out))
         <= List.length (values w) + (if fst out then 1 else 0)) ->
        let run := (let (recorded, w') := step w in
                    Attendance.bulk_loop now timestamp event_id (S i) rest
                      (if recorded then S successful else successful) w') in
        successful <= fst run <= successful + S (List.length rest) /\
        List.length (values w) <= List.length (values (snd run)) /\
        List.length (values (snd run))
        <= List.length (values w) + (fst run - successful)).
    { intros step Hs. destruct (step w) as [recorded w']. cbn [fst snd] in Hs.
      specialize (IH (S i) (if recorded then S successful else successful) w').
      cbv zeta in IH. destruct recorded; cbv zeta; lia. }
    apply Hstep. cbv zeta.
    destruct (Attendance.entry_member_id d) as [m|]; [|cbn; lia].
    unfold Attendance.construct.
    destruct (AttendanceRecord.__post_init__ _ _) as [record|e]; [|cbn; lia].
    apply record_attendance_length.
Qed.

Lemma shown_app_rows {A} (parse : Row -> res A) header rows more :
  rows <> [] -> first_row_filled rows ->
  shown parse header (rows ++ more) = shown parse header rows ++ parsed parse more.
Proof.
  intros Hne Hfill. unfold shown.
  destruct rows as [|[|c r] rest]; [congruence | destruct Hfill |].
  cbn [app]. destruct (String.eqb c header).
  - apply parsed_app.
  - apply (parsed_app parse ((c :: r) :: rest) more).
Qed.

Lemma post_init_stamped now raw :
  AttendanceRecord._validate raw = Ok tt ->
  AttendanceRecord.__post_init__ now raw = Ok (stamped now raw).
Proof. intros Hv. unfold AttendanceRecord.__post_init__. now rewrite Hv. Qed.

Lemma batch_members_cons d rest m :
  Attendance.entry_member_id d = Some m ->
  batch_members (d :: rest) = m :: batch_members rest.
Proof. intros H. unfold batch_members. cbn [omap list_omap]. now rewrite H. Qed.

Lemma batch_members_In rest j d m :
  rest !! j = Some d -> Attendance.entry_member_id d = Some m ->
  In m (batch_members rest).
Proof.
  revert j. induction rest as [|d0 rest IH]; intros j Hj Hm;
    [now rewrite lookup_nil in Hj|].
  unfold batch_members. cbn [omap list_omap].
  destruct j as [|j]; cbn in Hj.
  - injection Hj as ->. rewrite Hm. now left.
  - destruct (Attendance.entry_member_id d0); [right|]; eapply IH; eauto.
Qed.

(** The loop over entries that all name a member not yet on the sheet for
    this event, each once, with valid data. *)
Lemma bulk_loop_fresh now timestamp event_id data i successful w :
  faults w = [] -> first_row_filled (values w) ->
  List.NoDup (batch_members data) ->
  (forall j d,
      data !! j = Some d ->
      exists m,
        Attendance.entry_member_id d = Some m /\
        AttendanceRecord._validate
          (Attendance.entry_record (timestamp (i + j)) event_id m d) = Ok tt /\
        forall row, In row (values w) ->
                    ~ (cell 1 row = event_id /\ cell 2 row = m)) ->
  exists added,
    Attendance.bulk_loop now timestamp event_id i data successful w
    = (successful + List.length data, mkWorld (values w ++ added) []) /\
    List.length added = List.length data /\
    first_row_filled (values w ++ added) /\
    forall j d m t,
      data !! j = Some d -> Attendance.entry_member_id d = Some m ->
      List.find (of_pair event_id m)
        (shown (AttendanceRecord.from_sheet_row t) "Record ID" (values w ++ added))
      = Some (AttendanceRecord_read_back t
                (stamped (now (i + j))
                   (Attendance.entry_record (timestamp (i + j)) event_id m d))).
Proof.
  revert i successful w. induction data as [|d rest IH];
    intros i successful w Hf Hfill Hnd Hall.
  - exists []. cbn [Attendance.bulk_loop List.length]. unfold ret.
    rewrite app_nil_r, Nat.add_0_r.
    split; [|split; [reflexivity|split; [exact Hfill|]]].
    + destruct w as [vs fs]. cbn in *. now subst.
    + intros j d m t Hj. now rewrite lookup_nil in Hj.
  - destruct (Hall 0 d eq_refl) as (m & Hm & Hv & Hnone).
    rewrite Nat.add_0_r in Hv.
    set (raw := Attendance.entry_record (timestamp i) event_id m d) in *.
    set (record := stamped (now i) raw).
    assert (Hvr : AttendanceRecord._validate record = Ok tt)
      by (apply (AttendanceRecord_post_init_valid (now i) raw);
          now apply post_init_stamped).
    destruct (record_attendance_fresh (now i) record w Hf Hfill Hvr
                (generate_record_id_not_header _ _ _) Hnone) as [Hrec Hread].
    set (row := AttendanceRecord.to_sheet_row record) in *.
    set (w1 := mkWorld (values w ++ [row]) []) in *.
    rewrite (batch_members_cons d rest m Hm) in Hnd.
    apply List.NoDup_cons_iff in Hnd as [Hnotin Hnd].
    assert (Hfill1 : first_row_filled (values w1))
      by (apply first_row_filled_snoc; [exact Hfill | discriminate]).
    destruct (IH (S i) (S successful) w1 eq_refl Hfill1 Hnd)
      as (added & Hrun & Hlen & Hfilled & Hfound).
    { intros j d' Hj. destruct (Hall (S j) d' Hj) as (m' & Hm' & Hv' & Hnone').
      exists m'. split; [exact Hm'|].
      replace (S i + j) with (i + S j) by lia. split; [exact Hv'|].
      intros r Hin. cbn [values w1] in Hin.
      apply in_app_or in Hin as [Hin|[<-|[]]]; [now apply Hnone'|].
      intros [_ Hc]. change (cell 2 row) with m in Hc. subst m'.
      apply Hnotin. eapply batch_members_In; eauto. }
    exists (row :: added). split; [|split; [|split]].
    + cbn [Attendance.bulk_loop]. unfold bind. rewrite Hm.
      unfold Attendance.construct. fold raw.
      rewrite (post_init_stamped (now i) raw Hv). fold record.
      rewrite Hrec. rewrite Hrun. cbn [List.length values w1].
      rewrite <- app_assoc. cbn [app]. f_equal. lia.
    + cbn [List.length]. now rewrite Hlen.
    + cbn [values w1] in Hfilled. rewrite <- app_assoc in Hfilled. exact Hfilled.
    + intros j d' m' t Hj Hm'.
      change (values w ++ row :: added) with (values w ++ [row] ++ added).
      rewrite app_assoc.
      destruct j as [|j].
      * cbn in Hj. injection Hj as <-. rewrite Hm in Hm'. injection Hm' as <-.
        rewrite Nat.add_0_r.
        rewrite shown_app_rows;
          [|intros E; now apply app_eq_nil in E as [_ E] | exact Hfill1].
        apply find_app_some.
        specialize (Hread t).
        rewrite get_attendance_record_healthy in Hread;
          [|reflexivity|exact Hfill1].
        now injection Hread as Hread.
      * replace (i + S j) with (S i + j) by lia.
        apply (Hfound j d' m' t Hj Hm').
Qed.

(** X17: [bulk_record_attendance].  Always, the second number returned is
    the length of the batch and the first is at most that; no row is
    removed and at most one row is added for each success.  On a remote
    with no failure pending, for a tab whose first row is not blank, a
    batch of entries that each name a different member, none of whom has
    a row for the event, and that each make a valid record, succeeds
    entirely: the counts are equal, the sheet grows by one row for each
    entry, below the rows that were there, and a look-up of each member at
    the event returns the record built from that member's entry. *)
Theorem X17_bulk_record_attendance :
  forall (now timestamp : nat -> string) (event_id : string)
         (data : list Attendance.Entry) (w : World),
    let run := Attendance.bulk_record_attendance now timestamp event_id data w in
    (snd (fst run) = List.length data /\
     fst (fst run) <= List.length data /\
     List.length (values w) <= List.length (values (snd run)) /\
     List.length (values (snd run)) <= List.length (values w) + fst (fst run)) /\
    (faults w = [] -> first_row_filled (values w) ->
     List.NoDup (batch_members data) ->
     (forall j d,
         data !! j = Some d ->
         exists m,
           Attendance.entry_member_id d = Some m /\
           AttendanceRecord._validate
             (Attendance.entry_record (timestamp j) event_id m d) = Ok tt /\
           forall row, In row (values w) ->
                       ~ (cell 1 row = event_id /\ cell 2 row = m)) ->
     fst run = (List.length data, List.length data) /\
     (exists added,
         values (snd run) = values w ++ added /\
         List.length added = List.length data) /\
     forall j d m t,
       data !! j = Some d -> Attendance.entry_member_id d = Some m ->
       fst (AttendanceCRUD.get_attendance_record t event_id m (snd run))
       = Some (AttendanceRecord_read_back t
                 (stamped (now j)
                    (Attendance.entry_record (timestamp j) event_id m d)))).
Proof.
  intros now timestamp event_id data w run. subst run.
  unfold Attendance.bulk_record_attendance, bind. split.
  - pose proof (bulk_loop_bounds now timestamp event_id data 0 0 w) as Hb.
    cbv zeta in Hb.
    destruct (Attendance.bulk_loop now timestamp event_id 0 data 0 w) as [s w'].
    unfold ret. cbn [fst snd] in *. lia.
  - intros Hf Hfill Hnd Hall.
    destruct (bulk_loop_fresh now timestamp event_id data 0 0 w Hf Hfill Hnd Hall)
      as (added & Hrun & Hlen & Hfill' & Hfound).
    rewrite Hrun. unfold ret. cbn [fst snd values].
    split; [reflexivity|]. split; [eauto|].
    intros j d m t Hj Hm.
    rewrite get_attendance_record_healthy; [|reflexivity|exact Hfill'].
    cbn [fst values]. apply (Hfound j d m t Hj Hm).
Qed.

Lemma X17_bulk_record_attendance_witness :
  let data :=
    [Attendance.mkEntry (Some "MBR2") None (Some "18:00") None None None;
     Attendance.mkEntry (Some "MBR3") (Some "late") (Some "18:20") None None
       (Some "coach")] in
  let run :=
    Attendance.bulk_record_attendance (fun _ => sample_now)
      (fun _ => "20240320180000") "EVT1" data attendance_sheet in
  fst run = (2, 2) /\
  exists r,
    fst (AttendanceCRUD.get_attendance_record sample_now "EVT1" "MBR3" (snd run))
      = Some r /\
    AttendanceRecord.attendance_status r = "late".
Proof.
  intros data run.
  destruct (X17_bulk_record_attendance (fun _ => sample_now)
              (fun _ => "20240320180000") "EVT1" data attendance_sheet)
    as [_ Hfresh].
  destruct Hfresh as (Hcount & _ & Hread).
  - reflexivity.
  - exact I.
  - repeat (constructor; [simpl; intuition discriminate|]). constructor.
  - intros j d Hj.
    destruct j as [|[|j]]; cbn in Hj; [| |discriminate];
      injection Hj as <-; eexists; (split; [reflexivity|]);
      (split; [vm_compute; reflexivity|]);
      intros row [<-|[<-|[]]] [_ H]; discriminate H.
  - split; [exact Hcount|].
    eexists. split; [apply (Hread 1 _ "MBR3" sample_now eq_refl eq_refl)|].
    reflexivity.
Defined.

(** ** Upcoming events *)

Lemma ltb_lt (a b : string) :
  String.ltb a b = true <-> OrderedTypeEx.String_as_OT.lt a b.
Proof.
  unfold String.ltb. rewrite <- OrderedTypeEx.String_as_OT.cmp_lt.
  unfold OrderedTypeEx.String_as_OT.cmp.
  destruct (String.compare a b); split; congruence.
Qed.

Lemma ltb_irrefl (a : string) : String.ltb a a = false.
Proof.
  destruct (String.ltb a a) eqn:E; [|reflexivity].
  apply ltb_lt in E. apply OrderedTypeEx.String_as_OT.lt_not_eq in E.
  exfalso. apply E. reflexivity.
Qed.

Lemma ltb_trans (a b c : string) :
  String.ltb a b = true -> String.ltb b c = true -> String.ltb a c = true.
Proof.
  rewrite !ltb_lt. apply OrderedTypeEx.String_as_OT.lt_trans.
Qed.

Lemma ltb_total (a b : string) :
  String.ltb a b = false -> a <> b -> String.ltb b a = true.
Proof.
  unfold String.ltb. rewrite (String.compare_antisym b a).
  destruct (String.compare a b) eqn:E; try discriminate.
  - intros _ Hne. now apply String.compare_eq_iff in E.
  - reflexivity.
Qed.

Lemma ltb_asym (a b : string) : String.ltb a b = true -> String.ltb b a = false.
Proof.
  intros H. destruct (String.ltb b a) eqn:E; [|reflexivity].
  pose proof (ltb_trans a b a H E) as Hc. now rewrite ltb_irrefl in Hc.
Qed.

(** The order of the keys, spelt out. *)
Lemma key_le_iff e1 e2 :
  key_le e1 e2 <->
  String.ltb (Event.event_date e1) (Event.event_date e2) = true \/
  (Event.event_date e1 = Event.event_date e2 /\
   String.ltb (Event.start_time e2) (Event.start_time e1) = false).
Proof.
  unfold key_le, Events.key_lt.
  destruct (String.eqb_spec (Event.event_date e2) (Event.event_date e1)) as [E|Hne].
  - rewrite E, ltb_irrefl. split; [auto|]. now intros [H|[_ H]].
  - split.
    + intros H. left. apply ltb_total; [exact H | exact Hne].
    + intros [H|[E _]]; [now apply ltb_asym | congruence].
Qed.

Lemma key_le_trans e1 e2 e3 : key_le e1 e2 -> key_le e2 e3 -> key_le e1 e3.
Proof.
  rewrite !key_le_iff. intros [H12|[E12 T12]] [H23|[E23 T23]].
  - left. eapply ltb_trans; eauto.
  - left. now rewrite <- E23.
  - left. now rewrite E12.
  - right. split; [congruence|].
    destruct (String.ltb (Event.start_time e3) (Event.start_time e1)) eqn:E31;
      [|reflexivity].
    destruct (String.eqb_spec (Event.start_time e2) (Event.start_time e1)) as [E|Hne].
    + rewrite <- E in E31. congruence.
    + pose proof (ltb_total _ _ T12 Hne) as H12.
      pose proof (ltb_trans _ _ _ E31 H12). congruence.
Qed.

Lemma key_lt_le e1 e2 : Events.key_lt e1 e2 = true -> key_le e1 e2.
Proof.
  unfold key_le, Events.key_lt.
  destruct (String.eqb_spec (Event.event_date e1) (Event.event_date e2)) as [E|Hne].
  - rewrite E, String.eqb_refl. apply ltb_asym.
  - destruct (String.eqb_spec (Event.event_date e2) (Event.event_date e1));
      [congruence|]. apply ltb_asym.
Qed.

Lemma insert_by_key_perm e l :
  Permutation (Events.insert_by_key e l) (e :: l).
Proof.
  induction l as [|x l IH]; [reflexivity|]. cbn [Events.insert_by_key].
  destruct (Events.key_lt x e); [|reflexivity].
  rewrite IH. apply perm_swap.
Qed.

Lemma sort_by_key_perm l : Permutation (Events.sort_by_key l) l.
Proof.
  induction l as [|e l IH]; [reflexivity|].
  cbn [Events.sort_by_key fold_right]. fold (Events.sort_by_key l).
  rewrite insert_by_key_perm. now constructor.
Qed.

Lemma insert_by_key_sorted e l :
  StronglySorted key_le l -> StronglySorted key_le (Events.insert_by_key e l).
Proof.
  induction 1 as [|x l Hs IH Hall]; [repeat constructor|].
  cbn [Events.insert_by_key]. destruct (Events.key_lt x e) eqn:E.
  - constructor; [exact IH|].
    apply (Permutation_Forall (symmetry (insert_by_key_perm e l))).
    constructor; [now apply key_lt_le | exact Hall].
  - constructor; [now constructor|].
    constructor; [exact E|].
    eapply List.Forall_impl; [|exact Hall].
    intros y Hy. apply (key_le_trans e x y); [exact E | exact Hy].
Qed.

Lemma sort_by_key_sorted l : StronglySorted key_le (Events.sort_by_key l).
Proof.
  induction l as [|e l IH]; [constructor|].
  cbn [Events.sort_by_key fold_right]. now apply insert_by_key_sorted.
Qed.

(** X18: [get_upcoming_events].  When [days_ahead] is within a
    [timedelta]'s range and [today + days_ahead] is a date, the result is a
    rearrangement of the events of the sheet that are scheduled and whose
    date lies between today and the cutoff, both included, none lost and
    none twice, put in the order of (event date, start time) as strings;
    with a negative [days_ahead] it is empty.  Otherwise the call raises:
    nothing catches the overflow. *)
Theorem X18_upcoming_events_sorted_window :
  forall (now : string) (today days_ahead : Z) (w : World),
    let all_events := fst (EventsCRUD.get_all_events now w) in
    let result := fst (Events.get_upcoming_events now today days_ahead w) in
    ((Z.abs days_ahead <= 999999999)%Z ->
     (0 < today + days_ahead <= MAXORDINAL)%Z ->
     exists upcoming,
       result = Ok upcoming /\
       Permutation upcoming
         (List.filter (Events.is_upcoming today (today + days_ahead)) all_events) /\
       StronglySorted key_le upcoming /\
       (forall e, In e upcoming ->
          In e all_events /\ Event.status e = "scheduled" /\
          exists date,
            Strptime.parse_Ymd (Event.event_date e) = Some date /\
            (today <= toordinal date <= today + days_ahead)%Z) /\
       ((days_ahead < 0)%Z -> upcoming = [])) /\
    ((999999999 < Z.abs days_ahead)%Z \/
     ~ (0 < today + days_ahead <= MAXORDINAL)%Z ->
     exists e, result = Raise e).
Proof.
  intros now today days_ahead w all_events result. subst result all_events.
  unfold Events.get_upcoming_events, bind.
  destruct (EventsCRUD.get_all_events now w) as [all_events w']. unfold ret.
  cbn [fst]. split.
  - intros Hdays Hcut.
    destruct (Z.ltb_spec 999999999 (Z.abs days_ahead)); [lia|].
    destruct (Z.ltb_spec 0 (today + days_ahead)); [|lia].
    destruct (Z.leb_spec (today + days_ahead) MAXORDINAL); [|lia].
    cbn [andb]. eexists. split; [reflexivity|].
    split; [apply sort_by_key_perm|]. split; [apply sort_by_key_sorted|].
    assert (Hin : forall e,
              In e (Events.sort_by_key
                      (List.filter (Events.is_upcoming today (today + days_ahead))
                         all_events)) ->
              In e all_events /\
              Events.is_upcoming today (today + days_ahead) e = true).
    { intros e He. apply List.filter_In.
      eapply Permutation_in; [apply sort_by_key_perm | exact He]. }
    split.
    + intros e He. destruct (Hin e He) as [Hall Hup]. split; [exact Hall|].
      unfold Events.is_upcoming in Hup.
      destruct (Strptime.parse_Ymd (Event.event_date e)) as [date|]; [|discriminate].
      apply andb_true_iff in Hup as [Hup Hs].
      apply andb_true_iff in Hup as [Hlo Hhi].
      apply String.eqb_eq in Hs. split; [exact Hs|].
      exists date. split; [reflexivity | lia].
    + intros Hneg.
      destruct (Events.sort_by_key _) as [|e l] eqn:E; [reflexivity|].
      destruct (Hin e (or_introl eq_refl)) as [_ Hup].
      unfold Events.is_upcoming in Hup.
      destruct (Strptime.parse_Ymd (Event.event_date e)) as [date|]; [|discriminate].
      apply andb_true_iff in Hup as [Hup _].
      apply andb_true_iff in Hup as [Hlo Hhi]. lia.
  - intros [Hdays|Hcut].
    + destruct (Z.ltb_spec 999999999 (Z.abs days_ahead)); [eauto | lia].
    + destruct (999999999 <? Z.abs days_ahead)%Z; [eauto|].
      destruct (Z.ltb_spec 0 (today + days_ahead));
        destruct (Z.leb_spec (today + days_ahead) MAXORDINAL);
        cbn [andb]; eauto. lia.
Qed.

Lemma X18_upcoming_events_sorted_window_witness :
  exists upcoming,
    fst (Events.get_upcoming_events sample_now (toordinal (2024, 3, 1)) 30
           events_sheet) = Ok upcoming /\
    Permutation upcoming [Event_read_back sample_now sample_event] /\
    (forall e, In e upcoming -> Event.status e = "scheduled") /\
  exists e,
    fst (Events.get_upcoming_events sample_now MAXORDINAL 30
           events_sheet) = Raise e.
Proof.
  destruct (X18_upcoming_events_sorted_window sample_now (toordinal (2024, 3, 1))
              30 events_sheet) as [Hok _].
  destruct (X18_upcoming_events_sorted_window sample_now MAXORDINAL
              30 events_sheet) as [_ Hraise].
  destruct Hok as (upcoming & Hres & Hperm & _ & Hin & _).
  - vm_compute. discriminate.
  - vm_compute. split; [reflexivity | discriminate].
  - exists upcoming. split; [exact Hres|]. split; [exact Hperm|]. split.
    + intros e He. now apply Hin.
    + apply Hraise. right. vm_compute. intros [_ H]. now apply H.
Defined.

(** ** The start and the end of an event *)

Section date_and_time.

Import Strptime.
Import EventTimes.

Lemma first_match_behind {B} u (cs : cands) (k : nat -> list ascii -> option B) :
  first_match (map (behind u) cs) k = first_match cs (fun v r => k v (r ++ u)).
Proof.
  induction cs as [|[v r] cs IH]; [reflexivity|].
  cbn [map behind fst snd first_match]. now rewrite IH.
Qed.

Lemma first_match_ext {B} (cs : cands) (k1 k2 : nat -> list ascii -> option B) :
  (forall v r, k1 v r = k2 v r) -> first_match cs k1 = first_match cs k2.
Proof.
  intros H. induction cs as [|[v r] cs IH]; [reflexivity|].
  cbn [first_match]. now rewrite H, IH.
Qed.

Lemma first_match_map {B C} (g : B -> C) (cs : cands)
    (k : nat -> list ascii -> option B) :
  first_match cs (fun v r => option_map g (k v r))
  = option_map g (first_match cs k).
Proof.
  induction cs as [|[v r] cs IH]; [reflexivity|].
  cbn [first_match]. destruct (k v r); [reflexivity | exact IH].
Qed.

Lemma first_match_none {B} (cs : cands) (k : nat -> list ascii -> option B) :
  (forall v r, In (v, r) cs -> k v r = None) -> first_match cs k = None.
Proof.
  induction cs as [|[v r] cs IH]; [reflexivity|]. intros H.
  cbn [first_match]. rewrite (H v r (or_introl eq_refl)).
  apply IH. intros v' r' Hin. apply H. now right.
Qed.

Lemma whole_inv {B} (m : option (B * list ascii)) b :
  whole m = Some b -> m = Some (b, []).
Proof. destruct m as [[b' [|c r]]|]; simpl; congruence. Qed.

Lemma lit_behind ch s r u : lit ch s = Some r -> lit ch (s ++ u) = Some (r ++ u).
Proof.
  destruct s as [|c s]; [discriminate|]. cbn [app lit].
  destruct (Ascii.eqb c ch); [|discriminate]. now intros [= <-].
Qed.

Lemma two_behind p1 p2 s t :
  s <> [] -> p2 " "%char = false ->
  two p1 p2 (s ++ " "%char :: t) = map (behind (" "%char :: t)) (two p1 p2 s).
Proof.
  intros Hs Hp. destruct s as [|c1 [|c2 s]]; [congruence| |].
  - cbn [app two]. rewrite Hp, andb_false_r. reflexivity.
  - cbn [app two]. destruct (p1 c1 && p2 c2); reflexivity.
Qed.

Lemma one_behind p s u : s <> [] -> one p (s ++ u) = map (behind u) (one p s).
Proof.
  intros Hs. destruct s as [|c s]; [congruence|]. cbn [app one].
  destruct (p c); reflexivity.
Qed.

Lemma dir_m_behind s t :
  s <> [] -> dir_m (s ++ " "%char :: t) = map (behind (" "%char :: t)) (dir_m s).
Proof.
  intros Hs. unfold dir_m.
  rewrite !two_behind, one_behind by (assumption || reflexivity).
  now rewrite !map_app.
Qed.

Lemma dir_d_behind s t :
  s <> [] -> dir_d (s ++ " "%char :: t) = map (behind (" "%char :: t)) (dir_d s).
Proof.
  intros Hs. unfold dir_d.
  rewrite !two_behind, one_behind by (assumption || reflexivity).
  rewrite !map_app. do 4 f_equal.
  destruct s as [|c1 [|c2 s]]; [congruence| |]; cbn [app].
  - now rewrite andb_false_r.
  - destruct (Ascii.eqb c1 " " && Py.in_range 49 57 c2); reflexivity.
Qed.

Lemma dir_Y_behind s u y r cs :
  dir_Y s = (y, r) :: cs -> cs = [] /\ dir_Y (s ++ u) = [(y, r ++ u)].
Proof.
  unfold dir_Y. destruct s as [|a [|b [|c [|d s]]]]; try discriminate.
  cbn [app]. destruct (Py.is_digit a && Py.is_digit b && Py.is_digit c && Py.is_digit d);
    [|discriminate].
  intros [= <- <- <-]. auto.
Qed.

Lemma in_range_code lo hi c :
  Py.in_range lo hi c = true <-> lo <= Py.code c <= hi.
Proof.
  unfold Py.in_range. rewrite andb_true_iff, !Nat.leb_le. reflexivity.
Qed.

(** Of the candidates for the month at most the first can be followed by
    something other than a digit. *)
Lemma dir_m_shape s :
  dir_m s = [] \/
  (exists v r, dir_m s = [(v, r)]) \/
  (exists v r v' c, dir_m s = [(v, r); (v', c :: r)] /\ Py.is_digit c = true).
Proof.
  unfold dir_m, two, one. destruct s as [|c1 [|c2 s]].
  - now left.
  - cbn [app]. destruct (Py.in_range 49 57 c1); eauto.
  - destruct (Py.in_range 49 49 c1) eqn:A1; destruct (Py.in_range 48 50 c2) eqn:A2;
      destruct (Py.in_range 48 48 c1) eqn:B1; destruct (Py.in_range 49 57 c2) eqn:B2;
      destruct (Py.in_range 49 57 c1) eqn:C1; cbn [andb app]; eauto;
      try (apply in_range_code in A1; apply in_range_code in B1; lia);
      try (apply in_range_code in B1; apply in_range_code in C1; lia);
      right; right; do 4 eexists; (split; [reflexivity|]);
      unfold Py.is_digit; apply in_range_code;
      try apply in_range_code in A2; try apply in_range_code in B2; lia.
Qed.

Lemma dir_m_head {B} s (k : nat -> list ascii -> option B) b :
  first_match (dir_m s) k = Some b ->
  (forall v c r, Py.is_digit c = true -> k v (c :: r) = None) ->
  exists v r cs, dir_m s = (v, r) :: cs /\ k v r = Some b.
Proof.
  intros Hfm Hk.
  destruct (dir_m_shape s) as [E|[(v & r & E)|(v & r & v' & c & E & Hc)]];
    rewrite E in Hfm; cbn [first_match] in Hfm.
  - discriminate.
  - destruct (k v r) eqn:Ek; [|discriminate]. injection Hfm as ->.
    exists v, r, []. now split.
  - destruct (k v r) eqn:Ek.
    + injection Hfm as ->. exists v, r, [(v', c :: r)]. now split.
    + rewrite (Hk v' c r Hc) in Hfm. discriminate.
Qed.

Lemma lit_digit c r : Py.is_digit c = true -> lit "-"%char (c :: r) = None.
Proof.
  intros Hc. cbn [lit]. destruct (Ascii.eqb_spec c "-"%char) as [->|]; [|reflexivity].
  discriminate.
Qed.

(** The date directives on a valid date, with a blank and more behind it:
    they read the date they read alone, and go on behind the blank. *)
Lemma date_then_behind {B} s t date
    (k : nat * nat * nat -> list ascii -> option B) b :
  whole (date_then s at_end) = Some date ->
  k date (" "%char :: t) = Some b ->
  date_then (s ++ " "%char :: t) k = Some b.
Proof.
  intros Hdate Hk. apply whole_inv in Hdate. unfold date_then in *.
  destruct (dir_Y s) as [|[y r1] cs1] eqn:EY; [discriminate|].
  destruct (dir_Y_behind s (" "%char :: t) y r1 cs1 EY) as [-> EY'].
  rewrite EY'. cbn [first_match] in *.
  destruct (lit "-"%char r1) as [s2|] eqn:L1; [|discriminate].
  rewrite (lit_behind _ _ _ _ L1).
  assert (Hinner : first_match (dir_m s2)
            (fun m s3 =>
               match lit "-"%char s3 with
               | Some s4 => first_match (dir_d s4) (fun d s5 => at_end (y, m, d) s5)
               | None => None
               end) = Some (date, [])).
  { destruct (first_match (dir_m s2) _); [exact Hdate | discriminate]. }
  clear Hdate.
  destruct (dir_m_head s2 _ _ Hinner) as (m & r3 & cs3 & EM & Hm).
  { intros v c r Hc. now rewrite lit_digit. }
  assert (Hs2 : s2 <> []) by (intros ->; discriminate EM).
  rewrite dir_m_behind, EM by exact Hs2.
  cbn [map behind fst snd first_match].
  destruct (lit "-"%char r3) as [s4|] eqn:L2; [|discriminate].
  rewrite (lit_behind _ _ _ _ L2).
  destruct (dir_d s4) as [|[d r5] cs5] eqn:ED; [discriminate|].
  cbn [first_match at_end] in Hm. injection Hm as <- ->.
  assert (Hs4 : s4 <> []) by (intros ->; discriminate ED).
  rewrite dir_d_behind, ED by exact Hs4.
  cbn [map behind fst snd first_match app]. now rewrite Hk.
Qed.

Lemma time_then_map {B} (g : nat * nat -> B) s :
  time_then s (fun hm r => at_end (g hm) r)
  = option_map (fun x => (g (fst x), snd x)) (time_then s at_end).
Proof.
  unfold time_then.
  rewrite <- first_match_map. apply first_match_ext. intros h s1.
  destruct (lit ":"%char s1) as [s2|]; [|reflexivity].
  rewrite <- first_match_map. now apply first_match_ext.
Qed.

Lemma digit_not_space c : Py.is_digit c = true -> is_space c = false.
Proof.
  unfold Py.is_digit, is_space. intros H. apply in_range_code in H.
  repeat (apply orb_false_iff; split);
    try (apply Nat.eqb_neq; lia);
    (destruct (Py.in_range _ _ c) eqn:E; [apply in_range_code in E; lia | reflexivity]).
Qed.

Lemma dir_H_first_digit s x cs :
  dir_H s = x :: cs -> exists c s', s = c :: s' /\ Py.is_digit c = true.
Proof.
  intros E. destruct x as [v r].
  assert (Hin : In (v, r) (dir_H s)) by (rewrite E; now left).
  unfold dir_H in Hin.
  apply in_app_or in Hin as [H|H]; [|apply in_app_or in H as [H|H]].
  - apply two_In in H as (c1 & c2 & -> & H1 & _). exists c1. eexists.
    split; [reflexivity|]. apply in_range_code in H1. apply in_range_code. lia.
  - apply two_In in H as (c1 & c2 & -> & H1 & _). exists c1. eexists.
    split; [reflexivity|]. apply in_range_code in H1. apply in_range_code. lia.
  - apply one_In in H as (c & -> & H1 & _). eauto.
Qed.

Lemma list_ascii_of_string_app (a b : string) :
  list_ascii_of_string (a ++ b) = list_ascii_of_string a ++ list_ascii_of_string b.
Proof. induction a as [|c a IH]; [reflexivity|]. simpl. now f_equal. Qed.

(** A valid date and a valid time, joined by a blank, are read as that
    date and that time. *)
Lemma parse_YmdHM_joined (date_str time_str : string) date hm :
  parse_Ymd date_str = Some date -> parse_HM time_str = Some hm ->
  parse_YmdHM (date_str ++ " " ++ time_str) = Some (date, hm).
Proof.
  intros Hd Ht. unfold parse_YmdHM.
  rewrite list_ascii_of_string_app.
  change (list_ascii_of_string (" " ++ time_str))
    with (" "%char :: list_ascii_of_string time_str).
  unfold parse_Ymd in Hd.
  change (whole (first_match (dir_Y (list_ascii_of_string date_str)) _))
    with (whole (date_then (list_ascii_of_string date_str) at_end)) in Hd.
  destruct (whole (date_then (list_ascii_of_string date_str) at_end))
    as [[[y m] d]|] eqn:Ewhole; [|discriminate].
  destruct ((1 <=? y) && (d <=? days_in_month y m))%nat eqn:Echeck; [|discriminate].
  injection Hd as <-.
  unfold parse_HM in Ht.
  change (whole (first_match (dir_H (list_ascii_of_string time_str)) _))
    with (whole (time_then (list_ascii_of_string time_str) at_end)) in Ht.
  apply whole_inv in Ht.
  assert (Hfirst : exists c s', list_ascii_of_string time_str = c :: s' /\
                                Py.is_digit c = true).
  { unfold time_then in Ht.
    destruct (dir_H (list_ascii_of_string time_str)) as [|x cs] eqn:E;
      [discriminate|]. eapply dir_H_first_digit; eauto. }
  destruct Hfirst as (c & s' & Es & Hc).
  rewrite (date_then_behind _ (list_ascii_of_string time_str) (y, m, d) _
             ((y, m, d), hm, []) Ewhole).
  - cbn [whole]. now rewrite Echeck.
  - cbn [spaces]. change (is_space " "%char) with true. cbv iota.
    rewrite Es at 1. cbn [spaces]. rewrite (digit_not_space c Hc).
    cbn [app map first_match].
    rewrite (time_then_map (fun hm' => ((y, m, d), hm'))), Ht. reflexivity.
Qed.

End date_and_time.

Lemma parse_HM_minutes s hm :
  Strptime.parse_HM s = Some hm -> Strptime.minutes_of hm = minutes s.
Proof. intros H. unfold minutes. now rewrite H. Qed.

(** X19: the start, the end and the duration of an event.  For a valid
    event [datetime_start] and [datetime_end] do not raise: joined by a
    blank, the date and a time are read as the date and that time.  The
    duration is the end time minus the start time in minutes, on the one
    day: it lies between -1439 and 1439 and is negative when the event ends
    before it starts, which the validation allows; nothing moves the end to
    the next day. *)
Theorem X19_event_duration :
  forall e : Event.t,
    Event._validate e = Ok tt ->
    exists date,
      Strptime.parse_Ymd (Event.event_date e) = Some date /\
      EventTimes.datetime_start e
        = Ok (toordinal date, minutes (Event.start_time e)) /\
      EventTimes.datetime_end e
        = Ok (toordinal date, minutes (Event.end_time e)) /\
      EventTimes.duration_minutes e
        = Ok (minutes (Event.end_time e) - minutes (Event.start_time e))%Z /\
      (-1440 < minutes (Event.end_time e) - minutes (Event.start_time e) < 1440)%Z.
Proof.
  intros e Hv.
  apply Event_validate_inv in Hv as (_ & _ & _ & Hd & Hs & He & _).
  unfold Event._is_valid_date in Hd. unfold Event._is_valid_time in Hs, He.
  destruct (Strptime.parse_Ymd (Event.event_date e)) as [date|] eqn:Ed; [|discriminate].
  destruct (Strptime.parse_HM (Event.start_time e)) as [hs|] eqn:Es; [|discriminate].
  destruct (Strptime.parse_HM (Event.end_time e)) as [he|] eqn:Ee; [|discriminate].
  assert (Hstart : EventTimes.datetime_start e
                   = Ok (toordinal date, minutes (Event.start_time e))).
  { unfold EventTimes.datetime_start, EventTimes.strptime.
    rewrite (parse_YmdHM_joined _ _ date hs Ed Es).
    now rewrite (parse_HM_minutes _ _ Es). }
  assert (Hend : EventTimes.datetime_end e
                 = Ok (toordinal date, minutes (Event.end_time e))).
  { unfold EventTimes.datetime_end, EventTimes.strptime.
    rewrite (parse_YmdHM_joined _ _ date he Ed Ee).
    now rewrite (parse_HM_minutes _ _ Ee). }
  exists date. split; [reflexivity|]. split; [exact Hstart|]. split; [exact Hend|].
  pose proof (minutes_range (Event.start_time e)) as Rs.
  pose proof (minutes_range (Event.end_time e)) as Re.
  split; [|lia].
  unfold EventTimes.duration_minutes. rewrite Hend, Hstart.
  cbn [res_bind fst snd]. f_equal.
  rewrite Z.sub_diag, Z.mul_0_l, Z.add_0_l. apply Z.quot_mul. discriminate.
Qed.

Lemma X19_event_duration_witness :
  EventTimes.duration_minutes sample_event = Ok 120%Z /\
  EventTimes.duration_minutes
    (Event.mk "EVT_20240301100009" "Night shift" "practice" "2024-03-20"
       "22:00" "1:30" "Memorial Stadium" None false None "MBR_001"
       "scheduled" None None) = Ok (-1230)%Z.
Proof.
  split.
  - destruct (X19_event_duration sample_event) as (date & _ & _ & _ & Hd & _);
      [vm_compute; reflexivity|].
    rewrite Hd. vm_compute. reflexivity.
  - match goal with
    | |- EventTimes.duration_minutes ?e = _ =>
        destruct (X19_event_duration e) as (date & _ & _ & _ & Hd & _);
          [vm_compute; reflexivity|]; rewrite Hd
    end.
    vm_compute. reflexivity.
Defined.

(** ** Creating, then looking up *)

Lemma find_app {A} (p : A -> bool) l1 l2 :
  List.find p (l1 ++ l2)
  = match List.find p l1 with
    | Some x => Some x
    | None => List.find p l2
    end.
Proof.
  induction l1 as [|x l1 IH]; [reflexivity|]. cbn [app List.find].
  destruct (p x); [reflexivity | exact IH].
Qed.

(** A look-up after a row that parses to [a] was added below the sheet: what
    it found before, else [a] if [a] is what is looked for. *)
Lemma find_after_append {A} (parse : Row -> res A) header (p : A -> bool) rows row a :
  first_row_filled rows -> cell 0 row <> header -> parse row = Ok a ->
  List.find p (shown parse header (rows ++ [row]))
  = match List.find p (shown parse header rows) with
    | Some x => Some x
    | None => if p a then Some a else None
    end.
Proof.
  intros Hfill Hh Hp. rewrite shown_app by assumption. rewrite find_app.
  unfold parsed. cbn [omap list_omap]. rewrite Hp. reflexivity.
Qed.

Lemma create_event_appends now e w :
  faults w = [] -> first_row_filled (values w) -> capacity_fits e ->
  (forall row, In row (values w) -> cell 0 row <> Event.event_id e) ->
  (forall existing,
      In existing (fst (EventsCRUD.get_events_by_date now (Event.event_date e) w)) ->
      blocks e existing = false) ->
  EventsCRUD.create_event now e w
  = (true, mkWorld (values w ++ [Event_row e]) []).
Proof.
  intros Hf Hfill Hfit Hno Hfree.
  apply create_event_free; [exact Hf|exact Hfit| |exact Hfree].
  rewrite get_event_by_id_healthy by assumption. cbn [fst].
  now apply (keyed_shown_absent (Event.from_sheet_row now) Event.event_id
               "Event ID" (Event_from_sheet_row_id now)).
Qed.

(** X20: what is created can be looked up, and nothing else changes.  Take
    a remote with no failure pending and a tab whose first row is not
    blank.  A valid member whose identifier no row carries, and is not the
    header label "Member ID", is created as a new last row; a look-up by
    that identifier then returns the member as written, and a look-up by
    any other identifier returns what it returned before.  The same holds
    for a valid event whose identifier is not "Event ID", whose capacity,
    if any, is written with at most 4300 digits, and which no event read
    for its date blocks; and for a valid attendance record whose
    identifier is not "Record ID", of a member and an event that have no
    row yet, looked up by member and event. *)
Theorem X20_create_then_look_up :
  forall (now : string) (w : World),
    faults w = [] -> first_row_filled (values w) ->
    (forall m,
        Member._validate m = Ok tt -> Member.member_id m <> "Member ID" ->
        (forall row, In row (values w) -> cell 0 row <> Member.member_id m) ->
        exists w1,
          MembersCRUD.create_member now m w = (true, w1) /\
          values w1 = values w ++ [Member.to_sheet_row m] /\
          forall t,
            fst (MembersCRUD.get_member_by_id t (Member.member_id m) w1)
              = Some (Member_read_back t m) /\
            forall id, id <> Member.member_id m ->
              fst (MembersCRUD.get_member_by_id t id w1)
              = fst (MembersCRUD.get_member_by_id t id w)) /\
    (forall e,
        Event._validate e = Ok tt -> Event.event_id e <> "Event ID" ->
        capacity_fits e ->
        (forall row, In row (values w) -> cell 0 row <> Event.event_id e) ->
        (forall existing,
            In existing
              (fst (EventsCRUD.get_events_by_date now (Event.event_date e) w)) ->
            blocks e existing = false) ->
        exists w1,
          EventsCRUD.create_event now e w = (true, w1) /\
          values w1 = values w ++ [Event_row e] /\
          forall t,
            fst (EventsCRUD.get_event_by_id t (Event.event_id e) w1)
              = Some (Event_read_back t e) /\
            forall id, id <> Event.event_id e ->
              fst (EventsCRUD.get_event_by_id t id w1)
              = fst (EventsCRUD.get_event_by_id t id w)) /\
    (forall a,
        AttendanceRecord._validate a = Ok tt ->
        AttendanceRecord.record_id a <> "Record ID" ->
        (forall row, In row (values w) ->
                     ~ (cell 1 row = AttendanceRecord.event_id a /\
                        cell 2 row = AttendanceRecord.member_id a)) ->
        exists w1,
          AttendanceCRUD.record_attendance now a w = (true, w1) /\
          values w1 = values w ++ [AttendanceRecord.to_sheet_row a] /\
          forall t,
            fst (AttendanceCRUD.get_attendance_record t
                   (AttendanceRecord.event_id a) (AttendanceRecord.member_id a) w1)
              = Some (AttendanceRecord_read_back t a) /\
            forall event_id member_id,
              ~ (event_id = AttendanceRecord.event_id a /\
                 member_id = AttendanceRecord.member_id a) ->
              fst (AttendanceCRUD.get_attendance_record t event_id member_id w1)
              = fst (AttendanceCRUD.get_attendance_record t event_id member_id w)).
Proof.
  intros now w Hf Hfill. split; [|split].
  - intros m Hv Hh0 Hno.
    assert (Hh : cell 0 (Member.to_sheet_row m) <> "Member ID") by exact Hh0.
    exists (mkWorld (values w ++ [Member.to_sheet_row m]) []).
    split; [now apply create_member_fresh|]. split; [reflexivity|].
    assert (Hfill1 : first_row_filled (values w ++ [Member.to_sheet_row m]))
      by (apply first_row_filled_snoc; [exact Hfill | discriminate]).
    intros t. split.
    + rewrite get_member_by_id_healthy; [|reflexivity|exact Hfill1].
      cbn [fst values].
      rewrite (find_after_append _ _ _ _ _ _ Hfill Hh (Member_from_to t m Hv)).
      rewrite shown_absent by exact Hno. cbn [Member.member_id].
      now rewrite String.eqb_refl.
    + intros id Hid.
      rewrite !get_member_by_id_healthy by (reflexivity || assumption).
      cbn [fst values].
      rewrite (find_after_append _ _ _ _ _ _ Hfill Hh (Member_from_to t m Hv)).
      destruct (List.find _ (shown _ _ (values w))); [reflexivity|].
      cbn [Member.member_id].
      destruct (String.eqb_spec (Member.member_id m) id); [congruence|reflexivity].
  - intros e Hv Hh0 Hfit Hno Hfree.
    assert (Hh : cell 0 (Event_row e) <> "Event ID")
      by (now rewrite Event_row_cell_0).
    exists (mkWorld (values w ++ [Event_row e]) []).
    split; [now apply create_event_appends|]. split; [reflexivity|].
    assert (Hfill1 : first_row_filled (values w ++ [Event_row e]))
      by (apply first_row_filled_snoc;
          [exact Hfill | now apply Event_row_filled]).
    intros t. split.
    + rewrite get_event_by_id_healthy; [|reflexivity|exact Hfill1].
      cbn [fst values].
      rewrite (find_after_append _ _ _ _ _ _ Hfill Hh (Event_from_to t e Hv Hfit)).
      rewrite (keyed_shown_absent (Event.from_sheet_row t) Event.event_id
                 "Event ID" (Event_from_sheet_row_id t)) by exact Hno.
      cbn [Event.event_id]. now rewrite String.eqb_refl.
    + intros id Hid.
      rewrite !get_event_by_id_healthy by (reflexivity || assumption).
      cbn [fst values].
      rewrite (find_after_append _ _ _ _ _ _ Hfill Hh (Event_from_to t e Hv Hfit)).
      destruct (List.find _ (shown _ _ (values w))); [reflexivity|].
      cbn [Event.event_id].
      destruct (String.eqb_spec (Event.event_id e) id); [congruence|reflexivity].
  - intros a Hv Hh0 Hnone.
    assert (Hh : cell 0 (AttendanceRecord.to_sheet_row a) <> "Record ID") by exact Hh0.
    destruct (record_attendance_fresh now a w Hf Hfill Hv Hh0 Hnone) as [Hrec Hread].
    exists (mkWorld (values w ++ [AttendanceRecord.to_sheet_row a]) []).
    split; [exact Hrec|]. split; [reflexivity|].
    assert (Hfill1 : first_row_filled (values w ++ [AttendanceRecord.to_sheet_row a]))
      by (apply first_row_filled_snoc; [exact Hfill | discriminate]).
    intros t. split; [now rewrite Hread|].
    intros event_id member_id Hother.
    rewrite !get_attendance_record_healthy by (reflexivity || assumption).
    cbn [fst values].
    rewrite (find_after_append _ _ _ _ _ _ Hfill Hh (AttendanceRecord_from_to t a Hv)).
    destruct (List.find _ (shown _ _ (values w))); [reflexivity|].
    unfold of_pair. cbn [AttendanceRecord.event_id AttendanceRecord.member_id].
    destruct (String.eqb_spec (AttendanceRecord.event_id a) event_id) as [E1|];
      [|reflexivity].
    destruct (String.eqb_spec (AttendanceRecord.member_id a) member_id) as [E2|];
      [|reflexivity].
    exfalso. apply Hother. now split.
Qed.

Lemma X20_create_then_look_up_witness :
  exists w1,
    MembersCRUD.create_member sample_now sample_member members_sheet = (true, w1) /\
    fst (MembersCRUD.get_member_by_id sample_now (Member.member_id sample_member) w1)
      = Some (Member_read_back sample_now sample_member) /\
    fst (MembersCRUD.get_member_by_id sample_now "MBR_0" w1) = None.
Proof.
  destruct (X20_create_then_look_up sample_now members_sheet eq_refl I)
    as [HM _].
  destruct (HM sample_member) as (w1 & Hrun & _ & Hread).
  - vm_compute. reflexivity.
  - discriminate.
  - intros row [<-|[]]. discriminate.
  - exists w1. split; [exact Hrun|].
    destruct (Hread sample_now) as [Hsame Hother].
    split; [exact Hsame|]. rewrite Hother by discriminate. reflexivity.
Defined.

(** ** Telephone numbers *)

Lemma str_filter_app p (a b : string) :
  Py.str_filter p (a ++ b) = (Py.str_filter p a ++ Py.str_filter p b)%string.
Proof.
  induction a as [|c a IH]; [reflexivity|]. simpl.
  destruct (p c); simpl; now rewrite IH.
Qed.

Lemma str_filter_length p (s : string) :
  String.length (Py.str_filter p s) <= String.length s.
Proof.
  induction s as [|c s IH]; [reflexivity|]. simpl.
  destruct (p c); simpl; lia.
Qed.

Lemma str_filter_all p (s : string) :
  Py.str_forall p s = true -> Py.str_filter p s = s.
Proof.
  induction s as [|c s IH]; [reflexivity|]. simpl.
  destruct (p c); [|discriminate]. intros H. now rewrite IH.
Qed.

(** X21: the telephone check counts digits and nothing else.  For numbers
    written with characters of code points below 256, where the decimal
    digits are 0 to 9: a character that is not one of 0 to 9, wherever it
    stands, does not change whether a number is accepted, so brackets,
    blanks, dashes and letters are all let through; an accepted number has
    at least ten characters; and a string of digits only is accepted
    exactly when it has ten or eleven of them. *)
Theorem X21_phone_counts_digits_only :
  forall (a b : string) (c : ascii),
    (Py.is_digit c = false ->
     Member._is_valid_phone (a ++ String c b) = Member._is_valid_phone (a ++ b)) /\
    (Member._is_valid_phone a = true -> 10 <= String.length a) /\
    (Py.str_forall Py.is_digit a = true ->
     (Member._is_valid_phone a = true <->
      String.length a = 10 \/ String.length a = 11)).
Proof.
  intros a b c. unfold Member._is_valid_phone. split; [|split].
  - intros Hc. rewrite !str_filter_app. simpl. now rewrite Hc.
  - intros H. pose proof (str_filter_length Py.is_digit a) as Hle.
    apply orb_true_iff in H as [H|H]; apply Nat.eqb_eq in H; lia.
  - intros Hall. rewrite (str_filter_all _ _ Hall).
    rewrite orb_true_iff, !Nat.eqb_eq. reflexivity.
Qed.

Lemma X21_phone_counts_digits_only_witness :
  Member._is_valid_phone "(555) 123-4567"
  = Member._is_valid_phone ("(555)" ++ "123-4567") /\
  10 <= String.length "555-123-4567".
Proof.
  destruct (X21_phone_counts_digits_only "(555)" "123-4567" " ") as [Hskip _].
  destruct (X21_phone_counts_digits_only "555-123-4567" "" " ") as (_ & Hlen & _).
  split; [apply Hskip; reflexivity | apply Hlen; reflexivity].
Defined.
